(** * Interview scheduling engine: shallow embedding and verified properties

    The development follows the TypeScript sources:
    - [constants.ts], [types]                 -> modules [Constants] and the record modules
    - [utils/conflictDetection.ts]            -> module [ConflictDetection]
    - [utils/availabilityCheck.ts]            -> module [AvailabilityCheck]
    - [utils/loadCalculation.ts]              -> module [LoadCalculation]
    - [algorithms/slotFinder.ts]              -> module [SlotFinder]
    - [core/SchedulingEngine.ts]              -> module [SchedulingEngine]

    Conventions of the embedding.
    - An ISO 8601 date-time string is the instant it denotes, in milliseconds
      since the epoch ([Date.getTime()]); the process time zone is UTC, so
      [getHours]/[getDay] agree with their UTC variants.
    - A calendar date ['YYYY-MM-DD'] is its day number since 1970-01-01.
    - JavaScript numbers that hold minutes, counts or orders are integers [Z];
      quotients are exact rationals [Q], and a division whose divisor may be
      zero returns a [Js.num] (finite, infinite or NaN).
    - [async]/[await] is sequential here and is modelled by plain calls.
    - [Date.now()] is an explicit clock: the [n]-th read returns [clock n].
    - The functions of date-fns ([addDays], [addMinutes], [isBefore],
      [isEqual], [format]) have their documented meaning; [addDays] accepts
      a date string. The declared date-fns-tz (^3.2.0) exports no
      [zonedTimeToUtc]: the imported binding is [undefined].
    - A [Date] holds an instant of at most 8.64e15 ms from the epoch on
      either side; beyond that it is an invalid Date, on which
      [toISOString] throws a [RangeError] and every comparison is false.
      The date-times and dates a caller passes in are well-formed strings,
      within that range; the ones the program computes can leave it.
    - Decimal literals such as [0.7] are the rationals they denote. *)

From Stdlib Require Import Arith ZArith QArith Lia Lqa Sorted Permutation Factorial.
From stdpp Require Import gmap strings list fin_maps.

Open Scope Z_scope.

(* ===================================================================== *)
(** ** JavaScript values used by the engine *)
(* ===================================================================== *)

Module Js.

  (** The result of a floating-point division. *)
Inductive num : Type :=
  | Fin (q : Q)
  | PosInf
  | NegInf
  | NaN.

  (** [a / b] on finite operands. *)
Definition div (a b : Q) : num :=
    if Qeq_bool b 0 then
      match (a ?= 0)%Q with
      | Gt => PosInf
      | Lt => NegInf
      | Eq => NaN
      end
    else Fin (a / b).

  (** [x > q]; every comparison with NaN is false. *)
Definition gt (x : num) (q : Q) : bool :=
    match x with
    | Fin a => negb (Qle_bool a q)
    | PosInf => true
    | NegInf | NaN => false
    end.

  (** [x >= q]. *)
Definition ge (x : num) (q : Q) : bool :=
    match x with
    | Fin a => Qle_bool q a
    | PosInf => true
    | NegInf | NaN => false
    end.

  (** An optional boolean property read in a condition: [if (o.flag)]. *)
Definition truthy (flag : option bool) : bool :=
    match flag with
    | Some true => true
    | Some false | None => false
    end.

  (** [o.flag !== false]. *)
Definition notFalse (flag : option bool) : bool :=
    match flag with
    | Some false => false
    | Some true | None => true
    end.

  (** An optional number read in a condition: [0] and [undefined] are falsy. *)
Definition truthyNumber (n : option Z) : bool :=
    match n with
    | Some v => negb (v =? 0)
    | None => false
    end.

  (** [Math.ceil (a / b)] for integers [a] and a positive [b]. *)
Definition ceilDiv (a b : Z) : Z := - ((- a) / b).

  (** [Array.prototype.sort]: a stable sort. [cmp a b] is the sign of the
      comparator's result ([Lt]: [a] first). The result is the one of
      JavaScript when the comparator is a consistent ordering of the
      elements; otherwise the language leaves the order to the engine. *)
Section Sort.
Context {A : Type} (cmp : A -> A -> comparison).

Fixpoint insert (x : A) (l : list A) : list A :=
      match l with
      | [] => [x]
      | y :: l' =>
          match cmp x y with
          | Gt => y :: insert x l'
          | _ => x :: y :: l'
          end
      end.

Fixpoint sort (l : list A) : list A :=
      match l with
      | [] => []
      | x :: l' => insert x (sort l')
      end.
End Sort.

  (** What a JavaScript call can throw in the modelled code.
      [SchedulingError prefix cause] is the [SchedulingError] that a
      [catch] clause makes of the error [cause] it caught: its message is
      [prefix] followed by the message of [cause]. *)
Inductive error : Type :=
  | TypeError
  | RangeError
  | ValidationError (message : string)
  | SchedulingError (prefix : string) (cause : error).

  (** The outcome of a call: the value returned, or the error thrown
      together with the number of [Date.now()] reads made by then. *)
Inductive outcome (A : Type) : Type :=
  | Returned (a : A)
  | Thrown (e : error) (reads : nat).
Arguments Returned {A} a.
Arguments Thrown {A} e reads.

  (** An optional property of an object that is spread into another one:
      absent, present with the value [undefined], or present with a value.
      The object spread copies the last two. *)
Inductive prop (A : Type) : Type :=
  | Absent
  | Undefined
  | Value (a : A).
Arguments Absent {A}.
Arguments Undefined {A}.
Arguments Value {A} a.

  (** [o.p]: [None] is [undefined]. *)
Definition read {A : Type} (p : prop A) : option A :=
    match p with
    | Value a => Some a
    | Absent | Undefined => None
    end.

  (** [{ ...{ p: base }, ...over }.p] for one property [p]. *)
Definition override {A : Type} (base : option A) (over : prop A) : option A :=
    match over with
    | Absent => base
    | Undefined => None
    | Value a => Some a
    end.

  (** The property names an object created by [{}] inherits from
      [Object.prototype]. All hold functions, except the accessor
      [__proto__], which reads as the prototype object and whose setter
      ignores a value that is neither an object nor [null]. *)
Definition objectPrototypeMembers : list string :=
    ["constructor"; "__defineGetter__"; "__defineSetter__"; "hasOwnProperty";
     "__lookupGetter__"; "__lookupSetter__"; "isPrototypeOf";
     "propertyIsEnumerable"; "toString"; "valueOf"; "__proto__";
     "toLocaleString"].

Definition inherited (key : string) : bool :=
    existsb (String.eqb key) objectPrototypeMembers.

  (** [o[key] = v] on an object created by [{}], as its own properties: the
      assignment to [__proto__] runs the setter and adds no property. *)
Definition assign {V : Type} (key : string) (v : V) (o : gmap string V)
      : gmap string V :=
    if String.eqb key "__proto__" then o else <[key := v]> o.

  (** [x + y] and [x - y]. *)
Definition plus (x y : num) : num :=
    match x, y with
    | Fin a, Fin b => Fin (a + b)
    | NaN, _ | _, NaN => NaN
    | PosInf, NegInf | NegInf, PosInf => NaN
    | PosInf, _ | _, PosInf => PosInf
    | NegInf, _ | _, NegInf => NegInf
    end.

Definition opp (x : num) : num :=
    match x with
    | Fin a => Fin (- a)
    | PosInf => NegInf
    | NegInf => PosInf
    | NaN => NaN
    end.

Definition minus (x y : num) : num := plus x (opp y).

  (** [x / n] for a positive count [n]. *)
Definition divNat (x : num) (n : nat) : num :=
    match x with
    | Fin a => Fin (a / inject_Z (Z.of_nat n))
    | _ => x
    end.

  (** How [Array.prototype.sort] reads the number a comparator returns:
      [NaN] counts as [0]. *)
Definition sign (x : num) : comparison :=
    match x with
    | Fin a => (a ?= 0)%Q
    | PosInf => Gt
    | NegInf => Lt
    | NaN => Eq
    end.

End Js.

(* ===================================================================== *)
(** ** constants.ts *)
(* ===================================================================== *)

Module Constants.
Definition MINUTES_IN_DAY : Z := 1440.
Definition MS_PER_MINUTE : Z := 60000.
Definition MS_PER_DAY : Z := 86400000.
  (** ['09:00:00.000Z'], as milliseconds after midnight UTC. *)
Definition DEFAULT_APPOINTMENT_START_TIME : Z := 9 * 60 * MS_PER_MINUTE.
End Constants.

(* ===================================================================== *)
(** ** Dates *)
(* ===================================================================== *)

Module DateTime.
Import Constants.

  (** [new Date('YYYY-MM-DD')]: midnight UTC of that day. *)
Definition ofDate (date : Z) : Z := date * MS_PER_DAY.

  (** [d.toISOString().split('T')[0]]. *)
Definition toDate (t : Z) : Z := t / MS_PER_DAY.

  (** [d.getHours() * 60 + d.getMinutes()]. *)
Definition minuteOfDay (t : Z) : Z := (t / MS_PER_MINUTE) mod MINUTES_IN_DAY.

  (** [d.getDay()]: 0 is Sunday; 1970-01-01 was a Thursday. *)
Definition getDay (t : Z) : Z := (toDate t + 4) mod 7.

  (** date-fns [addMinutes]. *)
Definition addMinutes (t minutes : Z) : Z := t + minutes * MS_PER_MINUTE.

  (** date-fns [addDays]. *)
Definition addDays (t days : Z) : Z := t + days * MS_PER_DAY.

  (** The largest time value of a [Date], in milliseconds. *)
Definition MAX_TIME : Z := 8640000000000000.

  (** [!isNaN(new Date(t).getTime())]: the instant is one a [Date] holds. *)
Definition isValid (t : Z) : bool := (- MAX_TIME <=? t) && (t <=? MAX_TIME).
End DateTime.

(* ===================================================================== *)
(** ** types *)
(* ===================================================================== *)

(** ['HH:MM'] as its two numbers. *)
Module TimeRange.
Record t : Type := { startTime : Z * Z; endTime : Z * Z }.
End TimeRange.

Module DateTimeRange.
Record t : Type := { start : Z; end_ : Z }.
End DateTimeRange.

Inductive MeetingType : Type :=
| google_meet | zoom | microsoft_teams | phone_call | in_person.

Module InterviewSession.
Record t : Type := {
    id : string;
    name : string;
    duration : Z;
    breakAfter : Z;
    requiredInterviewers : Z;
    order : Z;
    meetingType : option MeetingType;
    location : option string;
    interviewerPool : option (list string)
  }.
End InterviewSession.

Module WorkHours.
Record t : Type := {
    monday : option TimeRange.t;
    tuesday : option TimeRange.t;
    wednesday : option TimeRange.t;
    thursday : option TimeRange.t;
    friday : option TimeRange.t;
    saturday : option TimeRange.t;
    sunday : option TimeRange.t
  }.
End WorkHours.

Module LoadLimit.
Inductive kind : Type := hours | count.
Record t : Type := { type : kind; max : Q }.
End LoadLimit.

Module InterviewerLimits.
Record t : Type := { daily : LoadLimit.t; weekly : LoadLimit.t }.
End InterviewerLimits.

Module Holiday.
Record t : Type := { date : Z; name : string }.
End Holiday.

Module Interviewer.
Record t : Type := {
    id : string;
    name : string;
    email : string;
    workHours : WorkHours.t;
    limits : InterviewerLimits.t;
    holidays : option (list Holiday.t);
    dayOffs : option (list Z);
    blockedTimes : option (list DateTimeRange.t);
    isTraining : option bool
  }.
End Interviewer.

Module CalendarEvent.
Record t : Type := { id : string; title : string; start : Z; end_ : Z }.
End CalendarEvent.

Inductive AssignmentStatus : Type := pending | accepted | declined.

Module InterviewerAssignment.
Record t : Type := {
    interviewerId : string;
    name : string;
    email : string;
    isTraining : option bool;
    status : option AssignmentStatus
  }.
End InterviewerAssignment.

(** Identifiers built by template literals, kept as their parts:
    [`slot-${sessionId}-${Date.now()}`],
    [`combo-${sessionIds.join('-')}-${Date.now()}`],
    [`plan-${dates.join('-')}-${Date.now()}`]. *)
Inductive SlotId : Type := slot_id (sessionId : string) (now : Z).
Inductive CombinationId : Type := combo_id (sessionIds : list string) (now : Z).
Inductive PlanId : Type := plan_id (dates : list Z) (now : Z).

Module InterviewSlot.
Record t : Type := {
    id : SlotId;
    sessionId : string;
    sessionName : string;
    startTime : Z;
    endTime : Z;
    interviewers : list InterviewerAssignment.t;
    meetingType : MeetingType;
    location : option string
  }.
End InterviewSlot.

Module SessionCombination.
Record t : Type := {
    id : CombinationId;
    date : Z;
    slots : list InterviewSlot.t;
    startTime : Z;
    endTime : Z;
    totalDuration : Q;
    loadDensity : gmap string Js.num
  }.
End SessionCombination.

Module RoundPlan.
Record t : Type := {
    roundNumber : nat;
    date : Z;
    combination : SessionCombination.t;
    sessions : list InterviewSession.t
  }.
End RoundPlan.

Module MultiDayPlan.
Record t : Type := {
    id : PlanId;
    rounds : list RoundPlan.t;
    totalRounds : nat;
    allInterviewers : list string
  }.
End MultiDayPlan.

(** The options as the functions read them: [o.flag] is [None] when it
    evaluates to [undefined], whether the property is absent or set to
    [undefined]. *)
Module SchedulingOptions.
Record t : Type := {
    respectWorkHours : option bool;
    respectHolidays : option bool;
    respectDayOffs : option bool;
    respectDailyLimits : option bool;
    respectWeeklyLimits : option bool;
    checkCalendarConflicts : option bool;
    excludeRecruitingBlocks : option bool;
    balanceLoad : option bool;
    maxResults : option Z;
    includeTrainingInterviewers : option bool
  }.

  (** The object [{}]. *)
Definition empty : t :=
    {| respectWorkHours := None; respectHolidays := None;
       respectDayOffs := None; respectDailyLimits := None;
       respectWeeklyLimits := None; checkCalendarConflicts := None;
       excludeRecruitingBlocks := None; balanceLoad := None;
       maxResults := None; includeTrainingInterviewers := None |}.

  (** The own properties of an options object a caller passes in, as the
      object spread sees them. *)
Module Own.
Record t : Type := {
    respectWorkHours : Js.prop bool;
    respectHolidays : Js.prop bool;
    respectDayOffs : Js.prop bool;
    respectDailyLimits : Js.prop bool;
    respectWeeklyLimits : Js.prop bool;
    checkCalendarConflicts : Js.prop bool;
    excludeRecruitingBlocks : Js.prop bool;
    balanceLoad : Js.prop bool;
    maxResults : Js.prop Z;
    includeTrainingInterviewers : Js.prop bool
  }.

  (** The object [{}]. *)
Definition empty : t :=
    {| respectWorkHours := Js.Absent; respectHolidays := Js.Absent;
       respectDayOffs := Js.Absent; respectDailyLimits := Js.Absent;
       respectWeeklyLimits := Js.Absent; checkCalendarConflicts := Js.Absent;
       excludeRecruitingBlocks := Js.Absent; balanceLoad := Js.Absent;
       maxResults := Js.Absent; includeTrainingInterviewers := Js.Absent |}.
End Own.

  (** [{ ...base, ...over }], as it is read afterwards. *)
Definition spread (base : t) (over : Own.t) : t :=
    {| respectWorkHours :=
         Js.override (respectWorkHours base) (Own.respectWorkHours over);
       respectHolidays :=
         Js.override (respectHolidays base) (Own.respectHolidays over);
       respectDayOffs := Js.override (respectDayOffs base) (Own.respectDayOffs over);
       respectDailyLimits :=
         Js.override (respectDailyLimits base) (Own.respectDailyLimits over);
       respectWeeklyLimits :=
         Js.override (respectWeeklyLimits base) (Own.respectWeeklyLimits over);
       checkCalendarConflicts :=
         Js.override (checkCalendarConflicts base) (Own.checkCalendarConflicts over);
       excludeRecruitingBlocks :=
         Js.override (excludeRecruitingBlocks base) (Own.excludeRecruitingBlocks over);
       balanceLoad := Js.override (balanceLoad base) (Own.balanceLoad over);
       maxResults := Js.override (maxResults base) (Own.maxResults over);
       includeTrainingInterviewers :=
         Js.override (includeTrainingInterviewers base)
           (Own.includeTrainingInterviewers over) |}.
End SchedulingOptions.

Module ConflictType.
Inductive t : Type :=
  | calendar_event | work_hours | daily_limit | weekly_limit | holiday
  | day_off | recruiting_block | time_overlap | no_interviewers_available.
End ConflictType.

(** The human-readable [message] of a conflict is not modelled. *)
Module SlotConflict.
Record t : Type := {
    type : ConflictType.t;
    interviewerId : option string;
    event : option CalendarEvent.t
  }.
End SlotConflict.

Module LoadInfo.
Record load : Type := { current : Q; max : Q; density : Js.num }.
Record t : Type := { daily : load; weekly : load }.
End LoadInfo.

(** A time of a [TimeChunk]: [string | number]. *)
Inductive TimeValue : Type :=
| TNumber (minutes : Z)        (* already minutes from day start *)
| TClock (hours minutes : Z)   (* 'HH:MM' *)
| TIso (instant : Z).          (* ISO 8601 date-time *)

Module TimeChunk.
Record t : Type := { startTime : TimeValue; endTime : TimeValue }.
End TimeChunk.

Module OverlapType.
Inductive t : Type :=
  | none | exact | left | right | enclosed | encloses.
End OverlapType.

(* ===================================================================== *)
(** ** utils/conflictDetection.ts *)
(* ===================================================================== *)

Module ConflictDetection.
Import Constants.

  (** Minutes from midnight of a time value. *)
Definition normalizeTime (time : TimeValue) : Z :=
    match time with
    | TNumber n => n
    | TIso t => DateTime.minuteOfDay t
    | TClock hours minutes => hours * 60 + minutes
    end.

Definition isTimeOverlap (chunk1 chunk2 : TimeChunk.t) : bool :=
    let start1 := normalizeTime (TimeChunk.startTime chunk1) in
    let end1 := normalizeTime (TimeChunk.endTime chunk1) in
    let start2 := normalizeTime (TimeChunk.startTime chunk2) in
    let end2 := normalizeTime (TimeChunk.endTime chunk2) in
    negb ((end1 <=? start2) || (start1 >=? end2)).

Definition getOverlapType (chunk1 chunk2 : TimeChunk.t) : OverlapType.t :=
    let start1 := normalizeTime (TimeChunk.startTime chunk1) in
    let end1 := normalizeTime (TimeChunk.endTime chunk1) in
    let start2 := normalizeTime (TimeChunk.startTime chunk2) in
    let end2 := normalizeTime (TimeChunk.endTime chunk2) in
    if (end1 <=? start2) || (start1 >=? end2) then OverlapType.none
    else if (start1 =? start2) && (end1 =? end2) then OverlapType.exact
    else if (start1 <=? start2) && (end1 >=? end2) then OverlapType.encloses
    else if (start1 >=? start2) && (end1 <=? end2) then OverlapType.enclosed
    else if (start1 <? start2) && (end1 >? start2) && (end1 <? end2)
         then OverlapType.left
    else if (start1 >? start2) && (start1 <? end2) && (end1 >? end2)
         then OverlapType.right
    else OverlapType.none.

  (** The chunks that [loadCalculation.ts] builds hold two ISO date-times;
      [mergeTimeChunks] and [getTotalDuration] are embedded at that format. *)
Definition IsoChunk : Type := (Z * Z)%type.

  (** [denormalizeTime minutes originalFormat] for an ISO [originalFormat]:
      the same date, seconds and milliseconds, with hours and minutes set. *)
Definition denormalizeTime (minutes : Z) (originalFormat : Z) : Z :=
    DateTime.ofDate (DateTime.toDate originalFormat)
    + (minutes / 60) * 60 * MS_PER_MINUTE
    + (Z.rem minutes 60) * MS_PER_MINUTE
    + originalFormat mod MS_PER_MINUTE.

  (** The loop of [mergeTimeChunks]: [current] with its tracked
      [currentEnd], the chunks already pushed to [merged], the chunks left. *)
Fixpoint mergeLoop (merged : list IsoChunk) (current : IsoChunk)
      (currentEnd : Z) (sorted : list IsoChunk) : list IsoChunk :=
    match sorted with
    | [] => merged ++ [current]
    | next :: sorted' =>
        let nextStart := DateTime.minuteOfDay (fst next) in
        let nextEnd := DateTime.minuteOfDay (snd next) in
        if nextStart <=? currentEnd then
          let currentEnd' := Z.max currentEnd nextEnd in
          mergeLoop merged
            (fst current, denormalizeTime currentEnd' (snd current))
            currentEnd' sorted'
        else
          mergeLoop (merged ++ [current]) next nextEnd sorted'
    end.

Definition mergeTimeChunks (chunks : list IsoChunk) : list IsoChunk :=
    match Js.sort
            (fun a b => DateTime.minuteOfDay (fst a) ?= DateTime.minuteOfDay (fst b))
            chunks with
    | [] => []
    | first :: rest =>
        mergeLoop [] first (DateTime.minuteOfDay (snd first)) rest
    end.

  (** Total minutes covered, overlaps counted once. *)
Definition getTotalDuration (chunks : list IsoChunk) : Z :=
    fold_left
      (fun total chunk =>
         total + (DateTime.minuteOfDay (snd chunk) - DateTime.minuteOfDay (fst chunk)))
      (mergeTimeChunks chunks) 0.

(** The five predicates on the relative position of two chunks. *)
Definition isLeftOverlap (chunk1 chunk2 : TimeChunk.t) : bool :=
  let start1 := normalizeTime (TimeChunk.startTime chunk1) in
  let end1 := normalizeTime (TimeChunk.endTime chunk1) in
  let start2 := normalizeTime (TimeChunk.startTime chunk2) in
  let end2 := normalizeTime (TimeChunk.endTime chunk2) in
  (start1 <? start2) && (end1 >? start2) && (end1 <? end2).

Definition isRightOverlap (chunk1 chunk2 : TimeChunk.t) : bool :=
  let start1 := normalizeTime (TimeChunk.startTime chunk1) in
  let end1 := normalizeTime (TimeChunk.endTime chunk1) in
  let start2 := normalizeTime (TimeChunk.startTime chunk2) in
  let end2 := normalizeTime (TimeChunk.endTime chunk2) in
  (start1 >? start2) && (start1 <? end2) && (end1 >? end2).

Definition isEnclosed (chunk1 chunk2 : TimeChunk.t) : bool :=
  let start1 := normalizeTime (TimeChunk.startTime chunk1) in
  let end1 := normalizeTime (TimeChunk.endTime chunk1) in
  let start2 := normalizeTime (TimeChunk.startTime chunk2) in
  let end2 := normalizeTime (TimeChunk.endTime chunk2) in
  (start1 >=? start2) && (end1 <=? end2).

Definition isEncloses (chunk1 chunk2 : TimeChunk.t) : bool :=
  let start1 := normalizeTime (TimeChunk.startTime chunk1) in
  let end1 := normalizeTime (TimeChunk.endTime chunk1) in
  let start2 := normalizeTime (TimeChunk.startTime chunk2) in
  let end2 := normalizeTime (TimeChunk.endTime chunk2) in
  (start1 <=? start2) && (end1 >=? end2).

Definition isExactMatch (chunk1 chunk2 : TimeChunk.t) : bool :=
  let start1 := normalizeTime (TimeChunk.startTime chunk1) in
  let end1 := normalizeTime (TimeChunk.endTime chunk1) in
  let start2 := normalizeTime (TimeChunk.startTime chunk2) in
  let end2 := normalizeTime (TimeChunk.endTime chunk2) in
  (start1 =? start2) && (end1 =? end2).

(** Minutes of overlap, [0] when the chunks do not overlap. *)
Definition getOverlapDuration (chunk1 chunk2 : TimeChunk.t) : Z :=
  let start1 := normalizeTime (TimeChunk.startTime chunk1) in
  let end1 := normalizeTime (TimeChunk.endTime chunk1) in
  let start2 := normalizeTime (TimeChunk.startTime chunk2) in
  let end2 := normalizeTime (TimeChunk.endTime chunk2) in
  if (end1 <=? start2) || (start1 >=? end2) then 0
  else
    let overlapStart := Z.max start1 start2 in
    let overlapEnd := Z.min end1 end2 in
    overlapEnd - overlapStart.

Definition getTimeDifference (time1 time2 : TimeValue) : Z :=
  normalizeTime time2 - normalizeTime time1.

Definition compareTimesByMinute (time1 time2 : TimeValue) : Z :=
  normalizeTime time1 - normalizeTime time2.

Definition isTimeInRange (time : TimeValue) (range : TimeChunk.t) : bool :=
  let t := normalizeTime time in
  let start := normalizeTime (TimeChunk.startTime range) in
  let end_ := normalizeTime (TimeChunk.endTime range) in
  (t >=? start) && (t <? end_).

(** An entry of the result of [findAllOverlaps]. *)
Module Overlap.
Record t : Type := { index1 : nat; index2 : nat; overlapType : OverlapType.t }.
End Overlap.

(** The inner loop of [findAllOverlaps]: [chunk] is [chunks[i]], and
    [later] holds the chunks from index [j] on. *)
Fixpoint overlapsWith (i : nat) (chunk : TimeChunk.t) (j : nat)
    (later : list TimeChunk.t) : list Overlap.t :=
  match later with
  | [] => []
  | other :: later' =>
      let overlapType := getOverlapType chunk other in
      match overlapType with
      | OverlapType.none => overlapsWith i chunk (S j) later'
      | _ =>
          {| Overlap.index1 := i; Overlap.index2 := j;
             Overlap.overlapType := overlapType |}
          :: overlapsWith i chunk (S j) later'
      end
  end.

(** The outer loop: [chunks] holds the chunks from index [i] on. *)
Fixpoint overlapsFrom (i : nat) (chunks : list TimeChunk.t) : list Overlap.t :=
  match chunks with
  | [] => []
  | chunk :: later => overlapsWith i chunk (S i) later ++ overlapsFrom (S i) later
  end.

Definition findAllOverlaps (chunks : list TimeChunk.t) : list Overlap.t :=
  overlapsFrom 0 chunks.

(** [subtractTimeChunks], embedded like [mergeTimeChunks] for chunks that
    hold two ISO date-times. The body of its loop, on the pair of
    [available] and [currentStart]: *)
Definition subtractStep (baseRange : IsoChunk) (acc : list IsoChunk * Z)
    (chunk : IsoChunk) : list IsoChunk * Z :=
  let baseStart := DateTime.minuteOfDay (fst baseRange) in
  let baseEnd := DateTime.minuteOfDay (snd baseRange) in
  let chunkStart := DateTime.minuteOfDay (fst chunk) in
  let chunkEnd := DateTime.minuteOfDay (snd chunk) in
  let available := fst acc in
  let currentStart := snd acc in
  if (chunkEnd <=? baseStart) || (chunkStart >=? baseEnd) then acc
  else
    (if currentStart <? chunkStart
     then available
          ++ [(denormalizeTime currentStart (fst baseRange),
               denormalizeTime chunkStart (fst baseRange))]
     else available,
     Z.max currentStart chunkEnd).

Definition subtractTimeChunks (baseRange : IsoChunk) (toSubtract : list IsoChunk)
    : list IsoChunk :=
  match toSubtract with
  | [] => [baseRange]
  | _ :: _ =>
      let merged := mergeTimeChunks toSubtract in
      let baseStart := DateTime.minuteOfDay (fst baseRange) in
      let baseEnd := DateTime.minuteOfDay (snd baseRange) in
      let acc := fold_left (subtractStep baseRange) merged ([], baseStart) in
      if snd acc <? baseEnd
      then fst acc ++ [(denormalizeTime (snd acc) (fst baseRange), snd baseRange)]
      else fst acc
  end.

End ConflictDetection.


(* ===================================================================== *)
(** ** utils/availabilityCheck.ts *)
(* ===================================================================== *)

Module AvailabilityCheck.

Module AvailabilityResult.
Record t : Type := { available : bool; conflicts : list SlotConflict.t }.
End AvailabilityResult.

Definition conflict (type : ConflictType.t) (interviewer : Interviewer.t)
    : SlotConflict.t :=
  {| SlotConflict.type := type;
     SlotConflict.interviewerId := Some (Interviewer.id interviewer);
     SlotConflict.event := None |}.

(** [interviewer.workHours[days[date.getDay()]]]. *)
Definition getDayOfWeek (date : Z) (workHours : WorkHours.t)
    : option TimeRange.t :=
  match DateTime.getDay date with
  | 0 => WorkHours.sunday workHours
  | 1 => WorkHours.monday workHours
  | 2 => WorkHours.tuesday workHours
  | 3 => WorkHours.wednesday workHours
  | 4 => WorkHours.thursday workHours
  | 5 => WorkHours.friday workHours
  | _ => WorkHours.saturday workHours
  end.

Definition checkWorkHours (interviewer : Interviewer.t) (start end_ : Z)
    : option SlotConflict.t :=
  match getDayOfWeek start (Interviewer.workHours interviewer) with
  | None => Some (conflict ConflictType.work_hours interviewer)
  | Some workHours =>
      let startMinutes := DateTime.minuteOfDay start in
      let endMinutes := DateTime.minuteOfDay end_ in
      let workStartMinutes :=
        fst (TimeRange.startTime workHours) * 60 + snd (TimeRange.startTime workHours) in
      let workEndMinutes :=
        fst (TimeRange.endTime workHours) * 60 + snd (TimeRange.endTime workHours) in
      if (startMinutes <? workStartMinutes) || (endMinutes >? workEndMinutes)
      then Some (conflict ConflictType.work_hours interviewer)
      else None
  end.

Definition checkHolidays (interviewer : Interviewer.t) (date : Z)
    : option SlotConflict.t :=
  match Interviewer.holidays interviewer with
  | None => None
  | Some holidays =>
      match List.find (fun h => Holiday.date h =? date) holidays with
      | Some _ => Some (conflict ConflictType.holiday interviewer)
      | None => None
      end
  end.

Definition checkDayOffs (interviewer : Interviewer.t) (date : Z)
    : option SlotConflict.t :=
  match Interviewer.dayOffs interviewer with
  | None => None
  | Some dayOffs =>
      if existsb (fun d => d =? date) dayOffs
      then Some (conflict ConflictType.day_off interviewer)
      else None
  end.

Definition checkBlockedTimes (interviewer : Interviewer.t) (startTime endTime : Z)
    : option SlotConflict.t :=
  match Interviewer.blockedTimes interviewer with
  | None => None
  | Some blockedTimes =>
      if existsb
           (fun blocked =>
              negb ((endTime <=? DateTimeRange.start blocked)
                    || (startTime >=? DateTimeRange.end_ blocked)))
           blockedTimes
      then Some (conflict ConflictType.recruiting_block interviewer)
      else None
  end.

(** [conflicts.push(c)] when the check found a conflict [c]. *)
Definition push (found : option SlotConflict.t) : list SlotConflict.t :=
  match found with
  | Some c => [c]
  | None => []
  end.

Definition isInterviewerAvailable (interviewer : Interviewer.t)
    (startTime endTime : Z) (options : SchedulingOptions.t)
    : AvailabilityResult.t :=
  let start := startTime in
  let end_ := endTime in
  let date := DateTime.toDate start in
  let conflicts :=
    (if Js.notFalse (SchedulingOptions.respectWorkHours options)
     then push (checkWorkHours interviewer start end_) else [])
    ++ (if Js.notFalse (SchedulingOptions.respectHolidays options)
        then push (checkHolidays interviewer date) else [])
    ++ (if Js.notFalse (SchedulingOptions.respectDayOffs options)
        then push (checkDayOffs interviewer date) else [])
    ++ push (checkBlockedTimes interviewer startTime endTime) in
  {| AvailabilityResult.available := bool_decide (conflicts = []) ;
     AvailabilityResult.conflicts := conflicts |}.

End AvailabilityCheck.

(* ===================================================================== *)
(** ** utils/loadCalculation.ts *)
(* ===================================================================== *)

Module LoadCalculation.
Import Constants.

(** Duration of a slot in minutes. *)
Definition calculateSlotDuration (slot : InterviewSlot.t) : Q :=
  inject_Z (InterviewSlot.endTime slot - InterviewSlot.startTime slot)
  / inject_Z MS_PER_MINUTE.

Definition eventChunk (e : CalendarEvent.t) : ConflictDetection.IsoChunk :=
  (CalendarEvent.start e, CalendarEvent.end_ e).

(** The part shared by the daily and the weekly load: the load of the
    selected events plus the proposed slot, against [limit]. *)
Definition loadOf (limit : LoadLimit.t) (additionalDuration : Q)
    (events : list CalendarEvent.t) : LoadInfo.load :=
  let current :=
    match LoadLimit.type limit with
    | LoadLimit.hours =>
        let totalMinutes := ConflictDetection.getTotalDuration (map eventChunk events) in
        ((inject_Z totalMinutes + additionalDuration) / 60)%Q
    | LoadLimit.count => inject_Z (Z.of_nat (length events) + 1)
    end in
  {| LoadInfo.current := current;
     LoadInfo.max := LoadLimit.max limit;
     LoadInfo.density := Js.div current (LoadLimit.max limit) |}.

Definition calculateDailyLoad (interviewer : Interviewer.t) (date : Z)
    (additionalDuration : Q) (existingEvents : list CalendarEvent.t)
    : LoadInfo.load :=
  let dateStr := DateTime.toDate date in
  let dayEvents :=
    List.filter (fun event => DateTime.toDate (CalendarEvent.start event) =? dateStr)
      existingEvents in
  loadOf (InterviewerLimits.daily (Interviewer.limits interviewer))
    additionalDuration dayEvents.

Definition calculateWeeklyLoad (interviewer : Interviewer.t) (date : Z)
    (additionalDuration : Q) (existingEvents : list CalendarEvent.t)
    : LoadInfo.load :=
  (* start of week (Sunday, 00:00) and start of the next one *)
  let weekStart := DateTime.ofDate (DateTime.toDate date - DateTime.getDay date) in
  let weekEnd := DateTime.addDays weekStart 7 in
  let weekEvents :=
    List.filter
      (fun event =>
         (CalendarEvent.start event >=? weekStart)
         && (CalendarEvent.start event <? weekEnd))
      existingEvents in
  loadOf (InterviewerLimits.weekly (Interviewer.limits interviewer))
    additionalDuration weekEvents.

Definition calculateInterviewerLoad (interviewer : Interviewer.t)
    (proposedSlot : InterviewSlot.t) (existingEvents : list CalendarEvent.t)
    (options : SchedulingOptions.t) : LoadInfo.t :=
  let slotDate := InterviewSlot.startTime proposedSlot in
  let slotDuration := calculateSlotDuration proposedSlot in
  {| LoadInfo.daily :=
       calculateDailyLoad interviewer slotDate slotDuration existingEvents;
     LoadInfo.weekly :=
       calculateWeeklyLoad interviewer slotDate slotDuration existingEvents |}.

Inductive LoadDensityCategory : Type := low | medium | high | over_limit.

Definition getLoadDensityCategory (density : Js.num) : LoadDensityCategory :=
  if Js.gt density 1 then over_limit
  else if Js.ge density (9 # 10) then high
  else if Js.ge density (7 # 10) then medium
  else low.

Definition wouldExceedLoadLimits (loadInfo : LoadInfo.t)
    (options : SchedulingOptions.t) : bool :=
  if Js.truthy (SchedulingOptions.respectDailyLimits options)
     && Js.gt (LoadInfo.density (LoadInfo.daily loadInfo)) 1
  then true
  else if Js.truthy (SchedulingOptions.respectWeeklyLimits options)
          && Js.gt (LoadInfo.density (LoadInfo.weekly loadInfo)) 1
  then true
  else false.

End LoadCalculation.


(* ===================================================================== *)
(** ** algorithms/slotFinder.ts *)
(* ===================================================================== *)

Module SlotFinder.
Import Constants.

(** *** Interviewer combinations *)

Fixpoint generateCombinations {T : Type} (arr : list T) (k : Z) : list (list T) :=
  if k =? 0 then [[]]
  else
    match arr with
    | [] => []
    | first :: rest =>
        if k >? Z.of_nat (length arr) then []
        else
          let withFirst := map (fun combo => first :: combo) (generateCombinations rest (k - 1)) in
          let withoutFirst := generateCombinations rest k in
          withFirst ++ withoutFirst
    end.

Definition generateCombinationsWithTraining (interviewers : list Interviewer.t)
    (required : Z) : list (list Interviewer.t) :=
  let regular :=
    List.filter (fun int => negb (Js.truthy (Interviewer.isTraining int))) interviewers in
  let training :=
    List.filter (fun int => Js.truthy (Interviewer.isTraining int)) interviewers in
  match training with
  | [] => []
  | _ =>
      flat_map
        (fun n : nat =>
           let numTraining := Z.of_nat n in
           let numRegular := required - numTraining in
           if (numRegular <? 0) || (numRegular >? Z.of_nat (length regular)) then []
           else
             let regularCombos := generateCombinations regular numRegular in
             let trainingCombos := generateCombinations training numTraining in
             flat_map
               (fun regCombo => map (fun trainCombo => regCombo ++ trainCombo) trainingCombos)
               regularCombos)
        (seq 1 (length training))
  end.

(** The combinations of one session, as the loop body computes them. *)
Definition sessionCombos (session : InterviewSession.t)
    (interviewers : list Interviewer.t) (options : SchedulingOptions.t)
    : list (list Interviewer.t) :=
  let pool :=
    match InterviewSession.interviewerPool session with
    | Some ids =>
        List.filter
          (fun int => existsb (String.eqb (Interviewer.id int)) ids)
          interviewers
    | None => interviewers
    end in
  let pool :=
    if negb (Js.truthy (SchedulingOptions.includeTrainingInterviewers options))
    then List.filter (fun int => negb (Js.truthy (Interviewer.isTraining int))) pool
    else pool in
  let sessionCombos :=
    generateCombinations pool (InterviewSession.requiredInterviewers session) in
  if Js.truthy (SchedulingOptions.includeTrainingInterviewers options)
  then sessionCombos
       ++ generateCombinationsWithTraining pool
            (InterviewSession.requiredInterviewers session)
  else sessionCombos.

Definition generateInterviewerCombinations (sessions : list InterviewSession.t)
    (interviewers : list Interviewer.t) (options : SchedulingOptions.t)
    : gmap string (list (list Interviewer.t)) :=
  fold_left
    (fun combinations session =>
       <[InterviewSession.id session := sessionCombos session interviewers options]>
         combinations)
    sessions ∅.

(** *** Helper functions *)

(** The body of the loop of [groupSessionsIntoRounds], on the pair of
    [rounds] and [currentRound]. *)
Definition groupStep
    (acc : list (list InterviewSession.t) * list InterviewSession.t)
    (session : InterviewSession.t)
    : list (list InterviewSession.t) * list InterviewSession.t :=
  let currentRound := snd acc ++ [session] in
  if InterviewSession.breakAfter session >=? MINUTES_IN_DAY
  then (fst acc ++ [currentRound], [])
  else (fst acc, currentRound).

Definition groupLoop (sorted : list InterviewSession.t)
    : list (list InterviewSession.t) * list InterviewSession.t :=
  fold_left groupStep sorted ([], []).

Definition sortByOrder (sessions : list InterviewSession.t)
    : list InterviewSession.t :=
  Js.sort
    (fun a b => InterviewSession.order a - InterviewSession.order b ?= 0)
    sessions.

Definition groupSessionsIntoRounds (sessions : list InterviewSession.t)
    : list (list InterviewSession.t) :=
  let sorted := sortByOrder sessions in
  let '(rounds, currentRound) := groupLoop sorted in
  match currentRound with
  | [] => rounds
  | _ => rounds ++ [currentRound]
  end.

(** [addMinutes(new Date(timeStr), minutes).toISOString()]: [None] when
    the Date is invalid, on which [toISOString] throws a RangeError. *)
Definition addMinutesToTime (timeStr minutes : Z) : option Z :=
  let date := DateTime.addMinutes timeStr minutes in
  if DateTime.isValid timeStr && DateTime.isValid date then Some date else None.

(** [`${date}T${DEFAULT_APPOINTMENT_START_TIME}`] when no slot is placed
    yet, otherwise the last end time plus [session.breakAfter]; [None] when
    [addMinutesToTime] throws. *)
Definition calculateSessionStartTime (previousSlots : list InterviewSlot.t)
    (session : InterviewSession.t) (date : Z) : option Z :=
  match last previousSlots with
  | None => Some (DateTime.ofDate date + DEFAULT_APPOINTMENT_START_TIME)
  | Some lastSlot =>
      addMinutesToTime (InterviewSlot.endTime lastSlot)
        (InterviewSession.breakAfter session)
  end.

(** Minutes from the first start to the last end. *)
Definition calculateTotalDuration (slots : list InterviewSlot.t) : Q :=
  match slots, last slots with
  | first :: _, Some lastSlot =>
      inject_Z (InterviewSlot.endTime lastSlot - InterviewSlot.startTime first)
      / inject_Z (1000 * 60)
  | _, _ => 0
  end.

Definition TYPICAL_MAX_SLOTS : Q := 4.

(** A value held by [slotCounts], an object created by [{}]: a number, or
    the string that [+ 1] makes of an inherited function or object. *)
Inductive SlotCount : Type :=
| Count (n : Z)
| Text.

(** [(slotCounts[key] || 0) + 1]: a key that names a member of
    [Object.prototype] reads as that member until it is assigned. *)
Definition increment (slotCounts : gmap string SlotCount) (key : string)
    : SlotCount :=
  match slotCounts !! key with
  | Some (Count n) => Count ((if n =? 0 then 0 else n) + 1)
  | Some Text => Text
  | None => if Js.inherited key then Text else Count (0 + 1)
  end.

Definition countSlots (slots : list InterviewSlot.t) : gmap string SlotCount :=
  fold_left
    (fun slotCounts slot =>
       fold_left
         (fun slotCounts assignment =>
            let key := InterviewerAssignment.interviewerId assignment in
            Js.assign key (increment slotCounts key) slotCounts)
         (InterviewSlot.interviewers slot) slotCounts)
    slots ∅.

(** [count / TYPICAL_MAX_SLOTS]; the string is not a numeral. *)
Definition densityOf (count : SlotCount) : Js.num :=
  match count with
  | Count n => Js.div (inject_Z n) TYPICAL_MAX_SLOTS
  | Text => Js.NaN
  end.

(** The keys of [density] are own keys of [slotCounts], none of which is
    [__proto__]. *)
Definition calculateLoadDensity (slots : list InterviewSlot.t)
    (allInterviewers : list Interviewer.t) : gmap string Js.num :=
  densityOf <$> countSlots slots.

Definition getAverageLoadDensity (loadDensity : gmap string Js.num) : Js.num :=
  let values := snd <$> map_to_list loadDensity in
  match values with
  | [] => Js.Fin 0
  | _ => Js.divNat (fold_left Js.plus values (Js.Fin 0)) (length values)
  end.

Definition slotInterviewerIds (slots : list InterviewSlot.t) : list string :=
  flat_map
    (fun slot => map InterviewerAssignment.interviewerId (InterviewSlot.interviewers slot))
    slots.

Definition hasInterviewerConflictWithPreviousRounds
    (slotCombo : SessionCombination.t) (previousRounds : list RoundPlan.t) : bool :=
  let currentInterviewers := slotInterviewerIds (SessionCombination.slots slotCombo) in
  existsb
    (fun round =>
       let roundInterviewers :=
         slotInterviewerIds (SessionCombination.slots (RoundPlan.combination round)) in
       existsb
         (fun intId => existsb (String.eqb intId) currentInterviewers)
         roundInterviewers)
    previousRounds.

(** [Array.from(set)]: the ids in their order of first insertion. *)
Definition extractAllInterviewers (rounds : list RoundPlan.t) : list string :=
  fold_left
    (fun interviewerSet intId =>
       if existsb (String.eqb intId) interviewerSet then interviewerSet
       else interviewerSet ++ [intId])
    (flat_map
       (fun round => slotInterviewerIds (SessionCombination.slots (RoundPlan.combination round)))
       rounds)
    [].

Definition generateSlotCombinationId (slots : list InterviewSlot.t) (now : Z)
    : CombinationId :=
  combo_id (map InterviewSlot.sessionId slots) now.

Definition generatePlanId (rounds : list RoundPlan.t) (now : Z) : PlanId :=
  plan_id (map RoundPlan.date rounds) now.

(** *** Conflict checks of a proposed slot *)

Definition calendarConflicts (slot : InterviewSlot.t) (interviewer : Interviewer.t)
    (events : list CalendarEvent.t) : list SlotConflict.t :=
  flat_map
    (fun event =>
       if ConflictDetection.isTimeOverlap
            {| TimeChunk.startTime := TIso (InterviewSlot.startTime slot);
               TimeChunk.endTime := TIso (InterviewSlot.endTime slot) |}
            {| TimeChunk.startTime := TIso (CalendarEvent.start event);
               TimeChunk.endTime := TIso (CalendarEvent.end_ event) |}
       then [ {| SlotConflict.type := ConflictType.calendar_event;
                 SlotConflict.interviewerId := Some (Interviewer.id interviewer);
                 SlotConflict.event := Some event |} ]
       else [])
    events.

Definition loadConflicts (slot : InterviewSlot.t) (interviewer : Interviewer.t)
    (events : list CalendarEvent.t) (options : SchedulingOptions.t)
    : list SlotConflict.t :=
  let loadInfo :=
    LoadCalculation.calculateInterviewerLoad interviewer slot events options in
  (if Js.truthy (SchedulingOptions.respectDailyLimits options)
      && Js.gt (LoadInfo.density (LoadInfo.daily loadInfo)) 1
   then [AvailabilityCheck.conflict ConflictType.daily_limit interviewer]
   else [])
  ++ (if Js.truthy (SchedulingOptions.respectWeeklyLimits options)
         && Js.gt (LoadInfo.density (LoadInfo.weekly loadInfo)) 1
      then [AvailabilityCheck.conflict ConflictType.weekly_limit interviewer]
      else []).

(** The conflicts one interviewer adds: the body of the loop of
    [checkSlotConflicts]. *)
Definition interviewerConflicts (slot : InterviewSlot.t)
    (calendarEvents : gmap string (list CalendarEvent.t))
    (options : SchedulingOptions.t) (interviewer : Interviewer.t)
    : list SlotConflict.t :=
  let isAvailable :=
    AvailabilityCheck.isInterviewerAvailable interviewer
      (InterviewSlot.startTime slot) (InterviewSlot.endTime slot) options in
  let events := default [] (calendarEvents !! Interviewer.id interviewer) in
  (if negb (AvailabilityCheck.AvailabilityResult.available isAvailable)
   then AvailabilityCheck.AvailabilityResult.conflicts isAvailable
   else [])
  ++ (if Js.truthy (SchedulingOptions.checkCalendarConflicts options)
      then calendarConflicts slot interviewer events
      else [])
  ++ (if Js.truthy (SchedulingOptions.respectDailyLimits options)
         || Js.truthy (SchedulingOptions.respectWeeklyLimits options)
      then loadConflicts slot interviewer events options
      else []).

Definition checkSlotConflicts (slot : InterviewSlot.t)
    (interviewers : list Interviewer.t)
    (calendarEvents : gmap string (list CalendarEvent.t))
    (options : SchedulingOptions.t) : list SlotConflict.t :=
  flat_map (interviewerConflicts slot calendarEvents options) interviewers.

(** [options.maxResults && results.length >= options.maxResults]. *)
Definition enough {R : Type} (options : SchedulingOptions.t) (results : list R)
    : bool :=
  match SchedulingOptions.maxResults options with
  | Some maxResults =>
      negb (maxResults =? 0) && (Z.of_nat (length results) >=? maxResults)
  | None => false
  end.

(** *** Loops with the early stop

    The state threaded through a search is the number of [Date.now()]
    reads made so far and the shared [results] array. *)

Definition state (R : Type) : Type := (nat * list R)%type.

(** What one iteration of a loop body does: go on with the next element
    ([Next], also for [continue]); reach the test
    [if (options.maxResults && results.length >= options.maxResults) return;]
    that ends the iteration ([Check]); or throw. *)
Inductive step (R : Type) : Type :=
| Next (st : state R)
| Check (st : state R)
| Raise (e : Js.error) (reads : nat).
Arguments Next {R} st.
Arguments Check {R} st.
Arguments Raise {R} e reads.

Section Loop.
Context {X R : Type}.
Variable options : SchedulingOptions.t.
Variable body : X -> state R -> step R.

Fixpoint forEach (xs : list X) (st : state R) : Js.outcome (state R) :=
  match xs with
  | [] => Js.Returned st
  | x :: xs' =>
      match body x st with
      | Raise e reads => Js.Thrown e reads
      | Next st' => forEach xs' st'
      | Check st' =>
          if enough options (snd st') then Js.Returned st'
          else forEach xs' st'
      end
  end.
End Loop.

(** *** Single-day search *)

Section SingleDay.
Variable clock : nat -> Z.
Variable sessionCombinations : gmap string (list (list Interviewer.t)).
Variable allInterviewers : list Interviewer.t.
Variable date : Z.
Variable calendarEvents : gmap string (list CalendarEvent.t).
Variable options : SchedulingOptions.t.

(** The slot, or [null], and the number of clock reads made. The object
    literal reads the clock for [id] before it computes [endTime]. *)
Definition createAndCheckSlot (session : InterviewSession.t)
    (interviewerCombo : list Interviewer.t) (startTime : Z) (reads : nat)
    : Js.outcome (option InterviewSlot.t * nat) :=
  match addMinutesToTime startTime (InterviewSession.duration session) with
  | None => Js.Thrown Js.RangeError (S reads)
  | Some endTime =>
  let slot :=
    {| InterviewSlot.id := slot_id (InterviewSession.id session) (clock reads);
       InterviewSlot.sessionId := InterviewSession.id session;
       InterviewSlot.sessionName := InterviewSession.name session;
       InterviewSlot.startTime := startTime;
       InterviewSlot.endTime := endTime;
       InterviewSlot.interviewers :=
         map (fun int =>
                {| InterviewerAssignment.interviewerId := Interviewer.id int;
                   InterviewerAssignment.name := Interviewer.name int;
                   InterviewerAssignment.email := Interviewer.email int;
                   InterviewerAssignment.isTraining := Interviewer.isTraining int;
                   InterviewerAssignment.status := Some pending |})
           interviewerCombo;
       InterviewSlot.meetingType :=
         default google_meet (InterviewSession.meetingType session);
       InterviewSlot.location := InterviewSession.location session |} in
  let conflicts := checkSlotConflicts slot interviewerCombo calendarEvents options in
  Js.Returned
    (match conflicts with
     | [] => Some slot
     | _ => None
     end, S reads)
  end.

(** The base case of [exploreSlotCombinations]: [currentSlots[0]] of an
    empty array is [undefined], and reading its [startTime] throws, after
    [generateSlotCombinationId] has read the clock for [id]. *)
Definition emitCombination (currentSlots : list InterviewSlot.t)
    (st : state SessionCombination.t) : Js.outcome (state SessionCombination.t) :=
  match currentSlots, last currentSlots with
  | first :: _, Some lastSlot =>
      let combination :=
        {| SessionCombination.id :=
             generateSlotCombinationId currentSlots (clock (fst st));
           SessionCombination.date := date;
           SessionCombination.slots := currentSlots;
           SessionCombination.startTime := InterviewSlot.startTime first;
           SessionCombination.endTime := InterviewSlot.endTime lastSlot;
           SessionCombination.totalDuration := calculateTotalDuration currentSlots;
           SessionCombination.loadDensity :=
             calculateLoadDensity currentSlots allInterviewers |} in
      Js.Returned (S (fst st), snd st ++ [combination])
  | _, _ => Js.Thrown Js.TypeError (S (fst st))
  end.

(** One iteration of [for (const interviewerCombo of combinations)];
    [recur] is the recursive call on the next session index. *)
Definition tryCombination
    (recur : list InterviewSlot.t -> state SessionCombination.t ->
             Js.outcome (state SessionCombination.t))
    (session : InterviewSession.t) (currentSlots : list InterviewSlot.t)
    (startTime : Z) (interviewerCombo : list Interviewer.t)
    (st : state SessionCombination.t) : step SessionCombination.t :=
  match createAndCheckSlot session interviewerCombo startTime (fst st) with
  | Js.Thrown e reads => Raise e reads
  | Js.Returned (Some slot, reads) =>
      match recur (currentSlots ++ [slot]) (reads, snd st) with
      | Js.Thrown e reads' => Raise e reads'
      | Js.Returned st' => Check st'
      end
  | Js.Returned (None, reads) => Next (reads, snd st)
  end.

(** [sessions] is the part of the sorted session array from [sessionIndex]
    on; the recursive call moves to its tail. *)
Fixpoint exploreSlotCombinations (sessions : list InterviewSession.t)
    (currentSlots : list InterviewSlot.t) (st : state SessionCombination.t)
    {struct sessions} : Js.outcome (state SessionCombination.t) :=
  match sessions with
  | [] => emitCombination currentSlots st
  | session :: sessions' =>
      let combinations :=
        default [] (sessionCombinations !! InterviewSession.id session) in
      match calculateSessionStartTime currentSlots session date with
      | None => Js.Thrown Js.RangeError (fst st)
      | Some startTime =>
          forEach options
            (tryCombination
               (fun currentSlots' st' =>
                  exploreSlotCombinations sessions' currentSlots' st')
               session currentSlots startTime)
            combinations st
      end
  end.

End SingleDay.

Definition compareCombinations (a b : SessionCombination.t) : comparison :=
  if negb (SessionCombination.startTime a =? SessionCombination.startTime b)
  then SessionCombination.startTime a ?= SessionCombination.startTime b
  else
    let avgDensityA := getAverageLoadDensity (SessionCombination.loadDensity a) in
    let avgDensityB := getAverageLoadDensity (SessionCombination.loadDensity b) in
    Js.sign (Js.minus avgDensityA avgDensityB).

Definition generateAllSlotCombinations (clock : nat -> Z)
    (sortedSessions : list InterviewSession.t)
    (sessionCombinations : gmap string (list (list Interviewer.t)))
    (interviewers : list Interviewer.t) (date : Z)
    (calendarEvents : gmap string (list CalendarEvent.t))
    (options : SchedulingOptions.t) (reads : nat)
    : Js.outcome (state SessionCombination.t) :=
  exploreSlotCombinations clock sessionCombinations interviewers date
    calendarEvents options sortedSessions [] (reads, []).

(** Returns the sorted combinations and the number of clock reads made. *)
Definition findSlotsForDay (clock : nat -> Z)
    (sessions : list InterviewSession.t) (interviewers : list Interviewer.t)
    (date : Z) (calendarEvents : gmap string (list CalendarEvent.t))
    (options : SchedulingOptions.t) (reads : nat)
    : Js.outcome (state SessionCombination.t) :=
  let sortedSessions := sortByOrder sessions in
  let sessionCombinations :=
    generateInterviewerCombinations sortedSessions interviewers options in
  match generateAllSlotCombinations clock sortedSessions sessionCombinations
          interviewers date calendarEvents options reads with
  | Js.Thrown e reads' => Js.Thrown e reads'
  | Js.Returned st =>
      Js.Returned (fst st, Js.sort compareCombinations (snd st))
  end.

(** *** Multi-day search *)

(** The dates visited by
    [while (isBefore(currentDate, end) || isEqual(currentDate, end))] with a
    daily step from [new Date(startDate)]; none is visited when one of the
    two Dates is invalid. *)
Definition datesInRange (startDate endDate : Z) : list Z :=
  if DateTime.isValid (DateTime.ofDate startDate)
     && DateTime.isValid (DateTime.ofDate endDate)
  then map (fun i : nat => startDate + Z.of_nat i)
         (seq 0 (Z.to_nat (endDate - startDate + 1)))
  else [].

Section MultiDay.
Variable clock : nat -> Z.
Variable rounds : list (list InterviewSession.t).
Variable startDate endDate : Z.
Variable interviewers : list Interviewer.t.
Variable calendarEvents : gmap string (list CalendarEvent.t).
Variable options : SchedulingOptions.t.

(** The base case of [findRoundSlots]. *)
Definition emitPlan (previousRounds : list RoundPlan.t)
    (st : state MultiDayPlan.t) : state MultiDayPlan.t :=
  let plan :=
    {| MultiDayPlan.id := generatePlanId previousRounds (clock (fst st));
       MultiDayPlan.rounds := previousRounds;
       MultiDayPlan.totalRounds := length rounds;
       MultiDayPlan.allInterviewers := extractAllInterviewers previousRounds |} in
  (S (fst st), snd st ++ [plan]).

(** One iteration of [for (const slotCombo of daySlots)]. *)
Definition trySlotCombination
    (recur : list RoundPlan.t -> state MultiDayPlan.t -> Js.outcome (state MultiDayPlan.t))
    (currentDate : Z) (currentRoundSessions : list InterviewSession.t)
    (previousRounds : list RoundPlan.t) (currentRoundIndex : nat)
    (slotCombo : SessionCombination.t) (st : state MultiDayPlan.t)
    : step MultiDayPlan.t :=
  if hasInterviewerConflictWithPreviousRounds slotCombo previousRounds
  then Next st
  else
    let roundPlan :=
      {| RoundPlan.roundNumber := currentRoundIndex;
         RoundPlan.date := currentDate;
         RoundPlan.combination := slotCombo;
         RoundPlan.sessions := currentRoundSessions |} in
    match recur (previousRounds ++ [roundPlan]) st with
    | Js.Thrown e reads => Raise e reads
    | Js.Returned st' => Check st'
    end.

(** [findRoundSlots] and [findSlotsForRound] call each other; [recur] is
    the call of [findRoundSlots] on the next round index. *)
Definition findSlotsForRound
    (recur : list RoundPlan.t -> state MultiDayPlan.t -> Js.outcome (state MultiDayPlan.t))
    (currentDate : Z) (currentRoundSessions : list InterviewSession.t)
    (previousRounds : list RoundPlan.t) (currentRoundIndex : nat)
    (st : state MultiDayPlan.t) : Js.outcome (state MultiDayPlan.t) :=
  match findSlotsForDay clock currentRoundSessions interviewers currentDate
          calendarEvents options (fst st) with
  | Js.Thrown e reads => Js.Thrown e reads
  | Js.Returned daySlots =>
      forEach options
        (trySlotCombination recur currentDate currentRoundSessions previousRounds
           currentRoundIndex)
        (snd daySlots) (fst daySlots, snd st)
  end.

(** The first date tried for the current round. [lastSession] is read from
    [currentRoundSessions[0]], as the source does; [addDays] of a date is the
    date that many days later. [None]: reading [breakAfter] of the
    [undefined] first session of an empty round throws a TypeError. *)
Definition searchStart (previousRounds : list RoundPlan.t)
    (currentRoundSessions : list InterviewSession.t) : option Z :=
  match last previousRounds with
  | None => Some startDate
  | Some lastRound =>
      match currentRoundSessions with
      | [] => None
      | lastSession :: _ =>
          let gapDays :=
            Js.ceilDiv (InterviewSession.breakAfter lastSession) MINUTES_IN_DAY in
          Some (RoundPlan.date lastRound + gapDays)
      end
  end.

(** One iteration of the [while] loop over the candidate dates. *)
Definition tryDate
    (recur : list RoundPlan.t -> state MultiDayPlan.t -> Js.outcome (state MultiDayPlan.t))
    (currentRoundSessions : list InterviewSession.t)
    (previousRounds : list RoundPlan.t) (currentRoundIndex : nat)
    (currentDate : Z) (st : state MultiDayPlan.t) : step MultiDayPlan.t :=
  match findSlotsForRound recur currentDate currentRoundSessions previousRounds
          currentRoundIndex st with
  | Js.Thrown e reads => Raise e reads
  | Js.Returned st' => Check st'
  end.

(** [remaining] is the part of [rounds] from [currentRoundIndex] on. *)
Fixpoint findRoundSlots (remaining : list (list InterviewSession.t))
    (currentRoundIndex : nat) (previousRounds : list RoundPlan.t)
    (st : state MultiDayPlan.t) {struct remaining}
    : Js.outcome (state MultiDayPlan.t) :=
  match remaining with
  | [] => Js.Returned (emitPlan previousRounds st)
  | currentRoundSessions :: remaining' =>
      match searchStart previousRounds currentRoundSessions with
      | None => Js.Thrown Js.TypeError (fst st)
      | Some searchStartDate =>
          forEach options
            (tryDate
               (fun previousRounds' st' =>
                  findRoundSlots remaining' (S currentRoundIndex) previousRounds' st')
               currentRoundSessions previousRounds currentRoundIndex)
            (datesInRange searchStartDate endDate) st
      end
  end.

End MultiDay.

Definition findMultiDaySlots (clock : nat -> Z)
    (sessions : list InterviewSession.t) (interviewers : list Interviewer.t)
    (dateRange : Z * Z) (calendarEvents : gmap string (list CalendarEvent.t))
    (options : SchedulingOptions.t) (reads : nat)
    : Js.outcome (state MultiDayPlan.t) :=
  let rounds := groupSessionsIntoRounds sessions in
  findRoundSlots clock rounds (fst dateRange) (snd dateRange) interviewers
    calendarEvents options rounds 0%nat [] (reads, []).

End SlotFinder.


(* ===================================================================== *)
(** ** core/SchedulingEngine.ts *)
(* ===================================================================== *)

Module SchedulingEngine.
Import Constants.

(** The configured time zone is its offset from UTC, in minutes east. The
    [defaultOptions] are only read, property by property. *)
Module SchedulingEngineConfig.
Record t : Type := {
  timezone : Z;
  defaultOptions : Js.prop SchedulingOptions.t
}.
End SchedulingEngineConfig.

(** [dateRange.start] and [dateRange.end]: [None] is a missing or empty
    string, which the validation reads as falsy. [options]: [None] is a
    missing or [undefined] property, which the spread skips. *)
Module FindSlotsOptions.
Record t : Type := {
  sessions : list InterviewSession.t;
  interviewers : list Interviewer.t;
  dateRange : option Z * option Z;
  options : option SchedulingOptions.Own.t
}.
End FindSlotsOptions.

(** The engine: its configuration and its calendar cache, keyed by e-mail. *)
Record t : Type := {
  config : SchedulingEngineConfig.t;
  calendarCache : gmap string (list CalendarEvent.t)
}.

Definition builtinDefaultOptions : SchedulingOptions.t :=
  {| SchedulingOptions.respectWorkHours := Some true;
     SchedulingOptions.respectHolidays := Some true;
     SchedulingOptions.respectDayOffs := Some true;
     SchedulingOptions.respectDailyLimits := Some true;
     SchedulingOptions.respectWeeklyLimits := Some true;
     SchedulingOptions.checkCalendarConflicts := Some true;
     SchedulingOptions.excludeRecruitingBlocks := Some true;
     SchedulingOptions.balanceLoad := Some true;
     SchedulingOptions.maxResults := Some 100;
     SchedulingOptions.includeTrainingInterviewers := Some false |}.

(** [{ defaultOptions: {...}, ...config }]: a [defaultOptions] property of
    the caller, also one set to [undefined], replaces the built-in object as
    a whole. *)
Definition constructor (config : SchedulingEngineConfig.t) : t :=
  {| config :=
       {| SchedulingEngineConfig.timezone := SchedulingEngineConfig.timezone config;
          SchedulingEngineConfig.defaultOptions :=
            match SchedulingEngineConfig.defaultOptions config with
            | Js.Absent => Js.Value builtinDefaultOptions
            | own => own
            end |};
     calendarCache := ∅ |}.

(** [this.config.defaultOptions], spread or read: [undefined] gives no
    property. *)
Definition defaultOptions (engine : t) : SchedulingOptions.t :=
  default SchedulingOptions.empty
    (Js.read (SchedulingEngineConfig.defaultOptions (config engine))).

(** [{ ...this.config.defaultOptions, ...options }]. *)
Definition mergeOptions (engine : t) (options : option SchedulingOptions.Own.t)
    : SchedulingOptions.t :=
  SchedulingOptions.spread (defaultOptions engine)
    (default SchedulingOptions.Own.empty options).

Definition needsMultiDayScheduling (sessions : list InterviewSession.t) : bool :=
  existsb (fun session => InterviewSession.breakAfter session >=? MINUTES_IN_DAY)
    sessions.

(** Fills [eventsMap] from the cache; an interviewer that is not cached
    gets an empty list, which is also written to the cache. *)
Definition fetchCalendarEvents (cache : gmap string (list CalendarEvent.t))
    (interviewers : list Interviewer.t)
    : gmap string (list CalendarEvent.t) * gmap string (list CalendarEvent.t) :=
  fold_left
    (fun '(eventsMap, cache) interviewer =>
       match cache !! Interviewer.email interviewer with
       | Some events => (<[Interviewer.id interviewer := events]> eventsMap, cache)
       | None =>
           (<[Interviewer.id interviewer := []]> eventsMap,
            <[Interviewer.email interviewer := []]> cache)
       end)
    interviewers (∅, cache).

(** A call of [zonedTimeToUtc] after [reads] clock reads. The binding
    imported from date-fns-tz is [undefined], since the declared version
    exports no function of that name, and calling it throws a TypeError. *)
Definition zonedTimeToUtc (date timezone : Z) (reads : nat) : Js.outcome Z :=
  Js.Thrown Js.TypeError reads.

(** The instants visited by
    [while (isBefore(currentDate, endDate) || isEqual(currentDate, endDate))]
    with a daily step from [currentDate]. *)
Definition instantsInRange (currentDate endDate : Z) : list Z :=
  if DateTime.isValid currentDate && DateTime.isValid endDate
  then map (fun i : nat => DateTime.addDays currentDate (Z.of_nat i))
         (seq 0 (Z.to_nat ((endDate - currentDate) / MS_PER_DAY + 1)))
  else [].

(** [array.slice(0, end)]. *)
Definition slice0 {A : Type} (l : list A) (end_ : option Z) : list A :=
  match end_ with
  | None => l
  | Some e =>
      if e <? 0 then take (Z.to_nat (Z.of_nat (length l) + e)) l
      else take (Z.to_nat e) l
  end.

(** One iteration of the loop of the single-day branch of [findSlots]. *)
Definition searchDay (clock : nat -> Z)
    (sessions : list InterviewSession.t) (interviewers : list Interviewer.t)
    (calendarEvents : gmap string (list CalendarEvent.t))
    (mergedOptions : SchedulingOptions.t) (currentDate : Z)
    (st : SlotFinder.state SessionCombination.t)
    : SlotFinder.step SessionCombination.t :=
  let dateStr := DateTime.toDate currentDate in
  match SlotFinder.findSlotsForDay clock sessions interviewers dateStr
          calendarEvents mergedOptions (fst st) with
  | Js.Thrown e reads => SlotFinder.Raise e reads
  | Js.Returned daySlots =>
      SlotFinder.Check (fst daySlots, snd st ++ snd daySlots)
  end.

Inductive FindSlotsResult : Type :=
| Combinations (combinations : list SessionCombination.t)
| Plans (plans : list MultiDayPlan.t).

(** The [catch] clause: a [SchedulingError] (or a subclass such as
    [ValidationError]) is rethrown, anything else is wrapped:
    [new SchedulingError(`Failed to find slots: ${error.message}`)]. *)
Definition rethrow {A : Type} (e : Js.error) (reads : nat) : Js.outcome A :=
  match e with
  | Js.TypeError | Js.RangeError =>
      Js.Thrown (Js.SchedulingError "Failed to find slots: " e) reads
  | Js.ValidationError _ | Js.SchedulingError _ _ => Js.Thrown e reads
  end.

(** The single-day branch of [findSlots]. *)
Definition findSingleDaySlots (engine : t) (clock : nat -> Z) (reads : nat)
    (options : FindSlotsOptions.t) (startDate endDate : Z)
    (calendarEvents : gmap string (list CalendarEvent.t))
    (mergedOptions : SchedulingOptions.t)
    : Js.outcome (SlotFinder.state SessionCombination.t) :=
  let timezone := SchedulingEngineConfig.timezone (config engine) in
  match zonedTimeToUtc startDate timezone reads with
  | Js.Thrown e reads' => Js.Thrown e reads'
  | Js.Returned currentDate =>
  match zonedTimeToUtc endDate timezone reads with
  | Js.Thrown e reads' => Js.Thrown e reads'
  | Js.Returned endDate =>
      match SlotFinder.forEach mergedOptions
              (searchDay clock (FindSlotsOptions.sessions options)
                 (FindSlotsOptions.interviewers options) calendarEvents mergedOptions)
              (instantsInRange currentDate endDate) (reads, []) with
      | Js.Thrown e reads' => Js.Thrown e reads'
      | Js.Returned (reads', allSlots) =>
          Js.Returned
            (reads', slice0 allSlots (SchedulingOptions.maxResults mergedOptions))
      end
  end end.

(** Returns the outcome of the call, the number of clock reads made and the
    calendar cache after the call. *)
Definition findSlots (engine : t) (clock : nat -> Z) (reads : nat)
    (options : FindSlotsOptions.t)
    : Js.outcome FindSlotsResult * nat * gmap string (list CalendarEvent.t) :=
  let cache := calendarCache engine in
  match FindSlotsOptions.sessions options with
  | [] =>
      (Js.Thrown (Js.ValidationError "At least one session is required.") reads,
       reads, cache)
  | _ :: _ =>
  match FindSlotsOptions.interviewers options with
  | [] =>
      (Js.Thrown (Js.ValidationError "At least one interviewer is required.") reads,
       reads, cache)
  | _ :: _ =>
  match FindSlotsOptions.dateRange options with
  | (None, _) | (_, None) =>
      (Js.Thrown
         (Js.ValidationError "A date range with a start and end is required.")
         reads,
       reads, cache)
  | (Some startDate, Some endDate) =>
      let mergedOptions := mergeOptions engine (FindSlotsOptions.options options) in
      let needsMultiDay := needsMultiDayScheduling (FindSlotsOptions.sessions options) in
      let '(calendarEvents, cache') :=
        fetchCalendarEvents cache (FindSlotsOptions.interviewers options) in
      if needsMultiDay then
        match SlotFinder.findMultiDaySlots clock (FindSlotsOptions.sessions options)
                (FindSlotsOptions.interviewers options) (startDate, endDate)
                calendarEvents mergedOptions reads with
        | Js.Thrown e reads' => (rethrow e reads', reads', cache')
        | Js.Returned (reads', plans) => (Js.Returned (Plans plans), reads', cache')
        end
      else
        match findSingleDaySlots engine clock reads options startDate endDate
                calendarEvents mergedOptions with
        | Js.Thrown e reads' => (rethrow e reads', reads', cache')
        | Js.Returned (reads', allSlots) =>
            (Js.Returned (Combinations allSlots), reads', cache')
        end
  end end end.

(** [this.calendarCache.delete(email)]. *)
Definition syncCalendar (engine : t) (email : string) : t :=
  {| config := config engine;
     calendarCache := delete email (calendarCache engine) |}.

(** The cached events of [email] that start on [date]. *)
Definition getBusyTimes (engine : t) (email : string) (date : Z)
    : list CalendarEvent.t :=
  let events := default [] (calendarCache engine !! email) in
  List.filter (fun event => DateTime.toDate (CalendarEvent.start event) =? date)
    events.

(** [findSlotsForDate] has no validation and no [catch] clause: what
    [findSlotsForDay] throws is thrown to the caller as it is. Returns the
    outcome, the number of clock reads made and the calendar cache after the
    call. *)
Definition findSlotsForDate (engine : t) (clock : nat -> Z) (reads : nat)
    (sessions : list InterviewSession.t) (interviewers : list Interviewer.t)
    (date : Z) (options : option SchedulingOptions.Own.t)
    : Js.outcome (list SessionCombination.t) * nat
      * gmap string (list CalendarEvent.t) :=
  let mergedOptions := mergeOptions engine options in
  let '(calendarEvents, cache') :=
    fetchCalendarEvents (calendarCache engine) interviewers in
  match SlotFinder.findSlotsForDay clock sessions interviewers date calendarEvents
          mergedOptions reads with
  | Js.Thrown e reads' => (Js.Thrown e reads', reads', cache')
  | Js.Returned st => (Js.Returned (snd st), fst st, cache')
  end.

Module SlotVerificationResult.
Record t : Type := {
  isAvailable : bool;
  conflicts : list SlotConflict.t;
  loadInfo : gmap string LoadInfo.t
}.
End SlotVerificationResult.

Definition extractSlots (slotOrPlan : SessionCombination.t + MultiDayPlan.t)
    : list InterviewSlot.t :=
  match slotOrPlan with
  | inr plan =>
      flat_map (fun r => SessionCombination.slots (RoundPlan.combination r))
        (MultiDayPlan.rounds plan)
  | inl combination => SessionCombination.slots combination
  end.

(** The conflicts [verifySlot] records for one interviewer of one slot:
    every overlapping calendar event, then the daily and the weekly limit. *)
Definition verifyConflicts (slot : InterviewSlot.t) (interviewer : Interviewer.t)
    (events : list CalendarEvent.t) (load : LoadInfo.t) : list SlotConflict.t :=
  SlotFinder.calendarConflicts slot interviewer events
  ++ (if Js.gt (LoadInfo.density (LoadInfo.daily load)) 1
      then [AvailabilityCheck.conflict ConflictType.daily_limit interviewer]
      else [])
  ++ (if Js.gt (LoadInfo.density (LoadInfo.weekly load)) 1
      then [AvailabilityCheck.conflict ConflictType.weekly_limit interviewer]
      else []).

(** The body of the inner loop of [verifySlot], on the pair of
    [allConflicts] and the own properties of [loadInfo], an object created
    by [{}]; an assignment whose interviewer is not among [interviewers] is
    skipped. *)
Definition verifyAssignment (calendarEvents : gmap string (list CalendarEvent.t))
    (defaultOptions : SchedulingOptions.t) (interviewers : list Interviewer.t)
    (slot : InterviewSlot.t)
    (acc : list SlotConflict.t * gmap string LoadInfo.t)
    (assignment : InterviewerAssignment.t)
    : list SlotConflict.t * gmap string LoadInfo.t :=
  match List.find
          (fun i => String.eqb (Interviewer.id i)
                      (InterviewerAssignment.interviewerId assignment))
          interviewers with
  | None => acc
  | Some interviewer =>
      let events := default [] (calendarEvents !! Interviewer.id interviewer) in
      let load :=
        LoadCalculation.calculateInterviewerLoad interviewer slot events
          defaultOptions in
      (fst acc ++ verifyConflicts slot interviewer events load,
       Js.assign (Interviewer.id interviewer) load (snd acc))
  end.

(** Returns the verification result and the calendar cache after the call. *)
Definition verifySlot (engine : t)
    (slot : SessionCombination.t + MultiDayPlan.t)
    (interviewers : list Interviewer.t)
    : SlotVerificationResult.t * gmap string (list CalendarEvent.t) :=
  let slots := extractSlots slot in
  let '(calendarEvents, cache') :=
    fetchCalendarEvents (calendarCache engine) interviewers in
  let defaultOptions := defaultOptions engine in
  let '(allConflicts, loadInfo) :=
    fold_left
      (fun acc slot =>
         fold_left (verifyAssignment calendarEvents defaultOptions interviewers slot)
           (InterviewSlot.interviewers slot) acc)
      slots ([], ∅) in
  ({| SlotVerificationResult.isAvailable :=
        match allConflicts with [] => true | _ => false end;
      SlotVerificationResult.conflicts := allConflicts;
      SlotVerificationResult.loadInfo := loadInfo |}, cache').

End SchedulingEngine.


(* ===================================================================== *)
(** ** Notions used to state the properties *)
(* ===================================================================== *)

Module Spec.

(** Lexicographic order on lists of positions of the pool. *)
Inductive lex_lt : list nat -> list nat -> Prop :=
| lex_nil y l : lex_lt [] (y :: l)
| lex_head x y l l' : (x < y)%nat -> lex_lt (x :: l) (y :: l')
| lex_tail x l l' : lex_lt l l' -> lex_lt (x :: l) (x :: l').

(** Pascal's rule; [choose_fact] below relates it to factorials. *)
Fixpoint choose (n k : nat) : nat :=
  match k with
  | O => 1
  | S k' =>
      match n with
      | O => 0
      | S n' => choose n' k' + choose n' k
      end
  end.

(** Two windows [[s1, e1)] and [[s2, e2)] of instants overlap. *)
Definition windowsOverlap (s1 e1 s2 e2 : Z) : Prop :=
  ~ (e1 <= s2 \/ s1 >= e2).

(** [x > q] as a proposition. *)
Definition exceeds (x : Js.num) (q : Q) : Prop :=
  match x with
  | Js.Fin a => (q < a)%Q
  | Js.PosInf => True
  | Js.NegInf | Js.NaN => False
  end.

(** [x < q], [x >= q] and [x <= q] as propositions; none holds of NaN. *)
Definition below (x : Js.num) (q : Q) : Prop :=
  match x with
  | Js.Fin a => (a < q)%Q
  | Js.NegInf => True
  | Js.PosInf | Js.NaN => False
  end.

Definition atLeast (x : Js.num) (q : Q) : Prop :=
  match x with
  | Js.Fin a => (q <= a)%Q
  | Js.PosInf => True
  | Js.NegInf | Js.NaN => False
  end.

Definition upTo (x : Js.num) (q : Q) : Prop :=
  match x with
  | Js.Fin a => (a <= q)%Q
  | Js.NegInf => True
  | Js.PosInf | Js.NaN => False
  end.

(** The time window of a placed slot. *)
Definition window (slot : InterviewSlot.t) : Z * Z :=
  (InterviewSlot.startTime slot, InterviewSlot.endTime slot).

(** The windows the single-day search gives to [sessions], in order, when
    the last slot placed before them ended at [lastEnd] ([None]: no slot is
    placed yet). This follows [calculateSessionStartTime] and
    [createAndCheckSlot]. *)
Fixpoint windowsFrom (date : Z) (lastEnd : option Z)
    (sessions : list InterviewSession.t) : list (Z * Z) :=
  match sessions with
  | [] => []
  | session :: sessions' =>
      let startTime :=
        match lastEnd with
        | None => DateTime.ofDate date + Constants.DEFAULT_APPOINTMENT_START_TIME
        | Some e => DateTime.addMinutes e (InterviewSession.breakAfter session)
        end in
      let endTime := DateTime.addMinutes startTime (InterviewSession.duration session) in
      (startTime, endTime) :: windowsFrom date (Some endTime) sessions'
  end.

(** A session with a non-negative duration and a non-negative break. *)
Definition nonNegative (session : InterviewSession.t) : Prop :=
  0 <= InterviewSession.duration session
  /\ 0 <= InterviewSession.breakAfter session.

(** The minutes [sessions] take, their breaks included. *)
Definition totalMinutes (sessions : list InterviewSession.t) : Z :=
  fold_right
    (fun session minutes =>
       InterviewSession.duration session + InterviewSession.breakAfter session
       + minutes)
    0 sessions.

(** The times of [sessions] stay in the range of Date on every day from
    [startDate] to [endDate]: durations and breaks are non-negative,
    [startDate] is a date a [Date] holds, and the sessions, placed one
    after the other from the default start time of [endDate], end within
    the range. *)
Definition withinDateRange (startDate endDate : Z)
    (sessions : list InterviewSession.t) : Prop :=
  Forall nonNegative sessions
  /\ - DateTime.MAX_TIME <= DateTime.ofDate startDate
  /\ DateTime.ofDate endDate + Constants.DEFAULT_APPOINTMENT_START_TIME
     + totalMinutes sessions * Constants.MS_PER_MINUTE
     <= DateTime.MAX_TIME.

(** An error that JavaScript itself raises, not one of the engine's. *)
Definition native (e : Js.error) : Prop := e = Js.TypeError \/ e = Js.RangeError.

(** The participants of a slot. *)
Definition participants (slot : InterviewSlot.t) : list string :=
  map InterviewerAssignment.interviewerId (InterviewSlot.interviewers slot).

(** Start time of the first round of a plan ([0] for a plan without rounds). *)
Definition firstRoundStart (plan : MultiDayPlan.t) : Z :=
  match MultiDayPlan.rounds plan with
  | round :: _ => SessionCombination.startTime (RoundPlan.combination round)
  | [] => 0
  end.

(** The rational a number is, when it is finite. *)
Definition finite (x : Js.num) : option Q :=
  match x with
  | Js.Fin a => Some a
  | Js.PosInf | Js.NegInf | Js.NaN => None
  end.

(** The per-participant densities of all rounds of a plan. *)
Definition planDensities (plan : MultiDayPlan.t) : list Q :=
  flat_map
    (fun round =>
       omap finite
         (snd <$> map_to_list
                    (SessionCombination.loadDensity (RoundPlan.combination round))))
    (MultiDayPlan.rounds plan).

(** Mean per-participant density across all rounds of a plan. *)
Definition planMeanDensity (plan : MultiDayPlan.t) : Q :=
  match planDensities plan with
  | [] => 0
  | values => (fold_left Qplus values 0 / inject_Z (Z.of_nat (length values)))%Q
  end.

(** The other reading: the mean of the rounds' average densities. *)
Definition planMeanOfRoundMeans (plan : MultiDayPlan.t) : Q :=
  match MultiDayPlan.rounds plan with
  | [] => 0
  | rounds =>
      (fold_left Qplus
         (omap (fun round =>
                  finite
                    (SlotFinder.getAverageLoadDensity
                       (SessionCombination.loadDensity (RoundPlan.combination round))))
            rounds) 0
       / inject_Z (Z.of_nat (length rounds)))%Q
  end.

(** The order the specification asks of multi-day results: first round's start
    time ascending, ties by mean density ascending. *)
Definition rankedBefore (mean : MultiDayPlan.t -> Q) (p q : MultiDayPlan.t) : Prop :=
  firstRoundStart p < firstRoundStart q
  \/ (firstRoundStart p = firstRoundStart q /\ (mean p <= mean q)%Q).

(** Results with the clock readings of their identifiers set to [0]. *)
Definition unstampSlot (slot : InterviewSlot.t) : InterviewSlot.t :=
  {| InterviewSlot.id :=
       match InterviewSlot.id slot with slot_id sessionId _ => slot_id sessionId 0 end;
     InterviewSlot.sessionId := InterviewSlot.sessionId slot;
     InterviewSlot.sessionName := InterviewSlot.sessionName slot;
     InterviewSlot.startTime := InterviewSlot.startTime slot;
     InterviewSlot.endTime := InterviewSlot.endTime slot;
     InterviewSlot.interviewers := InterviewSlot.interviewers slot;
     InterviewSlot.meetingType := InterviewSlot.meetingType slot;
     InterviewSlot.location := InterviewSlot.location slot |}.

Definition unstampCombination (c : SessionCombination.t) : SessionCombination.t :=
  {| SessionCombination.id :=
       match SessionCombination.id c with combo_id ids _ => combo_id ids 0 end;
     SessionCombination.date := SessionCombination.date c;
     SessionCombination.slots := map unstampSlot (SessionCombination.slots c);
     SessionCombination.startTime := SessionCombination.startTime c;
     SessionCombination.endTime := SessionCombination.endTime c;
     SessionCombination.totalDuration := SessionCombination.totalDuration c;
     SessionCombination.loadDensity := SessionCombination.loadDensity c |}.

Definition unstampRound (r : RoundPlan.t) : RoundPlan.t :=
  {| RoundPlan.roundNumber := RoundPlan.roundNumber r;
     RoundPlan.date := RoundPlan.date r;
     RoundPlan.combination := unstampCombination (RoundPlan.combination r);
     RoundPlan.sessions := RoundPlan.sessions r |}.

Definition unstampPlan (p : MultiDayPlan.t) : MultiDayPlan.t :=
  {| MultiDayPlan.id :=
       match MultiDayPlan.id p with plan_id dates _ => plan_id dates 0 end;
     MultiDayPlan.rounds := map unstampRound (MultiDayPlan.rounds p);
     MultiDayPlan.totalRounds := MultiDayPlan.totalRounds p;
     MultiDayPlan.allInterviewers := MultiDayPlan.allInterviewers p |}.

Definition unstampResult (r : SchedulingEngine.FindSlotsResult)
    : SchedulingEngine.FindSlotsResult :=
  match r with
  | SchedulingEngine.Combinations cs =>
      SchedulingEngine.Combinations (map unstampCombination cs)
  | SchedulingEngine.Plans ps => SchedulingEngine.Plans (map unstampPlan ps)
  end.

(** The clock that always reads [0]. *)
Definition stopped : nat -> Z := fun _ => 0.

Definition mapOutcome {A B : Type} (f : A -> B) (o : Js.outcome A) : Js.outcome B :=
  match o with
  | Js.Returned a => Js.Returned (f a)
  | Js.Thrown e reads => Js.Thrown e reads
  end.

Definition mapState {R R' : Type} (f : R -> R') (st : SlotFinder.state R)
    : SlotFinder.state R' :=
  (fst st, map f (snd st)).

Definition mapStep {R R' : Type} (f : R -> R') (s : SlotFinder.step R)
    : SlotFinder.step R' :=
  match s with
  | SlotFinder.Next st => SlotFinder.Next (mapState f st)
  | SlotFinder.Check st => SlotFinder.Check (mapState f st)
  | SlotFinder.Raise e reads => SlotFinder.Raise e reads
  end.

(** The type of overlap seen from the other chunk. *)
Definition mirror (t : OverlapType.t) : OverlapType.t :=
  match t with
  | OverlapType.left => OverlapType.right
  | OverlapType.right => OverlapType.left
  | OverlapType.enclosed => OverlapType.encloses
  | OverlapType.encloses => OverlapType.enclosed
  | OverlapType.none => OverlapType.none
  | OverlapType.exact => OverlapType.exact
  end.

(** A chunk whose normalized start is before its normalized end. *)
Definition proper (chunk : TimeChunk.t) : Prop :=
  ConflictDetection.normalizeTime (TimeChunk.startTime chunk)
  < ConflictDetection.normalizeTime (TimeChunk.endTime chunk).

(** Minutes covered by a chunk. *)
Definition chunkLength (chunk : TimeChunk.t) : Z :=
  ConflictDetection.normalizeTime (TimeChunk.endTime chunk)
  - ConflictDetection.normalizeTime (TimeChunk.startTime chunk).

(** The options with the two flags that no function reads removed. *)
Definition withoutUnusedFlags (o : SchedulingOptions.t) : SchedulingOptions.t :=
  {| SchedulingOptions.respectWorkHours := SchedulingOptions.respectWorkHours o;
     SchedulingOptions.respectHolidays := SchedulingOptions.respectHolidays o;
     SchedulingOptions.respectDayOffs := SchedulingOptions.respectDayOffs o;
     SchedulingOptions.respectDailyLimits := SchedulingOptions.respectDailyLimits o;
     SchedulingOptions.respectWeeklyLimits := SchedulingOptions.respectWeeklyLimits o;
     SchedulingOptions.checkCalendarConflicts :=
       SchedulingOptions.checkCalendarConflicts o;
     SchedulingOptions.excludeRecruitingBlocks := None;
     SchedulingOptions.balanceLoad := None;
     SchedulingOptions.maxResults := SchedulingOptions.maxResults o;
     SchedulingOptions.includeTrainingInterviewers :=
       SchedulingOptions.includeTrainingInterviewers o |}.

(** [x <= y] on numbers; it does not hold when one of them is NaN. *)
Definition atMost (x y : Js.num) : Prop :=
  match x, y with
  | Js.NaN, _ | _, Js.NaN => False
  | Js.NegInf, _ | _, Js.PosInf => True
  | Js.Fin a, Js.Fin b => (a <= b)%Q
  | Js.PosInf, _ | _, Js.NegInf => False
  end.

(** The ranking of single-day results: start time ascending, ties by
    average load density ascending. *)
Definition combinationRankedBefore (a b : SessionCombination.t) : Prop :=
  SessionCombination.startTime a < SessionCombination.startTime b
  \/ (SessionCombination.startTime a = SessionCombination.startTime b
      /\ atMost
           (SlotFinder.getAverageLoadDensity (SessionCombination.loadDensity a))
           (SlotFinder.getAverageLoadDensity (SessionCombination.loadDensity b))).

(** An id that names no member of [Object.prototype]. *)
Definition ownName (id : string) : Prop := Js.inherited id = false.

(** A combination whose average load density is a finite number. *)
Definition finiteAverage (c : SessionCombination.t) : Prop :=
  exists q : Q,
    SlotFinder.getAverageLoadDensity (SessionCombination.loadDensity c) = Js.Fin q.

(** The participants of a round. *)
Definition roundParticipants (round : RoundPlan.t) : list string :=
  SlotFinder.slotInterviewerIds
    (SessionCombination.slots (RoundPlan.combination round)).

(** A calendar cache that holds no event. *)
Definition holdsNoEvent (cache : gmap string (list CalendarEvent.t)) : Prop :=
  forall email events, cache !! email = Some events -> events = [].

(** The time of day of the two ends of an ISO chunk. *)
Definition timesOfDay (chunk : ConflictDetection.IsoChunk) : Z * Z :=
  (DateTime.minuteOfDay (fst chunk), DateTime.minuteOfDay (snd chunk)).

(** A session with a break below the day threshold after it. *)
Definition sameDayBreak (session : InterviewSession.t) : Prop :=
  InterviewSession.breakAfter session < Constants.MINUTES_IN_DAY.

(** The number of the week, Sunday to Saturday, that holds an instant. *)
Definition weekOf (t : Z) : Z := (DateTime.toDate t + 4) / 7.

(** A chunk whose normalized start is not after its normalized end. *)
Definition startsBeforeEnd (chunk : ConflictDetection.IsoChunk) : Prop :=
  fst (timesOfDay chunk) <= snd (timesOfDay chunk).

(** [{ ...this.config.defaultOptions, ...options }]: the options a call of
    the engine searches with. *)
Definition effectiveOptions (engine : SchedulingEngine.t)
    (options : option SchedulingOptions.Own.t) : SchedulingOptions.t :=
  SchedulingEngine.mergeOptions engine options.

(** The results of a [findSlots] call, each as [verifySlot] takes it. *)
Definition resultItems (result : SchedulingEngine.FindSlotsResult)
    : list (SessionCombination.t + MultiDayPlan.t) :=
  match result with
  | SchedulingEngine.Combinations combinations => map inl combinations
  | SchedulingEngine.Plans plans => map inr plans
  end.

(** A time of day inside a chunk: not before its start, before its end. *)
Definition during (t : Z) (chunk : ConflictDetection.IsoChunk) : Prop :=
  fst (timesOfDay chunk) <= t < snd (timesOfDay chunk).

(** Two chunks that share no time of day. *)
Definition apart (a b : ConflictDetection.IsoChunk) : Prop :=
  snd (timesOfDay a) <= fst (timesOfDay b)
  \/ snd (timesOfDay b) <= fst (timesOfDay a).

End Spec.

(** Invariants of the searches, used in the proofs below. *)
Module Invariants.
Import Spec.

(** What holds of a combination pushed by [exploreSlotCombinations] called
    on [sessions] with [currentSlots] already placed. *)
Definition emitted (date : Z) (currentSlots : list InterviewSlot.t)
    (sessions : list InterviewSession.t) (c : SessionCombination.t) : Prop :=
  exists added : list InterviewSlot.t,
    SessionCombination.slots c = currentSlots ++ added
    /\ map window added
       = windowsFrom date (InterviewSlot.endTime <$> last currentSlots) sessions
    /\ (exists first, head (SessionCombination.slots c) = Some first
          /\ SessionCombination.startTime c = InterviewSlot.startTime first)
    /\ SessionCombination.date c = date.

(** The results of a call are the results before it followed by new ones,
    each of which satisfies [Q]. *)
Definition extends {R : Type} (Q : R -> Prop) (before after : SlotFinder.state R)
    : Prop :=
  exists new : list R, snd after = snd before ++ new /\ Forall Q new.

(** A plan pushed under [previousRounds] keeps them as its first rounds. *)
Definition continues (previousRounds : list RoundPlan.t) (p : MultiDayPlan.t)
    : Prop :=
  exists more : list RoundPlan.t, MultiDayPlan.rounds p = previousRounds ++ more.

(** The gaps the multi-day search leaves between consecutive rounds: the
    later round is at least [ceil(breakAfter / 1440)] days after the earlier
    one, where [breakAfter] is that of the first session of the later round. *)
Definition gapsAsComputed (rounds : list RoundPlan.t) : Prop :=
  forall (i : nat) (earlier later : RoundPlan.t),
    rounds !! i = Some earlier ->
    rounds !! S i = Some later ->
    exists session,
      head (RoundPlan.sessions later) = Some session
      /\ RoundPlan.date earlier
         + Js.ceilDiv (InterviewSession.breakAfter session) Constants.MINUTES_IN_DAY
         <= RoundPlan.date later.

(** The start time of every combination found on [date]. *)
Definition dayStart (date : Z) : Z :=
  DateTime.ofDate date + Constants.DEFAULT_APPOINTMENT_START_TIME.

(** The end of the last slot placed on [date], or the day's start time. *)
Definition lastEnd (date : Z) (currentSlots : list InterviewSlot.t) : Z :=
  match last currentSlots with
  | Some lastSlot => InterviewSlot.endTime lastSlot
  | None => dayStart date
  end.

(** The sessions still to place after [currentSlots] stay in the range of
    Date. *)
Definition fits (date : Z) (currentSlots : list InterviewSlot.t)
    (sessions : list InterviewSession.t) : Prop :=
  Forall nonNegative sessions
  /\ - DateTime.MAX_TIME <= lastEnd date currentSlots
  /\ lastEnd date currentSlots + totalMinutes sessions * Constants.MS_PER_MINUTE
     <= DateTime.MAX_TIME.

(** A slot the single-day search placed for [session]: it carries the
    session's id and name, its participants are one of the session's
    combinations, and [checkSlotConflicts] found no conflict for them. *)
Definition placedFor
    (sessionCombinations : gmap string (list (list Interviewer.t)))
    (calendarEvents : gmap string (list CalendarEvent.t))
    (options : SchedulingOptions.t)
    (session : InterviewSession.t) (slot : InterviewSlot.t) : Prop :=
  InterviewSlot.sessionId slot = InterviewSession.id session
  /\ InterviewSlot.sessionName slot = InterviewSession.name session
  /\ exists combo : list Interviewer.t,
       In combo (default [] (sessionCombinations !! InterviewSession.id session))
       /\ participants slot = map Interviewer.id combo
       /\ SlotFinder.checkSlotConflicts slot combo calendarEvents options = [].

(** What holds, beyond [emitted], of a combination pushed by
    [exploreSlotCombinations]. *)
Definition covering
    (sessionCombinations : gmap string (list (list Interviewer.t)))
    (allInterviewers : list Interviewer.t)
    (calendarEvents : gmap string (list CalendarEvent.t))
    (options : SchedulingOptions.t)
    (currentSlots : list InterviewSlot.t) (sessions : list InterviewSession.t)
    (c : SessionCombination.t) : Prop :=
  exists added : list InterviewSlot.t,
    SessionCombination.slots c = currentSlots ++ added
    /\ Forall2 (placedFor sessionCombinations calendarEvents options) sessions added
    /\ InterviewSlot.endTime <$> last (SessionCombination.slots c)
       = Some (SessionCombination.endTime c)
    /\ SessionCombination.totalDuration c
       = SlotFinder.calculateTotalDuration (SessionCombination.slots c)
    /\ SessionCombination.loadDensity c
       = SlotFinder.calculateLoadDensity (SessionCombination.slots c) allInterviewers.

(** No participant of one round of [rounds] appears in another. *)
Definition roundsDisjoint (rounds : list RoundPlan.t) : Prop :=
  forall (i j : nat) (r1 r2 : RoundPlan.t) (id : string),
    i <> j -> rounds !! i = Some r1 -> rounds !! j = Some r2 ->
    In id (roundParticipants r1) -> ~ In id (roundParticipants r2).

(** The round plans [more] placed for the rounds [remaining], the first of
    them with round number [index]: each is on a date up to [endDate] and
    holds a combination that [findSlotsForDay] returned for the round's
    sessions on that date. *)
Definition roundsPlaced (clock : nat -> Z) (endDate : Z)
    (interviewers : list Interviewer.t)
    (calendarEvents : gmap string (list CalendarEvent.t))
    (options : SchedulingOptions.t) (index : nat)
    (remaining : list (list InterviewSession.t)) (more : list RoundPlan.t) : Prop :=
  map RoundPlan.roundNumber more = seq index (length remaining)
  /\ Forall2
       (fun sessions round =>
          RoundPlan.sessions round = sessions
          /\ RoundPlan.date round <= endDate
          /\ exists reads st,
               SlotFinder.findSlotsForDay clock sessions interviewers
                 (RoundPlan.date round) calendarEvents options reads
               = Js.Returned st
               /\ In (RoundPlan.combination round) (snd st))
       remaining more.

(** A slot whose participants are interviewers of the request for whom
    [checkSlotConflicts] found no conflict. *)
Definition accepted (interviewers : list Interviewer.t)
    (calendarEvents : gmap string (list CalendarEvent.t))
    (options : SchedulingOptions.t) (slot : InterviewSlot.t) : Prop :=
  exists combo : list Interviewer.t,
    (forall interviewer, In interviewer combo -> In interviewer interviewers)
    /\ participants slot = map Interviewer.id combo
    /\ SlotFinder.checkSlotConflicts slot combo calendarEvents options = [].

End Invariants.

(** Concrete inputs on which the searches are evaluated. Day 19800 is
    Monday 2024-03-18. *)
Module Scenarios.

Definition nineToFive : option TimeRange.t :=
  Some {| TimeRange.startTime := (9, 0); TimeRange.endTime := (17, 0) |}.

Definition everyDay : WorkHours.t :=
  {| WorkHours.monday := nineToFive; WorkHours.tuesday := nineToFive;
     WorkHours.wednesday := nineToFive; WorkHours.thursday := nineToFive;
     WorkHours.friday := nineToFive; WorkHours.saturday := nineToFive;
     WorkHours.sunday := nineToFive |}.

Definition limits (dailyMax : Q) : InterviewerLimits.t :=
  {| InterviewerLimits.daily :=
       {| LoadLimit.type := LoadLimit.count; LoadLimit.max := dailyMax |};
     InterviewerLimits.weekly :=
       {| LoadLimit.type := LoadLimit.count; LoadLimit.max := 10 |} |}.

(** An interviewer who works 09:00-17:00 every day, with count limits of
    3 a day and 10 a week. *)
Definition interviewer (id : string) : Interviewer.t :=
  {| Interviewer.id := id; Interviewer.name := id; Interviewer.email := id;
     Interviewer.workHours := everyDay; Interviewer.limits := limits 3;
     Interviewer.holidays := None; Interviewer.dayOffs := None;
     Interviewer.blockedTimes := None; Interviewer.isTraining := None |}.

(** A session that needs one interviewer. *)
Definition session (id : string) (duration breakAfter order : Z)
    (pool : option (list string)) : InterviewSession.t :=
  {| InterviewSession.id := id; InterviewSession.name := id;
     InterviewSession.duration := duration;
     InterviewSession.breakAfter := breakAfter;
     InterviewSession.requiredInterviewers := 1;
     InterviewSession.order := order;
     InterviewSession.meetingType := None; InterviewSession.location := None;
     InterviewSession.interviewerPool := pool |}.

Definition monday : Z := 19800.

(** Two clocks: [Date.now()] starting at two different instants. *)
Definition clockA (n : nat) : Z := 1700000000000 + Z.of_nat n.
Definition clockB (n : nat) : Z := 1800000000000 + Z.of_nat n.

(** The options the engine's constructor installs. *)
Definition enforced : SchedulingOptions.t := SchedulingEngine.builtinDefaultOptions.

(** Scenario C: two sessions on one day, [breakAfter] = 15 on the first. *)
Definition sessionsC : list InterviewSession.t :=
  [session "s1" 60 15 1 None; session "s2" 45 0 2 None].

(** Scenario D: two sessions, [breakAfter] = 1440 on the first. *)
Definition sessionsD : list InterviewSession.t :=
  [session "s1" 60 1440 1 None; session "s2" 60 0 2 None].

(** Two sessions where the second one asks for a negative break. *)
Definition sessionsNegativeBreak : list InterviewSession.t :=
  [session "s1" 60 0 1 None; session "s2" 60 (-30) 2 None].

(** Three sessions in two rounds; the second round has two sessions that
    share the pool [C; D]. *)
Definition sessionsTwoRounds : list InterviewSession.t :=
  [session "s1" 60 1440 1 (Some ["A"]);
   session "s2" 60 0 2 (Some ["C"; "D"]);
   session "s3" 60 0 3 (Some ["C"; "D"])].

(** A busy interval 09:30-10:30 on the Monday. *)
Definition busyMonday : CalendarEvent.t :=
  {| CalendarEvent.id := "e1"; CalendarEvent.title := "busy";
     CalendarEvent.start := DateTime.ofDate monday + 570 * Constants.MS_PER_MINUTE;
     CalendarEvent.end_ := DateTime.ofDate monday + 630 * Constants.MS_PER_MINUTE |}.

(** A busy interval 14:00-15:00 on the Monday. *)
Definition busyAfternoon : CalendarEvent.t :=
  {| CalendarEvent.id := "e2"; CalendarEvent.title := "busy";
     CalendarEvent.start := DateTime.ofDate monday + 840 * Constants.MS_PER_MINUTE;
     CalendarEvent.end_ := DateTime.ofDate monday + 900 * Constants.MS_PER_MINUTE |}.

(** Interviewer [A] of [interviewer], with a daily count limit of 1. *)
Definition interviewerOnePerDay : Interviewer.t :=
  {| Interviewer.id := "A"; Interviewer.name := "A"; Interviewer.email := "A";
     Interviewer.workHours := everyDay; Interviewer.limits := limits 1;
     Interviewer.holidays := None; Interviewer.dayOffs := None;
     Interviewer.blockedTimes := None; Interviewer.isTraining := None |}.

(** One session of 60 minutes. *)
Definition sessionsOne : list InterviewSession.t := [session "s1" 60 0 1 None].

(** [{ checkCalendarConflicts: true }] and [{ respectDailyLimits: true }]. *)
Definition onlyCalendar : SchedulingOptions.t :=
  SchedulingOptions.spread SchedulingOptions.empty
    {| SchedulingOptions.Own.respectWorkHours := Js.Absent;
       SchedulingOptions.Own.respectHolidays := Js.Absent;
       SchedulingOptions.Own.respectDayOffs := Js.Absent;
       SchedulingOptions.Own.respectDailyLimits := Js.Absent;
       SchedulingOptions.Own.respectWeeklyLimits := Js.Absent;
       SchedulingOptions.Own.checkCalendarConflicts := Js.Value true;
       SchedulingOptions.Own.excludeRecruitingBlocks := Js.Absent;
       SchedulingOptions.Own.balanceLoad := Js.Absent;
       SchedulingOptions.Own.maxResults := Js.Absent;
       SchedulingOptions.Own.includeTrainingInterviewers := Js.Absent |}.

Definition onlyDailyLimits : SchedulingOptions.t :=
  SchedulingOptions.spread SchedulingOptions.empty
    {| SchedulingOptions.Own.respectWorkHours := Js.Absent;
       SchedulingOptions.Own.respectHolidays := Js.Absent;
       SchedulingOptions.Own.respectDayOffs := Js.Absent;
       SchedulingOptions.Own.respectDailyLimits := Js.Value true;
       SchedulingOptions.Own.respectWeeklyLimits := Js.Absent;
       SchedulingOptions.Own.checkCalendarConflicts := Js.Absent;
       SchedulingOptions.Own.excludeRecruitingBlocks := Js.Absent;
       SchedulingOptions.Own.balanceLoad := Js.Absent;
       SchedulingOptions.Own.maxResults := Js.Absent;
       SchedulingOptions.Own.includeTrainingInterviewers := Js.Absent |}.

Definition engine : SchedulingEngine.t :=
  SchedulingEngine.constructor
    {| SchedulingEngine.SchedulingEngineConfig.timezone := 0;
       SchedulingEngine.SchedulingEngineConfig.defaultOptions := Js.Absent |}.

(** A [findSlots] request for the given sessions, interviewers and range,
    without an [options] property. *)
Definition request (sessions : list InterviewSession.t)
    (interviewers : list Interviewer.t) (dateRange : option Z * option Z)
    : SchedulingEngine.FindSlotsOptions.t :=
  {| SchedulingEngine.FindSlotsOptions.sessions := sessions;
     SchedulingEngine.FindSlotsOptions.interviewers := interviewers;
     SchedulingEngine.FindSlotsOptions.dateRange := dateRange;
     SchedulingEngine.FindSlotsOptions.options := None |}.

(** An interviewer in training. *)
Definition trainee (id : string) : Interviewer.t :=
  {| Interviewer.id := id; Interviewer.name := id; Interviewer.email := id;
     Interviewer.workHours := everyDay; Interviewer.limits := limits 3;
     Interviewer.holidays := None; Interviewer.dayOffs := None;
     Interviewer.blockedTimes := None; Interviewer.isTraining := Some true |}.

(** A slot of [A] on the Monday, 09:00-10:00. *)
Definition slotMonday : InterviewSlot.t :=
  {| InterviewSlot.id := slot_id "s1" 0;
     InterviewSlot.sessionId := "s1"; InterviewSlot.sessionName := "s1";
     InterviewSlot.startTime := DateTime.ofDate monday + 540 * Constants.MS_PER_MINUTE;
     InterviewSlot.endTime := DateTime.ofDate monday + 600 * Constants.MS_PER_MINUTE;
     InterviewSlot.interviewers :=
       [ {| InterviewerAssignment.interviewerId := "A";
            InterviewerAssignment.name := "A";
            InterviewerAssignment.email := "A";
            InterviewerAssignment.isTraining := None;
            InterviewerAssignment.status := Some pending |} ];
     InterviewSlot.meetingType := google_meet;
     InterviewSlot.location := None |}.

(** A session that needs two interviewers. *)
Definition sessionOfTwo : InterviewSession.t :=
  {| InterviewSession.id := "s1"; InterviewSession.name := "s1";
     InterviewSession.duration := 60; InterviewSession.breakAfter := 0;
     InterviewSession.requiredInterviewers := 2; InterviewSession.order := 1;
     InterviewSession.meetingType := None; InterviewSession.location := None;
     InterviewSession.interviewerPool := None |}.

(** The built-in options with the two flags that no function reads
    switched off. *)
Definition flagsOff : SchedulingOptions.t :=
  {| SchedulingOptions.respectWorkHours := Some true;
     SchedulingOptions.respectHolidays := Some true;
     SchedulingOptions.respectDayOffs := Some true;
     SchedulingOptions.respectDailyLimits := Some true;
     SchedulingOptions.respectWeeklyLimits := Some true;
     SchedulingOptions.checkCalendarConflicts := Some true;
     SchedulingOptions.excludeRecruitingBlocks := Some false;
     SchedulingOptions.balanceLoad := Some false;
     SchedulingOptions.maxResults := Some 100;
     SchedulingOptions.includeTrainingInterviewers := Some false |}.

End Scenarios.
(* ===================================================================== *)
(** ** Properties of [generateCombinations] *)
(* ===================================================================== *)

Section Combinations.
Import SlotFinder Spec.
Context {T : Type}.
Implicit Types (arr pool rest : list T) (first : T) (k : nat).

Lemma generateCombinations_zero arr : generateCombinations arr 0 = [[]].
Proof. destruct arr; reflexivity. Qed.

Lemma generateCombinations_nil (kz : Z) :
  kz <> 0 -> generateCombinations (@nil T) kz = [].
Proof. intros H. simpl. destruct (Z.eqb_spec kz 0); [lia | reflexivity]. Qed.

Lemma generateCombinations_cons first rest (kz : Z) :
  kz <> 0 -> kz <= Z.of_nat (S (length rest)) ->
  generateCombinations (first :: rest) kz
  = map (cons first) (generateCombinations rest (kz - 1))
    ++ generateCombinations rest kz.
Proof.
  intros H0 Hle. simpl generateCombinations.
  destruct (Z.eqb_spec kz 0); [lia |].
  destruct (Z.gtb_spec kz (Z.of_nat (S (length rest)))); [lia |].
  reflexivity.
Qed.

Lemma generateCombinations_too_many arr (kz : Z) :
  Z.of_nat (length arr) < kz -> generateCombinations arr kz = [].
Proof.
  intros H. destruct arr as [| first rest]; simpl generateCombinations.
  - destruct (Z.eqb_spec kz 0); [simpl in H; lia | reflexivity].
  - destruct (Z.eqb_spec kz 0); [lia |].
    destruct (Z.gtb_spec kz (Z.of_nat (S (length rest)))); [reflexivity |].
    simpl in H. lia.
Qed.

Lemma generateCombinations_negative arr (kz : Z) :
  kz < 0 -> generateCombinations arr kz = [].
Proof.
  revert kz. induction arr as [| first rest IH]; intros kz H.
  - apply generateCombinations_nil. lia.
  - rewrite generateCombinations_cons by lia.
    rewrite !IH by lia. reflexivity.
Qed.

(** One step of the recursion, on natural numbers. *)
Lemma generateCombinations_step first rest k :
  generateCombinations (first :: rest) (Z.of_nat (S k))
  = map (cons first) (generateCombinations rest (Z.of_nat k))
    ++ generateCombinations rest (Z.of_nat (S k)).
Proof.
  destruct (Z_le_gt_dec (Z.of_nat (S k)) (Z.of_nat (S (length rest)))) as [Hle | Hgt].
  - rewrite generateCombinations_cons by lia.
    replace (Z.of_nat (S k) - 1) with (Z.of_nat k) by lia. reflexivity.
  - rewrite (generateCombinations_too_many (first :: rest)) by (simpl; lia).
    rewrite (generateCombinations_too_many rest (Z.of_nat k)) by lia.
    rewrite (generateCombinations_too_many rest (Z.of_nat (S k))) by lia.
    reflexivity.
Qed.

Lemma generateCombinations_length arr k :
  length (generateCombinations arr (Z.of_nat k)) = choose (length arr) k.
Proof.
  revert k. induction arr as [| first rest IH]; intros [| k].
  - reflexivity.
  - rewrite generateCombinations_nil by lia. reflexivity.
  - rewrite generateCombinations_zero. reflexivity.
  - rewrite generateCombinations_step, length_app, length_map, !IH. reflexivity.
Qed.

Lemma generateCombinations_sizes arr k :
  Forall (fun combo => length combo = k) (generateCombinations arr (Z.of_nat k)).
Proof.
  revert k. induction arr as [| first rest IH]; intros [| k].
  - repeat constructor.
  - rewrite generateCombinations_nil by lia. constructor.
  - rewrite generateCombinations_zero. repeat constructor.
  - rewrite generateCombinations_step. apply Forall_app. split.
    + apply Forall_forall. intros c Hc. apply list_elem_of_In, in_map_iff in Hc.
      destruct Hc as (c' & <- & Hc'). simpl. f_equal.
      pose proof (IH k) as Hk. rewrite Forall_forall in Hk.
      apply Hk, list_elem_of_In, Hc'.
    + apply IH.
Qed.

Lemma generateCombinations_sublists arr k :
  Forall (fun combo => sublist combo arr) (generateCombinations arr (Z.of_nat k)).
Proof.
  revert k. induction arr as [| first rest IH]; intros [| k].
  - repeat constructor.
  - rewrite generateCombinations_nil by lia. constructor.
  - rewrite generateCombinations_zero. repeat constructor. apply sublist_nil_l.
  - rewrite generateCombinations_step. apply Forall_app. split.
    + apply Forall_forall. intros c Hc. apply list_elem_of_In, in_map_iff in Hc.
      destruct Hc as (c' & <- & Hc'). apply sublist_skip.
      pose proof (IH k) as Hk. rewrite Forall_forall in Hk.
      apply Hk, list_elem_of_In, Hc'.
    + eapply Forall_impl; [apply IH |]. intros c Hc. simpl in Hc.
      apply sublist_cons, Hc.
Qed.

Lemma generateCombinations_NoDup arr k :
  NoDup arr -> NoDup (generateCombinations arr (Z.of_nat k)).
Proof.
  revert k. induction arr as [| first rest IH]; intros [| k] Hnd.
  - repeat constructor. intros H. inversion H.
  - rewrite generateCombinations_nil by lia. constructor.
  - rewrite generateCombinations_zero. repeat constructor. intros H. inversion H.
  - apply NoDup_cons in Hnd as [Hfirst Hrest].
    rewrite generateCombinations_step. apply NoDup_app. split; [| split].
    + apply NoDup_fmap_2; [intros ? ? ?; congruence | apply IH, Hrest].
    + intros c Hc Hc'. apply list_elem_of_In, in_map_iff in Hc.
      destruct Hc as (c' & <- & _).
      pose proof (generateCombinations_sublists rest (S k)) as Hs.
      rewrite Forall_forall in Hs. apply Hs in Hc'.
      apply Hfirst. eapply elem_of_sublist; [| exact Hc']. left.
    + apply IH, Hrest.
Qed.

End Combinations.

Section CombinationCount.
Import Spec.

Lemma choose_gt n k : (n < k)%nat -> choose n k = 0%nat.
Proof.
  revert k. induction n as [| n IH]; intros [| k] H; try lia; simpl.
  - reflexivity.
  - rewrite !IH by lia. reflexivity.
Qed.

Lemma choose_diag n : choose n n = 1%nat.
Proof.
  induction n as [| n IH]; simpl; [reflexivity |].
  rewrite IH, choose_gt by lia. reflexivity.
Qed.

(** [choose n k] is the binomial coefficient [n! / (k! (n-k)!)]. *)
Lemma choose_fact n k :
  (k <= n)%nat -> (choose n k * (fact k * fact (n - k)) = fact n)%nat.
Proof.
  revert k. induction n as [| n IH]; intros [| k] H; try lia.
  - reflexivity.
  - change (choose (S n) 0) with 1%nat. change (fact 0) with 1%nat.
    rewrite Nat.sub_0_r. lia.
  - change (choose (S n) (S k)) with (choose n k + choose n (S k))%nat.
    replace (S n - S k)%nat with (n - k)%nat by lia.
    destruct (Nat.eq_dec k n) as [-> | Hne].
    + rewrite choose_diag, choose_gt by lia.
      rewrite Nat.sub_diag. simpl fact at 2. lia.
    + assert (Hk : (k <= n)%nat) by lia.
      assert (HSk : (S k <= n)%nat) by lia.
      pose proof (IH k Hk) as IH1. pose proof (IH (S k) HSk) as IH2.
      replace (n - k)%nat with (S (n - S k)) in * by lia.
      change (fact (S (n - S k))) with (S (n - S k) * fact (n - S k))%nat in *.
      change (fact (S n)) with (S n * fact n)%nat.
      change (fact (S k)) with (S k * fact k)%nat in *.
      set (a := choose n k) in *. set (b := choose n (S k)) in *.
      set (fk := fact k) in *. set (fr := fact (n - S k)) in *.
      set (fn := fact n) in *.
      replace ((a + b) * (S k * fk * (S (n - S k) * fr)))%nat
        with (S k * (a * (fk * (S (n - S k) * fr)))
              + S (n - S k) * (b * (S k * fk * fr)))%nat by ring.
      rewrite IH1, IH2. replace (S n) with (S k + S (n - S k))%nat by lia. ring.
Qed.

End CombinationCount.

Section CombinationOrder.
Import SlotFinder Spec.

Lemma StronglySorted_app_inv {A} (R : A -> A -> Prop) (l1 l2 : list A) :
  StronglySorted R l1 -> StronglySorted R l2 ->
  (forall x y, In x l1 -> In y l2 -> R x y) ->
  StronglySorted R (l1 ++ l2).
Proof.
  induction l1 as [| a l1 IH]; intros H1 H2 H12; simpl; [exact H2 |].
  inversion H1 as [| ? ? Hs Hf]; subst. constructor.
  - apply IH; [exact Hs | exact H2 |]. intros x y Hx Hy. apply H12; [right |]; assumption.
  - apply Forall_app. split; [exact Hf |].
    apply Forall_forall. intros y Hy. apply H12; [left; reflexivity |].
    apply list_elem_of_In, Hy.
Qed.

Lemma StronglySorted_map_cons (x : nat) (l : list (list nat)) :
  StronglySorted lex_lt l -> StronglySorted lex_lt (map (cons x) l).
Proof.
  induction 1 as [| c l Hs IH Hf]; simpl; constructor; [exact IH |].
  apply Forall_forall. intros c' Hc'. apply list_elem_of_In, in_map_iff in Hc'.
  destruct Hc' as (c'' & <- & Hin). apply lex_tail.
  rewrite Forall_forall in Hf. apply Hf, list_elem_of_In, Hin.
Qed.

(** On the positions [s, s+1, ..., s+n-1] the subsets come out in strictly
    increasing lexicographic order. *)
Lemma generateCombinations_seq_sorted (n s k : nat) :
  StronglySorted lex_lt (generateCombinations (seq s n) (Z.of_nat k)).
Proof.
  revert s k. induction n as [| n IH]; intros s [| k]; simpl seq.
  - repeat constructor.
  - rewrite generateCombinations_nil by lia. constructor.
  - rewrite generateCombinations_zero. repeat constructor.
  - rewrite generateCombinations_step. apply StronglySorted_app_inv.
    + apply StronglySorted_map_cons, IH.
    + apply IH.
    + intros x y Hx Hy. apply in_map_iff in Hx. destruct Hx as (c & <- & _).
      pose proof (generateCombinations_sizes (seq (S s) n) (S k)) as Hlen.
      pose proof (generateCombinations_sublists (seq (S s) n) (S k)) as Hsub.
      rewrite Forall_forall in Hlen, Hsub.
      apply list_elem_of_In in Hy. specialize (Hlen y Hy). specialize (Hsub y Hy).
      destruct y as [| y0 y]; [discriminate |]. apply lex_head.
      assert (Hy0 : y0 ∈ seq (S s) n).
      { eapply elem_of_sublist; [| exact Hsub]. left. }
      apply list_elem_of_In, in_seq in Hy0. lia.
Qed.

(** The function treats the elements of the pool uniformly. *)
Lemma generateCombinations_map {A B} (f : A -> B) (arr : list A) (kz : Z) :
  generateCombinations (map f arr) kz
  = map (map f) (generateCombinations arr kz).
Proof.
  revert kz. induction arr as [| first rest IH]; intros kz; simpl.
  - destruct (kz =? 0); reflexivity.
  - destruct (kz =? 0); [reflexivity |]. rewrite length_map.
    destruct (kz >? Z.of_nat (S (length rest))); [reflexivity |].
    rewrite map_app, !IH, !map_map. reflexivity.
Qed.

Lemma map_nth_positions {A} (l : list A) (d : A) :
  map (fun i => nth i l d) (seq 0 (length l)) = l.
Proof.
  induction l as [| a l IH]; simpl; [reflexivity |].
  f_equal. rewrite <- seq_shift, map_map. exact IH.
Qed.

End CombinationOrder.

(** C7. For a pool of [n] participants and [0 <= k <= n],
    [generateCombinations] returns exactly C(n,k) = n!/(k!(n-k)!) subsets;
    each has size [k] and keeps the pool's order; they are pairwise distinct
    when the participants are, and always pairwise distinct as sets of
    positions of the pool; they appear in lexicographic order of their
    positions in the pool (the result is the position-wise image of the
    subsets of [0..n-1], which are strictly increasing lexicographically);
    [k = 0] gives the single empty subset and [k > n] gives none. *)
Theorem generateCombinations_spec {T : Type} (pool : list T) (k : nat) (d : T) :
  ((k <= length pool)%nat ->
   (length (SlotFinder.generateCombinations pool (Z.of_nat k))
    * (fact k * fact (length pool - k)) = fact (length pool))%nat)
  /\ Forall (fun combo => length combo = k /\ sublist combo pool)
       (SlotFinder.generateCombinations pool (Z.of_nat k))
  /\ (NoDup pool -> NoDup (SlotFinder.generateCombinations pool (Z.of_nat k)))
  /\ SlotFinder.generateCombinations pool (Z.of_nat k)
     = map (map (fun i => nth i pool d))
         (SlotFinder.generateCombinations (seq 0 (length pool)) (Z.of_nat k))
  /\ StronglySorted Spec.lex_lt
       (SlotFinder.generateCombinations (seq 0 (length pool)) (Z.of_nat k))
  /\ NoDup (SlotFinder.generateCombinations (seq 0 (length pool)) (Z.of_nat k))
  /\ SlotFinder.generateCombinations pool 0 = [[]]
  /\ (forall kz : Z, Z.of_nat (length pool) < kz ->
      SlotFinder.generateCombinations pool kz = []).
Proof.
  repeat split.
  - intros Hk. rewrite generateCombinations_length. apply choose_fact, Hk.
  - apply Forall_and. split.
    + apply generateCombinations_sizes.
    + apply generateCombinations_sublists.
  - apply generateCombinations_NoDup.
  - rewrite <- generateCombinations_map, map_nth_positions. reflexivity.
  - apply generateCombinations_seq_sorted.
  - apply generateCombinations_NoDup, NoDup_seq.
  - apply generateCombinations_zero.
  - intros kz. apply generateCombinations_too_many.
Qed.

(** The pool [a; b; c; d] with [k = 2]: six distinct pairs. *)
Lemma generateCombinations_spec_witness :
  SlotFinder.generateCombinations ["a"; "b"; "c"; "d"] 2
  = [["a"; "b"]; ["a"; "c"]; ["a"; "d"]; ["b"; "c"]; ["b"; "d"]; ["c"; "d"]]
  /\ (length (SlotFinder.generateCombinations ["a"; "b"; "c"; "d"] 2) * (2 * 2) = 24)%nat
  /\ NoDup (SlotFinder.generateCombinations ["a"; "b"; "c"; "d"] 2).
Proof.
  pose proof (generateCombinations_spec ["a"; "b"; "c"; "d"] 2 "a") as (Hc & _ & Hn & _).
  split; [reflexivity |]. split.
  - apply Hc. simpl. lia.
  - apply Hn. apply (bool_decide_unpack _). vm_compute. exact I.
Defined.

(* ===================================================================== *)
(** ** Properties of the interval arithmetic *)
(* ===================================================================== *)

Section Intervals.
Import ConflictDetection.

(** A chunk whose end is not after its start (a window that crosses
    midnight, an empty window) does not overlap itself. *)
Lemma getOverlapType_self_degenerate (a : TimeChunk.t) :
  normalizeTime (TimeChunk.endTime a) <= normalizeTime (TimeChunk.startTime a) ->
  getOverlapType a a = OverlapType.none.
Proof.
  intros H. unfold getOverlapType.
  destruct (Z.leb_spec (normalizeTime (TimeChunk.endTime a))
              (normalizeTime (TimeChunk.startTime a))); [reflexivity | lia].
Qed.

End Intervals.

(** C9, as stated, fails: the window 23:30-00:30 compared with itself is
    classified [none], not [exact]; so is the empty window 10:00-10:00. *)
Lemma getOverlapType_self_counterexample :
  ConflictDetection.getOverlapType
    {| TimeChunk.startTime := TClock 23 30; TimeChunk.endTime := TClock 0 30 |}
    {| TimeChunk.startTime := TClock 23 30; TimeChunk.endTime := TClock 0 30 |}
  = OverlapType.none
  /\ ConflictDetection.getOverlapType
       {| TimeChunk.startTime := TNumber 600; TimeChunk.endTime := TNumber 600 |}
       {| TimeChunk.startTime := TNumber 600; TimeChunk.endTime := TNumber 600 |}
     = OverlapType.none
  /\ ~ (forall a : TimeChunk.t,
          ConflictDetection.getOverlapType a a = OverlapType.exact).
Proof.
  split; [reflexivity |]. split; [reflexivity |].
  intros H.
  specialize (H {| TimeChunk.startTime := TNumber 600; TimeChunk.endTime := TNumber 600 |}).
  discriminate H.
Qed.

(** C9, amended. [isTimeOverlap] is symmetric; [getOverlapType a a] is
    [exact] for every chunk whose normalized start is strictly before its
    normalized end; and two chunks that do not overlap (whatever their
    durations, equal or not) are classified [none]. *)
Theorem isTimeOverlap_symmetric_getOverlapType_classifies :
  (forall a b : TimeChunk.t,
     ConflictDetection.isTimeOverlap a b = ConflictDetection.isTimeOverlap b a)
  /\ (forall a : TimeChunk.t,
        ConflictDetection.normalizeTime (TimeChunk.startTime a)
        < ConflictDetection.normalizeTime (TimeChunk.endTime a) ->
        ConflictDetection.getOverlapType a a = OverlapType.exact)
  /\ (forall a b : TimeChunk.t,
        ConflictDetection.isTimeOverlap a b = false ->
        ConflictDetection.getOverlapType a b = OverlapType.none).
Proof.
  split; [| split].
  - intros a b. unfold ConflictDetection.isTimeOverlap. f_equal.
    rewrite orb_comm. f_equal.
    + rewrite Z.geb_leb. reflexivity.
    + rewrite Z.geb_leb. reflexivity.
  - intros a H. unfold ConflictDetection.getOverlapType.
    set (s := ConflictDetection.normalizeTime (TimeChunk.startTime a)) in *.
    set (e := ConflictDetection.normalizeTime (TimeChunk.endTime a)) in *.
    destruct (Z.leb_spec e s); [lia |].
    rewrite Z.geb_leb. destruct (Z.leb_spec e s); [lia |]. simpl.
    rewrite !Z.eqb_refl. reflexivity.
  - intros a b H. unfold ConflictDetection.isTimeOverlap in H.
    unfold ConflictDetection.getOverlapType.
    apply negb_false_iff in H. rewrite H. reflexivity.
Qed.

(** Symmetry on 09:00-10:00 against 09:30-10:30, [exact] for 09:00-10:00
    against itself, [none] for 09:00-10:00 against 10:00-11:00. *)
Lemma isTimeOverlap_symmetric_getOverlapType_classifies_witness :
  ConflictDetection.isTimeOverlap
    {| TimeChunk.startTime := TClock 9 0; TimeChunk.endTime := TClock 10 0 |}
    {| TimeChunk.startTime := TClock 9 30; TimeChunk.endTime := TClock 10 30 |}
  = ConflictDetection.isTimeOverlap
      {| TimeChunk.startTime := TClock 9 30; TimeChunk.endTime := TClock 10 30 |}
      {| TimeChunk.startTime := TClock 9 0; TimeChunk.endTime := TClock 10 0 |}
  /\ ConflictDetection.getOverlapType
       {| TimeChunk.startTime := TClock 9 0; TimeChunk.endTime := TClock 10 0 |}
       {| TimeChunk.startTime := TClock 9 0; TimeChunk.endTime := TClock 10 0 |}
     = OverlapType.exact
  /\ ConflictDetection.getOverlapType
       {| TimeChunk.startTime := TClock 9 0; TimeChunk.endTime := TClock 10 0 |}
       {| TimeChunk.startTime := TClock 10 0; TimeChunk.endTime := TClock 11 0 |}
     = OverlapType.none.
Proof.
  destruct isTimeOverlap_symmetric_getOverlapType_classifies as (Hsym & Hexact & Hnone).
  split; [apply Hsym |]. split.
  - apply Hexact. simpl. lia.
  - apply Hnone. reflexivity.
Defined.

(* ===================================================================== *)
(** ** Properties of the load categories *)
(* ===================================================================== *)

Section Load.
Import LoadCalculation.

Lemma Qle_bool_false (a q : Q) : Qle_bool a q = false <-> (q < a)%Q.
Proof.
  split.
  - intros H. apply Qnot_le_lt. intros Hle. apply Qle_bool_iff in Hle. congruence.
  - intros H. destruct (Qle_bool a q) eqn:E; [| reflexivity].
    apply Qle_bool_iff in E. exfalso. exact (Qlt_not_le _ _ H E).
Qed.

Lemma Js_gt_exceeds (x : Js.num) (q : Q) : Js.gt x q = true <-> Spec.exceeds x q.
Proof.
  destruct x as [a | | |]; cbn [Js.gt Spec.exceeds].
  - rewrite negb_true_iff. apply Qle_bool_false.
  - split; trivial.
  - split; [discriminate | contradiction].
  - split; [discriminate | contradiction].
Qed.

Lemma Js_ge_Fin (a q : Q) : Js.ge (Js.Fin a) q = true <-> (q <= a)%Q.
Proof. cbn [Js.ge]. apply Qle_bool_iff. Qed.

Lemma Js_ge_Fin_false (a q : Q) : Js.ge (Js.Fin a) q = false <-> (a < q)%Q.
Proof. cbn [Js.ge]. apply Qle_bool_false. Qed.

Lemma Js_gt_Fin_false (a q : Q) : Js.gt (Js.Fin a) q = false <-> (a <= q)%Q.
Proof. cbn [Js.gt]. rewrite negb_false_iff. apply Qle_bool_iff. Qed.

End Load.

(** C10, as stated, fails at the boundary: a density of exactly 1.0 is
    [high], not [over_limit]. It also fails at NaN, the density of an empty
    load against a maximum of 0: NaN is [low], although it is not below
    0.7. *)
Lemma getLoadDensityCategory_one_counterexample :
  LoadCalculation.getLoadDensityCategory (Js.Fin 1) = LoadCalculation.high
  /\ ~ (forall d : Q,
          LoadCalculation.getLoadDensityCategory (Js.Fin d) = LoadCalculation.over_limit
          <-> (1 <= d)%Q)
  /\ Js.div 0 0 = Js.NaN
  /\ LoadCalculation.getLoadDensityCategory Js.NaN = LoadCalculation.low
  /\ ~ Spec.below Js.NaN (7 # 10)
  /\ ~ (forall d : Js.num,
          LoadCalculation.getLoadDensityCategory d = LoadCalculation.low
          <-> Spec.below d (7 # 10)).
Proof.
  split; [reflexivity |]. split.
  - intros H.
    assert (H1 : LoadCalculation.getLoadDensityCategory (Js.Fin 1)
                 = LoadCalculation.over_limit).
    { apply H. apply Qle_refl. }
    discriminate H1.
  - split; [reflexivity |]. split; [reflexivity |]. split; [intros [] |].
    intros H. apply (H Js.NaN). reflexivity.
Qed.

(** C10, amended. For every density [d], finite, infinite or NaN: [low] iff
    [d < 0.7] or [d] is NaN, [medium] iff [0.7 <= d < 0.9], [high] iff
    [0.9 <= d <= 1.0], [over_limit] iff [d > 1.0]. And
    [wouldExceedLoadLimits] is true when the daily density exceeds 1.0 with
    [respectDailyLimits] true or the weekly density exceeds 1.0 with
    [respectWeeklyLimits] true, and only when a density exceeds 1.0 whose
    flag is not [false]; for options that give both flags this is the
    equivalence of the claim. Nothing is said of an exceeded limit whose
    flag is omitted. *)
Theorem getLoadDensityCategory_wouldExceedLoadLimits_spec :
  (forall d : Js.num,
     (LoadCalculation.getLoadDensityCategory d = LoadCalculation.low
      <-> Spec.below d (7 # 10) \/ d = Js.NaN)
     /\ (LoadCalculation.getLoadDensityCategory d = LoadCalculation.medium
         <-> Spec.atLeast d (7 # 10) /\ Spec.below d (9 # 10))
     /\ (LoadCalculation.getLoadDensityCategory d = LoadCalculation.high
         <-> Spec.atLeast d (9 # 10) /\ Spec.upTo d 1)
     /\ (LoadCalculation.getLoadDensityCategory d = LoadCalculation.over_limit
         <-> Spec.exceeds d 1))
  /\ (forall (loadInfo : LoadInfo.t) (options : SchedulingOptions.t),
        ((SchedulingOptions.respectDailyLimits options = Some true
          /\ Spec.exceeds (LoadInfo.density (LoadInfo.daily loadInfo)) 1)
         \/ (SchedulingOptions.respectWeeklyLimits options = Some true
             /\ Spec.exceeds (LoadInfo.density (LoadInfo.weekly loadInfo)) 1)
         -> LoadCalculation.wouldExceedLoadLimits loadInfo options = true)
        /\ (LoadCalculation.wouldExceedLoadLimits loadInfo options = true
            -> (SchedulingOptions.respectDailyLimits options <> Some false
                /\ Spec.exceeds (LoadInfo.density (LoadInfo.daily loadInfo)) 1)
               \/ (SchedulingOptions.respectWeeklyLimits options <> Some false
                   /\ Spec.exceeds (LoadInfo.density (LoadInfo.weekly loadInfo)) 1))
        /\ (SchedulingOptions.respectDailyLimits options <> None ->
            SchedulingOptions.respectWeeklyLimits options <> None ->
            (LoadCalculation.wouldExceedLoadLimits loadInfo options = true
             <-> (SchedulingOptions.respectDailyLimits options = Some true
                  /\ Spec.exceeds (LoadInfo.density (LoadInfo.daily loadInfo)) 1)
                 \/ (SchedulingOptions.respectWeeklyLimits options = Some true
                     /\ Spec.exceeds
                          (LoadInfo.density (LoadInfo.weekly loadInfo)) 1)))).
Proof.
  split.
  - intros [d | | |].
    + unfold LoadCalculation.getLoadDensityCategory.
      cbn [Spec.below Spec.atLeast Spec.upTo Spec.exceeds].
      destruct (Js.gt (Js.Fin d) 1) eqn:E1;
        [apply Js_gt_exceeds in E1; cbn [Spec.exceeds] in E1
        | apply Js_gt_Fin_false in E1];
      (destruct (Js.ge (Js.Fin d) (9 # 10)) eqn:E2;
        [apply Js_ge_Fin in E2 | apply Js_ge_Fin_false in E2]);
      (destruct (Js.ge (Js.Fin d) (7 # 10)) eqn:E3;
        [apply Js_ge_Fin in E3 | apply Js_ge_Fin_false in E3]);
      repeat split; intros; try discriminate; try reflexivity;
        repeat match goal with
               | H : _ /\ _ |- _ => destruct H
               | H : _ \/ _ |- _ => destruct H
               end;
        try discriminate; try (left; lra); lra.
    + cbn. repeat split; intros; try discriminate; try reflexivity;
        repeat match goal with
               | H : _ /\ _ |- _ => destruct H
               | H : _ \/ _ |- _ => destruct H
               end; try discriminate; try contradiction.
    + cbn. repeat split; intros; try discriminate; try reflexivity;
        repeat match goal with
               | H : _ /\ _ |- _ => destruct H
               | H : _ \/ _ |- _ => destruct H
               end; try discriminate; try contradiction; left; exact I.
    + cbn. repeat split; intros; try discriminate; try reflexivity;
        repeat match goal with
               | H : _ /\ _ |- _ => destruct H
               | H : _ \/ _ |- _ => destruct H
               end; try discriminate; try contradiction; right; reflexivity.
  - intros loadInfo options. unfold LoadCalculation.wouldExceedLoadLimits.
    rewrite <- !Js_gt_exceeds.
    destruct (SchedulingOptions.respectDailyLimits options) as [[|] |];
      destruct (SchedulingOptions.respectWeeklyLimits options) as [[|] |];
      destruct (Js.gt (LoadInfo.density (LoadInfo.daily loadInfo)) 1);
      destruct (Js.gt (LoadInfo.density (LoadInfo.weekly loadInfo)) 1);
      cbn;
      (split;
       [ intros [[H1 H2] | [H1 H2]]; try reflexivity; congruence
       | split;
         [ intros H; try discriminate H;
           first [ left; split; [discriminate | reflexivity]
                 | right; split; [discriminate | reflexivity] ]
         | intros Hd Hw;
           first
             [ congruence
             | split;
               [ intros H; try discriminate H;
                 first [ left; split; reflexivity | right; split; reflexivity ]
               | intros [[H1 H2] | [H1 H2]]; try reflexivity; congruence ] ] ] ]).
Qed.

(** Densities 0.5, 0.8, 1.0, 1.2 and NaN, and a daily load of 4 against a
    maximum of 3 with daily limits enforced. *)
Lemma getLoadDensityCategory_wouldExceedLoadLimits_witness :
  LoadCalculation.getLoadDensityCategory (Js.Fin (1 # 2)) = LoadCalculation.low
  /\ LoadCalculation.getLoadDensityCategory (Js.Fin (8 # 10)) = LoadCalculation.medium
  /\ LoadCalculation.getLoadDensityCategory (Js.Fin 1) = LoadCalculation.high
  /\ LoadCalculation.getLoadDensityCategory (Js.Fin (12 # 10)) = LoadCalculation.over_limit
  /\ LoadCalculation.getLoadDensityCategory Js.NaN = LoadCalculation.low
  /\ LoadCalculation.wouldExceedLoadLimits
       {| LoadInfo.daily :=
            {| LoadInfo.current := 4; LoadInfo.max := 3; LoadInfo.density := Js.div 4 3 |};
          LoadInfo.weekly :=
            {| LoadInfo.current := 4; LoadInfo.max := 10; LoadInfo.density := Js.div 4 10 |} |}
       (SchedulingEngine.builtinDefaultOptions) = true.
Proof.
  destruct getLoadDensityCategory_wouldExceedLoadLimits_spec as (Hcat & Hlim).
  destruct (Hcat (Js.Fin (1 # 2))) as (Hlow & _).
  destruct (Hcat (Js.Fin (8 # 10))) as (_ & Hmedium & _).
  destruct (Hcat (Js.Fin 1)) as (_ & _ & Hhigh & _).
  destruct (Hcat (Js.Fin (12 # 10))) as (_ & _ & _ & Hover).
  destruct (Hcat Js.NaN) as (Hnan & _).
  split; [apply Hlow; left; reflexivity |].
  split; [apply Hmedium; split; [discriminate | reflexivity] |].
  split; [apply Hhigh; split; discriminate |].
  split; [apply Hover; reflexivity |].
  split; [apply Hnan; right; reflexivity |].
  apply (proj1 (Hlim _ _)). left. split; reflexivity.
Defined.

(* ===================================================================== *)
(** ** Reasoning about the loops *)
(* ===================================================================== *)

Section LoopFacts.
Import SlotFinder.
Context {X R : Type}.
Variable options : SchedulingOptions.t.
Variable body : X -> state R -> step R.

(** A property of the state that every iteration keeps is kept by the loop. *)
Lemma forEach_invariant (P : state R -> Prop) (xs : list X) :
  (forall x st st', In x xs -> P st ->
     body x st = Next st' \/ body x st = Check st' -> P st') ->
  forall st st', P st -> forEach options body xs st = Js.Returned st' -> P st'.
Proof.
  induction xs as [| x xs IH]; intros Hbody st st' HP Hrun; simpl in Hrun.
  - injection Hrun as <-. exact HP.
  - assert (Hxs : forall y st0 st1, In y xs -> P st0 ->
              body y st0 = Next st1 \/ body y st0 = Check st1 -> P st1).
    { intros y st0 st1 Hy. apply Hbody. right. exact Hy. }
    destruct (body x st) as [st1 | st1 | e] eqn:Hx; [| | discriminate].
    + apply (IH Hxs st1 st'); [| exact Hrun].
      apply (Hbody x st st1); [left; reflexivity | exact HP | left; exact Hx].
    + assert (HP1 : P st1).
      { apply (Hbody x st st1); [left; reflexivity | exact HP | right; exact Hx]. }
      destruct (enough options (snd st1)).
      * injection Hrun as <-. exact HP1.
      * apply (IH Hxs st1 st'); assumption.
Qed.

(** A loop whose body never throws returns. *)
Lemma forEach_returns (xs : list X) :
  (forall x st, In x xs -> exists st', body x st = Next st' \/ body x st = Check st') ->
  forall st, exists st', forEach options body xs st = Js.Returned st'.
Proof.
  induction xs as [| x xs IH]; intros Hbody st; simpl.
  - eexists. reflexivity.
  - assert (Hxs : forall y st0, In y xs ->
              exists st1, body y st0 = Next st1 \/ body y st0 = Check st1).
    { intros y st0 Hy. apply Hbody. right. exact Hy. }
    destruct (Hbody x st (or_introl eq_refl)) as (st1 & [Hx | Hx]); rewrite Hx.
    + apply IH, Hxs.
    + destruct (enough options (snd st1)); [eexists; reflexivity | apply IH, Hxs].
Qed.

(** What a loop throws is what an iteration throws. *)
Lemma forEach_thrown (P : Js.error -> nat -> Prop) (xs : list X) :
  (forall x st e reads, In x xs -> body x st = Raise e reads -> P e reads) ->
  forall st e reads, forEach options body xs st = Js.Thrown e reads -> P e reads.
Proof.
  induction xs as [| x xs IH]; intros Hbody st e reads Hrun; simpl in Hrun;
    [discriminate |].
  assert (Hxs : forall y st0 e0 n, In y xs -> body y st0 = Raise e0 n -> P e0 n).
  { intros y st0 e0 n Hy. apply Hbody. right. exact Hy. }
  destruct (body x st) as [st1 | st1 | e1 n1] eqn:Hx.
  - exact (IH Hxs st1 e reads Hrun).
  - destruct (enough options (snd st1)); [discriminate |].
    exact (IH Hxs st1 e reads Hrun).
  - injection Hrun as <- <-. apply (Hbody x st); [left; reflexivity | exact Hx].
Qed.

End LoopFacts.

Section LoopMap.
Import SlotFinder Spec.
Context {X X' R R' : Type}.
Variable options : SchedulingOptions.t.
Variable hx : X -> X'.
Variable hr : R -> R'.
Variable body : X -> state R -> step R.
Variable body' : X' -> state R' -> step R'.

Lemma enough_map (results : list R) :
  enough options (map hr results) = enough options results.
Proof. unfold enough. rewrite length_map. reflexivity. Qed.

(** Two loops whose bodies correspond under [hx] and [hr] correspond. *)
Lemma forEach_map (xs : list X) :
  (forall x st, In x xs -> body' (hx x) (mapState hr st) = mapStep hr (body x st)) ->
  forall st,
    forEach options body' (map hx xs) (mapState hr st)
    = mapOutcome (mapState hr) (forEach options body xs st).
Proof.
  induction xs as [| x xs IH]; intros Hbody st; simpl; [reflexivity |].
  assert (Hxs : forall y st0, In y xs ->
            body' (hx y) (mapState hr st0) = mapStep hr (body y st0)).
  { intros y st0 Hy. apply Hbody. right. exact Hy. }
  rewrite (Hbody x st (or_introl eq_refl)).
  destruct (body x st) as [st1 | st1 | e]; simpl; [apply IH, Hxs | | reflexivity].
  rewrite enough_map. destruct (enough options (snd st1)); [reflexivity |].
  apply IH, Hxs.
Qed.

End LoopMap.

(* ===================================================================== *)
(** ** The stable sort *)
(* ===================================================================== *)

Section SortFacts.
Context {A : Type}.
Variable cmp : A -> A -> comparison.

Lemma insert_Permutation (x : A) (l : list A) :
  Permutation (Js.insert cmp x l) (x :: l).
Proof.
  induction l as [| y l IH]; simpl; [reflexivity |].
  destruct (cmp x y); try reflexivity.
  rewrite IH. apply perm_swap.
Qed.

Lemma sort_Permutation (l : list A) : Permutation (Js.sort cmp l) l.
Proof.
  induction l as [| x l IH]; simpl; [reflexivity |].
  rewrite insert_Permutation, IH. reflexivity.
Qed.

Lemma sort_In (x : A) (l : list A) : In x (Js.sort cmp l) <-> In x l.
Proof.
  split; intros H; apply list_elem_of_In; apply list_elem_of_In in H.
  - rewrite <- (sort_Permutation l). exact H.
  - rewrite (sort_Permutation l). exact H.
Qed.

Lemma sort_nil_inv (l : list A) : Js.sort cmp l = [] -> l = [].
Proof.
  intros H. apply Permutation_nil. rewrite <- H. apply sort_Permutation.
Qed.

End SortFacts.

Section SortMap.
Context {A B : Type}.
Variable cmp : A -> A -> comparison.
Variable cmp' : B -> B -> comparison.
Variable f : A -> B.
Hypothesis cmp_f : forall a b, cmp' (f a) (f b) = cmp a b.

Lemma insert_map (x : A) (l : list A) :
  Js.insert cmp' (f x) (map f l) = map f (Js.insert cmp x l).
Proof.
  induction l as [| y l IH]; simpl; [reflexivity |].
  rewrite cmp_f. destruct (cmp x y); simpl; try reflexivity.
  rewrite IH. reflexivity.
Qed.

Lemma sort_map (l : list A) : Js.sort cmp' (map f l) = map f (Js.sort cmp l).
Proof.
  induction l as [| x l IH]; simpl; [reflexivity |].
  rewrite IH. apply insert_map.
Qed.

End SortMap.
(* ===================================================================== *)
(** ** The single-day search *)
(* ===================================================================== *)

Section ExtendsFacts.
Import SlotFinder Invariants.
Context {R : Type}.

Lemma extends_refl (Q : R -> Prop) (st : state R) : extends Q st st.
Proof. exists []. split; [symmetry; apply app_nil_r | constructor]. Qed.

Lemma extends_same (Q : R -> Prop) (st st' : state R) :
  snd st' = snd st -> extends Q st st'.
Proof. intros H. exists []. split; [rewrite H, app_nil_r; reflexivity | constructor]. Qed.

Lemma extends_trans (Q : R -> Prop) (st1 st2 st3 : state R) :
  extends Q st1 st2 -> extends Q st2 st3 -> extends Q st1 st3.
Proof.
  intros (n1 & H1 & F1) (n2 & H2 & F2). exists (n1 ++ n2). split.
  - rewrite H2, H1, app_assoc. reflexivity.
  - apply Forall_app. split; assumption.
Qed.

Lemma extends_impl (Q Q' : R -> Prop) (st st' : state R) :
  (forall r, Q r -> Q' r) -> extends Q st st' -> extends Q' st st'.
Proof.
  intros HQ (new & H & F). exists new. split; [exact H |].
  eapply Forall_impl; [exact F | exact HQ].
Qed.

End ExtendsFacts.

Section SingleDayFacts.
Import SlotFinder Spec Invariants.
Variable clock : nat -> Z.
Variable sessionCombinations : gmap string (list (list Interviewer.t)).
Variable allInterviewers : list Interviewer.t.
Variable date : Z.
Variable calendarEvents : gmap string (list CalendarEvent.t).
Variable options : SchedulingOptions.t.

Lemma addMinutesToTime_Some (t m r : Z) :
  addMinutesToTime t m = Some r ->
  r = DateTime.addMinutes t m
  /\ DateTime.isValid t = true /\ DateTime.isValid r = true.
Proof.
  unfold addMinutesToTime. intros H.
  destruct (DateTime.isValid t) eqn:Ht; [| discriminate].
  destruct (DateTime.isValid (DateTime.addMinutes t m)) eqn:Hr; [| discriminate].
  injection H as <-. repeat split. exact Hr.
Qed.

Lemma isValid_iff (t : Z) :
  DateTime.isValid t = true <-> - DateTime.MAX_TIME <= t <= DateTime.MAX_TIME.
Proof. unfold DateTime.isValid. lia. Qed.

Lemma addMinutesToTime_valid (t m : Z) :
  - DateTime.MAX_TIME <= t <= DateTime.MAX_TIME ->
  - DateTime.MAX_TIME <= DateTime.addMinutes t m <= DateTime.MAX_TIME ->
  addMinutesToTime t m = Some (DateTime.addMinutes t m).
Proof.
  intros Ht Hr. unfold addMinutesToTime.
  rewrite (proj2 (isValid_iff t) Ht), (proj2 (isValid_iff _) Hr). reflexivity.
Qed.

Lemma createAndCheckSlot_Some session combo startTime reads slot reads' :
  createAndCheckSlot clock calendarEvents options session combo startTime reads
  = Js.Returned (Some slot, reads') ->
  InterviewSlot.startTime slot = startTime
  /\ InterviewSlot.endTime slot
     = DateTime.addMinutes startTime (InterviewSession.duration session)
  /\ participants slot = map Interviewer.id combo.
Proof.
  unfold createAndCheckSlot. intros H.
  destruct (addMinutesToTime startTime (InterviewSession.duration session))
    as [endTime |] eqn:Hend; [| discriminate].
  apply addMinutesToTime_Some in Hend as (-> & _ & _).
  destruct (checkSlotConflicts _ combo calendarEvents options); [| discriminate].
  injection H as <- _. unfold participants. simpl.
  repeat split. rewrite map_map. reflexivity.
Qed.

(** A slot is created as soon as its end time is one a Date holds. *)
Lemma createAndCheckSlot_returns session combo startTime reads :
  - DateTime.MAX_TIME <= startTime <= DateTime.MAX_TIME ->
  - DateTime.MAX_TIME
    <= DateTime.addMinutes startTime (InterviewSession.duration session)
    <= DateTime.MAX_TIME ->
  exists slot,
    createAndCheckSlot clock calendarEvents options session combo startTime reads
    = Js.Returned (slot, S reads).
Proof.
  intros Hs He. unfold createAndCheckSlot.
  rewrite (addMinutesToTime_valid _ _ Hs He). eexists. reflexivity.
Qed.

Lemma last_snoc_endTime (currentSlots : list InterviewSlot.t) slot :
  InterviewSlot.endTime <$> last (currentSlots ++ [slot])
  = Some (InterviewSlot.endTime slot).
Proof. rewrite last_snoc. reflexivity. Qed.

Lemma emitted_step currentSlots session sessions slot c :
  calculateSessionStartTime currentSlots session date
  = Some (InterviewSlot.startTime slot) ->
  InterviewSlot.endTime slot
  = DateTime.addMinutes (InterviewSlot.startTime slot) (InterviewSession.duration session) ->
  emitted date (currentSlots ++ [slot]) sessions c ->
  emitted date currentSlots (session :: sessions) c.
Proof.
  intros Hstart Hend (added & Hslots & Hwin & Hfirst & Hdate).
  exists (slot :: added). repeat split.
  - rewrite Hslots, <- app_assoc. reflexivity.
  - simpl. rewrite Hwin, last_snoc_endTime. unfold window.
    unfold calculateSessionStartTime in Hstart.
    destruct (last currentSlots) as [lastSlot |]; simpl.
    + apply addMinutesToTime_Some in Hstart as (Hstart & _ & _).
      rewrite <- Hstart, <- Hend. reflexivity.
    + injection Hstart as Hstart. rewrite Hstart, <- Hend. reflexivity.
  - exact Hfirst.
  - exact Hdate.
Qed.

(** Every combination pushed by the exploration extends the slots placed
    so far with one slot per remaining session, at the computed times. *)
Lemma exploreSlotCombinations_emitted sessions :
  forall currentSlots st st',
    exploreSlotCombinations clock sessionCombinations allInterviewers date
      calendarEvents options sessions currentSlots st = Js.Returned st' ->
    extends (emitted date currentSlots sessions) st st'.
Proof.
  induction sessions as [| session sessions IH]; intros currentSlots st st' Hrun.
  - simpl in Hrun. unfold emitCombination in Hrun.
    destruct currentSlots as [| first rest] eqn:Hcs; [discriminate |].
    destruct (last (first :: rest)) as [lastSlot |]; [| discriminate].
    injection Hrun as <-. eexists [_]. split; [reflexivity |].
    constructor; [| constructor].
    exists []. simpl. repeat split.
    + rewrite app_nil_r. reflexivity.
    + exists first. split; reflexivity.
  - simpl in Hrun.
    destruct (calculateSessionStartTime currentSlots session date)
      as [startTime |] eqn:Hstart; [| discriminate].
    revert Hrun. apply forEach_invariant; [| apply extends_refl].
    intros combo st0 st1 _ Hst0 Hbody. unfold tryCombination in Hbody.
    destruct (createAndCheckSlot clock calendarEvents options session combo
                startTime (fst st0))
      as [[[slot |] reads] | e n] eqn:Hslot.
    + destruct (exploreSlotCombinations _ _ _ _ _ _ sessions
                  (currentSlots ++ [slot]) (reads, snd st0)) as [st2 | e n] eqn:Hrec.
      * destruct Hbody as [Hbody | Hbody]; [discriminate |].
        injection Hbody as <-.
        apply (extends_trans _ st st0 st2); [exact Hst0 |].
        apply IH in Hrec.
        assert (Hrec' : extends (emitted date (currentSlots ++ [slot]) sessions) st0 st2)
          by exact Hrec.
        revert Hrec'. apply extends_impl. intros c.
        apply createAndCheckSlot_Some in Hslot as (Hs & He & _).
        apply emitted_step; [rewrite Hs; exact Hstart | rewrite Hs; exact He].
      * destruct Hbody; discriminate.
    + destruct Hbody as [Hbody | Hbody]; [| discriminate].
      injection Hbody as <-. exact Hst0.
    + destruct Hbody; discriminate.
Qed.

Lemma lastEnd_snoc currentSlots slot :
  lastEnd date (currentSlots ++ [slot]) = InterviewSlot.endTime slot.
Proof. unfold lastEnd. rewrite last_snoc. reflexivity. Qed.

(** The start time of the next session is computed when the sessions
    fit. *)
Lemma calculateSessionStartTime_fits currentSlots session sessions :
  fits date currentSlots (session :: sessions) ->
  exists startTime,
    calculateSessionStartTime currentSlots session date = Some startTime
    /\ lastEnd date currentSlots <= startTime
    /\ startTime + InterviewSession.duration session * Constants.MS_PER_MINUTE
       + totalMinutes sessions * Constants.MS_PER_MINUTE
       <= lastEnd date currentSlots
          + totalMinutes (session :: sessions) * Constants.MS_PER_MINUTE.
Proof.
  intros (Hpos & Hlow & Hhigh).
  assert (Hrest : 0 <= totalMinutes sessions).
  { inversion Hpos as [| s l _ Hl]; subst. clear - Hl.
    induction Hl as [| s l (Hd & Hb) _ IH]; simpl; lia. }
  inversion Hpos as [| s l (Hd & Hb) _]; subst.
  unfold calculateSessionStartTime, lastEnd in *. cbn [totalMinutes fold_right] in *.
  fold (totalMinutes sessions) in *.
  unfold Constants.MS_PER_MINUTE in *.
  destruct (last currentSlots) as [lastSlot |].
  - rewrite addMinutesToTime_valid;
      unfold DateTime.addMinutes, Constants.MS_PER_MINUTE; [| lia | lia].
    eexists. split; [reflexivity |]. lia.
  - eexists. split; [reflexivity |]. unfold dayStart. lia.
Qed.

(** The exploration returns as soon as it has a slot or a session, and the
    times of the sessions stay in the range of Date. *)
Lemma exploreSlotCombinations_returns sessions :
  forall currentSlots st,
    currentSlots <> [] \/ sessions <> [] ->
    fits date currentSlots sessions ->
    exists st',
      exploreSlotCombinations clock sessionCombinations allInterviewers date
        calendarEvents options sessions currentSlots st = Js.Returned st'.
Proof.
  induction sessions as [| session sessions IH]; intros currentSlots st Hne Hfits.
  - destruct Hne as [Hne | Hne]; [| contradiction].
    simpl. unfold emitCombination.
    destruct currentSlots as [| first rest]; [contradiction |].
    destruct (last (first :: rest)) as [lastSlot |] eqn:Hlast.
    + eexists. reflexivity.
    + apply last_None in Hlast. discriminate.
  - simpl.
    destruct (calculateSessionStartTime_fits _ _ _ Hfits)
      as (startTime & -> & Hlow & Hhigh).
    destruct Hfits as (Hpos & Hlow0 & Hhigh0).
    assert (Hrest : 0 <= totalMinutes sessions).
    { inversion Hpos as [| s l _ Hl]; subst. clear - Hl.
      induction Hl as [| s l (Hd & Hb) _ IHl]; simpl; lia. }
    inversion Hpos as [| s l (Hd & Hb) Hpos']; subst.
    apply forEach_returns. intros combo st0 _. unfold tryCombination.
    destruct (createAndCheckSlot_returns session combo startTime (fst st0))
      as (slot & Hslot).
    { unfold Constants.MS_PER_MINUTE in *. lia. }
    { unfold DateTime.addMinutes, Constants.MS_PER_MINUTE in *. lia. }
    rewrite Hslot. destruct slot as [slot |].
    + apply createAndCheckSlot_Some in Hslot as (Hs & He & _).
      destruct (IH (currentSlots ++ [slot]) (S (fst st0), snd st0)) as (st1 & Hst1).
      { left. intros H. apply app_eq_nil in H as [_ H]. discriminate. }
      { split; [exact Hpos' |]. rewrite lastEnd_snoc, He.
        unfold DateTime.addMinutes, Constants.MS_PER_MINUTE in *. lia. }
      rewrite Hst1. eexists. right. reflexivity.
    + eexists. left. reflexivity.
Qed.

(** The exploration throws nothing but the errors of the language. *)
Lemma exploreSlotCombinations_thrown sessions :
  forall currentSlots st e reads,
    exploreSlotCombinations clock sessionCombinations allInterviewers date
      calendarEvents options sessions currentSlots st = Js.Thrown e reads ->
    native e.
Proof.
  induction sessions as [| session sessions IH]; intros currentSlots st e reads Hrun.
  - simpl in Hrun. unfold emitCombination in Hrun.
    destruct currentSlots as [| first rest]; [injection Hrun as <- _; left; reflexivity |].
    destruct (last (first :: rest)); [discriminate |].
    injection Hrun as <- _. left. reflexivity.
  - simpl in Hrun.
    destruct (calculateSessionStartTime currentSlots session date) as [startTime |];
      [| injection Hrun as <- _; right; reflexivity].
    revert Hrun. apply (forEach_thrown options _ (fun e _ => native e)).
    intros combo st0 e0 n _ Hbody. unfold tryCombination in Hbody.
    unfold createAndCheckSlot in Hbody.
    destruct (addMinutesToTime startTime (InterviewSession.duration session));
      [| injection Hbody as <- _; right; reflexivity].
    destruct (checkSlotConflicts _ combo calendarEvents options); [| discriminate].
    destruct (exploreSlotCombinations _ _ _ _ _ _ sessions _ _) as [st2 | e2 n2] eqn:Hrec;
      [discriminate |].
    injection Hbody as <- _. exact (IH _ _ _ _ Hrec).
Qed.

End SingleDayFacts.

Section FindSlotsForDayFacts.
Import SlotFinder Spec Invariants.

Lemma sortByOrder_In (session : InterviewSession.t) sessions :
  In session (sortByOrder sessions) <-> In session sessions.
Proof. apply sort_In. Qed.

Lemma sortByOrder_nonempty sessions : sessions <> [] -> sortByOrder sessions <> [].
Proof. intros H Hs. apply H. eapply sort_nil_inv, Hs. Qed.

Lemma findSlotsForDay_emitted clock sessions interviewers date calendarEvents
    options reads st :
  findSlotsForDay clock sessions interviewers date calendarEvents options reads
  = Js.Returned st ->
  Forall (emitted date [] (sortByOrder sessions)) (snd st).
Proof.
  unfold findSlotsForDay, generateAllSlotCombinations. intros H.
  destruct (exploreSlotCombinations _ _ _ _ _ _ _ _ _) as [st0 | e] eqn:Hrun;
    [| discriminate].
  injection H as <-. simpl.
  apply exploreSlotCombinations_emitted in Hrun as (new & Hnew & Hall).
  simpl in Hnew. subst new. apply Forall_forall. intros c Hc.
  rewrite Forall_forall in Hall. apply Hall.
  apply list_elem_of_In. apply list_elem_of_In, sort_In in Hc. exact Hc.
Qed.

Lemma totalMinutes_Permutation (l l' : list InterviewSession.t) :
  Permutation l l' -> totalMinutes l = totalMinutes l'.
Proof.
  induction 1 as [| x l l' _ IH | x y l | l l' l'' _ IH1 _ IH2]; simpl;
    [reflexivity | rewrite IH; reflexivity | lia | congruence].
Qed.

Lemma withinDateRange_sorted startDate endDate sessions :
  withinDateRange startDate endDate sessions ->
  withinDateRange startDate endDate (sortByOrder sessions).
Proof.
  intros (Hpos & Hlow & Hhigh). split; [| split; [exact Hlow |]].
  - apply Forall_forall. intros s Hs. rewrite Forall_forall in Hpos.
    apply Hpos. apply list_elem_of_In. apply sortByOrder_In.
    apply list_elem_of_In. exact Hs.
  - unfold sortByOrder.
    rewrite (totalMinutes_Permutation _ _ (sort_Permutation _ sessions)).
    exact Hhigh.
Qed.

(** The sessions fit on every day of the range. *)
Lemma withinDateRange_fits startDate endDate sessions date :
  withinDateRange startDate endDate sessions ->
  startDate <= date <= endDate ->
  fits date [] sessions.
Proof.
  intros (Hpos & Hlow & Hhigh) Hdate. split; [exact Hpos |].
  unfold lastEnd, dayStart, DateTime.ofDate, Constants.MS_PER_DAY,
    Constants.DEFAULT_APPOINTMENT_START_TIME, Constants.MS_PER_MINUTE in *.
  simpl. lia.
Qed.

Lemma findSlotsForDay_returns clock sessions interviewers date calendarEvents
    options reads :
  sessions <> [] ->
  withinDateRange date date sessions ->
  exists st,
    findSlotsForDay clock sessions interviewers date calendarEvents options reads
    = Js.Returned st.
Proof.
  intros Hne Hrange. unfold findSlotsForDay, generateAllSlotCombinations.
  destruct (exploreSlotCombinations_returns clock
              (generateInterviewerCombinations (sortByOrder sessions) interviewers
                 options)
              interviewers date calendarEvents options (sortByOrder sessions) []
              (reads, [])) as (st & Hst).
  - right. apply sortByOrder_nonempty, Hne.
  - apply (withinDateRange_fits date date);
      [apply withinDateRange_sorted, Hrange | lia].
  - rewrite Hst. eexists. reflexivity.
Qed.

Lemma findSlotsForDay_thrown clock sessions interviewers date calendarEvents
    options reads e reads' :
  findSlotsForDay clock sessions interviewers date calendarEvents options reads
  = Js.Thrown e reads' ->
  native e.
Proof.
  unfold findSlotsForDay, generateAllSlotCombinations. intros H.
  destruct (exploreSlotCombinations _ _ _ _ _ _ _ _ _) as [st0 | e0 n0] eqn:Hrun;
    [discriminate |].
  injection H as <- _. exact (exploreSlotCombinations_thrown _ _ _ _ _ _ _ _ _ _ _ Hrun).
Qed.

(** Every combination of a day starts at the day's default start time. *)
Lemma findSlotsForDay_startTime clock sessions interviewers date calendarEvents
    options reads st c :
  findSlotsForDay clock sessions interviewers date calendarEvents options reads
  = Js.Returned st ->
  In c (snd st) ->
  SessionCombination.startTime c
  = DateTime.ofDate date + Constants.DEFAULT_APPOINTMENT_START_TIME.
Proof.
  intros Hrun Hc. apply findSlotsForDay_emitted in Hrun.
  rewrite Forall_forall in Hrun. apply list_elem_of_In in Hc.
  destruct (Hrun c Hc) as (added & Hslots & Hwin & (first & Hhead & Hstart) & _).
  simpl in Hslots. rewrite Hslots in Hhead. rewrite Hstart.
  destruct added as [| a added]; [discriminate |]. injection Hhead as <-.
  destruct (sortByOrder sessions) as [| session rest]; [discriminate |].
  simpl in Hwin. injection Hwin as Hs _. exact Hs.
Qed.

(** The windows of every combination of a day: the first slot starts at
    the default start time, and each later slot starts at the previous end
    plus the [breakAfter] of its own session. *)
Lemma findSlotsForDay_windows clock sessions interviewers date calendarEvents
    options reads st c :
  findSlotsForDay clock sessions interviewers date calendarEvents options reads
  = Js.Returned st ->
  In c (snd st) ->
  map window (SessionCombination.slots c)
  = windowsFrom date None (sortByOrder sessions).
Proof.
  intros Hrun Hc. apply findSlotsForDay_emitted in Hrun.
  rewrite Forall_forall in Hrun. apply list_elem_of_In in Hc.
  destruct (Hrun c Hc) as (added & Hslots & Hwin & _ & _).
  simpl in Hslots. rewrite Hslots. exact Hwin.
Qed.

(** With the options object [{}] the calendar is not consulted at all. *)
Lemma checkSlotConflicts_empty_options slot interviewers calendarEvents1
    calendarEvents2 :
  checkSlotConflicts slot interviewers calendarEvents1 SchedulingOptions.empty
  = checkSlotConflicts slot interviewers calendarEvents2 SchedulingOptions.empty.
Proof.
  unfold checkSlotConflicts. induction interviewers as [| i interviewers IH];
    [reflexivity |].
  simpl. rewrite IH. reflexivity.
Qed.

(** With non-negative durations and breaks the windows follow one another. *)
Lemma windowsFrom_after date sessions :
  (forall s, In s sessions ->
     0 <= InterviewSession.duration s /\ 0 <= InterviewSession.breakAfter s) ->
  forall e w, In w (windowsFrom date (Some e) sessions) -> e <= fst w.
Proof.
  induction sessions as [| session sessions IH]; intros Hpos e w Hw; [destruct Hw |].
  destruct (Hpos session (or_introl eq_refl)) as (Hd & Hb).
  simpl in Hw. unfold DateTime.addMinutes, Constants.MS_PER_MINUTE in *.
  destruct Hw as [<- | Hw]; simpl; [lia |].
  apply IH in Hw; [lia |]. intros s Hs. apply Hpos. right. exact Hs.
Qed.

Lemma windowsFrom_ordered date sessions :
  (forall s, In s sessions ->
     0 <= InterviewSession.duration s /\ 0 <= InterviewSession.breakAfter s) ->
  forall lastEnd (i j : nat) w1 w2,
    (i < j)%nat ->
    windowsFrom date lastEnd sessions !! i = Some w1 ->
    windowsFrom date lastEnd sessions !! j = Some w2 ->
    snd w1 <= fst w2.
Proof.
  induction sessions as [| session sessions IH]; intros Hpos lastEnd i j w1 w2 Hij H1 H2;
    [discriminate |].
  assert (Hrest : forall s, In s sessions ->
            0 <= InterviewSession.duration s /\ 0 <= InterviewSession.breakAfter s).
  { intros s Hs. apply Hpos. right. exact Hs. }
  destruct j as [| j]; [lia |]. simpl in H2.
  destruct i as [| i].
  - simpl in H1. injection H1 as <-. simpl.
    apply (windowsFrom_after date sessions Hrest).
    apply list_elem_of_In. eapply list_elem_of_lookup_2, H2.
  - simpl in H1. eapply (IH Hrest _ i j); [lia | exact H1 | exact H2].
Qed.

End FindSlotsForDayFacts.

(** C6, as stated ("any breakAfter values"), fails: with a break of -30
    minutes asked by the second session and a single interviewer [A], the
    accepted combination gives [A] the windows 09:00-10:00 and 09:30-10:30. *)
Lemma single_day_overlap_counterexample :
  exists st c a b,
    SlotFinder.findSlotsForDay Scenarios.clockA Scenarios.sessionsNegativeBreak
      [Scenarios.interviewer "A"] Scenarios.monday ∅ Scenarios.enforced 0
    = Js.Returned st
    /\ snd st = [c]
    /\ SessionCombination.slots c = [a; b]
    /\ In "A" (Spec.participants a) /\ In "A" (Spec.participants b)
    /\ Spec.windowsOverlap (InterviewSlot.startTime a) (InterviewSlot.endTime a)
         (InterviewSlot.startTime b) (InterviewSlot.endTime b).
Proof.
  eexists _, _, _, _.
  split; [vm_compute; reflexivity |].
  split; [reflexivity |]. split; [reflexivity |].
  split; [left; reflexivity |]. split; [left; reflexivity |].
  unfold Spec.windowsOverlap. simpl. lia.
Qed.

(** C6, amended. When every session has a non-negative duration and a
    non-negative [breakAfter], in every combination accepted by the
    single-day search any two distinct slots that share a participant have
    windows that do not overlap. *)
Theorem single_day_slots_do_not_overlap (clock : nat -> Z)
    (sessions : list InterviewSession.t) (interviewers : list Interviewer.t)
    (date : Z) (calendarEvents : gmap string (list CalendarEvent.t))
    (options : SchedulingOptions.t) (reads : nat)
    (st : SlotFinder.state SessionCombination.t) :
  (forall s, In s sessions ->
     0 <= InterviewSession.duration s /\ 0 <= InterviewSession.breakAfter s) ->
  SlotFinder.findSlotsForDay clock sessions interviewers date calendarEvents
    options reads = Js.Returned st ->
  forall (c : SessionCombination.t) (i j : nat) (a b : InterviewSlot.t)
         (participant : string),
    In c (snd st) ->
    i <> j ->
    SessionCombination.slots c !! i = Some a ->
    SessionCombination.slots c !! j = Some b ->
    In participant (Spec.participants a) ->
    In participant (Spec.participants b) ->
    ~ Spec.windowsOverlap (InterviewSlot.startTime a) (InterviewSlot.endTime a)
        (InterviewSlot.startTime b) (InterviewSlot.endTime b).
Proof.
  intros Hpos Hrun c i j a b participant Hc Hij Ha Hb _ _.
  apply findSlotsForDay_emitted in Hrun. rewrite Forall_forall in Hrun.
  apply list_elem_of_In in Hc.
  destruct (Hrun c Hc) as (added & Hslots & Hwin & _ & _).
  simpl in Hslots, Hwin. rewrite Hslots in Ha, Hb.
  assert (Hsorted : forall s, In s (SlotFinder.sortByOrder sessions) ->
            0 <= InterviewSession.duration s /\ 0 <= InterviewSession.breakAfter s).
  { intros s Hs. apply Hpos, sortByOrder_In, Hs. }
  assert (Hwa : map Spec.window added !! i = Some (Spec.window a)).
  { rewrite list_lookup_fmap, Ha. reflexivity. }
  assert (Hwb : map Spec.window added !! j = Some (Spec.window b)).
  { rewrite list_lookup_fmap, Hb. reflexivity. }
  rewrite Hwin in Hwa, Hwb. unfold Spec.windowsOverlap. intros Hover. apply Hover.
  destruct (Nat.lt_total i j) as [Hlt | [Heq | Hgt]]; [| contradiction |].
  - left.
    exact (windowsFrom_ordered date _ Hsorted None i j _ _ Hlt Hwa Hwb).
  - right. apply Z.le_ge.
    exact (windowsFrom_ordered date _ Hsorted None j i _ _ Hgt Hwb Hwa).
Qed.

(** Scenario C with the single interviewer [A]: the two slots of the one
    accepted combination, both given to [A], do not overlap. *)
Lemma single_day_slots_do_not_overlap_witness :
  exists st c a b,
    SlotFinder.findSlotsForDay Scenarios.clockA Scenarios.sessionsC
      [Scenarios.interviewer "A"] Scenarios.monday ∅ Scenarios.enforced 0
    = Js.Returned st
    /\ snd st = [c]
    /\ SessionCombination.slots c = [a; b]
    /\ ~ Spec.windowsOverlap (InterviewSlot.startTime a) (InterviewSlot.endTime a)
         (InterviewSlot.startTime b) (InterviewSlot.endTime b).
Proof.
  eexists _, _, _, _.
  split; [vm_compute; reflexivity |].
  split; [reflexivity |]. split; [reflexivity |].
  eapply (single_day_slots_do_not_overlap Scenarios.clockA Scenarios.sessionsC
            [Scenarios.interviewer "A"] Scenarios.monday ∅ Scenarios.enforced 0)
    with (i := 0%nat) (j := 1%nat) (participant := "A");
    [ intros s [<- | [<- | []]]; simpl; lia
    | vm_compute; reflexivity
    | left; reflexivity
    | discriminate
    | reflexivity
    | reflexivity
    | left; reflexivity
    | left; reflexivity ].
Defined.

(** C2, evaluated on Scenario C (sessions of 60 and 45 minutes, the first
    with [breakAfter] = 15, the second with [breakAfter] = 0, interviewer
    [A]): the first slot starts at 09:00 and the second slot starts at the
    end of the first one, not 15 minutes later. [calculateSessionStartTime]
    adds the [breakAfter] of the session being placed, not that of the
    previous session. *)
Theorem scenarioC_second_slot_start :
  exists st c a b,
    SlotFinder.findSlotsForDay Scenarios.clockA Scenarios.sessionsC
      [Scenarios.interviewer "A"] Scenarios.monday ∅ Scenarios.enforced 0
    = Js.Returned st
    /\ snd st = [c]
    /\ SessionCombination.slots c = [a; b]
    /\ InterviewSlot.startTime a
       = DateTime.ofDate Scenarios.monday + Constants.DEFAULT_APPOINTMENT_START_TIME
    /\ InterviewSlot.startTime b = InterviewSlot.endTime a
    /\ InterviewSlot.startTime b <> DateTime.addMinutes (InterviewSlot.endTime a) 15.
Proof.
  eexists _, _, _, _.
  split; [vm_compute; reflexivity |].
  split; [reflexivity |]. split; [reflexivity |].
  split; [reflexivity |]. split; [reflexivity |]. discriminate.
Qed.

(** C1, evaluated on Scenario D (two sessions, the first with
    [breakAfter] = 1440, interviewers [A] and [B], range Monday-Tuesday):
    the first plan returned has both rounds on the Monday. The gap is
    computed from [currentRoundSessions[0]], the first session of the round
    being placed, whose [breakAfter] is 0. *)
Theorem scenarioD_same_date :
  exists st p r1 r2,
    SlotFinder.findMultiDaySlots Scenarios.clockA Scenarios.sessionsD
      [Scenarios.interviewer "A"; Scenarios.interviewer "B"]
      (Scenarios.monday, Scenarios.monday + 1) ∅ Scenarios.enforced 0
    = Js.Returned st
    /\ head (snd st) = Some p
    /\ MultiDayPlan.rounds p = [r1; r2]
    /\ RoundPlan.date r1 = Scenarios.monday
    /\ RoundPlan.date r2 = Scenarios.monday.
Proof.
  eexists _, _, _, _.
  split; [vm_compute; reflexivity |].
  split; [reflexivity |]. split; [reflexivity |].
  split; reflexivity.
Qed.

(** C3, evaluated with the options object [{}]. (1) Interviewer [A] is busy
    09:30-10:30: the 09:00-10:00 slot is accepted with [{}] and pruned with
    [checkCalendarConflicts] set. (2) [A] has a daily count limit of 1 and
    one busy interval that day: the slot is accepted with [{}] and pruned
    with [respectDailyLimits] set. [checkSlotConflicts] tests these flags
    for truthiness, so an omitted flag switches the check off, while
    [isInterviewerAvailable] tests [!== false]. *)
Theorem empty_options_skip_calendar_and_load_checks :
  (exists c,
     SlotFinder.findSlotsForDay Scenarios.clockA Scenarios.sessionsOne
       [Scenarios.interviewer "A"] Scenarios.monday
       {["A" := [Scenarios.busyMonday]]} SchedulingOptions.empty 0
     = Js.Returned (2%nat, [c]))
  /\ SlotFinder.findSlotsForDay Scenarios.clockA Scenarios.sessionsOne
       [Scenarios.interviewer "A"] Scenarios.monday
       {["A" := [Scenarios.busyMonday]]} Scenarios.onlyCalendar 0
     = Js.Returned (1%nat, [])
  /\ (exists c,
        SlotFinder.findSlotsForDay Scenarios.clockA Scenarios.sessionsOne
          [Scenarios.interviewerOnePerDay] Scenarios.monday
          {["A" := [Scenarios.busyAfternoon]]} SchedulingOptions.empty 0
        = Js.Returned (2%nat, [c]))
  /\ SlotFinder.findSlotsForDay Scenarios.clockA Scenarios.sessionsOne
       [Scenarios.interviewerOnePerDay] Scenarios.monday
       {["A" := [Scenarios.busyAfternoon]]} Scenarios.onlyDailyLimits 0
     = Js.Returned (1%nat, []).
Proof.
  split; [eexists; vm_compute; reflexivity |].
  split; [vm_compute; reflexivity |].
  split; [eexists; vm_compute; reflexivity |].
  vm_compute; reflexivity.
Qed.
(* ===================================================================== *)
(** ** The multi-day search *)
(* ===================================================================== *)

Section DateFacts.
Import SlotFinder Spec.

Lemma datesInRange_lower (d0 d1 d : Z) : In d (datesInRange d0 d1) -> d0 <= d.
Proof.
  unfold datesInRange. intros H.
  destruct (DateTime.isValid _ && DateTime.isValid _); [| destruct H].
  apply in_map_iff in H. destruct H as (i & <- & _). lia.
Qed.

Lemma datesInRange_upper (d0 d1 d : Z) : In d (datesInRange d0 d1) -> d <= d1.
Proof.
  unfold datesInRange. intros H.
  destruct (DateTime.isValid _ && DateTime.isValid _); [| destruct H].
  apply in_map_iff in H. destruct H as (i & <- & Hi). apply in_seq in Hi. lia.
Qed.


Lemma totalMinutes_app (l l' : list InterviewSession.t) :
  totalMinutes (l ++ l') = totalMinutes l + totalMinutes l'.
Proof. induction l as [| s l IH]; simpl; [reflexivity | rewrite IH; lia]. Qed.

Lemma totalMinutes_nonneg (l : list InterviewSession.t) :
  Forall nonNegative l -> 0 <= totalMinutes l.
Proof. induction 1 as [| s l (Hd & Hb) _ IH]; simpl; lia. Qed.

(** A round takes no more minutes than all the rounds together. *)
Lemma totalMinutes_round (rounds : list (list InterviewSession.t))
    (round : list InterviewSession.t) :
  Forall nonNegative (concat rounds) ->
  In round rounds ->
  Forall nonNegative round /\ totalMinutes round <= totalMinutes (concat rounds).
Proof.
  induction rounds as [| r rounds IH]; intros Hpos Hin; [destruct Hin |].
  simpl in Hpos. apply Forall_app in Hpos as [Hr Hrounds].
  simpl. rewrite totalMinutes_app.
  pose proof (totalMinutes_nonneg _ Hr). pose proof (totalMinutes_nonneg _ Hrounds).
  destruct Hin as [<- | Hin]; [split; [exact Hr | lia] |].
  destruct (IH Hrounds Hin) as (H1 & H2). split; [exact H1 | lia].
Qed.

(** The sessions fit on each day of the range. *)
Lemma withinDateRange_day startDate endDate sessions date :
  withinDateRange startDate endDate sessions ->
  startDate <= date <= endDate ->
  withinDateRange date date sessions.
Proof.
  intros (Hpos & Hlow & Hhigh) Hdate. split; [exact Hpos |].
  unfold DateTime.ofDate, Constants.MS_PER_DAY in *. lia.
Qed.

End DateFacts.

Section MultiDayFacts.
Import SlotFinder Spec Invariants.
Variable clock : nat -> Z.
Variable rounds : list (list InterviewSession.t).
Variable startDate endDate : Z.
Variable interviewers : list Interviewer.t.
Variable calendarEvents : gmap string (list CalendarEvent.t).
Variable options : SchedulingOptions.t.

(** What one date contributes, given what the recursive call contributes
    for each combination of that date. *)
Lemma findSlotsForRound_extends
    (recur : list RoundPlan.t -> state MultiDayPlan.t ->
             Js.outcome (state MultiDayPlan.t))
    (Q : MultiDayPlan.t -> Prop) currentDate sessions previousRounds index st st' :
  (forall slotCombo st0 st1,
     SessionCombination.startTime slotCombo
     = DateTime.ofDate currentDate + Constants.DEFAULT_APPOINTMENT_START_TIME ->
     recur (previousRounds
            ++ [ {| RoundPlan.roundNumber := index;
                    RoundPlan.date := currentDate;
                    RoundPlan.combination := slotCombo;
                    RoundPlan.sessions := sessions |} ]) st0 = Js.Returned st1 ->
     extends Q st0 st1) ->
  findSlotsForRound clock interviewers calendarEvents options recur currentDate
    sessions previousRounds index st = Js.Returned st' ->
  extends Q st st'.
Proof.
  intros Hrecur. unfold findSlotsForRound.
  destruct (findSlotsForDay clock sessions interviewers currentDate calendarEvents
              options (fst st)) as [daySlots | e] eqn:Hday; [| discriminate].
  apply forEach_invariant; [| apply extends_same; reflexivity].
  intros slotCombo st0 st1 Hin Hst0 Hbody. unfold trySlotCombination in Hbody.
  destruct (hasInterviewerConflictWithPreviousRounds slotCombo previousRounds).
  - destruct Hbody as [Hbody | Hbody]; [| discriminate].
    injection Hbody as <-. exact Hst0.
  - destruct (recur _ st0) as [st2 | e] eqn:Hrec.
    + destruct Hbody as [Hbody | Hbody]; [discriminate |].
      injection Hbody as <-.
      apply (extends_trans _ _ st0); [exact Hst0 |].
      apply (Hrecur slotCombo); [| exact Hrec].
      eapply findSlotsForDay_startTime; [exact Hday | exact Hin].
    + destruct Hbody; discriminate.
Qed.

Lemma continues_snoc previousRounds round p :
  continues (previousRounds ++ [round]) p -> continues previousRounds p.
Proof.
  intros (more & H). exists (round :: more). rewrite H, <- app_assoc. reflexivity.
Qed.

(** Every plan pushed while [previousRounds] are placed starts with them. *)
Lemma findRoundSlots_continues remaining :
  forall index previousRounds st st',
    findRoundSlots clock rounds startDate endDate interviewers calendarEvents
      options remaining index previousRounds st = Js.Returned st' ->
    extends (continues previousRounds) st st'.
Proof.
  induction remaining as [| sessions remaining IH]; intros index previousRounds st st' Hrun.
  - simpl in Hrun. injection Hrun as <-. unfold emitPlan.
    eexists [_]. split; [reflexivity |]. constructor; [| constructor].
    exists []. simpl. rewrite app_nil_r. reflexivity.
  - simpl in Hrun.
    destruct (searchStart startDate previousRounds sessions) as [d0 |]; [| discriminate].
    revert Hrun. apply forEach_invariant; [| apply extends_refl].
    intros currentDate st0 st1 _ Hst0 Hbody. unfold tryDate in Hbody.
    destruct (findSlotsForRound _ _ _ _ _ _ _ _ _ st0) as [st2 | e] eqn:Hround;
      [| destruct Hbody; discriminate].
    destruct Hbody as [Hbody | Hbody]; [discriminate |]. injection Hbody as <-.
    apply (extends_trans _ _ st0); [exact Hst0 |].
    revert Hround. apply findSlotsForRound_extends.
    intros slotCombo sta stb _ Hrec. apply IH in Hrec.
    revert Hrec. apply extends_impl. intros p. apply continues_snoc.
Qed.

(** The first date tried for a round is not before the range. *)
Lemma searchStart_lower previousRounds sessions :
  sessions <> [] ->
  Forall nonNegative sessions ->
  (forall lastRound, last previousRounds = Some lastRound ->
     startDate <= RoundPlan.date lastRound) ->
  exists d0, searchStart startDate previousRounds sessions = Some d0
             /\ startDate <= d0.
Proof.
  intros Hne Hpos Hlast. unfold searchStart.
  destruct (last previousRounds) as [lastRound |];
    [| eexists; split; [reflexivity | lia]].
  destruct sessions as [| session sessions']; [contradiction |].
  eexists. split; [reflexivity |].
  specialize (Hlast lastRound eq_refl).
  inversion Hpos as [| s l (_ & Hb) _]; subst.
  assert (0 <= Js.ceilDiv (InterviewSession.breakAfter session)
                 Constants.MINUTES_IN_DAY).
  { unfold Js.ceilDiv, Constants.MINUTES_IN_DAY.
    assert (- InterviewSession.breakAfter session / 1440 <= 0)
      by (apply Z.div_le_upper_bound; lia).
    lia. }
  lia.
Qed.

(** The search returns when every remaining round has a session and its
    times stay in the range of Date. *)
Lemma findRoundSlots_returns remaining :
  Forall (fun round => round <> [] /\ withinDateRange startDate endDate round)
    remaining ->
  forall index previousRounds st,
    (forall lastRound, last previousRounds = Some lastRound ->
       startDate <= RoundPlan.date lastRound) ->
    exists st',
      findRoundSlots clock rounds startDate endDate interviewers calendarEvents
        options remaining index previousRounds st = Js.Returned st'.
Proof.
  induction remaining as [| sessions remaining IH];
    intros Hne index previousRounds st Hlast.
  - eexists. reflexivity.
  - apply Forall_cons in Hne as [[Hsessions Hrange] Hremaining]. simpl.
    destruct (searchStart_lower previousRounds sessions Hsessions
                (proj1 Hrange) Hlast) as (d0 & -> & Hd0).
    apply forEach_returns. intros currentDate st0 Hdate. unfold tryDate.
    assert (Hbounds : startDate <= currentDate <= endDate).
    { split; [apply datesInRange_lower in Hdate; lia
             | apply datesInRange_upper in Hdate; exact Hdate]. }
    assert (Hround : exists st1,
              findSlotsForRound clock interviewers calendarEvents options
                (fun previousRounds' st' =>
                   findRoundSlots clock rounds startDate endDate interviewers
                     calendarEvents options remaining (S index) previousRounds' st')
                currentDate sessions previousRounds index st0 = Js.Returned st1).
    { unfold findSlotsForRound.
      destruct (findSlotsForDay_returns clock sessions interviewers currentDate
                  calendarEvents options (fst st0) Hsessions
                  (withinDateRange_day _ _ _ _ Hrange Hbounds))
        as (daySlots & ->).
      apply forEach_returns. intros slotCombo sta _. unfold trySlotCombination.
      destruct (hasInterviewerConflictWithPreviousRounds slotCombo previousRounds);
        [eexists; left; reflexivity |].
      edestruct (IH Hremaining) as (stb & ->).
      { intros lastRound Hl. rewrite last_snoc in Hl. injection Hl as <-.
        simpl. lia. }
      eexists. right. reflexivity. }
    destruct Hround as (st1 & ->). eexists. right. reflexivity.
Qed.


End MultiDayFacts.

Section RoundsFacts.
Import SlotFinder.

Lemma groupLoop_nonempty sorted :
  forall acc,
    Forall (fun round => round <> []) (fst acc) ->
    Forall (fun round : list InterviewSession.t => round <> [])
      (fst (fold_left groupStep sorted acc)).
Proof.
  induction sorted as [| session sorted IH]; intros acc Hne; [exact Hne |].
  simpl. apply IH. unfold groupStep.
  destruct (InterviewSession.breakAfter session >=? Constants.MINUTES_IN_DAY);
    [| exact Hne].
  apply Forall_app. split; [exact Hne |]. constructor; [| constructor].
  intros H. apply app_eq_nil in H as [_ H]. discriminate.
Qed.

(** Every round has at least one session. *)
Lemma groupSessionsIntoRounds_nonempty sessions :
  Forall (fun round => round <> []) (groupSessionsIntoRounds sessions).
Proof.
  unfold groupSessionsIntoRounds.
  pose proof (groupLoop_nonempty (sortByOrder sessions) ([], []) (Forall_nil_2 _)) as H.
  fold (groupLoop (sortByOrder sessions)) in H.
  destruct (groupLoop (sortByOrder sessions)) as [rounds currentRound]. simpl in H.
  destruct currentRound as [| s currentRound]; [exact H |].
  apply Forall_app. split; [exact H |]. constructor; [discriminate | constructor].
Qed.

Lemma groupLoop_concat sorted :
  forall acc,
    concat (fst (fold_left groupStep sorted acc)) ++ snd (fold_left groupStep sorted acc)
    = concat (fst acc) ++ snd acc ++ sorted.
Proof.
  induction sorted as [| session sorted IH]; intros acc.
  - simpl. rewrite app_nil_r. reflexivity.
  - cbn [fold_left]. rewrite IH. unfold groupStep.
    destruct (InterviewSession.breakAfter session >=? Constants.MINUTES_IN_DAY);
      cbn [fst snd].
    + rewrite concat_app. simpl. rewrite !app_nil_r, <- !app_assoc. reflexivity.
    + rewrite <- !app_assoc. reflexivity.
Qed.

(** The rounds, one after the other, are the sessions in their order. *)
Lemma groupSessionsIntoRounds_concat sessions :
  concat (groupSessionsIntoRounds sessions) = sortByOrder sessions.
Proof.
  unfold groupSessionsIntoRounds.
  pose proof (groupLoop_concat (sortByOrder sessions) ([], [])) as H.
  fold (groupLoop (sortByOrder sessions)) in H.
  destruct (groupLoop (sortByOrder sessions)) as [rounds currentRound].
  simpl in H. destruct currentRound as [| s currentRound].
  - rewrite app_nil_r in H. exact H.
  - rewrite concat_app. simpl. rewrite app_nil_r. exact H.
Qed.

(** Every round fits in the range of Date when the sessions do. *)
Lemma groupSessionsIntoRounds_withinDateRange startDate endDate sessions :
  Spec.withinDateRange startDate endDate sessions ->
  Forall (fun round => round <> [] /\ Spec.withinDateRange startDate endDate round)
    (groupSessionsIntoRounds sessions).
Proof.
  intros Hrange. apply withinDateRange_sorted in Hrange.
  destruct Hrange as (Hpos & Hlow & Hhigh).
  rewrite <- groupSessionsIntoRounds_concat in Hpos, Hhigh.
  pose proof (groupSessionsIntoRounds_nonempty sessions) as Hne.
  apply Forall_forall. intros round Hround. rewrite Forall_forall in Hne.
  split; [apply Hne, Hround |].
  apply list_elem_of_In in Hround.
  destruct (totalMinutes_round _ round Hpos Hround) as (H1 & H2).
  split; [exact H1 | split; [exact Hlow |]].
  unfold Constants.MS_PER_MINUTE in *. lia.
Qed.




Lemma findMultiDaySlots_returns clock sessions interviewers dateRange
    calendarEvents options reads :
  Spec.withinDateRange (fst dateRange) (snd dateRange) sessions ->
  exists st,
    findMultiDaySlots clock sessions interviewers dateRange calendarEvents
      options reads = Js.Returned st.
Proof.
  intros Hrange. unfold findMultiDaySlots. apply findRoundSlots_returns.
  - apply groupSessionsIntoRounds_withinDateRange, Hrange.
  - discriminate.
Qed.

End RoundsFacts.

Section RankingFacts.
Import SlotFinder Spec Invariants.

Lemma StronglySorted_same_key {R : Type} (key : R -> Z) (k : Z) (l : list R) :
  Forall (fun r => key r = k) l ->
  StronglySorted (fun p q => key p <= key q) l.
Proof.
  induction 1 as [| r l Hr Hl IH]; constructor; [exact IH |].
  eapply Forall_impl; [exact Hl |]. intros q Hq. simpl in Hq. lia.
Qed.

(** A loop over ascending dates whose iteration for date [d] only adds
    results of key [dayStart d] keeps the results sorted by key. *)
Lemma forEach_sorted_by_key {R : Type} (options : SchedulingOptions.t)
    (key : R -> Z) (body : Z -> state R -> step R) (dates : list Z) :
  (forall d st0 st1, In d dates ->
     body d st0 = Next st1 \/ body d st0 = Check st1 ->
     extends (fun r => key r = dayStart d) st0 st1) ->
  StronglySorted Z.le dates ->
  forall st st',
    StronglySorted (fun p q => key p <= key q) (snd st) ->
    Forall (fun r => Forall (fun d => key r <= dayStart d) dates) (snd st) ->
    forEach options body dates st = Js.Returned st' ->
    StronglySorted (fun p q => key p <= key q) (snd st').
Proof.
  induction dates as [| d dates IH]; intros Hbody Hdates st st' Hsorted Hbound Hrun;
    simpl in Hrun.
  - injection Hrun as <-. exact Hsorted.
  - inversion Hdates as [| ? ? Hdates' Hd]; subst.
    assert (Hnext : forall st1,
              body d st = Next st1 \/ body d st = Check st1 ->
              StronglySorted (fun p q => key p <= key q) (snd st1)
              /\ Forall (fun r => Forall (fun d' => key r <= dayStart d') dates) (snd st1)).
    { intros st1 Hst1.
      destruct (Hbody d st st1 (or_introl eq_refl) Hst1) as (new & Hnew & Hkeys).
      rewrite Hnew. split.
      - apply StronglySorted_app_inv; [exact Hsorted | |].
        + apply (StronglySorted_same_key key (dayStart d)), Hkeys.
        + intros p q Hp Hq. rewrite Forall_forall in Hbound, Hkeys.
          apply list_elem_of_In in Hp, Hq.
          specialize (Hbound p Hp). apply Forall_cons in Hbound as [Hpd _].
          rewrite (Hkeys q Hq). exact Hpd.
      - apply Forall_app. split.
        + eapply Forall_impl; [exact Hbound |]. intros r Hr.
          apply Forall_cons in Hr as [_ Hr]. exact Hr.
        + eapply Forall_impl; [exact Hkeys |]. intros r Hr. simpl in Hr.
          eapply Forall_impl; [exact Hd |]. intros d' Hd'. simpl in Hd'.
          rewrite Hr. unfold dayStart, DateTime.ofDate, Constants.MS_PER_DAY. lia. }
    assert (Hrest : forall d' st0 st1, In d' dates ->
              body d' st0 = Next st1 \/ body d' st0 = Check st1 ->
              extends (fun r => key r = dayStart d') st0 st1).
    { intros d' st0 st1 Hin. apply Hbody. right. exact Hin. }
    destruct (body d st) as [st1 | st1 | e] eqn:Hstep; [| | discriminate].
    + destruct (Hnext st1 (or_introl eq_refl)) as (Hs1 & Hb1).
      exact (IH Hrest Hdates' st1 st' Hs1 Hb1 Hrun).
    + destruct (Hnext st1 (or_intror eq_refl)) as (Hs1 & Hb1).
      destruct (enough options (snd st1)).
      * injection Hrun as <-. exact Hs1.
      * exact (IH Hrest Hdates' st1 st' Hs1 Hb1 Hrun).
Qed.

Lemma seq_dates_sorted (startDate : Z) (n k : nat) :
  StronglySorted Z.le (map (fun i : nat => startDate + Z.of_nat i) (seq k n)).
Proof.
  revert k. induction n as [| n IH]; intros k; simpl; constructor; [apply IH |].
  apply Forall_forall. intros d Hd. apply list_elem_of_In, in_map_iff in Hd.
  destruct Hd as (i & <- & Hi). apply in_seq in Hi. lia.
Qed.

Lemma datesInRange_sorted (startDate endDate : Z) :
  StronglySorted Z.le (datesInRange startDate endDate).
Proof.
  unfold datesInRange.
  destruct (DateTime.isValid _ && DateTime.isValid _);
    [apply seq_dates_sorted | constructor].
Qed.

Lemma continues_firstRoundStart round p :
  continues [round] p ->
  firstRoundStart p = SessionCombination.startTime (RoundPlan.combination round).
Proof. intros (more & H). unfold firstRoundStart. rewrite H. reflexivity. Qed.

End RankingFacts.

(** C4, as stated, fails. On three sessions in two rounds (pool [A] for the
    first round, pool [C; D] for the two sessions of the second), range
    Monday-Tuesday, the fourth and fifth plans returned have the same first
    round start and mean densities 3/8 and then 1/4 (under both readings of
    "mean across all rounds"): the tie is not broken by ascending density. *)
Lemma multi_day_tie_break_counterexample :
  exists st p q,
    SlotFinder.findMultiDaySlots Scenarios.clockA Scenarios.sessionsTwoRounds
      [Scenarios.interviewer "A"; Scenarios.interviewer "C"; Scenarios.interviewer "D"]
      (Scenarios.monday, Scenarios.monday + 1) ∅ Scenarios.enforced 0
    = Js.Returned st
    /\ snd st !! 3%nat = Some p
    /\ snd st !! 4%nat = Some q
    /\ Spec.firstRoundStart p = Spec.firstRoundStart q
    /\ (Spec.planMeanDensity q < Spec.planMeanDensity p)%Q
    /\ (Spec.planMeanOfRoundMeans q < Spec.planMeanOfRoundMeans p)%Q
    /\ ~ Spec.rankedBefore Spec.planMeanDensity p q
    /\ ~ Spec.rankedBefore Spec.planMeanOfRoundMeans p q.
Proof.
  eexists _, _, _.
  split; [vm_compute; reflexivity |].
  split; [reflexivity |]. split; [reflexivity |].
  split; [reflexivity |].
  split; [vm_compute; reflexivity |]. split; [vm_compute; reflexivity |].
  split.
  - intros [H | [_ H]]; [vm_compute in H; discriminate |].
    vm_compute in H. apply H. reflexivity.
  - intros [H | [_ H]]; [vm_compute in H; discriminate |].
    vm_compute in H. apply H. reflexivity.
Qed.

(** C4, amended. The list of plans returned by [findMultiDaySlots] is in
    exploration order; it is sorted by the first round's start time
    ascending. (No order by mean density is imposed on plans with the same
    first round start.) *)
Theorem findMultiDaySlots_sorted_by_first_round_start (clock : nat -> Z)
    (sessions : list InterviewSession.t) (interviewers : list Interviewer.t)
    (dateRange : Z * Z) (calendarEvents : gmap string (list CalendarEvent.t))
    (options : SchedulingOptions.t) (reads : nat)
    (st : SlotFinder.state MultiDayPlan.t) :
  SlotFinder.findMultiDaySlots clock sessions interviewers dateRange
    calendarEvents options reads = Js.Returned st ->
  StronglySorted (fun p q => Spec.firstRoundStart p <= Spec.firstRoundStart q)
    (snd st).
Proof.
  unfold SlotFinder.findMultiDaySlots.
  set (rounds := SlotFinder.groupSessionsIntoRounds sessions).
  generalize rounds at 1. intros allRounds.
  destruct rounds as [| round remaining]; simpl; intros Hrun.
  - injection Hrun as <-. simpl. repeat constructor.
  - revert Hrun.
    apply (forEach_sorted_by_key options Spec.firstRoundStart);
      [| apply datesInRange_sorted | constructor | constructor].
    intros d st0 st1 _ Hbody. unfold SlotFinder.tryDate in Hbody.
    destruct (SlotFinder.findSlotsForRound _ _ _ _ _ _ _ _ _ st0) as [st2 | e] eqn:Hround;
      [| destruct Hbody; discriminate].
    destruct Hbody as [Hbody | Hbody]; [discriminate |]. injection Hbody as <-.
    revert Hround. apply findSlotsForRound_extends.
    intros slotCombo sta stb Hstart Hrec.
    apply findRoundSlots_continues in Hrec.
    revert Hrec. apply extends_impl. intros p Hp.
    apply continues_firstRoundStart in Hp. rewrite Hp. exact Hstart.
Qed.

(** The two-round scenario: its twelve plans are sorted by first round
    start. *)
Lemma findMultiDaySlots_sorted_witness :
  exists st,
    SlotFinder.findMultiDaySlots Scenarios.clockA Scenarios.sessionsTwoRounds
      [Scenarios.interviewer "A"; Scenarios.interviewer "C"; Scenarios.interviewer "D"]
      (Scenarios.monday, Scenarios.monday + 1) ∅ Scenarios.enforced 0
    = Js.Returned st
    /\ length (snd st) = 12%nat
    /\ StronglySorted (fun p q => Spec.firstRoundStart p <= Spec.firstRoundStart q)
         (snd st).
Proof.
  eexists. split; [vm_compute; reflexivity |]. split; [reflexivity |].
  eapply (findMultiDaySlots_sorted_by_first_round_start Scenarios.clockA
            Scenarios.sessionsTwoRounds
            [Scenarios.interviewer "A"; Scenarios.interviewer "C";
             Scenarios.interviewer "D"]
            (Scenarios.monday, Scenarios.monday + 1) ∅ Scenarios.enforced 0).
  vm_compute. reflexivity.
Defined.
(* ===================================================================== *)
(** ** The engine's entry point *)
(* ===================================================================== *)

Section FindSlotsFacts.
Import SlotFinder SchedulingEngine.

(** The single-day branch stops at its first statement. *)
Lemma findSingleDaySlots_thrown engine clock reads options startDate endDate
    calendarEvents mergedOptions :
  findSingleDaySlots engine clock reads options startDate endDate calendarEvents
    mergedOptions
  = Js.Thrown Js.TypeError reads.
Proof. reflexivity. Qed.


End FindSlotsFacts.



(* ===================================================================== *)
(** ** The clock only shows in the identifiers *)
(* ===================================================================== *)

Section ClockSingleDay.
Import SlotFinder Spec.
Variable clock : nat -> Z.
Variable sessionCombinations : gmap string (list (list Interviewer.t)).
Variable allInterviewers : list Interviewer.t.
Variable date : Z.
Variable calendarEvents : gmap string (list CalendarEvent.t).
Variable options : SchedulingOptions.t.

Lemma checkSlotConflicts_unstamp slot interviewers :
  checkSlotConflicts (unstampSlot slot) interviewers calendarEvents options
  = checkSlotConflicts slot interviewers calendarEvents options.
Proof. destruct slot. reflexivity. Qed.

Lemma createAndCheckSlot_unstamp session combo startTime reads :
  createAndCheckSlot stopped calendarEvents options session combo startTime reads
  = mapOutcome (fun created => (unstampSlot <$> fst created, snd created))
      (createAndCheckSlot clock calendarEvents options session combo startTime reads).
Proof.
  unfold createAndCheckSlot.
  destruct (addMinutesToTime startTime (InterviewSession.duration session))
    as [endTime |]; [| reflexivity].
  match goal with
  | |- context [checkSlotConflicts ?s combo calendarEvents options] =>
      match s with
      | context [clock reads] =>
          rewrite <- (checkSlotConflicts_unstamp s combo);
          change (unstampSlot s) with
            {| InterviewSlot.id := slot_id (InterviewSession.id session) (stopped reads);
               InterviewSlot.sessionId := InterviewSlot.sessionId s;
               InterviewSlot.sessionName := InterviewSlot.sessionName s;
               InterviewSlot.startTime := InterviewSlot.startTime s;
               InterviewSlot.endTime := InterviewSlot.endTime s;
               InterviewSlot.interviewers := InterviewSlot.interviewers s;
               InterviewSlot.meetingType := InterviewSlot.meetingType s;
               InterviewSlot.location := InterviewSlot.location s |}
      end
  end.
  cbn [InterviewSlot.sessionId InterviewSlot.sessionName InterviewSlot.startTime
       InterviewSlot.endTime InterviewSlot.interviewers InterviewSlot.meetingType
       InterviewSlot.location].
  destruct (checkSlotConflicts _ combo calendarEvents options); reflexivity.
Qed.

Lemma last_map_unstamp (slots : list InterviewSlot.t) :
  last (map unstampSlot slots) = unstampSlot <$> last slots.
Proof.
  induction slots as [| a [| b slots] IH]; [reflexivity | reflexivity |].
  exact IH.
Qed.

Lemma calculateSessionStartTime_unstamp slots session :
  calculateSessionStartTime (map unstampSlot slots) session date
  = calculateSessionStartTime slots session date.
Proof.
  unfold calculateSessionStartTime. rewrite last_map_unstamp.
  destruct (last slots); reflexivity.
Qed.

Lemma calculateTotalDuration_unstamp slots :
  calculateTotalDuration (map unstampSlot slots) = calculateTotalDuration slots.
Proof.
  destruct slots as [| a slots]; [reflexivity |].
  unfold calculateTotalDuration. cbn [map].
  change (unstampSlot a :: map unstampSlot slots) with (map unstampSlot (a :: slots)).
  rewrite last_map_unstamp. destruct (last (a :: slots)); reflexivity.
Qed.

Lemma countSlots_unstamp slots :
  countSlots (map unstampSlot slots) = countSlots slots.
Proof.
  unfold countSlots. generalize (∅ : gmap string SlotCount).
  induction slots as [| a slots IH]; intros acc; [reflexivity |].
  simpl. apply IH.
Qed.

Lemma calculateLoadDensity_unstamp slots :
  calculateLoadDensity (map unstampSlot slots) allInterviewers
  = calculateLoadDensity slots allInterviewers.
Proof. unfold calculateLoadDensity. rewrite countSlots_unstamp. reflexivity. Qed.

Lemma map_sessionId_unstamp slots :
  map InterviewSlot.sessionId (map unstampSlot slots) = map InterviewSlot.sessionId slots.
Proof. rewrite map_map. reflexivity. Qed.

Lemma emitCombination_unstamp slots st :
  emitCombination stopped allInterviewers date (map unstampSlot slots)
    (mapState unstampCombination st)
  = mapOutcome (mapState unstampCombination)
      (emitCombination clock allInterviewers date slots st).
Proof.
  destruct slots as [| first rest]; [reflexivity |].
  unfold emitCombination. cbn [map].
  change (unstampSlot first :: map unstampSlot rest)
    with (map unstampSlot (first :: rest)).
  rewrite last_map_unstamp.
  destruct (last (first :: rest)) as [lastSlot |]; [| reflexivity].
  cbn [fmap option_fmap option_map mapOutcome]. f_equal.
  unfold mapState. cbn [fst snd]. rewrite map_app. cbn [map]. f_equal. f_equal. f_equal.
  unfold unstampCombination, generateSlotCombinationId.
  cbn [SessionCombination.id SessionCombination.date SessionCombination.slots
       SessionCombination.startTime SessionCombination.endTime
       SessionCombination.totalDuration SessionCombination.loadDensity].
  change (unstampSlot first :: map unstampSlot rest) with (map unstampSlot (first :: rest)).
  rewrite map_sessionId_unstamp, calculateTotalDuration_unstamp,
    calculateLoadDensity_unstamp.
  reflexivity.
Qed.

Lemma exploreSlotCombinations_unstamp sessions :
  forall slots st,
    exploreSlotCombinations stopped sessionCombinations allInterviewers date
      calendarEvents options sessions (map unstampSlot slots)
      (mapState unstampCombination st)
    = mapOutcome (mapState unstampCombination)
        (exploreSlotCombinations clock sessionCombinations allInterviewers date
           calendarEvents options sessions slots st).
Proof.
  induction sessions as [| session sessions IH]; intros slots st.
  - apply emitCombination_unstamp.
  - simpl. rewrite calculateSessionStartTime_unstamp.
    destruct (calculateSessionStartTime slots session date) as [startTime |];
      [| reflexivity].
    rewrite <- (map_id (default [] (sessionCombinations !! InterviewSession.id session)))
      at 1.
    apply forEach_map. intros combo st0 _. unfold tryCombination.
    rewrite createAndCheckSlot_unstamp.
    cbn [mapState fst snd].
    destruct (createAndCheckSlot clock calendarEvents options session combo
                startTime (fst st0))
      as [[[slot |] reads] | e n];
      cbn [mapOutcome fmap option_fmap option_map fst snd]; [| reflexivity | reflexivity].
    change (map unstampSlot slots ++ [unstampSlot slot])
      with (map unstampSlot slots ++ map unstampSlot [slot]).
    rewrite <- map_app.
    change (reads, map unstampCombination (snd st0))
      with (mapState unstampCombination (reads, snd st0)).
    rewrite IH.
    destruct (exploreSlotCombinations clock _ _ _ _ _ sessions (slots ++ [slot])
                (reads, snd st0)); reflexivity.
Qed.

End ClockSingleDay.

Section ClockSearches.
Import SlotFinder Spec.
Variable clock : nat -> Z.

Lemma compareCombinations_unstamp a b :
  compareCombinations (unstampCombination a) (unstampCombination b)
  = compareCombinations a b.
Proof. destruct a, b. reflexivity. Qed.

Lemma findSlotsForDay_unstamp sessions interviewers date calendarEvents options reads :
  findSlotsForDay stopped sessions interviewers date calendarEvents options reads
  = mapOutcome (mapState unstampCombination)
      (findSlotsForDay clock sessions interviewers date calendarEvents options reads).
Proof.
  unfold findSlotsForDay, generateAllSlotCombinations.
  pose proof (exploreSlotCombinations_unstamp clock
                (generateInterviewerCombinations (sortByOrder sessions) interviewers options)
                interviewers date calendarEvents options (sortByOrder sessions)
                [] (reads, [])) as H.
  change (map unstampSlot []) with (@nil InterviewSlot.t) in H.
  change (mapState unstampCombination (reads, [])) with (reads, @nil SessionCombination.t) in H.
  rewrite H.
  destruct (exploreSlotCombinations clock _ _ _ _ _ _ _ _) as [st | e]; [| reflexivity].
  cbn [mapOutcome]. unfold mapState. cbn [fst snd]. f_equal. f_equal.
  apply sort_map. apply compareCombinations_unstamp.
Qed.

Lemma slotInterviewerIds_unstamp slots :
  slotInterviewerIds (map unstampSlot slots) = slotInterviewerIds slots.
Proof.
  unfold slotInterviewerIds. induction slots as [| a slots IH]; [reflexivity |].
  simpl. rewrite IH. reflexivity.
Qed.

Lemma roundInterviewers_unstamp (rounds : list RoundPlan.t) :
  map (fun round =>
         slotInterviewerIds (SessionCombination.slots (RoundPlan.combination round)))
    (map unstampRound rounds)
  = map (fun round =>
           slotInterviewerIds (SessionCombination.slots (RoundPlan.combination round)))
      rounds.
Proof.
  rewrite map_map. apply map_ext. intros round. simpl.
  apply slotInterviewerIds_unstamp.
Qed.

Lemma hasInterviewerConflict_unstamp slotCombo previousRounds :
  hasInterviewerConflictWithPreviousRounds (unstampCombination slotCombo)
    (map unstampRound previousRounds)
  = hasInterviewerConflictWithPreviousRounds slotCombo previousRounds.
Proof.
  unfold hasInterviewerConflictWithPreviousRounds.
  cbn [unstampCombination SessionCombination.slots].
  rewrite slotInterviewerIds_unstamp.
  induction previousRounds as [| round previousRounds IH]; [reflexivity |].
  cbn [map existsb]. rewrite IH. f_equal.
  cbn [unstampRound RoundPlan.combination unstampCombination SessionCombination.slots].
  rewrite slotInterviewerIds_unstamp. reflexivity.
Qed.

Lemma extractAllInterviewers_unstamp rounds :
  extractAllInterviewers (map unstampRound rounds) = extractAllInterviewers rounds.
Proof.
  unfold extractAllInterviewers. f_equal.
  induction rounds as [| round rounds IH]; [reflexivity |].
  cbn [map flat_map]. rewrite IH. f_equal.
  cbn [unstampRound RoundPlan.combination unstampCombination SessionCombination.slots].
  apply slotInterviewerIds_unstamp.
Qed.

Lemma last_map_unstampRound (rounds : list RoundPlan.t) :
  last (map unstampRound rounds) = unstampRound <$> last rounds.
Proof.
  induction rounds as [| a [| b rounds] IH]; [reflexivity | reflexivity |].
  exact IH.
Qed.

Section MultiDay.
Variable rounds : list (list InterviewSession.t).
Variable startDate endDate : Z.
Variable interviewers : list Interviewer.t.
Variable calendarEvents : gmap string (list CalendarEvent.t).
Variable options : SchedulingOptions.t.

Lemma searchStart_unstamp previousRounds sessions :
  searchStart startDate (map unstampRound previousRounds) sessions
  = searchStart startDate previousRounds sessions.
Proof.
  unfold searchStart. rewrite last_map_unstampRound.
  destruct (last previousRounds); reflexivity.
Qed.

Lemma emitPlan_unstamp previousRounds st :
  emitPlan stopped rounds (map unstampRound previousRounds) (mapState unstampPlan st)
  = mapState unstampPlan (emitPlan clock rounds previousRounds st).
Proof.
  unfold emitPlan, mapState. cbn [fst snd]. rewrite map_app. cbn [map].
  f_equal. f_equal. f_equal.
  unfold unstampPlan, generatePlanId.
  cbn [MultiDayPlan.id MultiDayPlan.rounds MultiDayPlan.totalRounds
       MultiDayPlan.allInterviewers].
  rewrite extractAllInterviewers_unstamp, map_map. reflexivity.
Qed.

Lemma findSlotsForRound_unstamp
    (recur recur' : list RoundPlan.t -> state MultiDayPlan.t ->
                    Js.outcome (state MultiDayPlan.t))
    currentDate sessions previousRounds index st :
  (forall previousRounds' st',
     recur' (map unstampRound previousRounds') (mapState unstampPlan st')
     = mapOutcome (mapState unstampPlan) (recur previousRounds' st')) ->
  findSlotsForRound stopped interviewers calendarEvents options recur' currentDate
    sessions (map unstampRound previousRounds) index (mapState unstampPlan st)
  = mapOutcome (mapState unstampPlan)
      (findSlotsForRound clock interviewers calendarEvents options recur currentDate
         sessions previousRounds index st).
Proof.
  intros Hrecur. unfold findSlotsForRound. cbn [mapState fst snd].
  rewrite findSlotsForDay_unstamp.
  destruct (findSlotsForDay clock sessions interviewers currentDate calendarEvents
              options (fst st)) as [daySlots | e]; [| reflexivity].
  cbn [mapOutcome mapState fst snd].
  change (fst daySlots, map unstampPlan (snd st))
    with (mapState unstampPlan (fst daySlots, snd st)).
  apply forEach_map. intros slotCombo st0 _. unfold trySlotCombination.
  rewrite hasInterviewerConflict_unstamp.
  destruct (hasInterviewerConflictWithPreviousRounds slotCombo previousRounds);
    [reflexivity |].
  match goal with
  | |- context [recur' (map unstampRound previousRounds ++ [?r])] =>
      change (map unstampRound previousRounds ++ [r])
        with (map unstampRound previousRounds
              ++ map unstampRound
                   [ {| RoundPlan.roundNumber := index;
                        RoundPlan.date := currentDate;
                        RoundPlan.combination := slotCombo;
                        RoundPlan.sessions := sessions |} ])
  end.
  rewrite <- map_app, Hrecur.
  destruct (recur _ st0); reflexivity.
Qed.

Lemma findRoundSlots_unstamp remaining :
  forall index previousRounds st,
    findRoundSlots stopped rounds startDate endDate interviewers calendarEvents
      options remaining index (map unstampRound previousRounds)
      (mapState unstampPlan st)
    = mapOutcome (mapState unstampPlan)
        (findRoundSlots clock rounds startDate endDate interviewers calendarEvents
           options remaining index previousRounds st).
Proof.
  induction remaining as [| sessions remaining IH]; intros index previousRounds st.
  - simpl. rewrite emitPlan_unstamp. reflexivity.
  - simpl. rewrite searchStart_unstamp.
    destruct (searchStart startDate previousRounds sessions) as [d0 |];
      [| reflexivity].
    rewrite <- (map_id (datesInRange d0 endDate)) at 1.
    apply forEach_map. intros currentDate st0 _. unfold tryDate.
    rewrite (findSlotsForRound_unstamp
               (fun previousRounds' st' =>
                  findRoundSlots clock rounds startDate endDate interviewers
                    calendarEvents options remaining (S index) previousRounds' st')).
    + destruct (findSlotsForRound clock _ _ _ _ _ _ _ _ st0); reflexivity.
    + intros previousRounds' st'. apply IH.
Qed.

End MultiDay.

Lemma findMultiDaySlots_unstamp sessions interviewers dateRange calendarEvents
    options reads :
  findMultiDaySlots stopped sessions interviewers dateRange calendarEvents options reads
  = mapOutcome (mapState unstampPlan)
      (findMultiDaySlots clock sessions interviewers dateRange calendarEvents
         options reads).
Proof.
  unfold findMultiDaySlots.
  apply (findRoundSlots_unstamp (groupSessionsIntoRounds sessions) (fst dateRange)
           (snd dateRange) interviewers calendarEvents options
           (groupSessionsIntoRounds sessions) 0%nat [] (reads, [])).
Qed.

End ClockSearches.

Section ClockEngine.
Import SlotFinder SchedulingEngine Spec.
Variable clock : nat -> Z.

Lemma rethrow_map {A B : Type} (f : A -> B) (e : Js.error) (reads : nat) :
  @rethrow B e reads = mapOutcome f (@rethrow A e reads).
Proof. destruct e; reflexivity. Qed.

Lemma findSlots_unstamp engine reads options :
  fst (fst (findSlots engine stopped reads options))
  = mapOutcome unstampResult (fst (fst (findSlots engine clock reads options))).
Proof.
  unfold findSlots.
  destruct (FindSlotsOptions.sessions options) as [| session sessions]; [reflexivity |].
  destruct (FindSlotsOptions.interviewers options) as [| interviewer interviewers];
    [reflexivity |].
  generalize (needsMultiDayScheduling (session :: sessions)). intros needsMultiDay.
  destruct (FindSlotsOptions.dateRange options) as [[startDate |] [endDate |]];
    try reflexivity.
  destruct (fetchCalendarEvents _ _) as [calendarEvents cache'].
  set (mergedOptions := mergeOptions _ _).
  destruct needsMultiDay.
  - rewrite (findMultiDaySlots_unstamp clock).
    destruct (findMultiDaySlots clock _ _ _ _ _ _) as [[reads' plans] | e n];
      cbn [mapOutcome mapState fst snd]; [reflexivity |].
    apply rethrow_map.
  - rewrite !findSingleDaySlots_thrown. reflexivity.
Qed.

End ClockEngine.

(** C8, as stated ("including all fields of every result object"), fails:
    two runs on the same inputs whose [Date.now()] readings differ return
    different results, because the ids of slots, combinations and plans embed
    the clock. *)
Lemma search_ids_depend_on_clock_counterexample :
  SlotFinder.findSlotsForDay Scenarios.clockA Scenarios.sessionsOne
    [Scenarios.interviewer "A"] Scenarios.monday ∅ Scenarios.enforced 0
  <> SlotFinder.findSlotsForDay Scenarios.clockB Scenarios.sessionsOne
       [Scenarios.interviewer "A"] Scenarios.monday ∅ Scenarios.enforced 0
  /\ fst (fst (SchedulingEngine.findSlots Scenarios.engine Scenarios.clockA 0
                 (Scenarios.request Scenarios.sessionsD
                    [Scenarios.interviewer "A"; Scenarios.interviewer "B"]
                    (Some Scenarios.monday, Some Scenarios.monday))))
     <> fst (fst (SchedulingEngine.findSlots Scenarios.engine Scenarios.clockB 0
                    (Scenarios.request Scenarios.sessionsD
                       [Scenarios.interviewer "A"; Scenarios.interviewer "B"]
                       (Some Scenarios.monday, Some Scenarios.monday)))).
Proof.
  split; intros H; vm_compute in H; discriminate H.
Qed.

(** C8, amended. Two runs of a search on identical inputs (sessions,
    participants, options, busy-interval snapshot) make the same number of
    clock reads and return the same ordered result list, every field
    included, except for the clock reading embedded in the [id] of each
    slot, combination and plan. This holds for [findSlotsForDay],
    [findMultiDaySlots] and the engine's [findSlots]. *)
Theorem search_results_equal_up_to_id_stamps (clock1 clock2 : nat -> Z) :
  (forall sessions interviewers date calendarEvents options reads,
     Spec.mapOutcome (Spec.mapState Spec.unstampCombination)
       (SlotFinder.findSlotsForDay clock1 sessions interviewers date
          calendarEvents options reads)
     = Spec.mapOutcome (Spec.mapState Spec.unstampCombination)
         (SlotFinder.findSlotsForDay clock2 sessions interviewers date
            calendarEvents options reads))
  /\ (forall sessions interviewers dateRange calendarEvents options reads,
        Spec.mapOutcome (Spec.mapState Spec.unstampPlan)
          (SlotFinder.findMultiDaySlots clock1 sessions interviewers dateRange
             calendarEvents options reads)
        = Spec.mapOutcome (Spec.mapState Spec.unstampPlan)
            (SlotFinder.findMultiDaySlots clock2 sessions interviewers dateRange
               calendarEvents options reads))
  /\ (forall engine reads options,
        Spec.mapOutcome Spec.unstampResult
          (fst (fst (SchedulingEngine.findSlots engine clock1 reads options)))
        = Spec.mapOutcome Spec.unstampResult
            (fst (fst (SchedulingEngine.findSlots engine clock2 reads options)))).
Proof.
  split; [| split].
  - intros. rewrite <- !findSlotsForDay_unstamp. reflexivity.
  - intros. rewrite <- !findMultiDaySlots_unstamp. reflexivity.
  - intros. rewrite <- !findSlots_unstamp. reflexivity.
Qed.

(* ===================================================================== *)
(** ** The gap between rounds, as the search computes it *)
(* ===================================================================== *)

Section GapFacts.
Import SlotFinder Spec Invariants.
Variable clock : nat -> Z.
Variable rounds : list (list InterviewSession.t).
Variable startDate endDate : Z.
Variable interviewers : list Interviewer.t.
Variable calendarEvents : gmap string (list CalendarEvent.t).
Variable options : SchedulingOptions.t.

Lemma gapsAsComputed_snoc previousRounds sessions d0 round :
  gapsAsComputed previousRounds ->
  searchStart startDate previousRounds sessions = Some d0 ->
  RoundPlan.sessions round = sessions ->
  d0 <= RoundPlan.date round ->
  gapsAsComputed (previousRounds ++ [round]).
Proof.
  intros Hgaps Hstart Hsessions Hdate i earlier later Hi HSi.
  destruct (Nat.lt_ge_cases (S i) (length previousRounds)) as [Hlt | Hge].
  - rewrite lookup_app_l in Hi by lia. rewrite lookup_app_l in HSi by lia.
    exact (Hgaps i earlier later Hi HSi).
  - assert (Hlen : S i = length previousRounds).
    { apply lookup_lt_Some in HSi. rewrite length_app in HSi. simpl in HSi. lia. }
    rewrite lookup_app_l in Hi by lia.
    rewrite lookup_app_r in HSi by lia.
    replace (S i - length previousRounds)%nat with 0%nat in HSi by lia.
    injection HSi as <-.
    assert (Hlast : last previousRounds = Some earlier).
    { rewrite last_lookup. rewrite <- Hlen. simpl. exact Hi. }
    unfold searchStart in Hstart. rewrite Hlast in Hstart. rewrite Hsessions.
    destruct sessions as [| session sessions']; [discriminate |].
    injection Hstart as <-. exists session. split; [reflexivity | exact Hdate].
Qed.

(** Every plan pushed by the search has the gaps of [gapsAsComputed]. *)
Lemma findRoundSlots_gaps remaining :
  forall index previousRounds st st',
    gapsAsComputed previousRounds ->
    findRoundSlots clock rounds startDate endDate interviewers calendarEvents
      options remaining index previousRounds st = Js.Returned st' ->
    extends (fun p => gapsAsComputed (MultiDayPlan.rounds p)) st st'.
Proof.
  induction remaining as [| sessions remaining IH];
    intros index previousRounds st st' Hgaps Hrun.
  - simpl in Hrun. injection Hrun as <-. unfold emitPlan.
    eexists [_]. split; [reflexivity |]. constructor; [exact Hgaps | constructor].
  - simpl in Hrun.
    destruct (searchStart startDate previousRounds sessions) as [d0 |] eqn:Hstart;
      [| discriminate].
    revert Hrun. apply forEach_invariant; [| apply extends_refl].
    intros currentDate st0 st1 Hin Hst0 Hbody. unfold tryDate in Hbody.
    destruct (findSlotsForRound _ _ _ _ _ _ _ _ _ st0) as [st2 | e] eqn:Hround;
      [| destruct Hbody; discriminate].
    destruct Hbody as [Hbody | Hbody]; [discriminate |]. injection Hbody as <-.
    apply (extends_trans _ _ st0); [exact Hst0 |].
    revert Hround. apply findSlotsForRound_extends.
    intros slotCombo sta stb _ Hrec. revert Hrec. apply IH.
    apply (gapsAsComputed_snoc previousRounds sessions d0);
      [exact Hgaps | exact Hstart | reflexivity |].
    apply (datesInRange_lower d0 endDate). exact Hin.
Qed.

End GapFacts.

(** What the multi-day search does guarantee about the dates of the rounds
    of every plan it returns. *)
Lemma findMultiDaySlots_gaps clock sessions interviewers dateRange calendarEvents
    options reads st p :
  SlotFinder.findMultiDaySlots clock sessions interviewers dateRange
    calendarEvents options reads = Js.Returned st ->
  In p (snd st) ->
  Invariants.gapsAsComputed (MultiDayPlan.rounds p).
Proof.
  unfold SlotFinder.findMultiDaySlots. intros Hrun Hp.
  apply findRoundSlots_gaps in Hrun as (new & Hnew & Hall).
  - simpl in Hnew. subst new. rewrite Forall_forall in Hall.
    apply Hall, list_elem_of_In, Hp.
  - intros i earlier later Hi. discriminate Hi.
Qed.
(* ===================================================================== *)
(** * Further properties of the code *)
(* ===================================================================== *)

(** ** Interval predicates *)

(** Case analysis on every integer comparison of the goal. *)
Ltac cases_on_comparisons :=
  rewrite ?Z.geb_leb, ?Z.gtb_ltb in *;
  repeat match goal with
    | |- context [?x <=? ?y] => destruct (Z.leb_spec x y); try (exfalso; lia)
    | |- context [?x <? ?y] => destruct (Z.ltb_spec x y); try (exfalso; lia)
    | |- context [?x =? ?y] => destruct (Z.eqb_spec x y); try (exfalso; lia)
    end.

Ltac close_comparison_case :=
  cbn [andb orb negb] in *;
  repeat split; intros;
  repeat match goal with
    | H : _ /\ _ |- _ => destruct H
    end;
  try discriminate; try reflexivity; try lia.

(** X1. [getOverlapType] is decided by the boolean predicates:
    [none] exactly when [isTimeOverlap] is false (the final [return 'none']
    is never reached by overlapping chunks); [exact] exactly for overlapping
    chunks with [isExactMatch]; [encloses] for overlapping, not exactly
    matching chunks with [isEncloses]; [enclosed] for overlapping chunks with
    [isEnclosed] and not [isEncloses]; [left] exactly when [isLeftOverlap];
    [right] exactly when [isRightOverlap]. *)
Theorem getOverlapType_decided_by_predicates (a b : TimeChunk.t) :
  (ConflictDetection.getOverlapType a b = OverlapType.none
   <-> ConflictDetection.isTimeOverlap a b = false)
  /\ (ConflictDetection.getOverlapType a b = OverlapType.exact
      <-> ConflictDetection.isTimeOverlap a b = true
          /\ ConflictDetection.isExactMatch a b = true)
  /\ (ConflictDetection.getOverlapType a b = OverlapType.encloses
      <-> ConflictDetection.isTimeOverlap a b = true
          /\ ConflictDetection.isExactMatch a b = false
          /\ ConflictDetection.isEncloses a b = true)
  /\ (ConflictDetection.getOverlapType a b = OverlapType.enclosed
      <-> ConflictDetection.isTimeOverlap a b = true
          /\ ConflictDetection.isEncloses a b = false
          /\ ConflictDetection.isEnclosed a b = true)
  /\ (ConflictDetection.getOverlapType a b = OverlapType.left
      <-> ConflictDetection.isLeftOverlap a b = true)
  /\ (ConflictDetection.getOverlapType a b = OverlapType.right
      <-> ConflictDetection.isRightOverlap a b = true).
Proof.
  unfold ConflictDetection.getOverlapType, ConflictDetection.isTimeOverlap,
    ConflictDetection.isExactMatch, ConflictDetection.isEncloses,
    ConflictDetection.isEnclosed, ConflictDetection.isLeftOverlap,
    ConflictDetection.isRightOverlap.
  generalize (ConflictDetection.normalizeTime (TimeChunk.startTime a)).
  generalize (ConflictDetection.normalizeTime (TimeChunk.endTime a)).
  generalize (ConflictDetection.normalizeTime (TimeChunk.startTime b)).
  generalize (ConflictDetection.normalizeTime (TimeChunk.endTime b)).
  intros e2 s2 e1 s1. cases_on_comparisons; close_comparison_case.
Qed.

(** X2. Seen from the other chunk the classification is mirrored: [left]
    becomes [right], [encloses] becomes [enclosed], and [none] and [exact]
    stay. *)
Theorem getOverlapType_mirror (a b : TimeChunk.t) :
  ConflictDetection.getOverlapType b a
  = Spec.mirror (ConflictDetection.getOverlapType a b).
Proof.
  unfold ConflictDetection.getOverlapType.
  generalize (ConflictDetection.normalizeTime (TimeChunk.startTime a)).
  generalize (ConflictDetection.normalizeTime (TimeChunk.endTime a)).
  generalize (ConflictDetection.normalizeTime (TimeChunk.startTime b)).
  generalize (ConflictDetection.normalizeTime (TimeChunk.endTime b)).
  intros e2 s2 e1 s1. cases_on_comparisons; close_comparison_case.
Qed.

(** X3. [getOverlapDuration] is symmetric, for all chunks, and is [0] on
    chunks that do not overlap; for two chunks whose start is before their
    end it is positive exactly when the chunks overlap, and never more than
    the length of either chunk. *)
Theorem getOverlapDuration_spec (a b : TimeChunk.t) :
  ConflictDetection.getOverlapDuration a b = ConflictDetection.getOverlapDuration b a
  /\ (ConflictDetection.isTimeOverlap a b = false ->
      ConflictDetection.getOverlapDuration a b = 0)
  /\ (Spec.proper a -> Spec.proper b ->
      (0 < ConflictDetection.getOverlapDuration a b
       <-> ConflictDetection.isTimeOverlap a b = true)
      /\ 0 <= ConflictDetection.getOverlapDuration a b
      /\ ConflictDetection.getOverlapDuration a b <= Spec.chunkLength a
      /\ ConflictDetection.getOverlapDuration a b <= Spec.chunkLength b).
Proof.
  unfold Spec.proper, Spec.chunkLength, ConflictDetection.getOverlapDuration,
    ConflictDetection.isTimeOverlap.
  generalize (ConflictDetection.normalizeTime (TimeChunk.startTime a)).
  generalize (ConflictDetection.normalizeTime (TimeChunk.endTime a)).
  generalize (ConflictDetection.normalizeTime (TimeChunk.startTime b)).
  generalize (ConflictDetection.normalizeTime (TimeChunk.endTime b)).
  intros e2 s2 e1 s1. split; [| split; [| intros Ha Hb]];
    cases_on_comparisons; close_comparison_case.
Qed.

(** 09:00-10:00 against 09:30-10:30: thirty minutes either way. *)
Lemma getOverlapDuration_spec_witness :
  ConflictDetection.getOverlapDuration
    {| TimeChunk.startTime := TClock 9 0; TimeChunk.endTime := TClock 10 0 |}
    {| TimeChunk.startTime := TClock 9 30; TimeChunk.endTime := TClock 10 30 |}
  = ConflictDetection.getOverlapDuration
      {| TimeChunk.startTime := TClock 9 30; TimeChunk.endTime := TClock 10 30 |}
      {| TimeChunk.startTime := TClock 9 0; TimeChunk.endTime := TClock 10 0 |}
  /\ 0 < ConflictDetection.getOverlapDuration
           {| TimeChunk.startTime := TClock 9 0; TimeChunk.endTime := TClock 10 0 |}
           {| TimeChunk.startTime := TClock 9 30; TimeChunk.endTime := TClock 10 30 |}.
Proof.
  destruct (getOverlapDuration_spec
              {| TimeChunk.startTime := TClock 9 0; TimeChunk.endTime := TClock 10 0 |}
              {| TimeChunk.startTime := TClock 9 30; TimeChunk.endTime := TClock 10 30 |})
    as (Hsym & _ & Hproper).
  destruct Hproper as (Hpos & _).
  - unfold Spec.proper. simpl. lia.
  - unfold Spec.proper. simpl. lia.
  - split; [exact Hsym |]. apply Hpos. reflexivity.
Defined.

(** ** All overlaps of a list of chunks *)

Section OverlapFacts.
Import ConflictDetection.

Lemma overlapsWith_In (i : nat) (chunk : TimeChunk.t) (later : list TimeChunk.t) :
  forall (j : nat) (o : Overlap.t),
    In o (overlapsWith i chunk j later)
    <-> Overlap.index1 o = i
        /\ Overlap.overlapType o <> OverlapType.none
        /\ exists (k : nat) (other : TimeChunk.t),
             later !! k = Some other
             /\ Overlap.index2 o = (j + k)%nat
             /\ Overlap.overlapType o = getOverlapType chunk other.
Proof.
  induction later as [| other later IH]; intros j o.
  - simpl. split; [intros [] | intros (_ & _ & k & b & Hk & _); discriminate].
  - assert (Hrest : In o (overlapsWith i chunk (S j) later)
                    <-> Overlap.index1 o = i
                        /\ Overlap.overlapType o <> OverlapType.none
                        /\ exists (k : nat) (b : TimeChunk.t),
                             later !! k = Some b
                             /\ Overlap.index2 o = (j + S k)%nat
                             /\ Overlap.overlapType o = getOverlapType chunk b).
    { rewrite IH. split; intros (H1 & H2 & k & b & Hk & Hj & Ht);
        (split; [exact H1 | split; [exact H2 |]]); exists k, b;
        (split; [exact Hk | split; [lia | exact Ht]]). }
    assert (Hhere : forall t, t = getOverlapType chunk other -> t <> OverlapType.none ->
              (In o ({| Overlap.index1 := i; Overlap.index2 := j;
                        Overlap.overlapType := t |}
                     :: overlapsWith i chunk (S j) later)
               <-> Overlap.index1 o = i
                   /\ Overlap.overlapType o <> OverlapType.none
                   /\ exists (k : nat) (b : TimeChunk.t),
                        (other :: later) !! k = Some b
                        /\ Overlap.index2 o = (j + k)%nat
                        /\ Overlap.overlapType o = getOverlapType chunk b)).
    { intros t Ht Hne. simpl. rewrite Hrest. split.
      - intros [<- | (H1 & H2 & k & b & Hk & Hj & Hb)].
        + simpl. split; [reflexivity | split; [exact Hne |]].
          exists 0%nat, other. split; [reflexivity | split; [lia | exact Ht]].
        + split; [exact H1 | split; [exact H2 |]]. exists (S k), b.
          split; [exact Hk | split; [exact Hj | exact Hb]].
      - intros (H1 & H2 & k & b & Hk & Hj & Hb). destruct k as [| k].
        + left. simpl in Hk. injection Hk as <-. destruct o as [o1 o2 o3].
          simpl in *. subst. f_equal. lia.
        + right. split; [exact H1 | split; [exact H2 |]]. exists k, b.
          split; [exact Hk | split; [exact Hj | exact Hb]]. }
    simpl. destruct (getOverlapType chunk other) eqn:Htype;
      try (apply Hhere; [reflexivity | discriminate]).
    rewrite Hrest. split.
    + intros (H1 & H2 & k & b & Hk & Hj & Hb). split; [exact H1 | split; [exact H2 |]].
      exists (S k), b. split; [exact Hk | split; [exact Hj | exact Hb]].
    + intros (H1 & H2 & k & b & Hk & Hj & Hb). destruct k as [| k].
      * simpl in Hk. injection Hk as <-. rewrite Htype in Hb. contradiction.
      * split; [exact H1 | split; [exact H2 |]]. exists k, b.
        split; [exact Hk | split; [exact Hj | exact Hb]].
Qed.

Lemma overlapsFrom_In (chunks : list TimeChunk.t) :
  forall (i : nat) (o : Overlap.t),
    In o (overlapsFrom i chunks)
    <-> Overlap.overlapType o <> OverlapType.none
        /\ exists (k1 k2 : nat) (a b : TimeChunk.t),
             (k1 < k2)%nat
             /\ chunks !! k1 = Some a /\ chunks !! k2 = Some b
             /\ Overlap.index1 o = (i + k1)%nat
             /\ Overlap.index2 o = (i + k2)%nat
             /\ Overlap.overlapType o = getOverlapType a b.
Proof.
  induction chunks as [| chunk later IH]; intros i o.
  - simpl. split; [intros [] | intros (_ & k1 & k2 & a & b & _ & H & _); discriminate].
  - simpl. rewrite in_app_iff, overlapsWith_In, IH. split.
    + intros [(H1 & Hne & k & b & Hk & Hj & Ht)
             | (Hne & k1 & k2 & a & b & Hlt & Ha & Hb & H1 & H2 & Ht)].
      * split; [exact Hne |]. exists 0%nat, (S k), chunk, b.
        repeat split; try assumption; try lia. 
      * split; [exact Hne |]. exists (S k1), (S k2), a, b.
        repeat split; try assumption; try lia.
    + intros (Hne & k1 & k2 & a & b & Hlt & Ha & Hb & H1 & H2 & Ht).
      destruct k2 as [| k2]; [lia |]. destruct k1 as [| k1].
      * left. simpl in Ha. injection Ha as <-. split; [lia | split; [exact Hne |]].
        exists k2, b. repeat split; try assumption; lia.
      * right. split; [exact Hne |]. exists k1, k2, a, b.
        repeat split; try assumption; lia.
Qed.

End OverlapFacts.

(** X4. [findAllOverlaps] reports exactly the pairs of positions [i < j]
    whose chunks [getOverlapType] does not classify as [none], each with
    that classification. *)
Theorem findAllOverlaps_spec (chunks : list TimeChunk.t)
    (o : ConflictDetection.Overlap.t) :
  In o (ConflictDetection.findAllOverlaps chunks)
  <-> (ConflictDetection.Overlap.index1 o < ConflictDetection.Overlap.index2 o)%nat
      /\ ConflictDetection.Overlap.overlapType o <> OverlapType.none
      /\ exists a b : TimeChunk.t,
           chunks !! ConflictDetection.Overlap.index1 o = Some a
           /\ chunks !! ConflictDetection.Overlap.index2 o = Some b
           /\ ConflictDetection.Overlap.overlapType o
              = ConflictDetection.getOverlapType a b.
Proof.
  unfold ConflictDetection.findAllOverlaps. rewrite overlapsFrom_In. split.
  - intros (Hne & k1 & k2 & a & b & Hlt & Ha & Hb & H1 & H2 & Ht).
    simpl in H1, H2. rewrite H1, H2. split; [exact Hlt | split; [exact Hne |]].
    exists a, b. repeat split; assumption.
  - intros (Hlt & Hne & a & b & Ha & Hb & Ht). split; [exact Hne |].
    exists (ConflictDetection.Overlap.index1 o), (ConflictDetection.Overlap.index2 o), a, b.
    repeat split; assumption.
Qed.
(** ** The stable sort orders its input *)

Section SortSorted.
Context {A : Type}.
Variable cmp : A -> A -> comparison.
Variable R : A -> A -> Prop.
Hypothesis R_cmp : forall a b, cmp a b <> Gt -> R a b.
Hypothesis R_total : forall a b, cmp a b = Gt -> R b a.
Hypothesis R_trans : forall a b c, R a b -> R b c -> R a c.

Lemma insert_StronglySorted (x : A) (l : list A) :
  StronglySorted R l -> StronglySorted R (Js.insert cmp x l).
Proof.
  induction l as [| y l IH]; intros Hl; simpl.
  - constructor; constructor.
  - apply StronglySorted_inv in Hl as [Hl Hy].
    assert (Hle : cmp x y <> Gt -> StronglySorted R (x :: y :: l)).
    { intros Hxy. constructor; [constructor; assumption |].
      constructor; [apply R_cmp, Hxy |].
      eapply Forall_impl; [exact Hy |]. intros z. apply R_trans, R_cmp, Hxy. }
    destruct (cmp x y) eqn:Hxy; try (apply Hle; discriminate).
    constructor; [apply IH, Hl |].
    apply Forall_forall. intros z Hz.
    rewrite (insert_Permutation cmp x l) in Hz.
    apply elem_of_cons in Hz as [-> | Hz].
    + apply R_total, Hxy.
    + rewrite Forall_forall in Hy. apply Hy, Hz.
Qed.

Lemma sort_StronglySorted (l : list A) : StronglySorted R (Js.sort cmp l).
Proof.
  induction l as [| x l IH]; simpl; [constructor |].
  apply insert_StronglySorted, IH.
Qed.

End SortSorted.

(** Sorting two lists whose elements correspond, with comparators that
    agree on corresponding elements, gives lists that correspond. *)
Section SortRelated.
Context {A B : Type}.
Variable cmpA : A -> A -> comparison.
Variable cmpB : B -> B -> comparison.
Variable S : A -> B -> Prop.
Hypothesis cmp_S : forall a a' b b', S a b -> S a' b' -> cmpA a a' = cmpB b b'.

Lemma insert_Forall2 x y l l' :
  S x y -> Forall2 S l l' ->
  Forall2 S (Js.insert cmpA x l) (Js.insert cmpB y l').
Proof.
  intros Hxy Hl. induction Hl as [| a b l l' Hab Hl IH]; simpl.
  - constructor; [exact Hxy | constructor].
  - rewrite (cmp_S x a y b Hxy Hab).
    destruct (cmpB y b); repeat (constructor; try assumption).
Qed.

Lemma sort_Forall2 l l' :
  Forall2 S l l' -> Forall2 S (Js.sort cmpA l) (Js.sort cmpB l').
Proof.
  intros Hl. induction Hl as [| a b l l' Hab Hl IH]; simpl; [constructor |].
  apply insert_Forall2; assumption.
Qed.

End SortRelated.

(** ** Merging chunks *)

Section MergeFacts.
Import ConflictDetection Constants Spec.

Lemma minuteOfDay_range (t : Z) : 0 <= DateTime.minuteOfDay t < MINUTES_IN_DAY.
Proof. unfold DateTime.minuteOfDay, MINUTES_IN_DAY. apply Z.mod_pos_bound. lia. Qed.

Lemma denormalizeTime_linear (minutes t : Z) :
  0 <= minutes ->
  denormalizeTime minutes t
  = (DateTime.toDate t * MINUTES_IN_DAY + minutes) * MS_PER_MINUTE
    + t mod MS_PER_MINUTE.
Proof.
  intros H. unfold denormalizeTime, DateTime.ofDate, MS_PER_DAY, MS_PER_MINUTE,
    MINUTES_IN_DAY.
  rewrite Z.rem_mod_nonneg by lia.
  pose proof (Z.div_mod minutes 60 ltac:(lia)). lia.
Qed.

Lemma div_linear (q r : Z) :
  0 <= r < MS_PER_MINUTE -> (q * MS_PER_MINUTE + r) / MS_PER_MINUTE = q.
Proof.
  unfold MS_PER_MINUTE. intros H.
  rewrite Z.div_add_l by lia. rewrite Z.div_small by lia. lia.
Qed.

Lemma minuteOfDay_denormalizeTime (minutes t : Z) :
  0 <= minutes < MINUTES_IN_DAY ->
  DateTime.minuteOfDay (denormalizeTime minutes t) = minutes.
Proof.
  intros H. rewrite denormalizeTime_linear by lia. unfold DateTime.minuteOfDay.
  rewrite div_linear by (apply Z.mod_pos_bound; unfold MS_PER_MINUTE; lia).
  rewrite Z.add_comm, Z.mod_add by (unfold MINUTES_IN_DAY; lia).
  apply Z.mod_small. exact H.
Qed.

Lemma mergeLoop_app (sorted : list IsoChunk) :
  forall merged current currentEnd,
    mergeLoop merged current currentEnd sorted
    = merged ++ mergeLoop [] current currentEnd sorted.
Proof.
  induction sorted as [| next sorted IH]; intros merged current currentEnd; simpl.
  - reflexivity.
  - destruct (DateTime.minuteOfDay (fst next) <=? currentEnd).
    + apply IH.
    + rewrite IH. rewrite (IH [current]). rewrite <- app_assoc. reflexivity.
Qed.

(** What the loop returns when it starts with nothing merged. *)
Lemma mergeLoop_spec (sorted : list IsoChunk) :
  forall current currentEnd,
    snd (timesOfDay current) = currentEnd ->
    StronglySorted (fun a b => fst (timesOfDay a) <= fst (timesOfDay b))
      (current :: sorted) ->
    exists first rest,
      mergeLoop [] current currentEnd sorted = first :: rest
      /\ fst (timesOfDay first) = fst (timesOfDay current)
      /\ currentEnd <= snd (timesOfDay first)
      /\ StronglySorted (fun a b => snd (timesOfDay a) < fst (timesOfDay b))
           (first :: rest)
      /\ Forall (fun m => fst (timesOfDay current) <= fst (timesOfDay m)) rest
      /\ Forall
           (fun c =>
              exists m, In m (first :: rest)
                /\ fst (timesOfDay m) <= fst (timesOfDay c)
                /\ snd (timesOfDay c) <= snd (timesOfDay m))
           sorted.
Proof.
  induction sorted as [| next sorted IH]; intros current currentEnd Hend Hsorted.
  - subst currentEnd. exists current, []. simpl.
    repeat split; try lia; repeat constructor.
  - apply StronglySorted_inv in Hsorted as [Hsorted Hcurrent].
    apply Forall_cons in Hcurrent as [Hnext Hcurrent].
    pose proof Hsorted as Hsorted'.
    apply StronglySorted_inv in Hsorted' as [Htail Hnexts].
    cbn [mergeLoop].
    destruct (Z.leb_spec (DateTime.minuteOfDay (fst next)) currentEnd) as [Hle | Hgt].
    + set (currentEnd' := Z.max currentEnd (DateTime.minuteOfDay (snd next))).
      set (current' := (fst current, denormalizeTime currentEnd' (snd current))).
      assert (Hrange : 0 <= currentEnd' < MINUTES_IN_DAY).
      { pose proof (minuteOfDay_range (snd current)).
        pose proof (minuteOfDay_range (snd next)).
        unfold timesOfDay in Hend. cbn [fst snd] in Hend. subst currentEnd'. lia. }
      destruct (IH current' currentEnd') as
        (first & rest & Hrun & Hfirst & Hce & Hsep & Hlow & Hcover).
      { unfold timesOfDay, current'. cbn [fst snd]. apply minuteOfDay_denormalizeTime, Hrange. }
      { constructor; [exact Htail |]. exact Hcurrent. }
      exists first, rest. split; [exact Hrun |].
      split; [exact Hfirst |]. split; [unfold currentEnd' in Hce; lia |].
      split; [exact Hsep |]. split; [exact Hlow |].
      constructor; [| exact Hcover].
      exists first. split; [left; reflexivity |].
      split; unfold timesOfDay, current', currentEnd' in *; cbn [fst snd] in *; lia.
    + destruct (IH next (DateTime.minuteOfDay (snd next))) as
        (first & rest & Hrun & Hfirst & Hce & Hsep & Hlow & Hcover).
      { reflexivity. }
      { exact Hsorted. }
      rewrite mergeLoop_app, Hrun. exists current, (first :: rest).
      split; [reflexivity |]. split; [reflexivity |].
      split; [unfold timesOfDay in *; cbn [fst snd] in *; lia |].
      assert (Hafter : Forall (fun m => fst (timesOfDay next) <= fst (timesOfDay m))
                         (first :: rest)).
      { constructor; [lia | exact Hlow]. }
      split; [| split].
      * constructor; [exact Hsep |].
        eapply Forall_impl; [exact Hafter |]. intros m Hm.
        unfold timesOfDay in *. cbn [fst snd] in *. lia.
      * eapply Forall_impl; [exact Hafter |]. intros m Hm.
        unfold timesOfDay in *. cbn [fst snd] in *. lia.
      * constructor.
        -- exists first. split; [right; left; reflexivity |]. split; [lia |].
           unfold timesOfDay in *. cbn [fst snd] in *. lia.
        -- eapply Forall_impl; [exact Hcover |].
           intros c (m & Hm & Hc). exists m. split; [right; exact Hm | exact Hc].
Qed.

Lemma sort_by_start_sorted (chunks : list IsoChunk) :
  StronglySorted (fun a b => fst (timesOfDay a) <= fst (timesOfDay b))
    (Js.sort
       (fun a b => DateTime.minuteOfDay (fst a) ?= DateTime.minuteOfDay (fst b))
       chunks).
Proof.
  apply sort_StronglySorted; unfold timesOfDay; simpl.
  - intros a b H. apply Z.compare_le_iff. exact H.
  - intros a b H. apply Z.compare_gt_iff in H. lia.
  - intros a b c. lia.
Qed.

End MergeFacts.

(** X5. Writing minutes of the day back into an ISO date-time and reading
    them again is the identity: for [0 <= minutes < 1440],
    [denormalizeTime] keeps the date, the seconds and the milliseconds of
    the original and sets the time of day to [minutes]. *)
Theorem denormalizeTime_round_trip (minutes t : Z) :
  0 <= minutes < Constants.MINUTES_IN_DAY ->
  ConflictDetection.normalizeTime (TIso (ConflictDetection.denormalizeTime minutes t))
  = minutes
  /\ DateTime.toDate (ConflictDetection.denormalizeTime minutes t) = DateTime.toDate t
  /\ ConflictDetection.denormalizeTime minutes t mod Constants.MS_PER_MINUTE
     = t mod Constants.MS_PER_MINUTE
  /\ ConflictDetection.denormalizeTime
       (ConflictDetection.normalizeTime (TIso t)) t = t.
Proof.
  intros H. split; [apply minuteOfDay_denormalizeTime, H |].
  pose proof (minuteOfDay_range t) as Ht.
  rewrite !denormalizeTime_linear by (simpl; lia).
  unfold ConflictDetection.normalizeTime, DateTime.toDate, DateTime.minuteOfDay,
    Constants.MS_PER_DAY, Constants.MS_PER_MINUTE, Constants.MINUTES_IN_DAY in *.
  pose proof (Z.mod_pos_bound t 60000 ltac:(lia)) as Hr.
  pose proof (Z.div_mod t 60000 ltac:(lia)) as Ht1.
  pose proof (Z.div_mod (t / 60000) 1440 ltac:(lia)) as Ht2.
  assert (Hday : t / 86400000 = t / 60000 / 1440).
  { rewrite Z.div_div by lia. reflexivity. }
  split; [| split].
  - symmetry. apply Z.div_unique with (r := minutes * 60000 + t mod 60000); lia.
  - rewrite Z.add_comm, Z.mod_add by lia. apply Z.mod_mod. lia.
  - rewrite Hday. lia.
Qed.

Lemma denormalizeTime_round_trip_witness :
  ConflictDetection.normalizeTime
    (TIso (ConflictDetection.denormalizeTime 630
             (DateTime.ofDate 19800 + 32400123)))
  = 630.
Proof.
  apply (denormalizeTime_round_trip 630 (DateTime.ofDate 19800 + 32400123)).
  unfold Constants.MINUTES_IN_DAY. lia.
Defined.

Section MergedFacts.
Import ConflictDetection Constants Spec.

(** [mergeTimeChunks] after its sorting step. *)
Lemma merged_of_sorted (chunks sorted : list IsoChunk) :
  StronglySorted (fun a b => fst (timesOfDay a) <= fst (timesOfDay b)) sorted ->
  (forall c, In c sorted <-> In c chunks) ->
  let merged :=
    match sorted with
    | [] => []
    | first :: rest => mergeLoop [] first (DateTime.minuteOfDay (snd first)) rest
    end in
  StronglySorted (fun a b => snd (timesOfDay a) < fst (timesOfDay b)) merged
  /\ forall c, In c chunks ->
       exists m, In m merged
         /\ fst (timesOfDay m) <= fst (timesOfDay c)
         /\ snd (timesOfDay c) <= snd (timesOfDay m).
Proof.
  intros Hsorted Hin. destruct sorted as [| first rest]; simpl.
  - split; [constructor |]. intros c Hc. apply Hin in Hc. destruct Hc.
  - destruct (mergeLoop_spec rest first (DateTime.minuteOfDay (snd first))
                eq_refl Hsorted)
      as (m0 & ms & Hrun & Hfirst & Hce & Hsep & _ & Hcover).
    rewrite Hrun. split; [exact Hsep |].
    intros c Hc. apply Hin in Hc. destruct Hc as [<- | Hc].
    + exists m0. split; [left; reflexivity |].
      unfold timesOfDay in *. cbn [fst snd] in *. lia.
    + rewrite Forall_forall in Hcover. apply Hcover, list_elem_of_In, Hc.
Qed.

Lemma mergeTimeChunks_spec (chunks : list IsoChunk) :
  StronglySorted (fun a b => snd (timesOfDay a) < fst (timesOfDay b))
    (mergeTimeChunks chunks)
  /\ forall c, In c chunks ->
       exists m, In m (mergeTimeChunks chunks)
         /\ fst (timesOfDay m) <= fst (timesOfDay c)
         /\ snd (timesOfDay c) <= snd (timesOfDay m).
Proof.
  apply merged_of_sorted; [apply sort_by_start_sorted | intros c; apply sort_In].
Qed.

(** The sum of the lengths of the chunks of a list. *)
Lemma fold_left_total_shift (l : list IsoChunk) :
  forall a,
    fold_left
      (fun total chunk =>
         total + (DateTime.minuteOfDay (snd chunk) - DateTime.minuteOfDay (fst chunk)))
      l a
    = a + fold_left
            (fun total chunk =>
               total
               + (DateTime.minuteOfDay (snd chunk) - DateTime.minuteOfDay (fst chunk)))
            l 0.
Proof.
  induction l as [| c l IH]; intros a; simpl; [lia |].
  rewrite IH. rewrite (IH (0 + _)). lia.
Qed.

Lemma fold_left_total_cons (c : IsoChunk) (l : list IsoChunk) :
  fold_left
    (fun total chunk =>
       total + (DateTime.minuteOfDay (snd chunk) - DateTime.minuteOfDay (fst chunk)))
    (c :: l) 0
  = (DateTime.minuteOfDay (snd c) - DateTime.minuteOfDay (fst c))
    + fold_left
        (fun total chunk =>
           total + (DateTime.minuteOfDay (snd chunk) - DateTime.minuteOfDay (fst chunk)))
        l 0.
Proof. simpl. rewrite fold_left_total_shift. lia. Qed.

Lemma fold_left_total_Permutation (l l' : list IsoChunk) :
  Permutation l l' ->
  fold_left
    (fun total chunk =>
       total + (DateTime.minuteOfDay (snd chunk) - DateTime.minuteOfDay (fst chunk)))
    l 0
  = fold_left
      (fun total chunk =>
         total + (DateTime.minuteOfDay (snd chunk) - DateTime.minuteOfDay (fst chunk)))
      l' 0.
Proof.
  induction 1 as [| x l l' _ IH | x y l | l l' l'' _ IH1 _ IH2].
  - reflexivity.
  - rewrite !fold_left_total_cons, IH. reflexivity.
  - rewrite !fold_left_total_cons. lia.
  - rewrite IH1. exact IH2.
Qed.

(** The total of what the loop returns is at most the length tracked for
    [current] plus the lengths of the chunks left, and every chunk it
    returns starts before it ends. *)
Lemma mergeLoop_total (sorted : list IsoChunk) :
  forall current currentEnd,
    snd (timesOfDay current) = currentEnd ->
    fst (timesOfDay current) <= currentEnd ->
    Forall (fun c => fst (timesOfDay c) <= snd (timesOfDay c)) sorted ->
    fold_left
      (fun total chunk =>
         total + (DateTime.minuteOfDay (snd chunk) - DateTime.minuteOfDay (fst chunk)))
      (mergeLoop [] current currentEnd sorted) 0
    <= (currentEnd - fst (timesOfDay current))
       + fold_left
           (fun total chunk =>
              total
              + (DateTime.minuteOfDay (snd chunk) - DateTime.minuteOfDay (fst chunk)))
           sorted 0
    /\ Forall (fun m => fst (timesOfDay m) <= snd (timesOfDay m))
         (mergeLoop [] current currentEnd sorted).
Proof.
  induction sorted as [| next sorted IH]; intros current currentEnd Hend Hle Hproper.
  - subst currentEnd. unfold timesOfDay in *. cbn [fst snd] in *. simpl.
    split; [lia |]. constructor; [exact Hle | constructor].
  - apply Forall_cons in Hproper as [Hnext Hproper].
    rewrite fold_left_total_cons. cbn [mergeLoop].
    destruct (Z.leb_spec (DateTime.minuteOfDay (fst next)) currentEnd) as [Hin | Hout].
    + set (currentEnd' := Z.max currentEnd (DateTime.minuteOfDay (snd next))).
      assert (Hrange : 0 <= currentEnd' < MINUTES_IN_DAY).
      { pose proof (minuteOfDay_range (snd current)).
        pose proof (minuteOfDay_range (snd next)).
        unfold timesOfDay in Hend. cbn [fst snd] in Hend. unfold currentEnd'. lia. }
      destruct (IH (fst current, denormalizeTime currentEnd' (snd current)) currentEnd')
        as (Htotal & Hall).
      { unfold timesOfDay. cbn [fst snd]. apply minuteOfDay_denormalizeTime, Hrange. }
      { unfold timesOfDay in *. cbn [fst snd] in *. unfold currentEnd'. lia. }
      { exact Hproper. }
      split; [| exact Hall].
      unfold timesOfDay in *. cbn [fst snd] in *. unfold currentEnd' in *. lia.
    + destruct (IH next (DateTime.minuteOfDay (snd next))) as (Htotal & Hall).
      { reflexivity. }
      { exact Hnext. }
      { exact Hproper. }
      rewrite mergeLoop_app. cbn [app]. rewrite fold_left_total_cons.
      split.
      * unfold timesOfDay in *. cbn [fst snd] in *. lia.
      * constructor; [| exact Hall].
        unfold timesOfDay in *. cbn [fst snd] in *. lia.
Qed.

Lemma merged_total (chunks sorted : list IsoChunk) :
  Permutation sorted chunks ->
  Forall (fun c => fst (timesOfDay c) <= snd (timesOfDay c)) chunks ->
  let merged :=
    match sorted with
    | [] => []
    | first :: rest => mergeLoop [] first (DateTime.minuteOfDay (snd first)) rest
    end in
  Forall (fun m => fst (timesOfDay m) <= snd (timesOfDay m)) merged
  /\ fold_left
       (fun total chunk =>
          total + (DateTime.minuteOfDay (snd chunk) - DateTime.minuteOfDay (fst chunk)))
       merged 0
     <= fold_left
          (fun total chunk =>
             total
             + (DateTime.minuteOfDay (snd chunk) - DateTime.minuteOfDay (fst chunk)))
          chunks 0.
Proof.
  intros Hperm Hproper.
  rewrite <- (fold_left_total_Permutation _ _ Hperm).
  rewrite <- Hperm in Hproper.
  destruct sorted as [| first rest]; [split; [constructor | simpl; lia] |].
  apply Forall_cons in Hproper as [Hfirst Hrest].
  destruct (mergeLoop_total rest first (DateTime.minuteOfDay (snd first))
              eq_refl Hfirst Hrest) as (Htotal & Hall).
  split; [exact Hall |]. rewrite fold_left_total_cons.
  unfold timesOfDay in *. cbn [fst snd] in *. lia.
Qed.

Lemma fold_left_total_ge (l : list IsoChunk) :
  Forall (fun m => fst (timesOfDay m) <= snd (timesOfDay m)) l ->
  0 <= fold_left
         (fun total chunk =>
            total + (DateTime.minuteOfDay (snd chunk) - DateTime.minuteOfDay (fst chunk)))
         l 0
  /\ forall m, In m l ->
       snd (timesOfDay m) - fst (timesOfDay m)
       <= fold_left
            (fun total chunk =>
               total
               + (DateTime.minuteOfDay (snd chunk) - DateTime.minuteOfDay (fst chunk)))
            l 0.
Proof.
  induction 1 as [| c l Hc Hl [IH0 IH]].
  - split; [simpl; lia | intros m []].
  - rewrite fold_left_total_cons. unfold timesOfDay in *. cbn [fst snd] in *.
    split; [lia |]. intros m [<- | Hm]; [lia |]. specialize (IH m Hm). lia.
Qed.

(** Chunks with the same times of day are merged alike. *)
Lemma mergeLoop_related (sorted sorted' : list IsoChunk) :
  Forall2 (fun a b => timesOfDay a = timesOfDay b) sorted sorted' ->
  forall merged merged' current current' currentEnd,
    0 <= currentEnd < MINUTES_IN_DAY ->
    Forall2 (fun a b => timesOfDay a = timesOfDay b) merged merged' ->
    timesOfDay current = timesOfDay current' ->
    Forall2 (fun a b => timesOfDay a = timesOfDay b)
      (mergeLoop merged current currentEnd sorted)
      (mergeLoop merged' current' currentEnd sorted').
Proof.
  induction 1 as [| next next' sorted sorted' Hnext Hsorted IH];
    intros merged merged' current current' currentEnd Hrange Hmerged Hcurrent.
  - simpl. apply Forall2_app; [exact Hmerged |]. constructor; [exact Hcurrent | constructor].
  - cbn [mergeLoop].
    assert (Hs : DateTime.minuteOfDay (fst next) = DateTime.minuteOfDay (fst next')).
    { unfold timesOfDay in Hnext. congruence. }
    assert (He : DateTime.minuteOfDay (snd next) = DateTime.minuteOfDay (snd next')).
    { unfold timesOfDay in Hnext. congruence. }
    rewrite <- Hs, <- He.
    pose proof (minuteOfDay_range (snd next)) as Hne.
    destruct (DateTime.minuteOfDay (fst next) <=? currentEnd).
    + apply IH; [lia | exact Hmerged |].
      unfold timesOfDay in *. cbn [fst snd] in *.
      rewrite !minuteOfDay_denormalizeTime by lia. congruence.
    + apply IH; [exact Hne | | exact Hnext].
      apply Forall2_app; [exact Hmerged |]. constructor; [exact Hcurrent | constructor].
Qed.

Lemma mergeTimeChunks_related (chunks chunks' : list IsoChunk) :
  Forall2 (fun a b => timesOfDay a = timesOfDay b) chunks chunks' ->
  Forall2 (fun a b => timesOfDay a = timesOfDay b)
    (mergeTimeChunks chunks) (mergeTimeChunks chunks').
Proof.
  intros H. unfold mergeTimeChunks.
  assert (Hsorted :
            Forall2 (fun a b => timesOfDay a = timesOfDay b)
              (Js.sort
                 (fun a b => DateTime.minuteOfDay (fst a) ?= DateTime.minuteOfDay (fst b))
                 chunks)
              (Js.sort
                 (fun a b => DateTime.minuteOfDay (fst a) ?= DateTime.minuteOfDay (fst b))
                 chunks')).
  { apply sort_Forall2; [| exact H].
    intros a a' b b' Hab Hab'. unfold timesOfDay in *. congruence. }
  destruct Hsorted as [| first first' rest rest' Hfirst Hrest]; [constructor |].
  assert (He : DateTime.minuteOfDay (snd first) = DateTime.minuteOfDay (snd first')).
  { unfold timesOfDay in Hfirst. congruence. }
  rewrite <- He.
  apply mergeLoop_related;
    [exact Hrest | apply minuteOfDay_range | constructor | exact Hfirst].
Qed.

Lemma fold_left_total_related (l l' : list IsoChunk) :
  Forall2 (fun a b => timesOfDay a = timesOfDay b) l l' ->
  fold_left
    (fun total chunk =>
       total + (DateTime.minuteOfDay (snd chunk) - DateTime.minuteOfDay (fst chunk)))
    l 0
  = fold_left
      (fun total chunk =>
         total + (DateTime.minuteOfDay (snd chunk) - DateTime.minuteOfDay (fst chunk)))
      l' 0.
Proof.
  induction 1 as [| a b l l' Hab _ IH]; [reflexivity |].
  rewrite !fold_left_total_cons, IH. unfold timesOfDay in Hab.
  injection Hab as -> ->. reflexivity.
Qed.

Lemma Forall2_same_image {A B : Type} (f : A -> B) (l l' : list A) :
  map f l = map f l' -> Forall2 (fun a b => f a = f b) l l'.
Proof.
  revert l'. induction l as [| a l IH]; intros [| b l'] H; try discriminate.
  - constructor.
  - injection H as Hab H. constructor; [exact Hab | apply IH, H].
Qed.

Lemma Forall2_same_image_inv {A B : Type} (f : A -> B) (l l' : list A) :
  Forall2 (fun a b => f a = f b) l l' -> map f l = map f l'.
Proof. induction 1 as [| a b l l' Hab _ IH]; simpl; congruence. Qed.

End MergedFacts.

(** X6. The chunks [mergeTimeChunks] returns are separated and in order:
    by time of day, each ends before every later one starts. They cover
    the input: every input chunk lies, by time of day, inside one of them. *)
Theorem mergeTimeChunks_separated_and_covering
    (chunks : list ConflictDetection.IsoChunk) :
  StronglySorted
    (fun a b => snd (Spec.timesOfDay a) < fst (Spec.timesOfDay b))
    (ConflictDetection.mergeTimeChunks chunks)
  /\ forall c, In c chunks ->
       exists m, In m (ConflictDetection.mergeTimeChunks chunks)
         /\ fst (Spec.timesOfDay m) <= fst (Spec.timesOfDay c)
         /\ snd (Spec.timesOfDay c) <= snd (Spec.timesOfDay m).
Proof. apply mergeTimeChunks_spec. Qed.

(** X7. For chunks that start before they end (by time of day),
    [getTotalDuration] is at least the length of every chunk and at most
    the sum of the lengths: overlapping time is counted once. *)
Theorem getTotalDuration_bounds (chunks : list ConflictDetection.IsoChunk) :
  Forall Spec.startsBeforeEnd chunks ->
  0 <= ConflictDetection.getTotalDuration chunks
  /\ (forall c, In c chunks ->
        snd (Spec.timesOfDay c) - fst (Spec.timesOfDay c)
        <= ConflictDetection.getTotalDuration chunks)
  /\ ConflictDetection.getTotalDuration chunks
     <= fold_left
          (fun total c => total + (snd (Spec.timesOfDay c) - fst (Spec.timesOfDay c)))
          chunks 0.
Proof.
  intros Hproper.
  destruct (mergeTimeChunks_spec chunks) as (_ & Hcover).
  unfold ConflictDetection.getTotalDuration.
  assert (Hmerged :
            Forall (fun m => fst (Spec.timesOfDay m) <= snd (Spec.timesOfDay m))
              (ConflictDetection.mergeTimeChunks chunks)
            /\ fold_left
                 (fun total chunk =>
                    total
                    + (DateTime.minuteOfDay (snd chunk)
                       - DateTime.minuteOfDay (fst chunk)))
                 (ConflictDetection.mergeTimeChunks chunks) 0
               <= fold_left
                    (fun total chunk =>
                       total
                       + (DateTime.minuteOfDay (snd chunk)
                          - DateTime.minuteOfDay (fst chunk)))
                    chunks 0).
  { apply merged_total; [apply sort_Permutation | exact Hproper]. }
  destruct Hmerged as (Hall & Hupper).
  destruct (fold_left_total_ge _ Hall) as (Hzero & Hlower).
  split; [exact Hzero |]. split; [| exact Hupper].
  intros c Hc. destruct (Hcover c Hc) as (m & Hm & Hs & He).
  specialize (Hlower m Hm). lia.
Qed.

(** 09:00-10:00 and 09:30-10:30 on one day: at least 60 minutes. *)
Lemma getTotalDuration_bounds_witness :
  0 <= ConflictDetection.getTotalDuration
         [(DateTime.ofDate 19800 + 540 * 60000, DateTime.ofDate 19800 + 600 * 60000);
          (DateTime.ofDate 19800 + 570 * 60000, DateTime.ofDate 19800 + 630 * 60000)].
Proof.
  apply (getTotalDuration_bounds
           [(DateTime.ofDate 19800 + 540 * 60000, DateTime.ofDate 19800 + 600 * 60000);
            (DateTime.ofDate 19800 + 570 * 60000, DateTime.ofDate 19800 + 630 * 60000)]).
  repeat constructor; vm_compute; discriminate.
Defined.

(** X8. [mergeTimeChunks] and [getTotalDuration] look at times of day only:
    two lists of chunks with the same times of day, whatever their dates,
    are merged into chunks with the same times of day and have the same
    total duration. *)
Theorem getTotalDuration_ignores_dates
    (chunks chunks' : list ConflictDetection.IsoChunk) :
  map Spec.timesOfDay chunks = map Spec.timesOfDay chunks' ->
  map Spec.timesOfDay (ConflictDetection.mergeTimeChunks chunks)
  = map Spec.timesOfDay (ConflictDetection.mergeTimeChunks chunks')
  /\ ConflictDetection.getTotalDuration chunks
     = ConflictDetection.getTotalDuration chunks'.
Proof.
  intros H. apply Forall2_same_image, mergeTimeChunks_related in H.
  split; [apply Forall2_same_image_inv, H |].
  unfold ConflictDetection.getTotalDuration. apply fold_left_total_related, H.
Qed.

(** 09:00-10:00 on a Monday and on the Tuesday after it count as 09:00-10:00
    twice on the Monday. *)
Lemma getTotalDuration_ignores_dates_witness :
  ConflictDetection.getTotalDuration
    [(DateTime.ofDate 19800 + 540 * 60000, DateTime.ofDate 19800 + 600 * 60000);
     (DateTime.ofDate 19801 + 540 * 60000, DateTime.ofDate 19801 + 600 * 60000)]
  = ConflictDetection.getTotalDuration
      [(DateTime.ofDate 19800 + 540 * 60000, DateTime.ofDate 19800 + 600 * 60000);
       (DateTime.ofDate 19800 + 540 * 60000, DateTime.ofDate 19800 + 600 * 60000)].
Proof.
  apply (getTotalDuration_ignores_dates
           [(DateTime.ofDate 19800 + 540 * 60000, DateTime.ofDate 19800 + 600 * 60000);
            (DateTime.ofDate 19801 + 540 * 60000, DateTime.ofDate 19801 + 600 * 60000)]
           [(DateTime.ofDate 19800 + 540 * 60000, DateTime.ofDate 19800 + 600 * 60000);
            (DateTime.ofDate 19800 + 540 * 60000, DateTime.ofDate 19800 + 600 * 60000)]).
  reflexivity.
Defined.

(** ** Subtracting busy chunks from a range *)

Section SubtractFacts.
Import ConflictDetection Constants Spec.

(** Every time of day inside a chunk that the loop of [mergeTimeChunks]
    returns is inside one of the chunks it was given. *)
Lemma mergeLoop_sound (inputs sorted : list IsoChunk) :
  forall current currentEnd,
    snd (timesOfDay current) = currentEnd ->
    (forall t, fst (timesOfDay current) <= t < currentEnd ->
       exists c, In c inputs /\ during t c) ->
    (forall c, In c sorted -> In c inputs) ->
    forall m t,
      In m (mergeLoop [] current currentEnd sorted) -> during t m ->
      exists c, In c inputs /\ during t c.
Proof.
  induction sorted as [| next sorted IH];
    intros current currentEnd Hend Hcur Hsorted m t Hm Ht.
  - simpl in Hm. destruct Hm as [<- | []]. apply Hcur.
    unfold during in Ht. rewrite Hend in Ht. exact Ht.
  - cbn [mergeLoop] in Hm.
    destruct (Z.leb_spec (DateTime.minuteOfDay (fst next)) currentEnd) as [Hle | Hgt].
    + set (currentEnd' := Z.max currentEnd (DateTime.minuteOfDay (snd next))) in *.
      assert (Hrange : 0 <= currentEnd' < MINUTES_IN_DAY).
      { pose proof (minuteOfDay_range (snd current)).
        pose proof (minuteOfDay_range (snd next)).
        unfold timesOfDay in Hend. cbn [fst snd] in Hend. unfold currentEnd'. lia. }
      apply (IH (fst current, denormalizeTime currentEnd' (snd current)) currentEnd')
        with (m := m); try assumption.
      * unfold timesOfDay. cbn [fst snd]. apply minuteOfDay_denormalizeTime, Hrange.
      * intros t' Ht'. unfold timesOfDay in Ht'. cbn [fst snd] in Ht'.
        destruct (Z.lt_ge_cases t' currentEnd) as [Hlt | Hge].
        -- apply Hcur. unfold timesOfDay. cbn [fst snd]. lia.
        -- exists next. split; [apply Hsorted; left; reflexivity |].
           unfold during, timesOfDay. cbn [fst snd]. unfold currentEnd' in Ht'. lia.
      * intros c Hc. apply Hsorted. right. exact Hc.
    + rewrite mergeLoop_app in Hm. cbn [app] in Hm. destruct Hm as [<- | Hm].
      * apply Hcur. unfold during in Ht. rewrite Hend in Ht. exact Ht.
      * apply (IH next (DateTime.minuteOfDay (snd next)) eq_refl) with (m := m);
          try assumption.
        -- intros t' Ht'. exists next. split; [apply Hsorted; left; reflexivity |].
           exact Ht'.
        -- intros c Hc. apply Hsorted. right. exact Hc.
Qed.

Lemma mergeTimeChunks_sound (chunks : list IsoChunk) (m : IsoChunk) (t : Z) :
  In m (mergeTimeChunks chunks) -> during t m ->
  exists c, In c chunks /\ during t c.
Proof.
  assert (Hgen : forall sorted : list IsoChunk,
            (forall c, In c sorted -> In c chunks) ->
            In m match sorted with
                 | [] => []
                 | first :: rest =>
                     mergeLoop [] first (DateTime.minuteOfDay (snd first)) rest
                 end ->
            during t m -> exists c, In c chunks /\ during t c).
  { intros [| first rest] Hin Hm Ht; [destruct Hm |].
    apply (mergeLoop_sound chunks rest first (DateTime.minuteOfDay (snd first)) eq_refl)
      with (m := m); try assumption.
    - intros t' Ht'. exists first. split; [apply Hin; left; reflexivity | exact Ht'].
    - intros c Hc. apply Hin. right. exact Hc. }
  apply Hgen. intros c Hc. apply sort_In in Hc. exact Hc.
Qed.

Lemma mergeTimeChunks_proper (chunks : list IsoChunk) :
  Forall startsBeforeEnd chunks -> Forall startsBeforeEnd (mergeTimeChunks chunks).
Proof.
  intros H. apply (merged_total chunks); [apply sort_Permutation | exact H].
Qed.

(** The state of the loop of [subtractTimeChunks] after the chunks
    [processed], with the chunks [remaining] still to come. *)
Lemma subtract_loop (baseRange : IsoChunk) (remaining : list IsoChunk) :
  fst (timesOfDay baseRange) < snd (timesOfDay baseRange) ->
  forall (processed : list IsoChunk) (acc : list IsoChunk * Z),
    Forall startsBeforeEnd remaining ->
    StronglySorted (fun a b => snd (timesOfDay a) < fst (timesOfDay b)) remaining ->
    fst (timesOfDay baseRange) <= snd acc < MINUTES_IN_DAY ->
    (forall w, In w (fst acc) ->
       fst (timesOfDay baseRange) <= fst (timesOfDay w)
       /\ fst (timesOfDay w) < snd (timesOfDay w)
       /\ snd (timesOfDay w) <= snd (timesOfDay baseRange)
       /\ (forall m, In m processed -> apart w m)
       /\ (forall m, In m remaining -> snd (timesOfDay w) <= fst (timesOfDay m))) ->
    (forall m, In m processed ->
       snd (timesOfDay m) <= snd acc
       \/ snd (timesOfDay baseRange) <= fst (timesOfDay m)) ->
    (forall t, fst (timesOfDay baseRange) <= t < snd acc ->
       t < snd (timesOfDay baseRange) ->
       (exists w, In w (fst acc) /\ during t w)
       \/ (exists m, In m processed /\ during t m)) ->
    let acc' := fold_left (subtractStep baseRange) remaining acc in
    fst (timesOfDay baseRange) <= snd acc' < MINUTES_IN_DAY
    /\ (forall w, In w (fst acc') ->
          fst (timesOfDay baseRange) <= fst (timesOfDay w)
          /\ fst (timesOfDay w) < snd (timesOfDay w)
          /\ snd (timesOfDay w) <= snd (timesOfDay baseRange)
          /\ forall m, In m (processed ++ remaining) -> apart w m)
    /\ (forall m, In m (processed ++ remaining) ->
          snd (timesOfDay m) <= snd acc'
          \/ snd (timesOfDay baseRange) <= fst (timesOfDay m))
    /\ (forall t, fst (timesOfDay baseRange) <= t < snd acc' ->
          t < snd (timesOfDay baseRange) ->
          (exists w, In w (fst acc') /\ during t w)
          \/ (exists m, In m (processed ++ remaining) /\ during t m)).
Proof.
  intros Hbase. induction remaining as [| chunk remaining IH];
    intros processed acc Hproper Hsep Hcs Hwin Hdone Hcover.
  - cbn [fold_left]. rewrite app_nil_r. split; [exact Hcs |].
    split; [| split; assumption].
    intros w Hw. destruct (Hwin w Hw) as (H1 & H2 & H3 & H4 & _). repeat split; assumption.
  - apply Forall_cons in Hproper as [Hchunk Hproper].
    apply StronglySorted_inv in Hsep as [Hsep Hlater].
    cbn [fold_left].
    replace (processed ++ chunk :: remaining) with ((processed ++ [chunk]) ++ remaining)
      by (rewrite <- app_assoc; reflexivity).
    pose proof (minuteOfDay_range (fst baseRange)) as Hbs_range.
    pose proof (minuteOfDay_range (fst chunk)) as Hcs_range.
    pose proof (minuteOfDay_range (snd chunk)) as Hce_range.
    unfold startsBeforeEnd, timesOfDay in Hchunk. cbn [fst snd] in Hchunk.
    apply IH; try assumption.
    + (* currentStart stays in range *)
      unfold subtractStep. rewrite Z.geb_leb.
      destruct ((DateTime.minuteOfDay (snd chunk) <=? DateTime.minuteOfDay (fst baseRange))
                || (DateTime.minuteOfDay (snd baseRange)
                    <=? DateTime.minuteOfDay (fst chunk))); [exact Hcs |].
      cbn [snd]. unfold timesOfDay in *. cbn [fst snd] in *. lia.
    + (* the windows *)
      intros w Hw.
      assert (Hold : In w (fst acc) ->
                fst (timesOfDay baseRange) <= fst (timesOfDay w)
                /\ fst (timesOfDay w) < snd (timesOfDay w)
                /\ snd (timesOfDay w) <= snd (timesOfDay baseRange)
                /\ (forall m, In m (processed ++ [chunk]) -> apart w m)
                /\ (forall m, In m remaining ->
                      snd (timesOfDay w) <= fst (timesOfDay m))).
      { intros Hin. destruct (Hwin w Hin) as (H1 & H2 & H3 & H4 & H5).
        split; [exact H1 |]. split; [exact H2 |]. split; [exact H3 |]. split.
        - intros m Hm. apply in_app_or in Hm as [Hm | [<- | []]]; [apply H4, Hm |].
          left. apply H5. left. reflexivity.
        - intros m Hm. apply H5. right. exact Hm. }
      revert Hw. unfold subtractStep. rewrite Z.geb_leb.
      destruct (Z.leb_spec (DateTime.minuteOfDay (snd chunk))
                  (DateTime.minuteOfDay (fst baseRange))) as [Hbefore | Hnotbefore];
        [exact Hold |].
      destruct (Z.leb_spec (DateTime.minuteOfDay (snd baseRange))
                  (DateTime.minuteOfDay (fst chunk))) as [Hafter | Hnotafter];
        [exact Hold |].
      cbn [orb fst].
      destruct (Z.ltb_spec (snd acc) (DateTime.minuteOfDay (fst chunk)))
        as [Hgap | Hnogap]; [| exact Hold].
      intros Hw. apply in_app_or in Hw as [Hw | [<- | []]]; [apply Hold, Hw |].
      unfold timesOfDay in *. cbn [fst snd] in *.
      rewrite !minuteOfDay_denormalizeTime by lia.
      split; [lia |]. split; [lia |]. split; [lia |]. split.
      * intros m Hm. apply in_app_or in Hm as [Hm | [<- | []]].
        -- unfold apart, timesOfDay. cbn [fst snd].
           rewrite !minuteOfDay_denormalizeTime by lia.
           destruct (Hdone m Hm) as [H | H]; [right; lia | left; lia].
        -- unfold apart, timesOfDay. cbn [fst snd].
           rewrite !minuteOfDay_denormalizeTime by lia. left. lia.
      * intros m Hm. rewrite Forall_forall in Hlater.
        specialize (Hlater m (proj2 (list_elem_of_In _ _) Hm)).
        cbn [fst snd] in Hlater. lia.
    + (* the chunks done *)
      intros m Hm. unfold subtractStep. rewrite Z.geb_leb.
      destruct (Z.leb_spec (DateTime.minuteOfDay (snd chunk))
                  (DateTime.minuteOfDay (fst baseRange))) as [Hbefore | Hnotbefore];
        [| destruct (Z.leb_spec (DateTime.minuteOfDay (snd baseRange))
                       (DateTime.minuteOfDay (fst chunk))) as [Hafter | Hnotafter]];
        cbn [orb snd];
        (apply in_app_or in Hm as [Hm | [<- | []]];
         [destruct (Hdone m Hm) as [H | H]; [left; lia | right; exact H] |]);
        unfold timesOfDay in *; cbn [fst snd] in *; lia.
    + (* the times covered *)
      intros t Ht Hbe.
      assert (Hold : fst (timesOfDay baseRange) <= t < snd acc ->
                (exists w, In w (fst (subtractStep baseRange acc chunk)) /\ during t w)
                \/ (exists m, In m (processed ++ [chunk]) /\ during t m)).
      { intros Hlt. destruct (Hcover t Hlt Hbe) as [(w & Hw & Hin) | (m & Hm & Hin)].
        - left. exists w. split; [| exact Hin].
          unfold subtractStep.
          destruct ((_ <=? _) || (_ >=? _)); [exact Hw |]. cbn [fst].
          destruct (snd acc <? _); [apply in_or_app; left; exact Hw | exact Hw].
        - right. exists m. split; [apply in_or_app; left; exact Hm | exact Hin]. }
      revert Ht Hold. unfold subtractStep. rewrite Z.geb_leb.
      destruct (Z.leb_spec (DateTime.minuteOfDay (snd chunk))
                  (DateTime.minuteOfDay (fst baseRange))) as [Hbefore | Hnotbefore];
        [intros Ht Hold; apply Hold, Ht |].
      destruct (Z.leb_spec (DateTime.minuteOfDay (snd baseRange))
                  (DateTime.minuteOfDay (fst chunk))) as [Hafter | Hnotafter];
        [intros Ht Hold; apply Hold, Ht |].
      cbn [orb fst snd]. intros Ht Hold.
      destruct (Z.lt_ge_cases t (snd acc)) as [Hlt | Hge]; [apply Hold; lia |].
      destruct (Z.lt_ge_cases t (DateTime.minuteOfDay (fst chunk))) as [Hgap | Hin].
      * left. destruct (Z.ltb_spec (snd acc) (DateTime.minuteOfDay (fst chunk)));
          [| lia].
        eexists. split; [apply in_or_app; right; left; reflexivity |].
        unfold during, timesOfDay in *. cbn [fst snd] in *.
        rewrite !minuteOfDay_denormalizeTime by lia. lia.
      * right. exists chunk. split; [apply in_or_app; right; left; reflexivity |].
        unfold during, timesOfDay. cbn [fst snd]. lia.
Qed.

End SubtractFacts.

(** X9. For a base range that starts before it ends and busy chunks that
    start no later than they end (ISO date-times, compared by time of day),
    [subtractTimeChunks] returns the free time of the base range: every
    returned chunk is non-empty, lies inside the base range and shares no
    time with any busy chunk; and every time of the base range that is in
    no busy chunk is in a returned chunk. *)
Theorem subtractTimeChunks_spec (baseRange : ConflictDetection.IsoChunk)
    (toSubtract : list ConflictDetection.IsoChunk) :
  fst (Spec.timesOfDay baseRange) < snd (Spec.timesOfDay baseRange) ->
  Forall Spec.startsBeforeEnd toSubtract ->
  (forall w, In w (ConflictDetection.subtractTimeChunks baseRange toSubtract) ->
     fst (Spec.timesOfDay baseRange) <= fst (Spec.timesOfDay w)
     /\ fst (Spec.timesOfDay w) < snd (Spec.timesOfDay w)
     /\ snd (Spec.timesOfDay w) <= snd (Spec.timesOfDay baseRange)
     /\ forall c, In c toSubtract -> Spec.apart w c)
  /\ forall t,
       Spec.during t baseRange ->
       (forall c, In c toSubtract -> ~ Spec.during t c) ->
       exists w,
         In w (ConflictDetection.subtractTimeChunks baseRange toSubtract)
         /\ Spec.during t w.
Proof.
  intros Hbase Hproper. unfold ConflictDetection.subtractTimeChunks.
  destruct toSubtract as [| first rest] eqn:Hlist.
  { split.
    - intros w [<- | []]. split; [lia |]. split; [exact Hbase |]. split; [lia |].
      intros c [].
    - intros t Ht _. exists baseRange. split; [left; reflexivity | exact Ht]. }
  rewrite <- Hlist in *. clear Hlist first rest.
  destruct (mergeTimeChunks_spec toSubtract) as (Hsep & Hcover).
  pose proof (mergeTimeChunks_proper toSubtract Hproper) as Hmerged.
  pose proof (minuteOfDay_range (fst baseRange)) as Hbs.
  pose proof (minuteOfDay_range (snd baseRange)) as Hbe.
  destruct (subtract_loop baseRange (ConflictDetection.mergeTimeChunks toSubtract) Hbase
              [] ([], DateTime.minuteOfDay (fst baseRange)) Hmerged Hsep)
    as (Hcs & Hwin & Hdone & Hfree).
  { cbn [snd]. unfold Spec.timesOfDay. cbn [fst snd]. lia. }
  { intros w []. }
  { intros m []. }
  { cbn [snd]. intros t Ht. unfold Spec.timesOfDay in Ht. cbn [fst snd] in Ht. lia. }
  cbn [app] in *.
  set (acc := fold_left (ConflictDetection.subtractStep baseRange)
                (ConflictDetection.mergeTimeChunks toSubtract)
                ([], DateTime.minuteOfDay (fst baseRange))) in *.
  assert (Hapart : forall w c,
            (forall m, In m (ConflictDetection.mergeTimeChunks toSubtract) ->
               Spec.apart w m) ->
            In c toSubtract -> Spec.apart w c).
  { intros w c Hw Hc. destruct (Hcover c Hc) as (m & Hm & Hs & He).
    destruct (Hw m Hm) as [H | H]; [left | right]; lia. }
  assert (Hlast : snd acc < DateTime.minuteOfDay (snd baseRange) ->
            let w := (ConflictDetection.denormalizeTime (snd acc) (fst baseRange),
                      snd baseRange) in
            fst (Spec.timesOfDay w) = snd acc
            /\ snd (Spec.timesOfDay w) = snd (Spec.timesOfDay baseRange)).
  { intros Hlt. unfold Spec.timesOfDay in *. cbn [fst snd] in *.
    rewrite minuteOfDay_denormalizeTime by lia. split; reflexivity. }
  split.
  - intros w Hw.
    assert (Hcases : In w (fst acc)
                     \/ snd acc < DateTime.minuteOfDay (snd baseRange)
                        /\ w = (ConflictDetection.denormalizeTime (snd acc) (fst baseRange),
                                snd baseRange)).
    { destruct (Z.ltb_spec (snd acc) (DateTime.minuteOfDay (snd baseRange)));
        [| left; exact Hw].
      apply in_app_or in Hw as [Hw | [<- | []]]; [left; exact Hw | right].
      split; [assumption | reflexivity]. }
    destruct Hcases as [Hin | [Hlt ->]].
    + destruct (Hwin w Hin) as (H1 & H2 & H3 & H4).
      split; [exact H1 |]. split; [exact H2 |]. split; [exact H3 |].
      intros c Hc. apply Hapart; assumption.
    + destruct (Hlast Hlt) as [Hs He]. cbn zeta in Hs, He.
      rewrite Hs, He. split; [lia |].
      split; [unfold Spec.timesOfDay; cbn [fst snd]; lia |]. split; [lia |].
      intros c Hc. apply Hapart; [| exact Hc].
      intros m Hm. unfold Spec.apart. rewrite Hs, He.
      destruct (Hdone m Hm) as [H | H]; [right; exact H | left; exact H].
  - intros t Ht Hfree_t. unfold Spec.during in Ht.
    destruct (Z.lt_ge_cases t (snd acc)) as [Hlt | Hge].
    + destruct (Hfree t) as [(w & Hw & Hin) | (m & Hm & Hin)]; [lia | lia | |].
      * exists w. split; [| exact Hin].
        destruct (snd acc <? DateTime.minuteOfDay (snd baseRange));
          [apply in_or_app; left; exact Hw | exact Hw].
      * exfalso. destruct (mergeTimeChunks_sound toSubtract m t Hm Hin) as (c & Hc & Hd).
        exact (Hfree_t c Hc Hd).
    + assert (Hopen : snd acc < DateTime.minuteOfDay (snd baseRange)).
      { unfold Spec.timesOfDay in Ht. cbn [fst snd] in Ht. lia. }
      destruct (Hlast Hopen) as [Hs He]. cbn zeta in Hs, He.
      destruct (Z.ltb_spec (snd acc) (DateTime.minuteOfDay (snd baseRange))); [| lia].
      eexists. split; [apply in_or_app; right; left; reflexivity |].
      unfold Spec.during. rewrite Hs, He. lia.
Qed.

(** 09:00-17:00 without 10:00-11:00 and 14:00-15:00. *)
Lemma subtractTimeChunks_spec_witness :
  exists w,
    In w (ConflictDetection.subtractTimeChunks
            (DateTime.ofDate 19800 + 540 * 60000, DateTime.ofDate 19800 + 1020 * 60000)
            [(DateTime.ofDate 19800 + 600 * 60000, DateTime.ofDate 19800 + 660 * 60000);
             (DateTime.ofDate 19800 + 840 * 60000, DateTime.ofDate 19800 + 900 * 60000)])
    /\ Spec.during 720 w.
Proof.
  apply (subtractTimeChunks_spec
           (DateTime.ofDate 19800 + 540 * 60000, DateTime.ofDate 19800 + 1020 * 60000)
           [(DateTime.ofDate 19800 + 600 * 60000, DateTime.ofDate 19800 + 660 * 60000);
            (DateTime.ofDate 19800 + 840 * 60000, DateTime.ofDate 19800 + 900 * 60000)]).
  - vm_compute. reflexivity.
  - repeat constructor; vm_compute; discriminate.
  - vm_compute. split; [discriminate | reflexivity].
  - intros c [<- | [<- | []]]; vm_compute; intros [H1 H2];
      first [discriminate H2 | apply H1; reflexivity].
Defined.

(** ** Availability of an interviewer *)

Section AvailabilityFacts.
Import AvailabilityCheck.

Lemma push_nil (found : option SlotConflict.t) : push found = [] <-> found = None.
Proof. destruct found; simpl; split; intros H; congruence. Qed.

Lemma checkWorkHours_None interviewer start end_ :
  checkWorkHours interviewer start end_ = None
  <-> exists workHours,
        getDayOfWeek start (Interviewer.workHours interviewer) = Some workHours
        /\ fst (TimeRange.startTime workHours) * 60 + snd (TimeRange.startTime workHours)
           <= DateTime.minuteOfDay start
        /\ DateTime.minuteOfDay end_
           <= fst (TimeRange.endTime workHours) * 60 + snd (TimeRange.endTime workHours).
Proof.
  unfold checkWorkHours.
  destruct (getDayOfWeek start (Interviewer.workHours interviewer)) as [workHours |].
  - rewrite Z.gtb_ltb.
    destruct (Z.ltb_spec (DateTime.minuteOfDay start)
                (fst (TimeRange.startTime workHours) * 60
                 + snd (TimeRange.startTime workHours)));
      destruct (Z.ltb_spec
                  (fst (TimeRange.endTime workHours) * 60
                   + snd (TimeRange.endTime workHours))
                  (DateTime.minuteOfDay end_)); simpl;
      (split; [intros Hnone | intros (w & Hw & Hw1 & Hw2); injection Hw as <-]);
      try discriminate; try reflexivity; try (exfalso; lia);
      exists workHours; repeat split; lia.
  - split; [discriminate | intros (w & Hw & _); discriminate].
Qed.

Lemma checkHolidays_None interviewer date :
  checkHolidays interviewer date = None
  <-> forall holidays h,
        Interviewer.holidays interviewer = Some holidays ->
        In h holidays -> Holiday.date h <> date.
Proof.
  unfold checkHolidays. destruct (Interviewer.holidays interviewer) as [holidays |].
  - destruct (List.find (fun h => Holiday.date h =? date) holidays) as [h |] eqn:Hfind.
    + split; [discriminate |]. intros H. apply find_some in Hfind as [Hin Heq].
      apply Z.eqb_eq in Heq. exfalso. exact (H holidays h eq_refl Hin Heq).
    + split; [| reflexivity]. intros _ holidays' h Hsome Hin Heq.
      injection Hsome as <-.
      pose proof (find_none _ _ Hfind h Hin) as Hno. simpl in Hno.
      apply Z.eqb_neq in Hno. contradiction.
  - split; [| reflexivity]. intros _ holidays h Hsome. discriminate.
Qed.

Lemma checkDayOffs_None interviewer date :
  checkDayOffs interviewer date = None
  <-> forall dayOffs,
        Interviewer.dayOffs interviewer = Some dayOffs -> ~ In date dayOffs.
Proof.
  unfold checkDayOffs. destruct (Interviewer.dayOffs interviewer) as [dayOffs |].
  - destruct (existsb (fun d => d =? date) dayOffs) eqn:Hex.
    + split; [discriminate |]. intros H. apply existsb_exists in Hex as (d & Hin & Heq).
      apply Z.eqb_eq in Heq. subst d. exfalso. exact (H dayOffs eq_refl Hin).
    + split; [| reflexivity]. intros _ dayOffs' Hsome Hin. injection Hsome as <-.
      assert (Htrue : existsb (fun d => d =? date) dayOffs = true).
      { apply existsb_exists. exists date. split; [exact Hin | apply Z.eqb_refl]. }
      congruence.
  - split; [| reflexivity]. intros _ dayOffs Hsome. discriminate.
Qed.

Lemma checkBlockedTimes_None interviewer startTime endTime :
  checkBlockedTimes interviewer startTime endTime = None
  <-> forall blockedTimes blocked,
        Interviewer.blockedTimes interviewer = Some blockedTimes ->
        In blocked blockedTimes ->
        endTime <= DateTimeRange.start blocked
        \/ DateTimeRange.end_ blocked <= startTime.
Proof.
  unfold checkBlockedTimes.
  destruct (Interviewer.blockedTimes interviewer) as [blockedTimes |].
  - destruct (existsb _ blockedTimes) eqn:Hex.
    + split; [discriminate |]. intros H.
      apply existsb_exists in Hex as (blocked & Hin & Hover).
      specialize (H blockedTimes blocked eq_refl Hin). exfalso.
      rewrite Z.geb_leb in Hover.
      destruct (Z.leb_spec endTime (DateTimeRange.start blocked));
        destruct (Z.leb_spec (DateTimeRange.end_ blocked) startTime);
        simpl in Hover; try discriminate; lia.
    + split; [| reflexivity]. intros _ blockedTimes' blocked Hsome Hin.
      injection Hsome as <-.
      assert (Hno : negb ((endTime <=? DateTimeRange.start blocked)
                          || (startTime >=? DateTimeRange.end_ blocked)) = false).
      { destruct (negb _) eqn:Hover; [| reflexivity].
        assert (Htrue : existsb
                          (fun blocked =>
                             negb ((endTime <=? DateTimeRange.start blocked)
                                   || (startTime >=? DateTimeRange.end_ blocked)))
                          blockedTimes = true).
        { apply existsb_exists. exists blocked. split; [exact Hin | exact Hover]. }
        congruence. }
      rewrite Z.geb_leb in Hno.
      destruct (Z.leb_spec endTime (DateTimeRange.start blocked));
        destruct (Z.leb_spec (DateTimeRange.end_ blocked) startTime);
        simpl in Hno; try discriminate; lia.
  - split; [| reflexivity]. intros _ blockedTimes blocked Hsome. discriminate.
Qed.

Lemma available_iff interviewer startTime endTime options :
  AvailabilityResult.available
    (isInterviewerAvailable interviewer startTime endTime options) = true
  <-> (Js.notFalse (SchedulingOptions.respectWorkHours options) = true ->
       checkWorkHours interviewer startTime endTime = None)
      /\ (Js.notFalse (SchedulingOptions.respectHolidays options) = true ->
          checkHolidays interviewer (DateTime.toDate startTime) = None)
      /\ (Js.notFalse (SchedulingOptions.respectDayOffs options) = true ->
          checkDayOffs interviewer (DateTime.toDate startTime) = None)
      /\ checkBlockedTimes interviewer startTime endTime = None.
Proof.
  unfold isInterviewerAvailable. cbn [AvailabilityResult.available].
  rewrite bool_decide_eq_true.
  destruct (Js.notFalse (SchedulingOptions.respectWorkHours options));
    destruct (Js.notFalse (SchedulingOptions.respectHolidays options));
    destruct (Js.notFalse (SchedulingOptions.respectDayOffs options));
    destruct (checkWorkHours interviewer startTime endTime);
    destruct (checkHolidays interviewer (DateTime.toDate startTime));
    destruct (checkDayOffs interviewer (DateTime.toDate startTime));
    destruct (checkBlockedTimes interviewer startTime endTime);
    simpl; split;
    try discriminate; try reflexivity;
    try (intros (H1 & H2 & H3 & H4);
         first [discriminate H4 | discriminate (H1 eq_refl)
               | discriminate (H2 eq_refl) | discriminate (H3 eq_refl)]);
    intros _; repeat split; intros; try reflexivity; discriminate.
Qed.

End AvailabilityFacts.

(** X10. [isInterviewerAvailable] reports an interviewer as available exactly
    when: unless [respectWorkHours] is [false], the interviewer works on the
    weekday of the start, the start is not before the work start and the
    end's time of day is not after the work end; unless [respectHolidays]
    is [false], the start date is no holiday; unless [respectDayOffs] is
    [false], it is no day off; and, whatever the options, the window meets
    no blocked time. *)
Theorem isInterviewerAvailable_spec (interviewer : Interviewer.t)
    (startTime endTime : Z) (options : SchedulingOptions.t) :
  AvailabilityCheck.AvailabilityResult.available
    (AvailabilityCheck.isInterviewerAvailable interviewer startTime endTime options)
  = true
  <-> (Js.notFalse (SchedulingOptions.respectWorkHours options) = true ->
       exists workHours,
         AvailabilityCheck.getDayOfWeek startTime (Interviewer.workHours interviewer)
         = Some workHours
         /\ fst (TimeRange.startTime workHours) * 60 + snd (TimeRange.startTime workHours)
            <= DateTime.minuteOfDay startTime
         /\ DateTime.minuteOfDay endTime
            <= fst (TimeRange.endTime workHours) * 60 + snd (TimeRange.endTime workHours))
      /\ (Js.notFalse (SchedulingOptions.respectHolidays options) = true ->
          forall holidays h,
            Interviewer.holidays interviewer = Some holidays ->
            In h holidays -> Holiday.date h <> DateTime.toDate startTime)
      /\ (Js.notFalse (SchedulingOptions.respectDayOffs options) = true ->
          forall dayOffs,
            Interviewer.dayOffs interviewer = Some dayOffs ->
            ~ In (DateTime.toDate startTime) dayOffs)
      /\ (forall blockedTimes blocked,
            Interviewer.blockedTimes interviewer = Some blockedTimes ->
            In blocked blockedTimes ->
            endTime <= DateTimeRange.start blocked
            \/ DateTimeRange.end_ blocked <= startTime).
Proof.
  rewrite available_iff, checkWorkHours_None, checkHolidays_None, checkDayOffs_None,
    checkBlockedTimes_None.
  reflexivity.
Qed.

(** ** Load of an interviewer *)

Section LoadFacts.
Import LoadCalculation Constants.

Lemma same_week_iff (date start : Z) :
  (start >=? DateTime.ofDate (DateTime.toDate date - DateTime.getDay date))
  && (start <? DateTime.addDays
                 (DateTime.ofDate (DateTime.toDate date - DateTime.getDay date)) 7)
  = (Spec.weekOf start =? Spec.weekOf date).
Proof.
  unfold Spec.weekOf, DateTime.addDays, DateTime.ofDate, DateTime.getDay,
    DateTime.toDate, MS_PER_DAY.
  set (d := date / 86400000). set (s := start / 86400000).
  pose proof (Z.div_mod start 86400000 ltac:(lia)) as Hs.
  pose proof (Z.mod_pos_bound start 86400000 ltac:(lia)) as Hsr.
  fold s in Hs.
  pose proof (Z.div_mod (d + 4) 7 ltac:(lia)) as Hd.
  pose proof (Z.mod_pos_bound (d + 4) 7 ltac:(lia)) as Hdr.
  pose proof (Z.div_mod (s + 4) 7 ltac:(lia)) as Hw.
  pose proof (Z.mod_pos_bound (s + 4) 7 ltac:(lia)) as Hwr.
  rewrite Z.geb_leb.
  destruct (Z.leb_spec ((d - (d + 4) mod 7) * 86400000) start);
    destruct (Z.ltb_spec start ((d - (d + 4) mod 7) * 86400000 + 7 * 86400000));
    destruct (Z.eqb_spec ((s + 4) / 7) ((d + 4) / 7));
    simpl; try reflexivity; exfalso; lia.
Qed.

Lemma calculateWeeklyLoad_week interviewer date additionalDuration events :
  calculateWeeklyLoad interviewer date additionalDuration events
  = loadOf (InterviewerLimits.weekly (Interviewer.limits interviewer))
      additionalDuration
      (List.filter
         (fun event => Spec.weekOf (CalendarEvent.start event) =? Spec.weekOf date)
         events).
Proof.
  unfold calculateWeeklyLoad. f_equal.
  apply List.filter_ext. intros e. apply same_week_iff.
Qed.

Lemma same_day_same_week (date start : Z) :
  DateTime.toDate start = DateTime.toDate date -> Spec.weekOf start = Spec.weekOf date.
Proof. unfold Spec.weekOf. intros ->. reflexivity. Qed.

Lemma filter_length_le {A : Type} (p q : A -> bool) (l : list A) :
  (forall a, p a = true -> q a = true) ->
  (length (List.filter p l) <= length (List.filter q l))%nat.
Proof.
  intros H. induction l as [| a l IH]; simpl; [lia |].
  destruct (p a) eqn:Hp.
  - rewrite (H a Hp). simpl. lia.
  - destruct (q a); simpl; lia.
Qed.

End LoadFacts.

(** X11. The weekly load counts the events that start in the week, Sunday
    to Saturday, of the proposed slot; every event counted for the day is
    counted for the week, so with two count limits the weekly count is
    never below the daily one. *)
Theorem calculateWeeklyLoad_window (interviewer : Interviewer.t)
    (slot : InterviewSlot.t) (events : list CalendarEvent.t)
    (options : SchedulingOptions.t) :
  LoadInfo.weekly
    (LoadCalculation.calculateInterviewerLoad interviewer slot events options)
  = LoadCalculation.loadOf
      (InterviewerLimits.weekly (Interviewer.limits interviewer))
      (LoadCalculation.calculateSlotDuration slot)
      (List.filter
         (fun event =>
            Spec.weekOf (CalendarEvent.start event)
            =? Spec.weekOf (InterviewSlot.startTime slot))
         events)
  /\ (forall event,
        DateTime.toDate (CalendarEvent.start event)
        = DateTime.toDate (InterviewSlot.startTime slot) ->
        Spec.weekOf (CalendarEvent.start event)
        = Spec.weekOf (InterviewSlot.startTime slot))
  /\ (LoadLimit.type (InterviewerLimits.daily (Interviewer.limits interviewer))
      = LoadLimit.count ->
      LoadLimit.type (InterviewerLimits.weekly (Interviewer.limits interviewer))
      = LoadLimit.count ->
      (LoadInfo.current
         (LoadInfo.daily
            (LoadCalculation.calculateInterviewerLoad interviewer slot events options))
       <= LoadInfo.current
            (LoadInfo.weekly
               (LoadCalculation.calculateInterviewerLoad interviewer slot events
                  options)))%Q).
Proof.
  split; [apply calculateWeeklyLoad_week |].
  split; [intros event; apply same_day_same_week |].
  intros Hdaily Hweekly. cbn [LoadCalculation.calculateInterviewerLoad LoadInfo.daily
                               LoadInfo.weekly].
  rewrite calculateWeeklyLoad_week.
  unfold LoadCalculation.calculateDailyLoad, LoadCalculation.loadOf.
  rewrite Hdaily, Hweekly. cbn [LoadInfo.current].
  rewrite <- Zle_Qle.
  pose proof (filter_length_le
                (fun event : CalendarEvent.t =>
                   DateTime.toDate (CalendarEvent.start event)
                   =? DateTime.toDate (InterviewSlot.startTime slot))
                (fun event : CalendarEvent.t =>
                   Spec.weekOf (CalendarEvent.start event)
                   =? Spec.weekOf (InterviewSlot.startTime slot))
                events) as Hle.
  assert (Himp : forall a : CalendarEvent.t,
            (DateTime.toDate (CalendarEvent.start a)
             =? DateTime.toDate (InterviewSlot.startTime slot)) = true ->
            (Spec.weekOf (CalendarEvent.start a)
             =? Spec.weekOf (InterviewSlot.startTime slot)) = true).
  { intros a Ha. apply Z.eqb_eq in Ha. apply Z.eqb_eq, same_day_same_week, Ha. }
  specialize (Hle Himp). lia.
Qed.

(** X12. With a daily limit counted in interviews and a positive maximum,
    the daily load is over the limit exactly when the events that start on
    the slot's date, plus the slot itself, outnumber the maximum. *)
Theorem daily_count_limit_spec (interviewer : Interviewer.t)
    (slot : InterviewSlot.t) (events : list CalendarEvent.t)
    (options : SchedulingOptions.t) :
  LoadLimit.type (InterviewerLimits.daily (Interviewer.limits interviewer))
  = LoadLimit.count ->
  (0 < LoadLimit.max (InterviewerLimits.daily (Interviewer.limits interviewer)))%Q ->
  Js.gt
    (LoadInfo.density
       (LoadInfo.daily
          (LoadCalculation.calculateInterviewerLoad interviewer slot events options)))
    1 = true
  <-> (LoadLimit.max (InterviewerLimits.daily (Interviewer.limits interviewer))
       < inject_Z
           (Z.of_nat
              (length
                 (List.filter
                    (fun event =>
                       DateTime.toDate (CalendarEvent.start event)
                       =? DateTime.toDate (InterviewSlot.startTime slot))
                    events))
            + 1))%Q.
Proof.
  intros Htype Hmax.
  cbn [LoadCalculation.calculateInterviewerLoad LoadInfo.daily].
  unfold LoadCalculation.calculateDailyLoad, LoadCalculation.loadOf.
  rewrite Htype. cbn [LoadInfo.density].
  set (n := inject_Z _).
  set (m := LoadLimit.max _) in *.
  unfold Js.div.
  destruct (Qeq_bool m 0) eqn:Hzero.
  { apply Qeq_bool_iff in Hzero. rewrite Hzero in Hmax. discriminate Hmax. }
  cbn [Js.gt]. rewrite negb_true_iff.
  assert (Hnm : (n == n / m * m)%Q).
  { field. intros H. rewrite H in Hmax. discriminate Hmax. }
  split.
  - intros Hle. apply Qle_bool_false in Hle. nra.
  - intros Hlt. destruct (Qle_bool (n / m) 1) eqn:Hle; [| reflexivity].
    apply Qle_bool_iff in Hle. exfalso. nra.
Qed.

(** One event on the Monday and a daily limit of one interview: the
    proposed slot is over the limit. *)
Lemma daily_count_limit_spec_witness :
  Js.gt
    (LoadInfo.density
       (LoadInfo.daily
          (LoadCalculation.calculateInterviewerLoad Scenarios.interviewerOnePerDay
             Scenarios.slotMonday [Scenarios.busyMonday] Scenarios.enforced)))
    1 = true.
Proof.
  apply (daily_count_limit_spec Scenarios.interviewerOnePerDay Scenarios.slotMonday
           [Scenarios.busyMonday] Scenarios.enforced); reflexivity.
Defined.
(** ** Ordering the sessions and grouping them into rounds *)

Section OrderFacts.
Import SlotFinder Spec.

Lemma compare_order_Gt (a b : InterviewSession.t) :
  (InterviewSession.order a - InterviewSession.order b ?= 0) = Gt
  <-> InterviewSession.order b < InterviewSession.order a.
Proof. rewrite Z.compare_gt_iff. lia. Qed.

Lemma insert_filter_order (k : Z) (x : InterviewSession.t) (l : list InterviewSession.t) :
  List.filter (fun s => InterviewSession.order s =? k)
    (Js.insert
       (fun a b => InterviewSession.order a - InterviewSession.order b ?= 0) x l)
  = List.filter (fun s => InterviewSession.order s =? k) (x :: l).
Proof.
  induction l as [| y l IH]; [reflexivity |].
  cbn [Js.insert].
  destruct (InterviewSession.order x - InterviewSession.order y ?= 0) eqn:Hxy;
    try reflexivity.
  apply compare_order_Gt in Hxy.
  cbn [List.filter] in *. rewrite IH.
  destruct (Z.eqb_spec (InterviewSession.order x) k);
    destruct (Z.eqb_spec (InterviewSession.order y) k); try reflexivity.
  lia.
Qed.

Lemma sortByOrder_sorted (sessions : list InterviewSession.t) :
  StronglySorted
    (fun a b => InterviewSession.order a <= InterviewSession.order b)
    (sortByOrder sessions).
Proof.
  apply sort_StronglySorted.
  - intros a b H. destruct (Z.compare_spec (InterviewSession.order a - InterviewSession.order b) 0);
      try lia. contradiction.
  - intros a b H. apply compare_order_Gt in H. lia.
  - intros a b c. lia.
Qed.

Lemma sortByOrder_stable (k : Z) (sessions : list InterviewSession.t) :
  List.filter (fun s => InterviewSession.order s =? k) (sortByOrder sessions)
  = List.filter (fun s => InterviewSession.order s =? k) sessions.
Proof.
  induction sessions as [| x l IH]; [reflexivity |].
  unfold sortByOrder in *. cbn [Js.sort]. rewrite insert_filter_order.
  cbn [List.filter]. rewrite IH. reflexivity.
Qed.

(** A round that was closed by a session with a break of a day or more. *)
Lemma groupLoop_spec (sorted : list InterviewSession.t) :
  forall acc,
    Forall
      (fun round => exists init s,
           round = init ++ [s] /\ Forall sameDayBreak init /\ ~ sameDayBreak s)
      (fst acc) ->
    Forall sameDayBreak (snd acc) ->
    concat (fst (fold_left groupStep sorted acc)) ++ snd (fold_left groupStep sorted acc)
    = concat (fst acc) ++ snd acc ++ sorted
    /\ Forall
         (fun round => exists init s,
              round = init ++ [s] /\ Forall sameDayBreak init /\ ~ sameDayBreak s)
         (fst (fold_left groupStep sorted acc))
    /\ Forall sameDayBreak (snd (fold_left groupStep sorted acc)).
Proof.
  induction sorted as [| session sorted IH]; intros acc Hclosed Hopen.
  - simpl. rewrite app_nil_r. repeat split; assumption.
  - cbn [fold_left].
    assert (Hstep :
              concat (fst (groupStep acc session)) ++ snd (groupStep acc session)
              = concat (fst acc) ++ snd acc ++ [session]
              /\ Forall
                   (fun round => exists init s,
                        round = init ++ [s] /\ Forall sameDayBreak init
                        /\ ~ sameDayBreak s)
                   (fst (groupStep acc session))
              /\ Forall sameDayBreak (snd (groupStep acc session))).
    { unfold groupStep. rewrite Z.geb_leb.
      destruct (Z.leb_spec Constants.MINUTES_IN_DAY (InterviewSession.breakAfter session))
        as [Hbig | Hsmall]; cbn [fst snd].
      - rewrite concat_app. simpl. rewrite !app_nil_r.
        split; [reflexivity |]. split; [| constructor].
        apply Forall_app. split; [exact Hclosed |].
        constructor; [| constructor].
        exists (snd acc), session. split; [reflexivity |]. split; [exact Hopen |].
        unfold sameDayBreak. lia.
      - split; [reflexivity |]. split; [exact Hclosed |].
        apply Forall_app. split; [exact Hopen |].
        constructor; [exact Hsmall | constructor]. }
    destruct Hstep as (Hconcat & Hclosed' & Hopen').
    destruct (IH (groupStep acc session) Hclosed' Hopen') as (H1 & H2 & H3).
    split; [| split; assumption].
    rewrite H1, app_assoc, Hconcat. rewrite <- !app_assoc. reflexivity.
Qed.

Lemma needsMultiDayScheduling_false (sessions : list InterviewSession.t) :
  SchedulingEngine.needsMultiDayScheduling sessions = false
  <-> Forall sameDayBreak sessions.
Proof.
  unfold SchedulingEngine.needsMultiDayScheduling. induction sessions as [| s l IH].
  - split; [constructor | reflexivity].
  - cbn [existsb]. rewrite orb_false_iff, IH, Forall_cons, Z.geb_leb.
    unfold sameDayBreak.
    destruct (Z.leb_spec Constants.MINUTES_IN_DAY (InterviewSession.breakAfter s));
      split; intros [H1 H2]; split; try assumption; try reflexivity;
      try discriminate; lia.
Qed.

End OrderFacts.

(** X13. [findSlotsForDay] and [groupSessionsIntoRounds] work on the
    sessions sorted by [order]: the same sessions, in ascending order, and
    sessions with equal [order] keep the order they were given in. *)
Theorem sortByOrder_spec (sessions : list InterviewSession.t) :
  Permutation (SlotFinder.sortByOrder sessions) sessions
  /\ StronglySorted
       (fun a b => InterviewSession.order a <= InterviewSession.order b)
       (SlotFinder.sortByOrder sessions)
  /\ forall k : Z,
       List.filter (fun s => InterviewSession.order s =? k)
         (SlotFinder.sortByOrder sessions)
       = List.filter (fun s => InterviewSession.order s =? k) sessions.
Proof.
  split; [apply sort_Permutation |].
  split; [apply sortByOrder_sorted |].
  intros k. apply sortByOrder_stable.
Qed.

(** X14. [groupSessionsIntoRounds] cuts the sessions, sorted by [order],
    after every session whose [breakAfter] is a day or more: the rounds
    joined are the sorted sessions; inside a round only the last session
    can have such a break; and every round but the last ends with one. *)
Theorem groupSessionsIntoRounds_spec (sessions : list InterviewSession.t) :
  concat (SlotFinder.groupSessionsIntoRounds sessions)
  = SlotFinder.sortByOrder sessions
  /\ Forall
       (fun round => exists init s,
            round = init ++ [s] /\ Forall Spec.sameDayBreak init)
       (SlotFinder.groupSessionsIntoRounds sessions)
  /\ forall (i : nat) (round : list InterviewSession.t),
       SlotFinder.groupSessionsIntoRounds sessions !! i = Some round ->
       (S i < length (SlotFinder.groupSessionsIntoRounds sessions))%nat ->
       exists s, last round = Some s
         /\ Constants.MINUTES_IN_DAY <= InterviewSession.breakAfter s.
Proof.
  unfold SlotFinder.groupSessionsIntoRounds, SlotFinder.groupLoop.
  destruct (groupLoop_spec (SlotFinder.sortByOrder sessions) ([], []))
    as (Hconcat & Hclosed & Hopen); [constructor | constructor |].
  destruct (fold_left SlotFinder.groupStep (SlotFinder.sortByOrder sessions) ([], []))
    as [rounds currentRound].
  cbn [fst snd] in *. simpl in Hconcat.
  assert (Hclosed' :
            Forall
              (fun round => exists init s,
                   round = init ++ [s] /\ Forall Spec.sameDayBreak init)
              rounds).
  { eapply Forall_impl; [exact Hclosed |].
    intros round (init & s & H1 & H2 & _). exists init, s. split; assumption. }
  assert (Hends : forall (i : nat) round,
            rounds !! i = Some round ->
            exists s, last round = Some s
              /\ Constants.MINUTES_IN_DAY <= InterviewSession.breakAfter s).
  { intros i round Hi. rewrite Forall_forall in Hclosed.
    destruct (Hclosed round) as (init & s & -> & _ & Hs).
    { eapply list_elem_of_lookup_2, Hi. }
    exists s. split; [apply last_snoc |]. unfold Spec.sameDayBreak in Hs. lia. }
  destruct currentRound as [| session currentRound].
  - rewrite app_nil_r in Hconcat. split; [exact Hconcat |].
    split; [exact Hclosed' |]. intros i round Hi _. exact (Hends i round Hi).
  - split; [rewrite concat_app; simpl; rewrite app_nil_r; exact Hconcat |].
    split.
    + apply Forall_app. split; [exact Hclosed' |]. constructor; [| constructor].
      destruct (exists_last (l := session :: currentRound)) as (init & s & Hlast);
        [discriminate |].
      exists init, s. split; [exact Hlast |]. rewrite Hlast in Hopen.
      apply Forall_app in Hopen as [Hinit _]. exact Hinit.
    + intros i round Hi Hlt. rewrite length_app in Hlt. simpl in Hlt.
      rewrite lookup_app_l in Hi by lia. exact (Hends i round Hi).
Qed.

(** X15. The engine searches day by day exactly when no session has a
    [breakAfter] of a day or more, and then [groupSessionsIntoRounds]
    would put all the sessions, sorted by [order], into one round. *)
Theorem single_round_without_day_break (sessions : list InterviewSession.t) :
  sessions <> [] ->
  (SchedulingEngine.needsMultiDayScheduling sessions = false
   <-> Forall Spec.sameDayBreak sessions)
  /\ (SchedulingEngine.needsMultiDayScheduling sessions = false ->
      SlotFinder.groupSessionsIntoRounds sessions
      = [SlotFinder.sortByOrder sessions]).
Proof.
  intros Hne. split; [apply needsMultiDayScheduling_false |].
  intros Hno. apply needsMultiDayScheduling_false in Hno.
  unfold SlotFinder.groupSessionsIntoRounds, SlotFinder.groupLoop.
  pose proof (sortByOrder_nonempty sessions Hne) as Hsorted.
  assert (Hall : Forall Spec.sameDayBreak (SlotFinder.sortByOrder sessions)).
  { rewrite Forall_forall in *. intros s Hs. apply Hno.
    apply list_elem_of_In. apply list_elem_of_In in Hs.
    apply (proj1 (sortByOrder_In _ _)) in Hs. exact Hs. }
  assert (Hloop : forall sorted acc,
            Forall Spec.sameDayBreak sorted ->
            fold_left SlotFinder.groupStep sorted acc = (fst acc, snd acc ++ sorted)).
  { induction sorted as [| s sorted IH]; intros acc Hs.
    - simpl. rewrite app_nil_r. destruct acc; reflexivity.
    - apply Forall_cons in Hs as [Hs Hrest]. cbn [fold_left].
      rewrite IH by exact Hrest. unfold SlotFinder.groupStep.
      rewrite Z.geb_leb.
      destruct (Z.leb_spec Constants.MINUTES_IN_DAY (InterviewSession.breakAfter s));
        [unfold Spec.sameDayBreak in Hs; lia |].
      cbn [fst snd]. rewrite <- app_assoc. reflexivity. }
  rewrite (Hloop _ _ Hall). cbn [fst snd app].
  destruct (SlotFinder.sortByOrder sessions); [contradiction | reflexivity].
Qed.

Lemma single_round_without_day_break_witness :
  SlotFinder.groupSessionsIntoRounds Scenarios.sessionsC
  = [SlotFinder.sortByOrder Scenarios.sessionsC].
Proof.
  apply (single_round_without_day_break Scenarios.sessionsC);
    [discriminate | reflexivity].
Defined.
(** ** The combinations offered to a session *)

Section PanelFacts.
Import SlotFinder Spec.

Lemma generateCombinations_size_Z {T : Type} (arr : list T) (k : Z) (combo : list T) :
  In combo (generateCombinations arr k) -> Z.of_nat (length combo) = k.
Proof.
  intros H. destruct (Z.ltb_spec k 0) as [Hneg | Hpos].
  - rewrite generateCombinations_negative in H by exact Hneg. destruct H.
  - pose proof (generateCombinations_sizes arr (Z.to_nat k)) as Hs.
    rewrite Z2Nat.id in Hs by exact Hpos. rewrite Forall_forall in Hs.
    apply list_elem_of_In, Hs in H. lia.
Qed.

Lemma generateCombinations_sublist_Z {T : Type} (arr : list T) (k : Z) (combo : list T) :
  In combo (generateCombinations arr k) -> sublist combo arr.
Proof.
  intros H. destruct (Z.ltb_spec k 0) as [Hneg | Hpos].
  - rewrite generateCombinations_negative in H by exact Hneg. destruct H.
  - pose proof (generateCombinations_sublists arr (Z.to_nat k)) as Hs.
    rewrite Z2Nat.id in Hs by exact Hpos. rewrite Forall_forall in Hs.
    apply list_elem_of_In, Hs in H. exact H.
Qed.

(** Every sublist of the pool with [k] members is generated. *)
Lemma generateCombinations_complete {T : Type} (arr combo : list T) :
  sublist combo arr ->
  In combo (generateCombinations arr (Z.of_nat (length combo))).
Proof.
  induction 1 as [| x l1 l2 _ IH | x l1 l2 _ IH].
  - left. reflexivity.
  - cbn [length]. rewrite generateCombinations_step. apply in_or_app. left.
    apply in_map, IH.
  - destruct l1 as [| y l1].
    + rewrite generateCombinations_zero. left. reflexivity.
    + cbn [length] in *. rewrite generateCombinations_step. apply in_or_app. right.
      exact IH.
Qed.

(** A sublist of the regular members followed by a sublist of the trainees
    is a reordering of a sublist of the pool. *)
Lemma sublists_of_filters {T : Type} (p : T -> bool) (l : list T) :
  forall r t,
    sublist r (List.filter (fun x => negb (p x)) l) ->
    sublist t (List.filter p l) ->
    exists c, sublist c l /\ Permutation (r ++ t) c.
Proof.
  induction l as [| x l IH]; intros r t Hr Ht; cbn [List.filter] in *.
  - apply sublist_nil_r in Hr. apply sublist_nil_r in Ht. subst.
    exists []. split; [constructor | reflexivity].
  - destruct (p x); cbn [negb] in *.
    + apply sublist_cons_r in Ht as [Ht | (t' & -> & Ht)].
      * destruct (IH r t Hr Ht) as (c & Hc & Hperm).
        exists c. split; [apply sublist_cons, Hc | exact Hperm].
      * destruct (IH r t' Hr Ht) as (c & Hc & Hperm).
        exists (x :: c). split; [apply sublist_skip, Hc |].
        rewrite <- Hperm. symmetry. apply Permutation_middle.
    + apply sublist_cons_r in Hr as [Hr | (r' & -> & Hr)].
      * destruct (IH r t Hr Ht) as (c & Hc & Hperm).
        exists c. split; [apply sublist_cons, Hc | exact Hperm].
      * destruct (IH r' t Hr Ht) as (c & Hc & Hperm).
        exists (x :: c). split; [apply sublist_skip, Hc |].
        simpl. constructor. exact Hperm.
Qed.

Lemma In_filter_sublist {T : Type} (p : T -> bool) (l c : list T) (x : T) :
  sublist c (List.filter p l) -> In x c -> In x l /\ p x = true.
Proof.
  intros Hc Hx. apply filter_In. apply list_elem_of_In.
  eapply elem_of_sublist; [apply list_elem_of_In, Hx | exact Hc].
Qed.

(** The combinations with trainees, one by one. *)
Lemma generateCombinationsWithTraining_In (interviewers : list Interviewer.t)
    (required : Z) (combo : list Interviewer.t) :
  In combo (generateCombinationsWithTraining interviewers required) ->
  exists regCombo trainCombo,
    combo = regCombo ++ trainCombo
    /\ trainCombo <> []
    /\ Z.of_nat (length combo) = required
    /\ sublist regCombo
         (List.filter (fun int => negb (Js.truthy (Interviewer.isTraining int)))
            interviewers)
    /\ sublist trainCombo
         (List.filter (fun int => Js.truthy (Interviewer.isTraining int)) interviewers).
Proof.
  unfold generateCombinationsWithTraining.
  remember (List.filter (fun int => negb (Js.truthy (Interviewer.isTraining int)))
              interviewers) as regular eqn:Hregular.
  remember (List.filter (fun int => Js.truthy (Interviewer.isTraining int))
              interviewers) as training eqn:Htraining.
  intros H.
  assert (Hflat : In combo
            (flat_map
               (fun n : nat =>
                  if (required - Z.of_nat n <? 0)
                     || (required - Z.of_nat n >? Z.of_nat (length regular))
                  then []
                  else
                    flat_map
                      (fun regCombo =>
                         map (fun trainCombo => regCombo ++ trainCombo)
                           (generateCombinations training (Z.of_nat n)))
                      (generateCombinations regular (required - Z.of_nat n)))
               (seq 1 (length training)))).
  { destruct training; [destruct H | exact H]. }
  clear H. apply in_flat_map in Hflat as (n & Hn & Hcombo).
  apply in_seq in Hn.
  destruct ((required - Z.of_nat n <? 0)
            || (required - Z.of_nat n >? Z.of_nat (length regular))); [destruct Hcombo |].
  apply in_flat_map in Hcombo as (regCombo & Hreg & Hcombo).
  apply in_map_iff in Hcombo as (trainCombo & <- & Htrain).
  exists regCombo, trainCombo.
  pose proof (generateCombinations_size_Z _ _ _ Hreg) as Hsr.
  pose proof (generateCombinations_size_Z _ _ _ Htrain) as Hst.
  split; [reflexivity |]. split; [| split; [| split]].
  - intros ->. simpl in Hst. lia.
  - rewrite length_app. lia.
  - eapply generateCombinations_sublist_Z, Hreg.
  - eapply generateCombinations_sublist_Z, Htrain.
Qed.

Lemma generateInterviewerCombinations_snoc sessions session interviewers options :
  generateInterviewerCombinations (sessions ++ [session]) interviewers options
  = <[InterviewSession.id session := sessionCombos session interviewers options]>
      (generateInterviewerCombinations sessions interviewers options).
Proof. unfold generateInterviewerCombinations. rewrite fold_left_app. reflexivity. Qed.

Lemma generateInterviewerCombinations_lookup sessions interviewers options id :
  generateInterviewerCombinations sessions interviewers options !! id
  = (fun session => sessionCombos session interviewers options)
    <$> last (List.filter (fun session => String.eqb (InterviewSession.id session) id)
                sessions).
Proof.
  induction sessions as [| session sessions IH] using rev_ind.
  - reflexivity.
  - rewrite generateInterviewerCombinations_snoc, List.filter_app.
    cbn [List.filter].
    destruct (String.eqb_spec (InterviewSession.id session) id) as [<- | Hne].
    + rewrite lookup_insert_eq, last_snoc. reflexivity.
    + rewrite lookup_insert_ne by exact Hne. rewrite app_nil_r. exact IH.
Qed.

End PanelFacts.

(** The members of the combinations offered to a session. *)
Lemma sessionCombos_members (session : InterviewSession.t)
    (interviewers : list Interviewer.t) (options : SchedulingOptions.t)
    (combo : list Interviewer.t) :
  In combo (SlotFinder.sessionCombos session interviewers options) ->
  Z.of_nat (length combo) = InterviewSession.requiredInterviewers session
  /\ forall int, In int combo ->
       In int interviewers
       /\ (forall ids, InterviewSession.interviewerPool session = Some ids ->
             In (Interviewer.id int) ids)
       /\ (Js.truthy (SchedulingOptions.includeTrainingInterviewers options) = false ->
           Js.truthy (Interviewer.isTraining int) = false).
Proof.
  unfold SlotFinder.sessionCombos.
  set (pool0 :=
         match InterviewSession.interviewerPool session with
         | Some ids =>
             List.filter
               (fun int => existsb (String.eqb (Interviewer.id int)) ids) interviewers
         | None => interviewers
         end).
  set (pool :=
         if negb (Js.truthy (SchedulingOptions.includeTrainingInterviewers options))
         then List.filter (fun int => negb (Js.truthy (Interviewer.isTraining int))) pool0
         else pool0).
  assert (Hpool0 : forall int, In int pool0 ->
            In int interviewers
            /\ forall ids, InterviewSession.interviewerPool session = Some ids ->
                 In (Interviewer.id int) ids).
  { intros int Hint. unfold pool0 in Hint.
    destruct (InterviewSession.interviewerPool session) as [ids |].
    - apply filter_In in Hint as [Hin Hex]. split; [exact Hin |].
      intros ids' Hids. injection Hids as <-.
      apply existsb_exists in Hex as (id & Hid & Heq).
      apply String.eqb_eq in Heq. rewrite Heq. exact Hid.
    - split; [exact Hint | discriminate]. }
  assert (Hpool : forall int, In int pool ->
            In int pool0
            /\ (Js.truthy (SchedulingOptions.includeTrainingInterviewers options) = false ->
                Js.truthy (Interviewer.isTraining int) = false)).
  { intros int Hint. unfold pool in Hint.
    destruct (Js.truthy (SchedulingOptions.includeTrainingInterviewers options));
      cbn [negb] in Hint.
    - split; [exact Hint | discriminate].
    - apply filter_In in Hint as [Hin Hreg]. split; [exact Hin |].
      intros _. apply negb_true_iff, Hreg. }
  assert (Hmembers : forall c, (forall int, In int c -> In int pool) ->
            forall int, In int c ->
              In int interviewers
              /\ (forall ids, InterviewSession.interviewerPool session = Some ids ->
                    In (Interviewer.id int) ids)
              /\ (Js.truthy (SchedulingOptions.includeTrainingInterviewers options)
                  = false ->
                  Js.truthy (Interviewer.isTraining int) = false)).
  { intros c Hc int Hint. destruct (Hpool int (Hc int Hint)) as [H0 Htr].
    destruct (Hpool0 int H0) as [Hin Hids]. repeat split; assumption. }
  assert (Hplain : In combo
                     (SlotFinder.generateCombinations pool
                        (InterviewSession.requiredInterviewers session)) ->
            Z.of_nat (length combo) = InterviewSession.requiredInterviewers session
            /\ forall int, In int combo -> In int pool).
  { intros H. split; [eapply generateCombinations_size_Z, H |].
    intros int Hint. apply list_elem_of_In.
    eapply elem_of_sublist; [apply list_elem_of_In, Hint |].
    eapply generateCombinations_sublist_Z, H. }
  assert (Htraining : In combo
                        (SlotFinder.generateCombinationsWithTraining pool
                           (InterviewSession.requiredInterviewers session)) ->
            Z.of_nat (length combo) = InterviewSession.requiredInterviewers session
            /\ forall int, In int combo -> In int pool).
  { intros H.
    apply generateCombinationsWithTraining_In in H
      as (regCombo & trainCombo & -> & _ & Hlen & Hreg & Htrain).
    split; [exact Hlen |]. intros int Hint. apply in_app_or in Hint as [Hint | Hint].
    - eapply In_filter_sublist; [exact Hreg | exact Hint].
    - eapply In_filter_sublist; [exact Htrain | exact Hint]. }
  intros H.
  assert (Hboth : Z.of_nat (length combo) = InterviewSession.requiredInterviewers session
                  /\ forall int, In int combo -> In int pool).
  { fold pool0 in H. fold pool in H.
    destruct (Js.truthy (SchedulingOptions.includeTrainingInterviewers options)).
    - apply in_app_or in H as [H | H]; [apply Hplain, H | apply Htraining, H].
    - apply Hplain, H. }
  destruct Hboth as [Hlen Hin]. split; [exact Hlen |]. apply Hmembers, Hin.
Qed.

(** X16. The map of [generateInterviewerCombinations] has an entry for an
    id exactly when some session has this id. The entry holds the
    combinations of the last session with this id, and each of them has
    exactly [requiredInterviewers] members, all of them interviewers of the
    request, from the session's pool when it has one, and none of them a
    trainee unless [includeTrainingInterviewers] is set. *)
Theorem generateInterviewerCombinations_spec (sessions : list InterviewSession.t)
    (interviewers : list Interviewer.t) (options : SchedulingOptions.t)
    (id : string) :
  (SlotFinder.generateInterviewerCombinations sessions interviewers options !! id = None
   <-> forall session, In session sessions -> InterviewSession.id session <> id)
  /\ forall combos,
       SlotFinder.generateInterviewerCombinations sessions interviewers options !! id
       = Some combos ->
       exists session,
         last (List.filter (fun s => String.eqb (InterviewSession.id s) id) sessions)
         = Some session
         /\ In session sessions
         /\ InterviewSession.id session = id
         /\ forall combo, In combo combos ->
              Z.of_nat (length combo) = InterviewSession.requiredInterviewers session
              /\ forall int, In int combo ->
                   In int interviewers
                   /\ (forall ids,
                         InterviewSession.interviewerPool session = Some ids ->
                         In (Interviewer.id int) ids)
                   /\ (Js.truthy (SchedulingOptions.includeTrainingInterviewers options)
                       = false ->
                       Js.truthy (Interviewer.isTraining int) = false).
Proof.
  rewrite generateInterviewerCombinations_lookup.
  destruct (last (List.filter (fun s => String.eqb (InterviewSession.id s) id) sessions))
    as [session |] eqn:Hlast.
  - assert (Hin : In session sessions /\ InterviewSession.id session = id).
    { assert (H : In session
                    (List.filter (fun s => String.eqb (InterviewSession.id s) id)
                       sessions)).
      { apply list_elem_of_In. rewrite last_lookup in Hlast.
        eapply list_elem_of_lookup_2, Hlast. }
      apply filter_In in H as [H1 H2]. apply String.eqb_eq in H2. split; assumption. }
    destruct Hin as [Hin Hid]. split.
    + split; [discriminate |]. intros H. exfalso. exact (H session Hin Hid).
    + intros combos Hcombos. cbn in Hcombos. injection Hcombos as <-.
      exists session. split; [reflexivity |]. split; [exact Hin |]. split; [exact Hid |].
      intros combo. apply sessionCombos_members.
  - split; [| discriminate]. split; [| reflexivity].
    intros _ session Hin Hid. apply last_None in Hlast.
    assert (H : In session
                  (List.filter (fun s => String.eqb (InterviewSession.id s) id) sessions)).
    { apply filter_In. split; [exact Hin | apply String.eqb_eq, Hid]. }
    rewrite Hlast in H. destruct H.
Qed.

(** X17. Every combination of [generateCombinationsWithTraining] has
    [required] members, regular interviewers first and then at least one
    trainee, and is a reordering of a combination that
    [generateCombinations] lists for the same interviewers: with
    [includeTrainingInterviewers] set, a session is offered each such
    group twice. *)
Theorem generateCombinationsWithTraining_spec (interviewers : list Interviewer.t)
    (required : Z) (combo : list Interviewer.t) :
  In combo (SlotFinder.generateCombinationsWithTraining interviewers required) ->
  Z.of_nat (length combo) = required
  /\ (exists regCombo trainCombo,
        combo = regCombo ++ trainCombo
        /\ trainCombo <> []
        /\ Forall (fun int => Js.truthy (Interviewer.isTraining int) = false) regCombo
        /\ Forall (fun int => Js.truthy (Interviewer.isTraining int) = true) trainCombo)
  /\ exists listed,
       In listed (SlotFinder.generateCombinations interviewers required)
       /\ Permutation combo listed.
Proof.
  intros H.
  apply generateCombinationsWithTraining_In in H
    as (regCombo & trainCombo & -> & Hne & Hlen & Hreg & Htrain).
  split; [exact Hlen |]. split.
  - exists regCombo, trainCombo. split; [reflexivity |]. split; [exact Hne |].
    split; apply Forall_forall; intros int Hint; apply list_elem_of_In in Hint.
    + destruct (In_filter_sublist _ _ _ _ Hreg Hint) as [_ Hp].
      apply negb_true_iff, Hp.
    + destruct (In_filter_sublist _ _ _ _ Htrain Hint) as [_ Hp]. exact Hp.
  - destruct (sublists_of_filters
                (fun int => Js.truthy (Interviewer.isTraining int))
                interviewers regCombo trainCombo Hreg Htrain) as (c & Hc & Hperm).
    exists c. split; [| exact Hperm].
    rewrite <- Hlen. rewrite (Permutation_length Hperm).
    apply generateCombinations_complete, Hc.
Qed.

Lemma generateCombinationsWithTraining_spec_witness :
  Z.of_nat (length [Scenarios.interviewer "A"; Scenarios.trainee "T"]) = 2.
Proof.
  apply (generateCombinationsWithTraining_spec
           [Scenarios.interviewer "A"; Scenarios.trainee "T"] 2
           [Scenarios.interviewer "A"; Scenarios.trainee "T"]).
  vm_compute. left. reflexivity.
Defined.
(** ** What the single-day search accepts *)

Section LoopGuard.
Import SlotFinder.
Context {X R : Type}.
Variable options : SchedulingOptions.t.
Variable body : X -> state R -> step R.

(** A loop that starts in a state with [P], whose iterations keep [P] as
    long as the loop goes on and give [Q] when they reach the test for
    enough results, ends in a state with [Q]. *)
Lemma forEach_guarded (P Q : state R -> Prop) (xs : list X) :
  (forall st, P st -> Q st) ->
  (forall x st st', In x xs -> P st -> body x st = Next st' -> P st') ->
  (forall x st st', In x xs -> P st -> body x st = Check st' ->
     Q st' /\ (enough options (snd st') = false -> P st')) ->
  forall st st', P st -> forEach options body xs st = Js.Returned st' -> Q st'.
Proof.
  intros HPQ. induction xs as [| x xs IH]; intros Hnext Hcheck st st' HP Hrun;
    simpl in Hrun.
  - injection Hrun as <-. apply HPQ, HP.
  - assert (Hnext' : forall y st0 st1, In y xs -> P st0 -> body y st0 = Next st1 -> P st1).
    { intros y st0 st1 Hy. apply Hnext. right. exact Hy. }
    assert (Hcheck' : forall y st0 st1, In y xs -> P st0 -> body y st0 = Check st1 ->
              Q st1 /\ (enough options (snd st1) = false -> P st1)).
    { intros y st0 st1 Hy. apply Hcheck. right. exact Hy. }
    destruct (body x st) as [st1 | st1 | e] eqn:Hx; [| | discriminate].
    + apply (IH Hnext' Hcheck' st1 st'); [| exact Hrun].
      exact (Hnext x st st1 (or_introl eq_refl) HP Hx).
    + destruct (Hcheck x st st1 (or_introl eq_refl) HP Hx) as [HQ HP1].
      destruct (enough options (snd st1)).
      * injection Hrun as <-. exact HQ.
      * apply (IH Hnext' Hcheck' st1 st'); [apply HP1; reflexivity | exact Hrun].
Qed.

Lemma enough_false (m : Z) (results : list R) :
  SchedulingOptions.maxResults options = Some m -> 1 <= m ->
  enough options results = false -> (Z.of_nat (length results) < m).
Proof.
  unfold enough. intros -> Hm H.
  destruct (Z.eqb_spec m 0); [lia |]. simpl in H. rewrite Z.geb_leb in H.
  apply Z.leb_gt in H. exact H.
Qed.

End LoopGuard.

Section SingleDaySound.
Import SlotFinder Spec Invariants.
Variable clock : nat -> Z.
Variable sessionCombinations : gmap string (list (list Interviewer.t)).
Variable allInterviewers : list Interviewer.t.
Variable date : Z.
Variable calendarEvents : gmap string (list CalendarEvent.t).
Variable options : SchedulingOptions.t.

Lemma createAndCheckSlot_placed session combo startTime reads slot reads' :
  In combo (default [] (sessionCombinations !! InterviewSession.id session)) ->
  createAndCheckSlot clock calendarEvents options session combo startTime reads
  = Js.Returned (Some slot, reads') ->
  placedFor sessionCombinations calendarEvents options session slot.
Proof.
  unfold createAndCheckSlot. intros Hin H.
  destruct (addMinutesToTime startTime (InterviewSession.duration session))
    as [endTime |]; [| discriminate].
  destruct (checkSlotConflicts _ combo calendarEvents options) eqn:Hcheck;
    [| discriminate].
  injection H as <- _. unfold placedFor. cbn [InterviewSlot.sessionId
                                                InterviewSlot.sessionName].
  split; [reflexivity |]. split; [reflexivity |].
  exists combo. split; [exact Hin |]. split; [| exact Hcheck].
  unfold participants. cbn [InterviewSlot.interviewers]. rewrite map_map. reflexivity.
Qed.

Lemma covering_step currentSlots session sessions slot c :
  placedFor sessionCombinations calendarEvents options session slot ->
  covering sessionCombinations allInterviewers calendarEvents options
    (currentSlots ++ [slot]) sessions c ->
  covering sessionCombinations allInterviewers calendarEvents options
    currentSlots (session :: sessions) c.
Proof.
  intros Hslot (added & Hslots & Hall & Hrest).
  exists (slot :: added). split; [rewrite Hslots, <- app_assoc; reflexivity |].
  split; [constructor; assumption | exact Hrest].
Qed.

(** Every combination pushed by the exploration places one accepted slot
    for each remaining session. *)
Lemma exploreSlotCombinations_covering sessions :
  forall currentSlots st st',
    exploreSlotCombinations clock sessionCombinations allInterviewers date
      calendarEvents options sessions currentSlots st = Js.Returned st' ->
    extends
      (covering sessionCombinations allInterviewers calendarEvents options
         currentSlots sessions) st st'.
Proof.
  induction sessions as [| session sessions IH]; intros currentSlots st st' Hrun.
  - simpl in Hrun. unfold emitCombination in Hrun.
    destruct currentSlots as [| first rest] eqn:Hcs; [discriminate |].
    destruct (last (first :: rest)) as [lastSlot |] eqn:Hlast; [| discriminate].
    injection Hrun as <-. eexists [_]. split; [reflexivity |].
    constructor; [| constructor].
    exists []. cbn [SessionCombination.slots SessionCombination.endTime
                     SessionCombination.totalDuration SessionCombination.loadDensity].
    split; [rewrite app_nil_r; reflexivity |]. split; [constructor |].
    split; [rewrite Hlast; reflexivity |]. split; reflexivity.
  - simpl in Hrun.
    destruct (calculateSessionStartTime currentSlots session date)
      as [startTime |]; [| discriminate].
    revert Hrun. apply forEach_invariant; [| apply extends_refl].
    intros combo st0 st1 Hin Hst0 Hbody. unfold tryCombination in Hbody.
    destruct (createAndCheckSlot clock calendarEvents options session combo
                startTime (fst st0))
      as [[[slot |] reads] | e n] eqn:Hslot; [| | destruct Hbody; discriminate].
    + destruct (exploreSlotCombinations _ _ _ _ _ _ sessions
                  (currentSlots ++ [slot]) (reads, snd st0)) as [st2 | e n] eqn:Hrec.
      * destruct Hbody as [Hbody | Hbody]; [discriminate |].
        injection Hbody as <-.
        apply (extends_trans _ st st0 st2); [exact Hst0 |].
        apply IH in Hrec.
        assert (Hrec' : extends
                          (covering sessionCombinations allInterviewers calendarEvents
                             options (currentSlots ++ [slot]) sessions) st0 st2)
          by exact Hrec.
        revert Hrec'. apply extends_impl. intros c.
        apply covering_step.
        eapply createAndCheckSlot_placed; [exact Hin | exact Hslot].
      * destruct Hbody; discriminate.
    + destruct Hbody as [Hbody | Hbody]; [| discriminate].
      injection Hbody as <-. exact Hst0.
Qed.

(** With a positive [maxResults] the exploration never goes beyond it. *)
Lemma exploreSlotCombinations_capped (m : Z) sessions :
  SchedulingOptions.maxResults options = Some m -> 1 <= m ->
  forall currentSlots st st',
    Z.of_nat (length (snd st)) < m ->
    exploreSlotCombinations clock sessionCombinations allInterviewers date
      calendarEvents options sessions currentSlots st = Js.Returned st' ->
    Z.of_nat (length (snd st')) <= m.
Proof.
  intros Hmax Hm.
  induction sessions as [| session sessions IH]; intros currentSlots st st' Hlt Hrun.
  - simpl in Hrun. unfold emitCombination in Hrun.
    destruct currentSlots as [| first rest]; [discriminate |].
    destruct (last (first :: rest)); [| discriminate].
    injection Hrun as <-. cbn [snd]. rewrite length_app. simpl. lia.
  - simpl in Hrun.
    destruct (calculateSessionStartTime currentSlots session date)
      as [startTime |]; [| discriminate].
    revert Hrun.
    apply (forEach_guarded options _
             (fun st => Z.of_nat (length (snd st)) < m)
             (fun st => Z.of_nat (length (snd st)) <= m)); [lia | | | exact Hlt].
    + intros combo st0 st1 _ Hst0 Hbody. unfold tryCombination in Hbody.
      destruct (createAndCheckSlot _ _ _ _ _ _ _) as [[[slot |] reads] | e n];
        [| | discriminate].
      * destruct (exploreSlotCombinations _ _ _ _ _ _ _ _ _); discriminate.
      * injection Hbody as <-. exact Hst0.
    + intros combo st0 st1 _ Hst0 Hbody. unfold tryCombination in Hbody.
      destruct (createAndCheckSlot _ _ _ _ _ _ _) as [[[slot |] reads] | e n];
        [| discriminate | discriminate].
      destruct (exploreSlotCombinations _ _ _ _ _ _ sessions
                  (currentSlots ++ [slot]) (reads, snd st0)) as [st2 | e n] eqn:Hrec;
        [| discriminate].
      injection Hbody as <-. split.
      * exact (IH (currentSlots ++ [slot]) (reads, snd st0) st2 Hst0 Hrec).
      * apply enough_false; assumption.
Qed.

(** A session without combinations stops every branch before a result. *)
Lemma exploreSlotCombinations_blocked sessions :
  Exists
    (fun session =>
       default [] (sessionCombinations !! InterviewSession.id session) = [])
    sessions ->
  forall currentSlots st st',
    exploreSlotCombinations clock sessionCombinations allInterviewers date
      calendarEvents options sessions currentSlots st = Js.Returned st' ->
    snd st' = snd st.
Proof.
  induction sessions as [| session sessions IH]; intros Hex currentSlots st st' Hrun.
  - inversion Hex.
  - simpl in Hrun.
    destruct (calculateSessionStartTime currentSlots session date)
      as [startTime |]; [| discriminate].
    destruct (default [] (sessionCombinations !! InterviewSession.id session))
      as [| combo combos] eqn:Hcombos.
    + simpl in Hrun. injection Hrun as <-. reflexivity.
    + apply Exists_cons in Hex as [Hex | Hex]; [congruence |].
      revert Hrun.
      apply (forEach_invariant options _ (fun st0 => snd st0 = snd st));
        [| reflexivity].
      intros combo' st0 st1 _ Hst0 Hbody. unfold tryCombination in Hbody.
      destruct (createAndCheckSlot _ _ _ _ _ _ _) as [[[slot |] reads] | e n];
        [| | destruct Hbody; discriminate].
      * destruct (exploreSlotCombinations _ _ _ _ _ _ sessions
                    (currentSlots ++ [slot]) (reads, snd st0)) as [st2 | e n] eqn:Hrec.
        -- destruct Hbody as [Hbody | Hbody]; [discriminate |].
           injection Hbody as <-.
           rewrite (IH Hex (currentSlots ++ [slot]) (reads, snd st0) st2 Hrec).
           exact Hst0.
        -- destruct Hbody; discriminate.
      * destruct Hbody as [Hbody | Hbody]; [| discriminate].
        injection Hbody as <-. exact Hst0.
Qed.

End SingleDaySound.

Section ConflictFacts.
Import SlotFinder.

Lemma flat_map_nil {A B : Type} (f : A -> list B) (l : list A) :
  flat_map f l = [] <-> forall a, In a l -> f a = [].
Proof.
  induction l as [| a l IH]; simpl.
  - split; [intros _ a [] | reflexivity].
  - split.
    + intros H. apply app_eq_nil in H as [Ha Hl]. intros b [<- | Hb]; [exact Ha |].
      apply IH; assumption.
    + intros H. rewrite (H a (or_introl eq_refl)). simpl. apply IH.
      intros b Hb. apply H. right. exact Hb.
Qed.

Lemma calendarConflicts_nil slot interviewer events :
  calendarConflicts slot interviewer events = []
  <-> forall event, In event events ->
        ConflictDetection.isTimeOverlap
          {| TimeChunk.startTime := TIso (InterviewSlot.startTime slot);
             TimeChunk.endTime := TIso (InterviewSlot.endTime slot) |}
          {| TimeChunk.startTime := TIso (CalendarEvent.start event);
             TimeChunk.endTime := TIso (CalendarEvent.end_ event) |} = false.
Proof.
  unfold calendarConflicts. rewrite flat_map_nil.
  split; intros H event Hin; specialize (H event Hin);
    destruct (ConflictDetection.isTimeOverlap _ _); congruence.
Qed.

Lemma unavailable_conflicts interviewer startTime endTime options :
  (if negb (AvailabilityCheck.AvailabilityResult.available
              (AvailabilityCheck.isInterviewerAvailable interviewer startTime endTime
                 options))
   then AvailabilityCheck.AvailabilityResult.conflicts
          (AvailabilityCheck.isInterviewerAvailable interviewer startTime endTime
             options)
   else []) = []
  <-> AvailabilityCheck.AvailabilityResult.available
        (AvailabilityCheck.isInterviewerAvailable interviewer startTime endTime options)
      = true.
Proof.
  unfold AvailabilityCheck.isInterviewerAvailable.
  cbn [AvailabilityCheck.AvailabilityResult.available
         AvailabilityCheck.AvailabilityResult.conflicts].
  destruct (bool_decide_reflect
              ((if Js.notFalse (SchedulingOptions.respectWorkHours options)
                then AvailabilityCheck.push
                       (AvailabilityCheck.checkWorkHours interviewer startTime endTime)
                else [])
               ++ (if Js.notFalse (SchedulingOptions.respectHolidays options)
                   then AvailabilityCheck.push
                          (AvailabilityCheck.checkHolidays interviewer
                             (DateTime.toDate startTime))
                   else [])
               ++ (if Js.notFalse (SchedulingOptions.respectDayOffs options)
                   then AvailabilityCheck.push
                          (AvailabilityCheck.checkDayOffs interviewer
                             (DateTime.toDate startTime))
                   else [])
               ++ AvailabilityCheck.push
                    (AvailabilityCheck.checkBlockedTimes interviewer startTime endTime)
               = [])) as [Hnil | Hne]; cbn [negb].
  - split; reflexivity.
  - split; [intros H; contradiction | discriminate].
Qed.

Lemma loadConflicts_nil slot interviewer events options :
  loadConflicts slot interviewer events options = []
  <-> (Js.truthy (SchedulingOptions.respectDailyLimits options) = true ->
       Js.gt
         (LoadInfo.density
            (LoadInfo.daily
               (LoadCalculation.calculateInterviewerLoad interviewer slot events
                  options))) 1 = false)
      /\ (Js.truthy (SchedulingOptions.respectWeeklyLimits options) = true ->
          Js.gt
            (LoadInfo.density
               (LoadInfo.weekly
                  (LoadCalculation.calculateInterviewerLoad interviewer slot events
                     options))) 1 = false).
Proof.
  unfold loadConflicts.
  destruct (Js.truthy (SchedulingOptions.respectDailyLimits options));
    destruct (Js.truthy (SchedulingOptions.respectWeeklyLimits options));
    destruct (Js.gt (LoadInfo.density (LoadInfo.daily _)) 1);
    destruct (Js.gt (LoadInfo.density (LoadInfo.weekly _)) 1);
    simpl; split; try discriminate; try reflexivity;
    try (intros [H1 H2];
         first [discriminate (H1 eq_refl) | discriminate (H2 eq_refl)]);
    intros _; split; intros; try reflexivity; discriminate.
Qed.

Lemma interviewerConflicts_nil slot calendarEvents options interviewer :
  interviewerConflicts slot calendarEvents options interviewer = []
  <-> AvailabilityCheck.AvailabilityResult.available
        (AvailabilityCheck.isInterviewerAvailable interviewer
           (InterviewSlot.startTime slot) (InterviewSlot.endTime slot) options) = true
      /\ (Js.truthy (SchedulingOptions.checkCalendarConflicts options) = true ->
          forall event,
            In event (default [] (calendarEvents !! Interviewer.id interviewer)) ->
            ConflictDetection.isTimeOverlap
              {| TimeChunk.startTime := TIso (InterviewSlot.startTime slot);
                 TimeChunk.endTime := TIso (InterviewSlot.endTime slot) |}
              {| TimeChunk.startTime := TIso (CalendarEvent.start event);
                 TimeChunk.endTime := TIso (CalendarEvent.end_ event) |} = false)
      /\ (Js.truthy (SchedulingOptions.respectDailyLimits options) = true ->
          Js.gt
            (LoadInfo.density
               (LoadInfo.daily
                  (LoadCalculation.calculateInterviewerLoad interviewer slot
                     (default [] (calendarEvents !! Interviewer.id interviewer))
                     options))) 1 = false)
      /\ (Js.truthy (SchedulingOptions.respectWeeklyLimits options) = true ->
          Js.gt
            (LoadInfo.density
               (LoadInfo.weekly
                  (LoadCalculation.calculateInterviewerLoad interviewer slot
                     (default [] (calendarEvents !! Interviewer.id interviewer))
                     options))) 1 = false).
Proof.
  unfold interviewerConflicts.
  set (events := default [] (calendarEvents !! Interviewer.id interviewer)).
  split.
  - intros H. apply app_eq_nil in H as [Ha H]. apply app_eq_nil in H as [Hc Hl].
    apply (proj1 (unavailable_conflicts _ _ _ _)) in Ha. split; [exact Ha |].
    split.
    + intros Hflag. rewrite Hflag in Hc.
      exact (proj1 (calendarConflicts_nil _ _ _) Hc).
    + destruct (Js.truthy (SchedulingOptions.respectDailyLimits options)) eqn:Hd;
        destruct (Js.truthy (SchedulingOptions.respectWeeklyLimits options)) eqn:Hw;
        cbn [orb] in Hl;
        try (apply (proj1 (loadConflicts_nil _ _ _ _)) in Hl; rewrite Hd, Hw in Hl;
             exact Hl).
      split; discriminate.
  - intros (Ha & Hc & Hd & Hw).
    apply (proj2 (unavailable_conflicts _ _ _ _)) in Ha. rewrite Ha. cbn [app].
    assert (Hcal : (if Js.truthy (SchedulingOptions.checkCalendarConflicts options)
                    then calendarConflicts slot interviewer events else []) = []).
    { destruct (Js.truthy (SchedulingOptions.checkCalendarConflicts options));
        [| reflexivity].
      apply (proj2 (calendarConflicts_nil _ _ _)), Hc. reflexivity. }
    rewrite Hcal. cbn [app].
    destruct (Js.truthy (SchedulingOptions.respectDailyLimits options)
              || Js.truthy (SchedulingOptions.respectWeeklyLimits options));
      [| reflexivity].
    apply (proj2 (loadConflicts_nil _ _ _ _)). split; assumption.
Qed.

End ConflictFacts.

(** The stable sort orders the elements on which the comparator is an
    ordering. *)
Section SortSortedOn.
Context {A : Type}.
Variable cmp : A -> A -> comparison.
Variable R : A -> A -> Prop.
Variable P : A -> Prop.
Hypothesis R_cmp : forall a b, P a -> P b -> cmp a b <> Gt -> R a b.
Hypothesis R_total : forall a b, P a -> P b -> cmp a b = Gt -> R b a.
Hypothesis R_trans : forall a b c, R a b -> R b c -> R a c.

Lemma insert_StronglySorted_on (x : A) (l : list A) :
  P x -> Forall P l -> StronglySorted R l -> StronglySorted R (Js.insert cmp x l).
Proof.
  intros Hx. induction l as [| y l IH]; intros HP Hl; simpl.
  - constructor; constructor.
  - apply Forall_cons in HP as [Hy HP].
    apply StronglySorted_inv in Hl as [Hl Hyl].
    assert (Hle : cmp x y <> Gt -> StronglySorted R (x :: y :: l)).
    { intros Hxy. constructor; [constructor; assumption |].
      constructor; [apply R_cmp; assumption |].
      eapply Forall_impl; [exact Hyl |]. intros z.
      apply R_trans, R_cmp; assumption. }
    destruct (cmp x y) eqn:Hxy; try (apply Hle; discriminate).
    constructor; [apply IH; assumption |].
    apply Forall_forall. intros z Hz.
    rewrite (insert_Permutation cmp x l) in Hz.
    apply elem_of_cons in Hz as [-> | Hz].
    + apply R_total; assumption.
    + rewrite Forall_forall in Hyl. apply Hyl, Hz.
Qed.

Lemma sort_StronglySorted_on (l : list A) :
  Forall P l -> StronglySorted R (Js.sort cmp l).
Proof.
  induction l as [| x l IH]; intros HP; simpl; [constructor |].
  apply Forall_cons in HP as [Hx HP].
  apply insert_StronglySorted_on; [exact Hx | | apply IH, HP].
  apply Forall_forall. intros z Hz. rewrite (sort_Permutation cmp l) in Hz.
  rewrite Forall_forall in HP. apply HP, Hz.
Qed.

End SortSortedOn.

Section FindSlotsForDaySound.
Import SlotFinder Spec Invariants.

Lemma findSlotsForDay_covering clock sessions interviewers date calendarEvents
    options reads st :
  findSlotsForDay clock sessions interviewers date calendarEvents options reads
  = Js.Returned st ->
  Forall
    (covering
       (generateInterviewerCombinations (sortByOrder sessions) interviewers options)
       interviewers calendarEvents options [] (sortByOrder sessions))
    (snd st).
Proof.
  unfold findSlotsForDay, generateAllSlotCombinations. intros H.
  destruct (exploreSlotCombinations _ _ _ _ _ _ _ _ _) as [st0 | e n] eqn:Hrun;
    [| discriminate].
  injection H as <-. cbn [snd].
  apply exploreSlotCombinations_covering in Hrun as (new & Hnew & Hall).
  simpl in Hnew. subst new. apply Forall_forall. intros c Hc.
  rewrite Forall_forall in Hall. apply Hall.
  apply list_elem_of_In. apply list_elem_of_In, sort_In in Hc. exact Hc.
Qed.

Lemma findSlotsForDay_capped clock sessions interviewers date calendarEvents
    options reads st (m : Z) :
  SchedulingOptions.maxResults options = Some m -> 1 <= m ->
  findSlotsForDay clock sessions interviewers date calendarEvents options reads
  = Js.Returned st ->
  Z.of_nat (length (snd st)) <= m.
Proof.
  unfold findSlotsForDay, generateAllSlotCombinations. intros Hmax Hm H.
  destruct (exploreSlotCombinations _ _ _ _ _ _ _ _ _) as [st0 | e n] eqn:Hrun;
    [| discriminate].
  injection H as <-. cbn [snd].
  rewrite (Permutation_length (sort_Permutation compareCombinations (snd st0))).
  eapply exploreSlotCombinations_capped; [exact Hmax | exact Hm | | exact Hrun].
  simpl. lia.
Qed.

Lemma placedFor_accepted sessions interviewers calendarEvents options session slot :
  placedFor (generateInterviewerCombinations sessions interviewers options)
    calendarEvents options session slot ->
  accepted interviewers calendarEvents options slot.
Proof.
  intros (_ & _ & combo & Hin & Hparticipants & Hcheck).
  exists combo. split; [| split; assumption].
  rewrite generateInterviewerCombinations_lookup in Hin.
  destruct (last _) as [session' |]; [| destruct Hin].
  cbn in Hin. intros interviewer Hint.
  destruct (sessionCombos_members session' interviewers options combo Hin) as [_ H].
  apply (H interviewer Hint).
Qed.

Lemma findSlotsForDay_accepted clock sessions interviewers date calendarEvents
    options reads st :
  findSlotsForDay clock sessions interviewers date calendarEvents options reads
  = Js.Returned st ->
  Forall
    (fun c => Forall (accepted interviewers calendarEvents options)
                (SessionCombination.slots c))
    (snd st).
Proof.
  intros Hrun. apply findSlotsForDay_covering in Hrun.
  eapply Forall_impl; [exact Hrun |].
  intros c (added & Hslots & Hall & _). simpl in Hslots. rewrite Hslots.
  clear Hslots. induction Hall as [| session slot sessions' added Hslot _ IH];
    constructor; [| exact IH].
  eapply placedFor_accepted, Hslot.
Qed.

(** Counting the slots of participants whose ids name no member of
    [Object.prototype] gives numbers only. *)
Lemma countSlots_numbers (slots : list InterviewSlot.t) :
  Forall (fun slot => Forall ownName (participants slot)) slots ->
  forall key count, countSlots slots !! key = Some count -> exists n, count = Count n.
Proof.
  unfold countSlots.
  assert (Hinner : forall assignments (acc : gmap string SlotCount),
            Forall ownName (map InterviewerAssignment.interviewerId assignments) ->
            (forall key count, acc !! key = Some count -> exists n, count = Count n) ->
            forall key count,
              fold_left
                (fun slotCounts assignment =>
                   let key := InterviewerAssignment.interviewerId assignment in
                   Js.assign key (increment slotCounts key) slotCounts)
                assignments acc !! key = Some count ->
              exists n, count = Count n).
  { induction assignments as [| a assignments IH]; intros acc Hown Hacc;
      [exact Hacc |].
    cbn [map] in Hown. apply Forall_cons in Hown as [Ha Hown].
    cbn [fold_left]. apply IH; [exact Hown |].
    intros key count. unfold Js.assign.
    destruct (String.eqb _ "__proto__"); [apply Hacc |].
    destruct (String.eqb_spec (InterviewerAssignment.interviewerId a) key)
      as [<- | Hne].
    - rewrite lookup_insert_eq. intros H. injection H as <-. unfold increment.
      destruct (acc !! InterviewerAssignment.interviewerId a) as [c |] eqn:Hc.
      + destruct (Hacc _ _ Hc) as (n & ->). eexists. reflexivity.
      + unfold ownName in Ha. rewrite Ha. eexists. reflexivity.
    - rewrite lookup_insert_ne by exact Hne. apply Hacc. }
  assert (Hempty : forall key count,
            (∅ : gmap string SlotCount) !! key = Some count -> exists n, count = Count n).
  { intros key count H. rewrite lookup_empty in H. discriminate. }
  revert Hempty. generalize (∅ : gmap string SlotCount).
  induction slots as [| slot slots IH]; intros acc Hacc Hown; [exact Hacc |].
  apply Forall_cons in Hown as [Hslot Hown]. cbn [fold_left].
  apply IH; [| exact Hown]. apply Hinner; [exact Hslot | exact Hacc].
Qed.

Lemma fold_plus_finite (values : list Js.num) :
  Forall (fun v => exists q, v = Js.Fin q) values ->
  forall a : Q, exists q, fold_left Js.plus values (Js.Fin a) = Js.Fin q.
Proof.
  induction 1 as [| v values (q & ->) _ IH]; intros a; simpl.
  - eexists. reflexivity.
  - apply IH.
Qed.

(** The average density of such slots is a finite number. *)
Lemma getAverageLoadDensity_finite (slots : list InterviewSlot.t)
    (allInterviewers : list Interviewer.t) :
  Forall (fun slot => Forall ownName (participants slot)) slots ->
  exists q,
    getAverageLoadDensity (calculateLoadDensity slots allInterviewers) = Js.Fin q.
Proof.
  intros Hown. unfold getAverageLoadDensity, calculateLoadDensity.
  assert (Hvalues : Forall (fun v => exists q, v = Js.Fin q)
                      (snd <$> map_to_list (densityOf <$> countSlots slots))).
  { apply Forall_forall. intros v Hv.
    apply list_elem_of_fmap in Hv as ([key v'] & -> & Hkv).
    apply elem_of_map_to_list in Hkv. rewrite lookup_fmap in Hkv.
    destruct (countSlots slots !! key) as [count |] eqn:Hcount; [| discriminate].
    destruct (countSlots_numbers slots Hown key count Hcount) as (n & ->).
    injection Hkv as <-. eexists. reflexivity. }
  destruct (snd <$> map_to_list (densityOf <$> countSlots slots)) as [| v values];
    [eexists; reflexivity |].
  destruct (fold_plus_finite _ Hvalues 0) as (q & ->). eexists. reflexivity.
Qed.

(** The combinations found for interviewers whose ids name no member of
    [Object.prototype] have finite average densities. *)
Lemma findSlotsForDay_finiteAverage clock sessions interviewers date calendarEvents
    options reads st :
  Forall (fun interviewer => ownName (Interviewer.id interviewer)) interviewers ->
  findSlotsForDay clock sessions interviewers date calendarEvents options reads
  = Js.Returned st ->
  Forall finiteAverage (snd st).
Proof.
  intros Hown Hrun.
  pose proof (findSlotsForDay_accepted _ _ _ _ _ _ _ _ Hrun) as Hacc.
  apply findSlotsForDay_covering in Hrun.
  apply Forall_forall. intros c Hc. rewrite Forall_forall in Hrun, Hacc.
  destruct (Hrun c Hc) as (added & _ & _ & _ & _ & Hdensity).
  unfold finiteAverage. rewrite Hdensity.
  apply getAverageLoadDensity_finite.
  eapply Forall_impl; [exact (Hacc c Hc) |].
  intros slot (combo & Hcombo & -> & _). apply Forall_forall. intros id Hid.
  apply list_elem_of_fmap in Hid as (interviewer & -> & Hint).
  rewrite Forall_forall in Hown. apply Hown.
  apply list_elem_of_In, Hcombo, list_elem_of_In, Hint.
Qed.

Lemma compareCombinations_not_Gt (a b : SessionCombination.t) :
  finiteAverage a -> finiteAverage b ->
  compareCombinations a b <> Gt -> combinationRankedBefore a b.
Proof.
  unfold compareCombinations, combinationRankedBefore. intros (qa & ->) (qb & ->).
  destruct (Z.eqb_spec (SessionCombination.startTime a) (SessionCombination.startTime b))
    as [Heq | Hne]; cbn [negb Js.minus Js.opp Js.plus Js.sign atMost].
  - rewrite <- Qgt_alt. intros H. right. split; [exact Heq |].
    apply Qnot_lt_le. intros Hlt. apply H. lra.
  - rewrite Z.compare_gt_iff. intros H. left. lia.
Qed.

Lemma combinationRankedBefore_trans (a b c : SessionCombination.t) :
  combinationRankedBefore a b -> combinationRankedBefore b c ->
  combinationRankedBefore a c.
Proof.
  unfold combinationRankedBefore.
  intros [H1 | [H1 Q1]] [H2 | [H2 Q2]]; try (left; lia).
  right. split; [lia |].
  destruct (getAverageLoadDensity (SessionCombination.loadDensity a));
    destruct (getAverageLoadDensity (SessionCombination.loadDensity b));
    destruct (getAverageLoadDensity (SessionCombination.loadDensity c));
    cbn [atMost] in *; try contradiction; try exact I; lra.
Qed.

Lemma combinationRankedBefore_total (a b : SessionCombination.t) :
  finiteAverage a -> finiteAverage b ->
  compareCombinations a b = Gt -> combinationRankedBefore b a.
Proof.
  unfold compareCombinations, combinationRankedBefore. intros (qa & ->) (qb & ->).
  destruct (Z.eqb_spec (SessionCombination.startTime a) (SessionCombination.startTime b))
    as [Heq | Hne]; cbn [negb Js.minus Js.opp Js.plus Js.sign atMost].
  - rewrite <- Qgt_alt. intros H. right. split; [lia | lra].
  - rewrite Z.compare_gt_iff. intros H. left. lia.
Qed.

Lemma findSlotsForDay_ranked clock sessions interviewers date calendarEvents
    options reads st :
  Forall (fun interviewer => ownName (Interviewer.id interviewer)) interviewers ->
  findSlotsForDay clock sessions interviewers date calendarEvents options reads
  = Js.Returned st ->
  StronglySorted combinationRankedBefore (snd st).
Proof.
  intros Hown Hrun.
  pose proof (findSlotsForDay_finiteAverage _ _ _ _ _ _ _ _ Hown Hrun) as Hfinite.
  unfold findSlotsForDay in Hrun, Hfinite.
  destruct (generateAllSlotCombinations _ _ _ _ _ _ _ _) as [st0 | e n];
    [| discriminate].
  injection Hrun as <-. cbn [snd] in *.
  assert (Hall : Forall finiteAverage (snd st0)).
  { apply Forall_forall. intros c Hc. rewrite Forall_forall in Hfinite.
    apply Hfinite. rewrite (sort_Permutation compareCombinations (snd st0)).
    exact Hc. }
  apply (sort_StronglySorted_on compareCombinations combinationRankedBefore
           finiteAverage);
    [ apply compareCombinations_not_Gt
    | apply combinationRankedBefore_total
    | apply combinationRankedBefore_trans
    | exact Hall ].
Qed.

End FindSlotsForDaySound.
(** ** What the multi-day search returns *)

Section MultiDaySound.
Import SlotFinder Spec Invariants.
Variable clock : nat -> Z.
Variable rounds : list (list InterviewSession.t).
Variable startDate endDate : Z.
Variable interviewers : list Interviewer.t.
Variable calendarEvents : gmap string (list CalendarEvent.t).
Variable options : SchedulingOptions.t.

(** What one date contributes, given what the recursive call contributes
    for each combination of that date that shares no interviewer with the
    rounds placed before. *)
Lemma findSlotsForRound_accepts
    (recur : list RoundPlan.t -> state MultiDayPlan.t ->
             Js.outcome (state MultiDayPlan.t))
    (Q : MultiDayPlan.t -> Prop) currentDate sessions previousRounds index st st' :
  (forall slotCombo st0 st1,
     (exists reads daySlots,
        findSlotsForDay clock sessions interviewers currentDate calendarEvents
          options reads = Js.Returned daySlots
        /\ In slotCombo (snd daySlots)) ->
     hasInterviewerConflictWithPreviousRounds slotCombo previousRounds = false ->
     recur (previousRounds
            ++ [ {| RoundPlan.roundNumber := index;
                    RoundPlan.date := currentDate;
                    RoundPlan.combination := slotCombo;
                    RoundPlan.sessions := sessions |} ]) st0 = Js.Returned st1 ->
     extends Q st0 st1) ->
  findSlotsForRound clock interviewers calendarEvents options recur currentDate
    sessions previousRounds index st = Js.Returned st' ->
  extends Q st st'.
Proof.
  intros Hrecur. unfold findSlotsForRound.
  destruct (findSlotsForDay clock sessions interviewers currentDate calendarEvents
              options (fst st)) as [daySlots | e] eqn:Hday; [| discriminate].
  apply forEach_invariant; [| apply extends_same; reflexivity].
  intros slotCombo st0 st1 Hin Hst0 Hbody. unfold trySlotCombination in Hbody.
  destruct (hasInterviewerConflictWithPreviousRounds slotCombo previousRounds)
    eqn:Hconflict.
  - destruct Hbody as [Hbody | Hbody]; [| discriminate].
    injection Hbody as <-. exact Hst0.
  - destruct (recur _ st0) as [st2 | e] eqn:Hrec.
    + destruct Hbody as [Hbody | Hbody]; [discriminate |].
      injection Hbody as <-.
      apply (extends_trans _ _ st0); [exact Hst0 |].
      apply (Hrecur slotCombo); [| exact Hconflict | exact Hrec].
      exists (fst st), daySlots. split; [exact Hday | exact Hin].
    + destruct Hbody; discriminate.
Qed.

(** A general step of the search: a property [Q] of plans that holds of the
    plan made of the rounds placed, and that is kept when an accepted round
    is put first, holds of every plan pushed. *)
Lemma findRoundSlots_pushes
    (Q : nat -> list (list InterviewSession.t) -> list RoundPlan.t ->
         MultiDayPlan.t -> Prop) :
  (forall index previousRounds reads,
     Q index [] previousRounds
       {| MultiDayPlan.id := generatePlanId previousRounds (clock reads);
          MultiDayPlan.rounds := previousRounds;
          MultiDayPlan.totalRounds := length rounds;
          MultiDayPlan.allInterviewers := extractAllInterviewers previousRounds |}) ->
  (forall index sessions remaining previousRounds currentDate slotCombo d0 p,
     searchStart startDate previousRounds sessions = Some d0 ->
     d0 <= currentDate <= endDate ->
     (exists reads daySlots,
        findSlotsForDay clock sessions interviewers currentDate calendarEvents
          options reads = Js.Returned daySlots
        /\ In slotCombo (snd daySlots)) ->
     hasInterviewerConflictWithPreviousRounds slotCombo previousRounds = false ->
     Q (S index) remaining
       (previousRounds
        ++ [ {| RoundPlan.roundNumber := index;
                RoundPlan.date := currentDate;
                RoundPlan.combination := slotCombo;
                RoundPlan.sessions := sessions |} ]) p ->
     Q index (sessions :: remaining) previousRounds p) ->
  forall remaining index previousRounds st st',
    findRoundSlots clock rounds startDate endDate interviewers calendarEvents
      options remaining index previousRounds st = Js.Returned st' ->
    extends (Q index remaining previousRounds) st st'.
Proof.
  intros Hbase Hstep.
  induction remaining as [| sessions remaining IH];
    intros index previousRounds st st' Hrun.
  - simpl in Hrun. injection Hrun as <-. unfold emitPlan.
    eexists [_]. split; [reflexivity |]. constructor; [apply Hbase | constructor].
  - simpl in Hrun.
    destruct (searchStart startDate previousRounds sessions) as [d0 |] eqn:Hstart;
      [| discriminate].
    revert Hrun. apply forEach_invariant; [| apply extends_refl].
    intros currentDate st0 st1 Hin Hst0 Hbody. unfold tryDate in Hbody.
    destruct (findSlotsForRound _ _ _ _ _ _ _ _ _ st0) as [st2 | e] eqn:Hround;
      [| destruct Hbody; discriminate].
    destruct Hbody as [Hbody | Hbody]; [discriminate |]. injection Hbody as <-.
    apply (extends_trans _ _ st0); [exact Hst0 |].
    revert Hround. apply findSlotsForRound_accepts.
    intros slotCombo sta stb Hday Hfree Hrec. apply IH in Hrec.
    revert Hrec. apply extends_impl. intros p.
    apply (Hstep index sessions remaining previousRounds currentDate slotCombo d0);
      try assumption.
    split; [eapply datesInRange_lower, Hin | eapply datesInRange_upper, Hin].
Qed.

(** With a positive [maxResults] the search never goes beyond it. *)
Lemma findRoundSlots_capped (m : Z) remaining :
  SchedulingOptions.maxResults options = Some m -> 1 <= m ->
  forall index previousRounds st st',
    Z.of_nat (length (snd st)) < m ->
    findRoundSlots clock rounds startDate endDate interviewers calendarEvents
      options remaining index previousRounds st = Js.Returned st' ->
    Z.of_nat (length (snd st')) <= m.
Proof.
  intros Hmax Hm.
  induction remaining as [| sessions remaining IH];
    intros index previousRounds st st' Hlt Hrun.
  - simpl in Hrun. injection Hrun as <-. unfold emitPlan. cbn [snd].
    rewrite length_app. simpl. lia.
  - simpl in Hrun.
    destruct (searchStart startDate previousRounds sessions) as [d0 |];
      [| discriminate].
    revert Hrun.
    apply (forEach_guarded options _
             (fun st => Z.of_nat (length (snd st)) < m)
             (fun st => Z.of_nat (length (snd st)) <= m)); [lia | | | exact Hlt].
    + intros currentDate st0 st1 _ Hst0 Hbody. unfold tryDate in Hbody.
      destruct (findSlotsForRound _ _ _ _ _ _ _ _ _ st0); discriminate.
    + intros currentDate st0 st1 _ Hst0 Hbody. unfold tryDate in Hbody.
      destruct (findSlotsForRound _ _ _ _ _ _ _ _ _ st0) as [st2 | e n] eqn:Hround;
        [| discriminate].
      injection Hbody as <-.
      split; [| apply enough_false; assumption].
      revert Hround. unfold findSlotsForRound.
      destruct (findSlotsForDay clock sessions interviewers currentDate calendarEvents
                  options (fst st0)) as [daySlots | e]; [| discriminate].
      apply (forEach_guarded options _
               (fun st => Z.of_nat (length (snd st)) < m)
               (fun st => Z.of_nat (length (snd st)) <= m)); [lia | | | exact Hst0].
      * intros slotCombo sta stb _ Hsta Hbody. unfold trySlotCombination in Hbody.
        destruct (hasInterviewerConflictWithPreviousRounds slotCombo previousRounds).
        -- injection Hbody as <-. exact Hsta.
        -- destruct (findRoundSlots _ _ _ _ _ _ _ _ _ _ sta); discriminate.
      * intros slotCombo sta stb _ Hsta Hbody. unfold trySlotCombination in Hbody.
        destruct (hasInterviewerConflictWithPreviousRounds slotCombo previousRounds);
          [discriminate |].
        destruct (findRoundSlots _ _ _ _ _ _ _ remaining (S index) _ sta)
          as [stc | e] eqn:Hrec; [| discriminate].
        injection Hbody as <-.
        split; [exact (IH _ _ _ _ Hsta Hrec) | apply enough_false; assumption].
Qed.

End MultiDaySound.

Section ParticipantFacts.
Import SlotFinder Spec Invariants.

Lemma existsb_eqb_In (id : string) (ids : list string) :
  existsb (String.eqb id) ids = true <-> In id ids.
Proof.
  rewrite existsb_exists. split.
  - intros (x & Hx & Heq). apply String.eqb_eq in Heq. subst. exact Hx.
  - intros H. exists id. split; [exact H | apply String.eqb_refl].
Qed.

Lemma hasInterviewerConflict_false slotCombo previousRounds :
  hasInterviewerConflictWithPreviousRounds slotCombo previousRounds = false
  <-> forall round id,
        In round previousRounds -> In id (roundParticipants round) ->
        ~ In id (slotInterviewerIds (SessionCombination.slots slotCombo)).
Proof.
  unfold hasInterviewerConflictWithPreviousRounds, roundParticipants. split.
  - intros H round id Hround Hid Hin.
    assert (Htrue : existsb
              (fun round =>
                 existsb
                   (fun intId =>
                      existsb (String.eqb intId)
                        (slotInterviewerIds (SessionCombination.slots slotCombo)))
                   (slotInterviewerIds
                      (SessionCombination.slots (RoundPlan.combination round))))
              previousRounds = true).
    { apply existsb_exists. exists round. split; [exact Hround |].
      apply existsb_exists. exists id. split; [exact Hid |].
      apply existsb_eqb_In, Hin. }
    congruence.
  - intros H. destruct (existsb _ previousRounds) eqn:Hex; [| reflexivity].
    apply existsb_exists in Hex as (round & Hround & Hex).
    apply existsb_exists in Hex as (id & Hid & Hex).
    apply existsb_eqb_In in Hex. exfalso. exact (H round id Hround Hid Hex).
Qed.

Lemma roundsDisjoint_snoc previousRounds round :
  roundsDisjoint previousRounds ->
  hasInterviewerConflictWithPreviousRounds (RoundPlan.combination round) previousRounds
  = false ->
  roundsDisjoint (previousRounds ++ [round]).
Proof.
  intros Hprev Hfree i j r1 r2 id Hij Hi Hj Hid1 Hid2.
  rewrite hasInterviewerConflict_false in Hfree.
  assert (Hcases : forall k r, (previousRounds ++ [round]) !! k = Some r ->
            (k < length previousRounds)%nat /\ previousRounds !! k = Some r
            \/ k = length previousRounds /\ r = round).
  { intros k r Hk. destruct (Nat.lt_ge_cases k (length previousRounds)) as [Hlt | Hge].
    - left. rewrite lookup_app_l in Hk by exact Hlt. split; assumption.
    - right. rewrite lookup_app_r in Hk by exact Hge.
      destruct (k - length previousRounds)%nat as [| n] eqn:Hn; [| destruct n; discriminate].
      injection Hk as <-. split; [lia | reflexivity]. }
  destruct (Hcases i r1 Hi) as [[Hlti Hi'] | [-> ->]];
    destruct (Hcases j r2 Hj) as [[Hltj Hj'] | [-> ->]].
  - exact (Hprev i j r1 r2 id Hij Hi' Hj' Hid1 Hid2).
  - apply (Hfree r1 id); [| exact Hid1 | exact Hid2].
    apply list_elem_of_In. eapply list_elem_of_lookup_2, Hi'.
  - apply (Hfree r2 id); [| exact Hid2 | exact Hid1].
    apply list_elem_of_In. eapply list_elem_of_lookup_2, Hj'.
  - contradiction.
Qed.

(** The loop that collects the ids of a set, in order of first insertion. *)
Lemma collect_ids (ids : list string) :
  forall acc,
    NoDup acc ->
    NoDup
      (fold_left
         (fun interviewerSet intId =>
            if existsb (String.eqb intId) interviewerSet then interviewerSet
            else interviewerSet ++ [intId])
         ids acc)
    /\ forall id,
         In id
           (fold_left
              (fun interviewerSet intId =>
                 if existsb (String.eqb intId) interviewerSet then interviewerSet
                 else interviewerSet ++ [intId])
              ids acc)
         <-> In id acc \/ In id ids.
Proof.
  induction ids as [| x ids IH]; intros acc Hnd.
  - simpl. split; [exact Hnd |]. intros id. split; [left; assumption | intros [H | []]; exact H].
  - cbn [fold_left]. destruct (existsb (String.eqb x) acc) eqn:Hx.
    + destruct (IH acc Hnd) as [H1 H2]. split; [exact H1 |].
      intros id. rewrite H2. apply existsb_eqb_In in Hx. simpl.
      split; [intros [H | H]; [left | right; right]; exact H |].
      intros [H | [<- | H]]; [left; exact H | left; exact Hx | right; exact H].
    + assert (Hnd' : NoDup (acc ++ [x])).
      { apply NoDup_app. split; [exact Hnd |]. split; [| apply NoDup_singleton].
        intros y Hy Hy'. apply list_elem_of_In in Hy'. destruct Hy' as [<- | []].
        apply list_elem_of_In, existsb_eqb_In in Hy. congruence. }
      destruct (IH (acc ++ [x]) Hnd') as [H1 H2]. split; [exact H1 |].
      intros id. rewrite H2, in_app_iff. simpl. tauto.
Qed.

End ParticipantFacts.
(** X18. [findSlotsForDay] returns whenever the session list is not empty
    and the times of the sessions stay in the range of Date on that day;
    what it throws otherwise is an error of the language. Every
    combination it returns places one slot for each session, in the order
    of [order]: the slot has the session's id and name, its participants
    are one of the combinations offered to the session, and
    [checkSlotConflicts] found no conflict for them. The combination's
    date, end time, total duration and load density are those of its
    slots. *)
Theorem findSlotsForDay_places_every_session (clock : nat -> Z)
    (sessions : list InterviewSession.t) (interviewers : list Interviewer.t)
    (date : Z) (calendarEvents : gmap string (list CalendarEvent.t))
    (options : SchedulingOptions.t) (reads : nat) :
  (sessions <> [] -> Spec.withinDateRange date date sessions ->
   exists st,
     SlotFinder.findSlotsForDay clock sessions interviewers date calendarEvents
       options reads = Js.Returned st)
  /\ (forall e reads',
        SlotFinder.findSlotsForDay clock sessions interviewers date calendarEvents
          options reads = Js.Thrown e reads' ->
        Spec.native e)
  /\ forall st,
       SlotFinder.findSlotsForDay clock sessions interviewers date calendarEvents
         options reads = Js.Returned st ->
       forall c, In c (snd st) ->
         Forall2
           (Invariants.placedFor
              (SlotFinder.generateInterviewerCombinations
                 (SlotFinder.sortByOrder sessions) interviewers options)
              calendarEvents options)
           (SlotFinder.sortByOrder sessions) (SessionCombination.slots c)
         /\ SessionCombination.date c = date
         /\ InterviewSlot.endTime <$> last (SessionCombination.slots c)
            = Some (SessionCombination.endTime c)
         /\ SessionCombination.totalDuration c
            = SlotFinder.calculateTotalDuration (SessionCombination.slots c)
         /\ SessionCombination.loadDensity c
            = SlotFinder.calculateLoadDensity (SessionCombination.slots c) interviewers.
Proof.
  split; [apply findSlotsForDay_returns |].
  split; [intros e reads'; apply findSlotsForDay_thrown |].
  intros st Hrun c Hc.
  pose proof (findSlotsForDay_covering _ _ _ _ _ _ _ _ Hrun) as Hcover.
  pose proof (findSlotsForDay_emitted _ _ _ _ _ _ _ _ Hrun) as Hemit.
  rewrite Forall_forall in Hcover, Hemit. apply list_elem_of_In in Hc.
  destruct (Hcover c Hc) as (added & Hslots & Hall & Hend & Htotal & Hload).
  destruct (Hemit c Hc) as (_ & _ & _ & _ & Hdate).
  simpl in Hslots. rewrite Hslots.
  split; [exact Hall |]. split; [exact Hdate |].
  rewrite <- Hslots. repeat split; assumption.
Qed.

(** Scenario C on the Monday: the search returns. *)
Lemma findSlotsForDay_places_every_session_witness :
  exists st,
    SlotFinder.findSlotsForDay Scenarios.clockA Scenarios.sessionsC
      [Scenarios.interviewer "A"] Scenarios.monday ∅ Scenarios.enforced 0
    = Js.Returned st.
Proof.
  apply (findSlotsForDay_places_every_session Scenarios.clockA Scenarios.sessionsC
           [Scenarios.interviewer "A"] Scenarios.monday ∅ Scenarios.enforced 0);
    [discriminate |].
  split; [repeat constructor; simpl; lia |].
  split; vm_compute; discriminate.
Defined.

(** X19. [checkSlotConflicts] finds no conflict exactly when, for every
    interviewer of the combination: [isInterviewerAvailable] reports the
    interviewer available; with [checkCalendarConflicts] set, no event of
    the interviewer overlaps the slot; with [respectDailyLimits] set, the
    daily density is not above 1; and with [respectWeeklyLimits] set, the
    weekly density is not above 1. *)
Theorem checkSlotConflicts_nil_iff (slot : InterviewSlot.t)
    (combo : list Interviewer.t)
    (calendarEvents : gmap string (list CalendarEvent.t))
    (options : SchedulingOptions.t) :
  SlotFinder.checkSlotConflicts slot combo calendarEvents options = []
  <-> forall interviewer, In interviewer combo ->
        AvailabilityCheck.AvailabilityResult.available
          (AvailabilityCheck.isInterviewerAvailable interviewer
             (InterviewSlot.startTime slot) (InterviewSlot.endTime slot) options)
        = true
        /\ (Js.truthy (SchedulingOptions.checkCalendarConflicts options) = true ->
            forall event,
              In event (default [] (calendarEvents !! Interviewer.id interviewer)) ->
              ConflictDetection.isTimeOverlap
                {| TimeChunk.startTime := TIso (InterviewSlot.startTime slot);
                   TimeChunk.endTime := TIso (InterviewSlot.endTime slot) |}
                {| TimeChunk.startTime := TIso (CalendarEvent.start event);
                   TimeChunk.endTime := TIso (CalendarEvent.end_ event) |} = false)
        /\ (Js.truthy (SchedulingOptions.respectDailyLimits options) = true ->
            Js.gt
              (LoadInfo.density
                 (LoadInfo.daily
                    (LoadCalculation.calculateInterviewerLoad interviewer slot
                       (default [] (calendarEvents !! Interviewer.id interviewer))
                       options))) 1 = false)
        /\ (Js.truthy (SchedulingOptions.respectWeeklyLimits options) = true ->
            Js.gt
              (LoadInfo.density
                 (LoadInfo.weekly
                    (LoadCalculation.calculateInterviewerLoad interviewer slot
                       (default [] (calendarEvents !! Interviewer.id interviewer))
                       options))) 1 = false).
Proof.
  unfold SlotFinder.checkSlotConflicts. rewrite flat_map_nil.
  split; intros H interviewer Hin; apply interviewerConflicts_nil, H, Hin.
Qed.

(** X20. With a [maxResults] of at least 1 neither search returns more
    results than that: whatever [findSlotsForDay] or [findMultiDaySlots]
    returns has at most [maxResults] elements. *)
Theorem searches_respect_maxResults (clock : nat -> Z)
    (sessions : list InterviewSession.t) (interviewers : list Interviewer.t)
    (date : Z) (dateRange : Z * Z)
    (calendarEvents : gmap string (list CalendarEvent.t))
    (options : SchedulingOptions.t) (reads : nat) (m : Z) :
  SchedulingOptions.maxResults options = Some m -> 1 <= m ->
  (forall st,
     SlotFinder.findSlotsForDay clock sessions interviewers date calendarEvents
       options reads = Js.Returned st ->
     Z.of_nat (length (snd st)) <= m)
  /\ (forall st,
        SlotFinder.findMultiDaySlots clock sessions interviewers dateRange
          calendarEvents options reads = Js.Returned st ->
        Z.of_nat (length (snd st)) <= m).
Proof.
  intros Hmax Hm. split; intros st Hrun.
  - eapply findSlotsForDay_capped; [exact Hmax | exact Hm | exact Hrun].
  - unfold SlotFinder.findMultiDaySlots in Hrun.
    eapply findRoundSlots_capped; [exact Hmax | exact Hm | | exact Hrun].
    simpl. lia.
Qed.

(** Scenario D over two days with [maxResults] = 100. *)
Lemma searches_respect_maxResults_witness :
  exists st,
    SlotFinder.findMultiDaySlots Scenarios.clockA Scenarios.sessionsD
      [Scenarios.interviewer "A"; Scenarios.interviewer "B"]
      (Scenarios.monday, Scenarios.monday + 1) ∅ Scenarios.enforced 0
    = Js.Returned st
    /\ Z.of_nat (length (snd st)) <= 100.
Proof.
  eexists. split; [vm_compute; reflexivity |].
  eapply (proj2 (searches_respect_maxResults Scenarios.clockA Scenarios.sessionsD
                   [Scenarios.interviewer "A"; Scenarios.interviewer "B"]
                   Scenarios.monday (Scenarios.monday, Scenarios.monday + 1) ∅
                   Scenarios.enforced 0 100 eq_refl ltac:(lia))).
  vm_compute. reflexivity.
Defined.

(** X21. When no interviewer's id names a member of [Object.prototype],
    the combinations [findSlotsForDay] returns are ranked: they all start
    at the day's default start time, their average load densities are
    finite numbers, and they come in ascending order of that average. *)
Theorem findSlotsForDay_ranked_by_density (clock : nat -> Z)
    (sessions : list InterviewSession.t) (interviewers : list Interviewer.t)
    (date : Z) (calendarEvents : gmap string (list CalendarEvent.t))
    (options : SchedulingOptions.t) (reads : nat)
    (st : SlotFinder.state SessionCombination.t) :
  Forall (fun interviewer => Spec.ownName (Interviewer.id interviewer)) interviewers ->
  SlotFinder.findSlotsForDay clock sessions interviewers date calendarEvents
    options reads = Js.Returned st ->
  StronglySorted Spec.combinationRankedBefore (snd st)
  /\ Forall (fun c => SessionCombination.startTime c = Invariants.dayStart date)
       (snd st)
  /\ Forall Spec.finiteAverage (snd st)
  /\ StronglySorted
       (fun a b =>
          Spec.atMost
            (SlotFinder.getAverageLoadDensity (SessionCombination.loadDensity a))
            (SlotFinder.getAverageLoadDensity (SessionCombination.loadDensity b)))
       (snd st).
Proof.
  intros Hown Hrun.
  pose proof (findSlotsForDay_ranked _ _ _ _ _ _ _ _ Hown Hrun) as Hranked.
  pose proof (findSlotsForDay_finiteAverage _ _ _ _ _ _ _ _ Hown Hrun) as Hfinite.
  assert (Hstart : Forall
            (fun c => SessionCombination.startTime c = Invariants.dayStart date)
            (snd st)).
  { apply Forall_forall. intros c Hc. apply list_elem_of_In in Hc.
    exact (findSlotsForDay_startTime _ _ _ _ _ _ _ _ _ Hrun Hc). }
  split; [exact Hranked |]. split; [exact Hstart |]. split; [exact Hfinite |].
  clear Hrun Hfinite. induction Hranked as [| c l Hl IH Hc]; [constructor |].
  apply Forall_cons in Hstart as [Hc0 Hstart].
  constructor; [apply IH, Hstart |].
  rewrite Forall_forall in *. intros c' Hc'.
  destruct (Hc c' Hc') as [Hlt | [_ Hle]]; [| exact Hle].
  rewrite Hc0, (Hstart c' Hc') in Hlt. lia.
Qed.

(** Scenario C with the interviewers [A] and [B]. *)
Lemma findSlotsForDay_ranked_by_density_witness :
  exists st,
    SlotFinder.findSlotsForDay Scenarios.clockA Scenarios.sessionsC
      [Scenarios.interviewer "A"; Scenarios.interviewer "B"] Scenarios.monday ∅
      Scenarios.enforced 0
    = Js.Returned st
    /\ StronglySorted Spec.combinationRankedBefore (snd st).
Proof.
  eexists. split; [vm_compute; reflexivity |].
  eapply (findSlotsForDay_ranked_by_density Scenarios.clockA Scenarios.sessionsC
            [Scenarios.interviewer "A"; Scenarios.interviewer "B"] Scenarios.monday ∅
            Scenarios.enforced 0).
  - repeat constructor.
  - vm_compute. reflexivity.
Defined.

Section Unstaffed.
Import SlotFinder.

Lemma filter_id_none (sessions : list InterviewSession.t) (id : string) :
  ~ In id (map InterviewSession.id sessions) ->
  List.filter (fun s => String.eqb (InterviewSession.id s) id) sessions = [].
Proof.
  induction sessions as [| s sessions IH]; intros Hid; [reflexivity |].
  cbn [List.filter].
  destruct (String.eqb_spec (InterviewSession.id s) id) as [Heq | Hne].
  - exfalso. apply Hid. left. exact Heq.
  - apply IH. intros H. apply Hid. right. exact H.
Qed.

Lemma filter_id_NoDup (sessions : list InterviewSession.t) (session : InterviewSession.t) :
  NoDup (map InterviewSession.id sessions) -> In session sessions ->
  List.filter
    (fun s => String.eqb (InterviewSession.id s) (InterviewSession.id session))
    sessions
  = [session].
Proof.
  induction sessions as [| s sessions IH]; intros Hnd Hin; [destruct Hin |].
  cbn [map] in Hnd. apply NoDup_cons in Hnd as [Hs Hnd]. cbn [List.filter].
  destruct Hin as [-> | Hin].
  - rewrite String.eqb_refl. f_equal. apply filter_id_none.
    intros H. apply Hs, list_elem_of_In, H.
  - destruct (String.eqb_spec (InterviewSession.id s) (InterviewSession.id session))
      as [Heq | Hne].
    + exfalso. apply Hs. rewrite Heq. apply list_elem_of_In, in_map, Hin.
    + apply IH; assumption.
Qed.

Lemma sessionCombos_unstaffed session interviewers options :
  Z.of_nat (length interviewers) < InterviewSession.requiredInterviewers session ->
  sessionCombos session interviewers options = [].
Proof.
  intros Hfew.
  destruct (sessionCombos session interviewers options) as [| combo combos] eqn:Hc;
    [reflexivity |].
  exfalso.
  assert (Hin : In combo (sessionCombos session interviewers options))
    by (rewrite Hc; left; reflexivity).
  clear Hc. revert Hin. unfold sessionCombos.
  set (pool0 :=
         match InterviewSession.interviewerPool session with
         | Some ids =>
             List.filter
               (fun int => existsb (String.eqb (Interviewer.id int)) ids) interviewers
         | None => interviewers
         end).
  set (pool :=
         if negb (Js.truthy (SchedulingOptions.includeTrainingInterviewers options))
         then List.filter (fun int => negb (Js.truthy (Interviewer.isTraining int))) pool0
         else pool0).
  assert (Hpool0 : (length pool0 <= length interviewers)%nat).
  { unfold pool0. destruct (InterviewSession.interviewerPool session);
      [apply List.filter_length_le | lia]. }
  assert (Hpool : (length pool <= length interviewers)%nat).
  { unfold pool. destruct (negb _); [| exact Hpool0].
    etransitivity; [apply List.filter_length_le | exact Hpool0]. }
  assert (Hplain : generateCombinations pool
                     (InterviewSession.requiredInterviewers session) = []).
  { apply generateCombinations_too_many. lia. }
  rewrite Hplain.
  assert (Htraining : ~ In combo
                        (generateCombinationsWithTraining pool
                           (InterviewSession.requiredInterviewers session))).
  { intros H.
    apply generateCombinationsWithTraining_In in H
      as (regCombo & trainCombo & -> & _ & Hlen & Hreg & Htrain).
    destruct (sublists_of_filters _ _ _ _ Hreg Htrain) as (c & Hc & Hperm).
    apply sublist_length in Hc. apply Permutation_length in Hperm. lia. }
  destruct (Js.truthy (SchedulingOptions.includeTrainingInterviewers options));
    simpl; [exact Htraining | intros []].
Qed.

End Unstaffed.

(** X22. A session that asks for more interviewers than the request has
    leaves the day without results: when the session ids are distinct and
    some session's [requiredInterviewers] exceeds the number of
    interviewers, whatever [findSlotsForDay] returns is the empty list, and
    it does return it when the times of the sessions stay in the range of
    Date. *)
Theorem findSlotsForDay_unstaffed (clock : nat -> Z)
    (sessions : list InterviewSession.t) (interviewers : list Interviewer.t)
    (date : Z) (calendarEvents : gmap string (list CalendarEvent.t))
    (options : SchedulingOptions.t) (reads : nat) (session : InterviewSession.t) :
  NoDup (map InterviewSession.id sessions) ->
  In session sessions ->
  Z.of_nat (length interviewers) < InterviewSession.requiredInterviewers session ->
  (forall st,
     SlotFinder.findSlotsForDay clock sessions interviewers date calendarEvents
       options reads = Js.Returned st ->
     snd st = [])
  /\ (Spec.withinDateRange date date sessions ->
      exists reads',
        SlotFinder.findSlotsForDay clock sessions interviewers date calendarEvents
          options reads = Js.Returned (reads', [])).
Proof.
  intros Hnd Hin Hfew.
  assert (Hne : sessions <> []) by (intros ->; destruct Hin).
  assert (Hempty : forall st,
            SlotFinder.findSlotsForDay clock sessions interviewers date calendarEvents
              options reads = Js.Returned st ->
            snd st = []).
  { intros st Hrun.
    unfold SlotFinder.findSlotsForDay, SlotFinder.generateAllSlotCombinations in Hrun.
    destruct (SlotFinder.exploreSlotCombinations _ _ _ _ _ _ _ _ _)
      as [st0 | e n] eqn:Hexp; [| discriminate].
    injection Hrun as <-. cbn [snd].
    apply exploreSlotCombinations_blocked in Hexp.
    - cbn [snd] in Hexp. rewrite Hexp. reflexivity.
    - apply Exists_exists. exists session. split.
      + apply list_elem_of_In, sortByOrder_In, Hin.
      + rewrite generateInterviewerCombinations_lookup.
        rewrite filter_id_NoDup.
        * cbn [last fmap option_fmap option_map default].
          apply sessionCombos_unstaffed, Hfew.
        * unfold SlotFinder.sortByOrder. rewrite (sort_Permutation _ sessions).
          exact Hnd.
        * apply sortByOrder_In, Hin. }
  split; [exact Hempty |]. intros Hrange.
  destruct (findSlotsForDay_returns clock sessions interviewers date calendarEvents
              options reads Hne Hrange) as ([reads' results] & Hrun).
  exists reads'. rewrite Hrun. f_equal. f_equal. exact (Hempty _ Hrun).
Qed.

(** A session for two interviewers and a single interviewer. *)
Lemma findSlotsForDay_unstaffed_witness :
  exists reads',
    SlotFinder.findSlotsForDay Scenarios.clockA [Scenarios.sessionOfTwo]
      [Scenarios.interviewer "A"] Scenarios.monday ∅ Scenarios.enforced 0
    = Js.Returned (reads', []).
Proof.
  apply (findSlotsForDay_unstaffed Scenarios.clockA [Scenarios.sessionOfTwo]
           [Scenarios.interviewer "A"] Scenarios.monday ∅ Scenarios.enforced 0
           Scenarios.sessionOfTwo).
  - repeat constructor. intros H. inversion H.
  - left. reflexivity.
  - simpl. lia.
  - split; [repeat constructor; simpl; lia |].
    split; vm_compute; discriminate.
Defined.

Section PlanFacts.
Import SlotFinder Spec Invariants.

Lemma findRoundSlots_placed clock rounds startDate endDate interviewers
    calendarEvents options remaining :
  forall index previousRounds st st',
    findRoundSlots clock rounds startDate endDate interviewers calendarEvents
      options remaining index previousRounds st = Js.Returned st' ->
    extends
      (fun p =>
         exists more,
           MultiDayPlan.rounds p = previousRounds ++ more
           /\ roundsPlaced clock endDate interviewers calendarEvents options index
                remaining more
           /\ MultiDayPlan.totalRounds p = length rounds
           /\ MultiDayPlan.allInterviewers p
              = extractAllInterviewers (MultiDayPlan.rounds p)
           /\ (previousRounds = [] ->
               forall round, head more = Some round ->
                 startDate <= RoundPlan.date round))
      st st'.
Proof.
  apply (findRoundSlots_pushes clock rounds startDate endDate interviewers
           calendarEvents options
           (fun index remaining previousRounds p =>
              exists more,
                MultiDayPlan.rounds p = previousRounds ++ more
                /\ roundsPlaced clock endDate interviewers calendarEvents options
                     index remaining more
                /\ MultiDayPlan.totalRounds p = length rounds
                /\ MultiDayPlan.allInterviewers p
                   = extractAllInterviewers (MultiDayPlan.rounds p)
                /\ (previousRounds = [] ->
                    forall round, head more = Some round ->
                      startDate <= RoundPlan.date round))).
  - intros index previousRounds reads. exists [].
    cbn [MultiDayPlan.rounds MultiDayPlan.totalRounds MultiDayPlan.allInterviewers].
    split; [rewrite app_nil_r; reflexivity |].
    split; [split; [reflexivity | constructor] |].
    split; [reflexivity |]. split; [reflexivity |].
    intros _ round H. discriminate.
  - intros index sessions remaining' previousRounds currentDate slotCombo d0 p
      Hstart Hdate Hday Hfree (more & Hrounds & (Hnumbers & Hall) & Htotal & Hids & _).
    exists ({| RoundPlan.roundNumber := index; RoundPlan.date := currentDate;
               RoundPlan.combination := slotCombo; RoundPlan.sessions := sessions |}
            :: more).
    split; [rewrite Hrounds, <- app_assoc; reflexivity |].
    split; [split |].
    + cbn [map length seq RoundPlan.roundNumber]. rewrite Hnumbers. reflexivity.
    + constructor; [| exact Hall].
      cbn [RoundPlan.sessions RoundPlan.date RoundPlan.combination].
      split; [reflexivity |]. split; [lia | exact Hday].
    + split; [exact Htotal |]. split; [exact Hids |].
      intros -> round Hhead. cbn [head] in Hhead. injection Hhead as <-.
      cbn [RoundPlan.date]. unfold searchStart in Hstart. cbn [last] in Hstart.
      injection Hstart as <-. lia.
Qed.

Lemma findRoundSlots_disjoint clock rounds startDate endDate interviewers
    calendarEvents options remaining :
  forall index previousRounds st st',
    findRoundSlots clock rounds startDate endDate interviewers calendarEvents
      options remaining index previousRounds st = Js.Returned st' ->
    extends
      (fun p => roundsDisjoint previousRounds -> roundsDisjoint (MultiDayPlan.rounds p))
      st st'.
Proof.
  apply (findRoundSlots_pushes clock rounds startDate endDate interviewers
           calendarEvents options
           (fun _ _ previousRounds p =>
              roundsDisjoint previousRounds -> roundsDisjoint (MultiDayPlan.rounds p))).
  - intros index previousRounds reads H. exact H.
  - intros index sessions remaining' previousRounds currentDate slotCombo d0 p
      _ _ _ Hfree Hrec Hprev.
    apply Hrec. apply roundsDisjoint_snoc; [exact Hprev | exact Hfree].
Qed.

End PlanFacts.

(** X23. [findMultiDaySlots] returns whenever the times of the sessions
    stay in the range of Date on the days of the range. Every plan it
    returns has one round plan for each round of [groupSessionsIntoRounds],
    in order and numbered from 0: the round plan holds the round's
    sessions, a date not after the end of the range, and a combination that
    [findSlotsForDay] returns for these sessions on that date.
    [totalRounds] is the number of rounds, [allInterviewers] is computed
    from the rounds, and the first round is not before the start of the
    range. *)
Theorem findMultiDaySlots_plan_structure (clock : nat -> Z)
    (sessions : list InterviewSession.t) (interviewers : list Interviewer.t)
    (dateRange : Z * Z) (calendarEvents : gmap string (list CalendarEvent.t))
    (options : SchedulingOptions.t) (reads : nat) :
  (Spec.withinDateRange (fst dateRange) (snd dateRange) sessions ->
   exists st,
     SlotFinder.findMultiDaySlots clock sessions interviewers dateRange
       calendarEvents options reads = Js.Returned st)
  /\ forall st,
       SlotFinder.findMultiDaySlots clock sessions interviewers dateRange
         calendarEvents options reads = Js.Returned st ->
       forall p, In p (snd st) ->
         Invariants.roundsPlaced clock (snd dateRange) interviewers calendarEvents
           options 0 (SlotFinder.groupSessionsIntoRounds sessions)
           (MultiDayPlan.rounds p)
         /\ MultiDayPlan.totalRounds p
            = length (SlotFinder.groupSessionsIntoRounds sessions)
         /\ length (MultiDayPlan.rounds p) = MultiDayPlan.totalRounds p
         /\ MultiDayPlan.allInterviewers p
            = SlotFinder.extractAllInterviewers (MultiDayPlan.rounds p)
         /\ forall round, head (MultiDayPlan.rounds p) = Some round ->
              fst dateRange <= RoundPlan.date round.
Proof.
  split; [apply findMultiDaySlots_returns |].
  intros st Hrun p Hp.
  unfold SlotFinder.findMultiDaySlots in Hrun.
  apply findRoundSlots_placed in Hrun as (new & Hnew & Hall).
  simpl in Hnew. subst new. rewrite Forall_forall in Hall.
  destruct (Hall p (proj2 (list_elem_of_In _ _) Hp))
    as (more & Hrounds & Hplaced & Htotal & Hids & Hfirst).
  simpl in Hrounds. rewrite Hrounds.
  split; [exact Hplaced |]. split; [exact Htotal |].
  split; [| split; [rewrite <- Hrounds; exact Hids | apply Hfirst; reflexivity]].
  rewrite Htotal. destruct Hplaced as [_ Hforall].
  symmetry. eapply Forall2_length, Hforall.
Qed.

(** X24. The rounds of a plan that [findMultiDaySlots] returns share no
    interviewer: nobody who takes part in one round takes part in
    another. *)
Theorem findMultiDaySlots_rounds_disjoint (clock : nat -> Z)
    (sessions : list InterviewSession.t) (interviewers : list Interviewer.t)
    (dateRange : Z * Z) (calendarEvents : gmap string (list CalendarEvent.t))
    (options : SchedulingOptions.t) (reads : nat)
    (st : SlotFinder.state MultiDayPlan.t) :
  SlotFinder.findMultiDaySlots clock sessions interviewers dateRange
    calendarEvents options reads = Js.Returned st ->
  forall p, In p (snd st) -> Invariants.roundsDisjoint (MultiDayPlan.rounds p).
Proof.
  intros Hrun p Hp.
  unfold SlotFinder.findMultiDaySlots in Hrun.
  apply findRoundSlots_disjoint in Hrun as (new & Hnew & Hall).
  simpl in Hnew. subst new. rewrite Forall_forall in Hall.
  apply (Hall p (proj2 (list_elem_of_In _ _) Hp)).
  intros i j r1 r2 id _ Hi. discriminate Hi.
Qed.

(** Scenario D over two days: the rounds of the first plan share nobody. *)
Lemma findMultiDaySlots_rounds_disjoint_witness :
  exists st p,
    SlotFinder.findMultiDaySlots Scenarios.clockA Scenarios.sessionsD
      [Scenarios.interviewer "A"; Scenarios.interviewer "B"]
      (Scenarios.monday, Scenarios.monday + 1) ∅ Scenarios.enforced 0
    = Js.Returned st
    /\ head (snd st) = Some p
    /\ Invariants.roundsDisjoint (MultiDayPlan.rounds p).
Proof.
  eexists _, _. split; [vm_compute; reflexivity |]. split; [reflexivity |].
  eapply (findMultiDaySlots_rounds_disjoint Scenarios.clockA Scenarios.sessionsD
            [Scenarios.interviewer "A"; Scenarios.interviewer "B"]
            (Scenarios.monday, Scenarios.monday + 1) ∅ Scenarios.enforced 0);
    [vm_compute; reflexivity | left; reflexivity].
Defined.

(** X25. [extractAllInterviewers] lists every participant of the rounds
    once: an id is listed exactly when it takes part in some round, and no
    id is listed twice. *)
Theorem extractAllInterviewers_spec (rounds : list RoundPlan.t) :
  NoDup (SlotFinder.extractAllInterviewers rounds)
  /\ forall id,
       In id (SlotFinder.extractAllInterviewers rounds)
       <-> exists round, In round rounds /\ In id (Spec.roundParticipants round).
Proof.
  unfold SlotFinder.extractAllInterviewers.
  destruct (collect_ids
              (flat_map
                 (fun round =>
                    SlotFinder.slotInterviewerIds
                      (SessionCombination.slots (RoundPlan.combination round)))
                 rounds) [] (NoDup_nil_2 : NoDup (@nil string))) as [Hnd Hin].
  split; [exact Hnd |]. intros id. rewrite Hin, in_flat_map.
  unfold Spec.roundParticipants. split.
  - intros [[] | H]. exact H.
  - intros H. right. exact H.
Qed.

(** X26. The flags [excludeRecruitingBlocks] and [balanceLoad] are read by
    no check and by neither search: two option objects that differ only in
    them give the same conflicts and the same results. *)
Theorem unused_flags_change_nothing (o1 o2 : SchedulingOptions.t) :
  Spec.withoutUnusedFlags o1 = Spec.withoutUnusedFlags o2 ->
  (forall slot combo calendarEvents,
     SlotFinder.checkSlotConflicts slot combo calendarEvents o1
     = SlotFinder.checkSlotConflicts slot combo calendarEvents o2)
  /\ (forall clock sessions interviewers date calendarEvents reads,
        SlotFinder.findSlotsForDay clock sessions interviewers date calendarEvents
          o1 reads
        = SlotFinder.findSlotsForDay clock sessions interviewers date calendarEvents
            o2 reads)
  /\ (forall clock sessions interviewers dateRange calendarEvents reads,
        SlotFinder.findMultiDaySlots clock sessions interviewers dateRange
          calendarEvents o1 reads
        = SlotFinder.findMultiDaySlots clock sessions interviewers dateRange
            calendarEvents o2 reads).
Proof.
  intros H.
  assert (Hcheck : forall o slot combo calendarEvents,
            SlotFinder.checkSlotConflicts slot combo calendarEvents o
            = SlotFinder.checkSlotConflicts slot combo calendarEvents
                (Spec.withoutUnusedFlags o)) by reflexivity.
  assert (Hday : forall o clock sessions interviewers date calendarEvents reads,
            SlotFinder.findSlotsForDay clock sessions interviewers date calendarEvents
              o reads
            = SlotFinder.findSlotsForDay clock sessions interviewers date
                calendarEvents (Spec.withoutUnusedFlags o) reads) by reflexivity.
  assert (Hmulti : forall o clock sessions interviewers dateRange calendarEvents reads,
            SlotFinder.findMultiDaySlots clock sessions interviewers dateRange
              calendarEvents o reads
            = SlotFinder.findMultiDaySlots clock sessions interviewers dateRange
                calendarEvents (Spec.withoutUnusedFlags o) reads) by reflexivity.
  split; [| split]; intros.
  - rewrite (Hcheck o1), (Hcheck o2), H. reflexivity.
  - rewrite (Hday o1), (Hday o2), H. reflexivity.
  - rewrite (Hmulti o1), (Hmulti o2), H. reflexivity.
Qed.

Lemma unused_flags_change_nothing_witness :
  SlotFinder.findSlotsForDay Scenarios.clockA Scenarios.sessionsC
    [Scenarios.interviewer "A"] Scenarios.monday ∅ Scenarios.enforced 0
  = SlotFinder.findSlotsForDay Scenarios.clockA Scenarios.sessionsC
      [Scenarios.interviewer "A"] Scenarios.monday ∅ Scenarios.flagsOff 0.
Proof.
  destruct (unused_flags_change_nothing Scenarios.enforced Scenarios.flagsOff eq_refl)
    as (_ & Hday & _).
  apply Hday.
Defined.
(** ** The engine *)

Section EngineFacts.
Import SlotFinder SchedulingEngine Spec Invariants.

Lemma fetchCalendarEvents_snoc cache interviewers interviewer :
  fetchCalendarEvents cache (interviewers ++ [interviewer])
  = match snd (fetchCalendarEvents cache interviewers) !! Interviewer.email interviewer with
    | Some events =>
        (<[Interviewer.id interviewer := events]>
           (fst (fetchCalendarEvents cache interviewers)),
         snd (fetchCalendarEvents cache interviewers))
    | None =>
        (<[Interviewer.id interviewer := []]>
           (fst (fetchCalendarEvents cache interviewers)),
         <[Interviewer.email interviewer := []]>
           (snd (fetchCalendarEvents cache interviewers)))
    end.
Proof.
  unfold fetchCalendarEvents. rewrite fold_left_app. cbn [fold_left].
  destruct (fold_left _ interviewers (∅, cache)) as [eventsMap cache']. reflexivity.
Qed.

(** What [fetchCalendarEvents] returns: the cache gains only empty lists,
    and an id is mapped to the cached events of the last interviewer with
    this id. *)
Lemma fetchCalendarEvents_spec cache interviewers :
  (forall email,
     default [] (snd (fetchCalendarEvents cache interviewers) !! email)
     = default [] (cache !! email))
  /\ forall id,
       fst (fetchCalendarEvents cache interviewers) !! id
       = (fun interviewer => default [] (cache !! Interviewer.email interviewer))
         <$> last (List.filter (fun interviewer => String.eqb (Interviewer.id interviewer) id)
                     interviewers).
Proof.
  induction interviewers as [| interviewer interviewers [IHc IHm]] using rev_ind.
  - split; [reflexivity |]. intros id. reflexivity.
  - rewrite fetchCalendarEvents_snoc.
    assert (Hlast : forall id events,
              (<[Interviewer.id interviewer := events]>
                 (fst (fetchCalendarEvents cache interviewers))) !! id
              = (if String.eqb (Interviewer.id interviewer) id then Some events
                 else fst (fetchCalendarEvents cache interviewers) !! id)).
    { intros id events. destruct (String.eqb_spec (Interviewer.id interviewer) id)
        as [<- | Hne]; [apply lookup_insert_eq | apply lookup_insert_ne, Hne]. }
    assert (Hfilter : forall id,
              (fun i => default [] (cache !! Interviewer.email i))
              <$> last (List.filter (fun i => String.eqb (Interviewer.id i) id)
                          (interviewers ++ [interviewer]))
              = (if String.eqb (Interviewer.id interviewer) id
                 then Some (default [] (cache !! Interviewer.email interviewer))
                 else fst (fetchCalendarEvents cache interviewers) !! id)).
    { intros id. rewrite List.filter_app. cbn [List.filter].
      destruct (String.eqb (Interviewer.id interviewer) id).
      - rewrite last_snoc. reflexivity.
      - rewrite app_nil_r. symmetry. apply IHm. }
    destruct (snd (fetchCalendarEvents cache interviewers)
              !! Interviewer.email interviewer) as [events |] eqn:Hcached;
      cbn [fst snd].
    + split; [exact IHc |]. intros id. rewrite Hlast, Hfilter.
      destruct (String.eqb (Interviewer.id interviewer) id); [| reflexivity].
      f_equal. rewrite <- IHc, Hcached. reflexivity.
    + split.
      * intros email. destruct (decide (Interviewer.email interviewer = email))
          as [<- | Hne].
        -- rewrite lookup_insert_eq. rewrite <- IHc, Hcached. reflexivity.
        -- rewrite lookup_insert_ne by exact Hne. apply IHc.
      * intros id. rewrite Hlast, Hfilter.
        destruct (String.eqb (Interviewer.id interviewer) id); [| reflexivity].
        f_equal. rewrite <- IHc, Hcached. reflexivity.
Qed.

Lemma fetchCalendarEvents_holdsNoEvent cache interviewers :
  holdsNoEvent cache ->
  holdsNoEvent (snd (fetchCalendarEvents cache interviewers))
  /\ forall id events,
       fst (fetchCalendarEvents cache interviewers) !! id = Some events ->
       events = [].
Proof.
  intros Hcache. destruct (fetchCalendarEvents_spec cache interviewers) as [Hc Hm].
  assert (Hempty : forall email, default [] (cache !! email) = []).
  { intros email. destruct (cache !! email) as [events |] eqn:He; [| reflexivity].
    exact (Hcache email events He). }
  split.
  - intros email events He. specialize (Hc email). rewrite He, Hempty in Hc. exact Hc.
  - intros id events He. rewrite Hm in He.
    destruct (last _) as [interviewer |]; [| discriminate].
    injection He as <-. apply Hempty.
Qed.

(** A fetch from the cache that a fetch for the same interviewers left
    gives the same events. *)
Lemma fetchCalendarEvents_again cache interviewers :
  fst (fetchCalendarEvents (snd (fetchCalendarEvents cache interviewers)) interviewers)
  = fst (fetchCalendarEvents cache interviewers).
Proof.
  apply map_eq. intros id.
  destruct (fetchCalendarEvents_spec cache interviewers) as [Hc Hm].
  destruct (fetchCalendarEvents_spec (snd (fetchCalendarEvents cache interviewers))
              interviewers) as [_ Hm'].
  rewrite Hm', Hm. destruct (last _) as [interviewer |]; [| reflexivity].
  cbn. rewrite Hc. reflexivity.
Qed.

(** [findSlots] on a request that passes the validation. *)
Lemma findSlots_valid engine clock reads request startDate endDate :
  FindSlotsOptions.sessions request <> [] ->
  FindSlotsOptions.interviewers request <> [] ->
  FindSlotsOptions.dateRange request = (Some startDate, Some endDate) ->
  findSlots engine clock reads request
  = let merged := effectiveOptions engine (FindSlotsOptions.options request) in
    let fetched :=
      fetchCalendarEvents (calendarCache engine) (FindSlotsOptions.interviewers request) in
    if needsMultiDayScheduling (FindSlotsOptions.sessions request) then
      match findMultiDaySlots clock (FindSlotsOptions.sessions request)
              (FindSlotsOptions.interviewers request) (startDate, endDate)
              (fst fetched) merged reads with
      | Js.Thrown e reads' => (rethrow e reads', reads', snd fetched)
      | Js.Returned st => (Js.Returned (Plans (snd st)), fst st, snd fetched)
      end
    else
      (Js.Thrown (Js.SchedulingError "Failed to find slots: " Js.TypeError) reads,
       reads, snd fetched).
Proof.
  intros Hs Hi Hd. unfold findSlots, effectiveOptions.
  destruct (FindSlotsOptions.sessions request) as [| session sessions];
    [contradiction |].
  destruct (FindSlotsOptions.interviewers request) as [| interviewer interviewers];
    [contradiction |].
  rewrite Hd. cbn zeta.
  destruct (fetchCalendarEvents (calendarCache engine) (interviewer :: interviewers))
    as [calendarEvents cache'].
  cbn [fst snd].
  generalize (needsMultiDayScheduling (session :: sessions)). intros [|].
  - destruct (findMultiDaySlots _ _ _ _ _ _ _) as [[reads' plans] | e n]; reflexivity.
  - reflexivity.
Qed.

Lemma findSlots_cache engine clock reads request :
  snd (findSlots engine clock reads request) = calendarCache engine
  \/ snd (findSlots engine clock reads request)
     = snd (fetchCalendarEvents (calendarCache engine)
              (FindSlotsOptions.interviewers request)).
Proof.
  unfold findSlots.
  destruct (FindSlotsOptions.sessions request) as [| session sessions];
    [left; reflexivity |].
  destruct (FindSlotsOptions.interviewers request) as [| interviewer interviewers];
    [left; reflexivity |].
  destruct (FindSlotsOptions.dateRange request) as [[startDate |] [endDate |]];
    try (left; reflexivity).
  right.
  destruct (fetchCalendarEvents (calendarCache engine) (interviewer :: interviewers))
    as [calendarEvents cache'].
  generalize (needsMultiDayScheduling (session :: sessions)). intros [|].
  - destruct (findMultiDaySlots _ _ _ _ _ _ _) as [[reads' plans] | e n]; reflexivity.
  - reflexivity.
Qed.

Lemma findSlotsForDate_cache engine clock reads sessions interviewers date options :
  snd (findSlotsForDate engine clock reads sessions interviewers date options)
  = snd (fetchCalendarEvents (calendarCache engine) interviewers).
Proof.
  unfold findSlotsForDate.
  destruct (fetchCalendarEvents (calendarCache engine) interviewers)
    as [calendarEvents cache'].
  destruct (findSlotsForDay _ _ _ _ _ _ _); reflexivity.
Qed.

Lemma verifySlot_cache engine slot interviewers :
  snd (verifySlot engine slot interviewers)
  = snd (fetchCalendarEvents (calendarCache engine) interviewers).
Proof.
  unfold verifySlot.
  destruct (fetchCalendarEvents (calendarCache engine) interviewers)
    as [calendarEvents cache'].
  destruct (fold_left _ _ _). reflexivity.
Qed.

End EngineFacts.

(** X27. The calendar cache of an engine never holds an event: it is empty
    after the constructor, [findSlots], [findSlotsForDate] and [verifySlot]
    add only empty lists, and [syncCalendar] removes an entry. So the
    events the engine hands to a search are empty for every interviewer,
    and [getBusyTimes] returns the empty list. *)
Theorem engine_cache_holds_no_event :
  (forall config,
     Spec.holdsNoEvent
       (SchedulingEngine.calendarCache (SchedulingEngine.constructor config)))
  /\ forall engine,
       Spec.holdsNoEvent (SchedulingEngine.calendarCache engine) ->
       (forall clock reads request,
          Spec.holdsNoEvent (snd (SchedulingEngine.findSlots engine clock reads request)))
       /\ (forall clock reads sessions interviewers date options,
             Spec.holdsNoEvent
               (snd (SchedulingEngine.findSlotsForDate engine clock reads sessions
                       interviewers date options)))
       /\ (forall slot interviewers,
             Spec.holdsNoEvent (snd (SchedulingEngine.verifySlot engine slot interviewers)))
       /\ (forall email,
             Spec.holdsNoEvent
               (SchedulingEngine.calendarCache
                  (SchedulingEngine.syncCalendar engine email)))
       /\ (forall interviewers id events,
             fst (SchedulingEngine.fetchCalendarEvents
                    (SchedulingEngine.calendarCache engine) interviewers) !! id
             = Some events ->
             events = [])
       /\ forall email date, SchedulingEngine.getBusyTimes engine email date = [].
Proof.
  split.
  - intros config email events H. cbn in H. rewrite lookup_empty in H. discriminate.
  - intros engine Hcache.
    split; [| split; [| split; [| split; [| split]]]].
    + intros clock reads request.
      destruct (findSlots_cache engine clock reads request) as [-> | ->];
        [exact Hcache | apply fetchCalendarEvents_holdsNoEvent, Hcache].
    + intros. rewrite findSlotsForDate_cache.
      apply fetchCalendarEvents_holdsNoEvent, Hcache.
    + intros. rewrite verifySlot_cache.
      apply fetchCalendarEvents_holdsNoEvent, Hcache.
    + intros email email' events H. cbn in H.
      apply lookup_delete_Some in H as [_ H]. exact (Hcache email' events H).
    + intros interviewers. apply fetchCalendarEvents_holdsNoEvent, Hcache.
    + intros email date. unfold SchedulingEngine.getBusyTimes.
      destruct (SchedulingEngine.calendarCache engine !! email) as [events |] eqn:He;
        [| reflexivity].
      rewrite (Hcache email events He). reflexivity.
Qed.
Section VerifyFacts.
Import SlotFinder SchedulingEngine Spec Invariants.

Lemma find_id_NoDup (interviewers : list Interviewer.t) (interviewer : Interviewer.t) :
  NoDup (map Interviewer.id interviewers) -> In interviewer interviewers ->
  List.find (fun i => String.eqb (Interviewer.id i) (Interviewer.id interviewer))
    interviewers
  = Some interviewer.
Proof.
  induction interviewers as [| i interviewers IH]; intros Hnd Hin; [destruct Hin |].
  cbn [map] in Hnd. apply NoDup_cons in Hnd as [Hi Hnd]. cbn [List.find].
  destruct (String.eqb_spec (Interviewer.id i) (Interviewer.id interviewer))
    as [Heq | Hne].
  - destruct Hin as [-> | Hin]; [reflexivity |].
    exfalso. apply Hi. rewrite Heq. apply list_elem_of_In, in_map, Hin.
  - destruct Hin as [-> | Hin]; [contradiction |]. apply IH; assumption.
Qed.

Lemma verifyConflicts_accepted slot combo calendarEvents options interviewer
    defaultOptions :
  Js.truthy (SchedulingOptions.checkCalendarConflicts options) = true ->
  Js.truthy (SchedulingOptions.respectDailyLimits options) = true ->
  Js.truthy (SchedulingOptions.respectWeeklyLimits options) = true ->
  checkSlotConflicts slot combo calendarEvents options = [] ->
  In interviewer combo ->
  verifyConflicts slot interviewer
    (default [] (calendarEvents !! Interviewer.id interviewer))
    (LoadCalculation.calculateInterviewerLoad interviewer slot
       (default [] (calendarEvents !! Interviewer.id interviewer)) defaultOptions)
  = [].
Proof.
  intros Hcal Hdaily Hweekly Hcheck Hin.
  unfold checkSlotConflicts in Hcheck.
  pose proof (proj1 (flat_map_nil _ _) Hcheck interviewer Hin) as Hnone.
  apply (proj1 (interviewerConflicts_nil _ _ _ _)) in Hnone
    as (_ & Hevents & Hd & Hw).
  unfold verifyConflicts.
  rewrite (proj2 (calendarConflicts_nil _ _ _) (Hevents Hcal)).
  change (LoadCalculation.calculateInterviewerLoad interviewer slot
            (default [] (calendarEvents !! Interviewer.id interviewer)) defaultOptions)
    with (LoadCalculation.calculateInterviewerLoad interviewer slot
            (default [] (calendarEvents !! Interviewer.id interviewer)) options).
  rewrite (Hd Hdaily), (Hw Hweekly). reflexivity.
Qed.

Lemma verifyAssignments_accepted calendarEvents options defaultOptions interviewers
    slot :
  Js.truthy (SchedulingOptions.checkCalendarConflicts options) = true ->
  Js.truthy (SchedulingOptions.respectDailyLimits options) = true ->
  Js.truthy (SchedulingOptions.respectWeeklyLimits options) = true ->
  NoDup (map Interviewer.id interviewers) ->
  accepted interviewers calendarEvents options slot ->
  forall acc,
    fst acc = [] ->
    fst (fold_left (verifyAssignment calendarEvents defaultOptions interviewers slot)
           (InterviewSlot.interviewers slot) acc) = [].
Proof.
  intros Hcal Hdaily Hweekly Hnd (combo & Hmembers & Hparticipants & Hcheck).
  unfold participants in Hparticipants.
  assert (Hall : forall assignment, In assignment (InterviewSlot.interviewers slot) ->
            exists interviewer, In interviewer combo
              /\ Interviewer.id interviewer
                 = InterviewerAssignment.interviewerId assignment).
  { intros assignment Ha.
    apply (in_map InterviewerAssignment.interviewerId) in Ha.
    rewrite Hparticipants in Ha. apply in_map_iff in Ha as (interviewer & Hid & Hin).
    exists interviewer. split; assumption. }
  clear Hparticipants. revert Hall.
  generalize (InterviewSlot.interviewers slot). intros assignments.
  induction assignments as [| assignment assignments IH]; intros Hall acc Hacc;
    [exact Hacc |].
  cbn [fold_left]. apply IH; [intros a Ha; apply Hall; right; exact Ha |].
  destruct (Hall assignment (or_introl eq_refl)) as (interviewer & Hin & Hid).
  unfold verifyAssignment. rewrite <- Hid.
  rewrite (find_id_NoDup interviewers interviewer Hnd (Hmembers interviewer Hin)).
  cbn [fst]. rewrite Hacc. cbn [app].
  eapply verifyConflicts_accepted; eassumption.
Qed.

Lemma verifySlot_accepted engine item interviewers options :
  Js.truthy (SchedulingOptions.checkCalendarConflicts options) = true ->
  Js.truthy (SchedulingOptions.respectDailyLimits options) = true ->
  Js.truthy (SchedulingOptions.respectWeeklyLimits options) = true ->
  NoDup (map Interviewer.id interviewers) ->
  Forall
    (accepted interviewers
       (fst (fetchCalendarEvents (calendarCache engine) interviewers)) options)
    (extractSlots item) ->
  SlotVerificationResult.isAvailable (fst (verifySlot engine item interviewers)) = true.
Proof.
  intros Hcal Hdaily Hweekly Hnd Hall. unfold verifySlot.
  destruct (fetchCalendarEvents (calendarCache engine) interviewers)
    as [calendarEvents cache'].
  cbn [fst] in Hall.
  set (defaultOptions := SchedulingEngine.defaultOptions engine).
  assert (Hfold : forall slots acc,
            Forall (accepted interviewers calendarEvents options) slots ->
            fst acc = [] ->
            fst (fold_left
                   (fun acc slot =>
                      fold_left
                        (verifyAssignment calendarEvents defaultOptions interviewers slot)
                        (InterviewSlot.interviewers slot) acc)
                   slots acc) = []).
  { induction slots as [| slot slots IH]; intros acc Hslots Hacc; [exact Hacc |].
    apply Forall_cons in Hslots as [Hslot Hslots]. cbn [fold_left].
    apply IH; [exact Hslots |].
    apply (verifyAssignments_accepted calendarEvents options); assumption. }
  specialize (Hfold (extractSlots item) ([], ∅) Hall eq_refl).
  destruct (fold_left _ (extractSlots item) ([], ∅)) as [allConflicts loadInfo].
  cbn [fst] in *. rewrite Hfold. reflexivity.
Qed.

Lemma roundsPlaced_accepted clock endDate interviewers calendarEvents options index
    remaining more :
  roundsPlaced clock endDate interviewers calendarEvents options index remaining more ->
  Forall (accepted interviewers calendarEvents options)
    (flat_map (fun r => SessionCombination.slots (RoundPlan.combination r)) more).
Proof.
  intros [_ Hall]. induction Hall as [| sessions round remaining' more' Hround _ IH];
    [constructor |].
  cbn [flat_map]. apply Forall_app. split; [| exact IH].
  destruct Hround as (_ & _ & reads & st & Hrun & Hin).
  apply findSlotsForDay_accepted in Hrun. rewrite Forall_forall in Hrun.
  apply Hrun, list_elem_of_In, Hin.
Qed.

End VerifyFacts.

(** X28. What a search found passes the verification. When the options of
    a [findSlots] call enable the calendar check and both load limits, and
    the interviewers have distinct ids, [verifySlot] on the same engine and
    interviewers reports every combination or plan of the result as
    available. *)
Theorem verifySlot_accepts_found_slots (engine : SchedulingEngine.t)
    (clock : nat -> Z) (reads : nat) (request : SchedulingEngine.FindSlotsOptions.t)
    (result : SchedulingEngine.FindSlotsResult) (reads' : nat)
    (cache' : gmap string (list CalendarEvent.t))
    (item : SessionCombination.t + MultiDayPlan.t) :
  Js.truthy
    (SchedulingOptions.checkCalendarConflicts
       (Spec.effectiveOptions engine (SchedulingEngine.FindSlotsOptions.options request)))
  = true ->
  Js.truthy
    (SchedulingOptions.respectDailyLimits
       (Spec.effectiveOptions engine (SchedulingEngine.FindSlotsOptions.options request)))
  = true ->
  Js.truthy
    (SchedulingOptions.respectWeeklyLimits
       (Spec.effectiveOptions engine (SchedulingEngine.FindSlotsOptions.options request)))
  = true ->
  NoDup (map Interviewer.id (SchedulingEngine.FindSlotsOptions.interviewers request)) ->
  SchedulingEngine.findSlots engine clock reads request
  = (Js.Returned result, reads', cache') ->
  In item (Spec.resultItems result) ->
  SchedulingEngine.SlotVerificationResult.isAvailable
    (fst (SchedulingEngine.verifySlot
            {| SchedulingEngine.config := SchedulingEngine.config engine;
               SchedulingEngine.calendarCache := cache' |}
            item (SchedulingEngine.FindSlotsOptions.interviewers request)))
  = true.
Proof.
  intros Hcal Hdaily Hweekly Hnd Hrun Hitem.
  assert (Hvalid :
            SchedulingEngine.FindSlotsOptions.sessions request <> []
            /\ SchedulingEngine.FindSlotsOptions.interviewers request <> []
            /\ exists startDate endDate,
                 SchedulingEngine.FindSlotsOptions.dateRange request
                 = (Some startDate, Some endDate)).
  { clear - Hrun. unfold SchedulingEngine.findSlots in Hrun.
    destruct (SchedulingEngine.FindSlotsOptions.sessions request); [discriminate |].
    destruct (SchedulingEngine.FindSlotsOptions.interviewers request); [discriminate |].
    destruct (SchedulingEngine.FindSlotsOptions.dateRange request)
      as [[startDate |] [endDate |]]; try discriminate.
    split; [discriminate |]. split; [discriminate |].
    exists startDate, endDate. reflexivity. }
  destruct Hvalid as (Hsessions & Hinterviewers & startDate & endDate & Hrange).
  rewrite (findSlots_valid engine clock reads request startDate endDate
             Hsessions Hinterviewers Hrange) in Hrun.
  cbn zeta in Hrun.
  set (merged := Spec.effectiveOptions engine
                   (SchedulingEngine.FindSlotsOptions.options request)) in *.
  set (fetched := SchedulingEngine.fetchCalendarEvents
                    (SchedulingEngine.calendarCache engine)
                    (SchedulingEngine.FindSlotsOptions.interviewers request)) in *.
  assert (Hfound : cache' = snd fetched
                   /\ Forall
                        (Invariants.accepted
                           (SchedulingEngine.FindSlotsOptions.interviewers request)
                           (fst fetched) merged)
                        (SchedulingEngine.extractSlots item)).
  { destruct (SchedulingEngine.needsMultiDayScheduling
                (SchedulingEngine.FindSlotsOptions.sessions request)).
    - destruct (SlotFinder.findMultiDaySlots clock _ _ (startDate, endDate)
                  (fst fetched) merged reads) as [st | e n] eqn:Hsearch;
        [| destruct e; discriminate].
      injection Hrun as <- _ <-. split; [reflexivity |].
      cbn [Spec.resultItems] in Hitem. apply in_map_iff in Hitem as (p & <- & Hp).
      cbn [SchedulingEngine.extractSlots].
      unfold SlotFinder.findMultiDaySlots in Hsearch.
      apply findRoundSlots_placed in Hsearch as (new & Hnew & Hall).
      simpl in Hnew. subst new. rewrite Forall_forall in Hall.
      destruct (Hall p (proj2 (list_elem_of_In _ _) Hp)) as (more & Hrounds & Hplaced & _).
      simpl in Hrounds. rewrite Hrounds.
      eapply roundsPlaced_accepted, Hplaced.
    - discriminate. }
  destruct Hfound as [-> Haccepted].
  apply (verifySlot_accepted _ item _ merged); try assumption.
  cbn [SchedulingEngine.calendarCache]. unfold fetched in *.
  rewrite fetchCalendarEvents_again. exact Haccepted.
Qed.

(** Scenario D over two days: the first plan found passes the
    verification. *)
Lemma verifySlot_accepts_found_slots_witness :
  exists result reads' cache' item,
    SchedulingEngine.findSlots Scenarios.engine Scenarios.clockA 0
      (Scenarios.request Scenarios.sessionsD
         [Scenarios.interviewer "A"; Scenarios.interviewer "B"]
         (Some Scenarios.monday, Some (Scenarios.monday + 1)))
    = (Js.Returned result, reads', cache')
    /\ In item (Spec.resultItems result)
    /\ SchedulingEngine.SlotVerificationResult.isAvailable
         (fst (SchedulingEngine.verifySlot
                 {| SchedulingEngine.config := SchedulingEngine.config Scenarios.engine;
                    SchedulingEngine.calendarCache := cache' |}
                 item [Scenarios.interviewer "A"; Scenarios.interviewer "B"]))
       = true.
Proof.
  eexists _, _, _, _.
  split; [vm_compute; reflexivity |].
  split; [left; reflexivity |].
  eapply (verifySlot_accepts_found_slots Scenarios.engine Scenarios.clockA 0
            (Scenarios.request Scenarios.sessionsD
               [Scenarios.interviewer "A"; Scenarios.interviewer "B"]
               (Some Scenarios.monday, Some (Scenarios.monday + 1)))).
  - reflexivity.
  - reflexivity.
  - reflexivity.
  - repeat constructor; intros H; inversion H; subst;
      match goal with
      | H' : _ ∈ [] |- _ => inversion H'
      | H' : _ ∈ [_] |- _ => inversion H'; subst
      | _ => idtac
      end;
      match goal with
      | H' : _ ∈ [] |- _ => inversion H'
      | _ => idtac
      end.
  - vm_compute. reflexivity.
  - left. reflexivity.
Defined.

(** X29. The two outcomes of a [findSlots] call that passes the
    validation. Without a session whose [breakAfter] is a day or more, the
    call gets no result: its first statement calls [zonedTimeToUtc], which
    date-fns-tz ^3.2.0 does not export, and [findSlots] throws the
    [SchedulingError] that wraps the TypeError, with the calendar cache
    filled and no clock read made. With such a session, whatever the call
    returns is a list of plans that respects a [maxResults] of at least 1,
    and the cache is the one the fetch left. *)
Theorem findSlots_outcomes (engine : SchedulingEngine.t)
    (clock : nat -> Z) (reads : nat) (request : SchedulingEngine.FindSlotsOptions.t)
    (startDate endDate : Z) :
  SchedulingEngine.FindSlotsOptions.sessions request <> [] ->
  SchedulingEngine.FindSlotsOptions.interviewers request <> [] ->
  SchedulingEngine.FindSlotsOptions.dateRange request = (Some startDate, Some endDate) ->
  (SchedulingEngine.needsMultiDayScheduling
     (SchedulingEngine.FindSlotsOptions.sessions request) = false ->
   SchedulingEngine.findSlots engine clock reads request
   = (Js.Thrown (Js.SchedulingError "Failed to find slots: " Js.TypeError) reads,
      reads,
      snd (SchedulingEngine.fetchCalendarEvents
             (SchedulingEngine.calendarCache engine)
             (SchedulingEngine.FindSlotsOptions.interviewers request))))
  /\ (SchedulingEngine.needsMultiDayScheduling
        (SchedulingEngine.FindSlotsOptions.sessions request) = true ->
      forall result reads' cache',
        SchedulingEngine.findSlots engine clock reads request
        = (Js.Returned result, reads', cache') ->
        (exists plans, result = SchedulingEngine.Plans plans)
        /\ cache'
           = snd (SchedulingEngine.fetchCalendarEvents
                    (SchedulingEngine.calendarCache engine)
                    (SchedulingEngine.FindSlotsOptions.interviewers request))
        /\ forall m,
             SchedulingOptions.maxResults
               (Spec.effectiveOptions engine
                  (SchedulingEngine.FindSlotsOptions.options request)) = Some m ->
             1 <= m ->
             Z.of_nat (length (Spec.resultItems result)) <= m).
Proof.
  intros Hsessions Hinterviewers Hrange.
  rewrite (findSlots_valid engine clock reads request startDate endDate
             Hsessions Hinterviewers Hrange).
  cbn zeta.
  set (merged := Spec.effectiveOptions engine
                   (SchedulingEngine.FindSlotsOptions.options request)).
  set (fetched := SchedulingEngine.fetchCalendarEvents _ _).
  destruct (SchedulingEngine.needsMultiDayScheduling
              (SchedulingEngine.FindSlotsOptions.sessions request)).
  - split; [discriminate |]. intros _ result reads' cache' Hrun.
    destruct (SlotFinder.findMultiDaySlots clock _ _ (startDate, endDate)
                (fst fetched) merged reads) as [st | e n] eqn:Hsearch;
      [| destruct e; discriminate].
    injection Hrun as <- _ <-.
    split; [eexists; reflexivity |]. split; [reflexivity |].
    intros m Hmax Hm. cbn [Spec.resultItems]. rewrite length_map.
    unfold SlotFinder.findMultiDaySlots in Hsearch.
    eapply findRoundSlots_capped; [exact Hmax | exact Hm | | exact Hsearch].
    simpl. lia.
  - split; [reflexivity | discriminate].
Qed.

(** Scenario C, two sessions of one day, on the Monday. *)
Lemma findSlots_outcomes_witness :
  fst (SchedulingEngine.findSlots Scenarios.engine Scenarios.clockA 0
         (Scenarios.request Scenarios.sessionsC [Scenarios.interviewer "A"]
            (Some Scenarios.monday, Some Scenarios.monday)))
  = (Js.Thrown (Js.SchedulingError "Failed to find slots: " Js.TypeError) 0,
     0%nat).
Proof.
  destruct (findSlots_outcomes Scenarios.engine Scenarios.clockA 0
              (Scenarios.request Scenarios.sessionsC [Scenarios.interviewer "A"]
                 (Some Scenarios.monday, Some Scenarios.monday))
              Scenarios.monday Scenarios.monday)
    as (Hsingle & _); [discriminate | discriminate | reflexivity |].
  rewrite Hsingle; reflexivity.
Defined.

(** X30. [findSlotsForDate] has neither validation nor a [catch] clause:
    on an empty session list it throws the TypeError of the search as it
    is, after one clock read. On a non-empty session list whose times stay
    in the range of Date on that day it returns. And what it returns
    passes the verification: when the merged options enable the calendar
    check and both load limits and the interviewers have distinct ids,
    [verifySlot] on the same engine and interviewers reports every
    combination as available. *)
Theorem findSlotsForDate_results_pass_verifySlot (engine : SchedulingEngine.t)
    (clock : nat -> Z) (reads : nat) (sessions : list InterviewSession.t)
    (interviewers : list Interviewer.t) (date : Z)
    (options : option SchedulingOptions.Own.t) :
  SchedulingEngine.findSlotsForDate engine clock reads [] interviewers date options
  = (Js.Thrown Js.TypeError (S reads), S reads,
     snd (SchedulingEngine.fetchCalendarEvents
            (SchedulingEngine.calendarCache engine) interviewers))
  /\ (sessions <> [] -> Spec.withinDateRange date date sessions ->
      exists combinations reads',
        SchedulingEngine.findSlotsForDate engine clock reads sessions interviewers
          date options
        = (Js.Returned combinations, reads',
           snd (SchedulingEngine.fetchCalendarEvents
                  (SchedulingEngine.calendarCache engine) interviewers)))
  /\ (Js.truthy
        (SchedulingOptions.checkCalendarConflicts (Spec.effectiveOptions engine options))
      = true ->
      Js.truthy
        (SchedulingOptions.respectDailyLimits (Spec.effectiveOptions engine options))
      = true ->
      Js.truthy
        (SchedulingOptions.respectWeeklyLimits (Spec.effectiveOptions engine options))
      = true ->
      NoDup (map Interviewer.id interviewers) ->
      forall combinations reads' cache' c,
        SchedulingEngine.findSlotsForDate engine clock reads sessions interviewers
          date options
        = (Js.Returned combinations, reads', cache') ->
        In c combinations ->
        SchedulingEngine.SlotVerificationResult.isAvailable
          (fst (SchedulingEngine.verifySlot
                  {| SchedulingEngine.config := SchedulingEngine.config engine;
                     SchedulingEngine.calendarCache := cache' |}
                  (inl c) interviewers))
        = true).
Proof.
  unfold SchedulingEngine.findSlotsForDate.
  fold (Spec.effectiveOptions engine options).
  set (merged := Spec.effectiveOptions engine options).
  pose proof (fetchCalendarEvents_again (SchedulingEngine.calendarCache engine)
                interviewers) as Hagain.
  destruct (SchedulingEngine.fetchCalendarEvents
              (SchedulingEngine.calendarCache engine) interviewers)
    as [calendarEvents cache0].
  cbn [fst snd] in *.
  split; [reflexivity |]. split.
  - intros Hne Hrange.
    destruct (findSlotsForDay_returns clock sessions interviewers date calendarEvents
                merged reads Hne Hrange) as (st & ->).
    eexists _, _. reflexivity.
  - intros Hcal Hdaily Hweekly Hnd combinations reads' cache' c Hrun Hc.
    destruct (SlotFinder.findSlotsForDay clock sessions interviewers date
                calendarEvents merged reads) as [st | e n] eqn:Hday;
      [| discriminate].
    injection Hrun as <- _ <-.
    apply (verifySlot_accepted _ (inl c) _ merged); try assumption.
    cbn [SchedulingEngine.calendarCache SchedulingEngine.extractSlots].
    rewrite Hagain.
    apply findSlotsForDay_accepted in Hday. rewrite Forall_forall in Hday.
    apply Hday, list_elem_of_In, Hc.
Qed.

(** Scenario C on the Monday: the combination found passes the
    verification. *)
Lemma findSlotsForDate_results_pass_verifySlot_witness :
  exists combinations reads' cache' c,
    SchedulingEngine.findSlotsForDate Scenarios.engine Scenarios.clockA 0
      Scenarios.sessionsC [Scenarios.interviewer "A"] Scenarios.monday None
    = (Js.Returned combinations, reads', cache')
    /\ In c combinations
    /\ SchedulingEngine.SlotVerificationResult.isAvailable
         (fst (SchedulingEngine.verifySlot
                 {| SchedulingEngine.config := SchedulingEngine.config Scenarios.engine;
                    SchedulingEngine.calendarCache := cache' |}
                 (inl c) [Scenarios.interviewer "A"]))
       = true.
Proof.
  eexists _, _, _, _.
  split; [vm_compute; reflexivity |].
  split; [left; reflexivity |].
  eapply (proj2 (proj2 (findSlotsForDate_results_pass_verifySlot Scenarios.engine
                          Scenarios.clockA 0 Scenarios.sessionsC
                          [Scenarios.interviewer "A"] Scenarios.monday None))).
  - reflexivity.
  - reflexivity.
  - reflexivity.
  - repeat constructor. intros H. inversion H.
  - vm_compute. reflexivity.
  - left. reflexivity.
Defined.
